(* ===== verification/_CoqProject ===== *)
-Q . S2P
Prelude.v
JsRegex.v
Sanitizer.v
JsObject.v
Blocks.v
TreeBuilder.v
RootDiscovery.v
TreeSpec.v
JsNumber.v
Host.v
Plugin.v
Lifecycle.v
ErrorBoundary.v
Scenarios.v
Renderer.v
SimplePlugin.v
PageDom.v
Markdown.v
PageWorld.v
OrcaMindMap.v
MarkmapSimple.v
BasicOutline.v
PageMindMap.v
MarkmapPlugin.v
LocalContainer.v
LocalMindMap.v
