(* ===== verification/Prelude.v ===== *)
(** * A verification development of the Orca mind-map plugin

    The program ([src/src]) is a plugin for the Orca note-taking host.  Its
    core, in [src/src/utils/helpers.ts], turns the host's blocks into
    trees of display nodes: [findRootBlocks] picks the blocks that start a
    tree, [buildTree] descends from one of them through [children], and
    [sanitizeInput] cleans each block's text before it is shown;
    [isTableRelatedBlock] drops blocks that look like table cells.
    [main.ts] calls these on [orca.state.blocks] and hands the trees to
    the renderer of [components/MindMap.ts], which writes each node's
    content into the page as HTML.  [main-simple.ts] is a stripped-down
    copy of [main.ts].  [orca-mindmap.ts] and [orca-mindmap-local.ts]
    work on the page itself: they read the editor's DOM and write it out
    as markdown; the first replaces the editor's content with a markmap
    page until the user toggles back, the second hides the editor under an
    overlay drawn by the bundled markmap library.  [markmap-plugin.ts]
    shows one block's subtree in a panel through the markmap library
    loaded from a CDN; the remaining files are further panel variants.

    ** Files and what they model

    - [Prelude] (this file): JavaScript strings as lists of UTF-16 code
      units ([jsstr]), JavaScript truthiness, [String.prototype.trim] and
      [includes], the [orca] hint database, the [unbool] and [decide_vm]
      tactics, and the list lemmas the components share.
    - [JsRegex]: the part of ECMAScript regular expressions the program
      uses (character classes, greedy and lazy repetition, anchors, the
      [i] flag), as a backtracking matcher [mi] proved sound and complete
      for a declarative matching relation [mrel]; [search], and
      [replace_all] / [regex_test] for [String.prototype.replace] with the
      [g] flag and [RegExp.prototype.test].
    - [Sanitizer]: [sanitizeInput] (helpers.ts 19-43) with its five
      patterns; one-pass reference functions for the tag and whitespace
      steps and their equivalence with the regular-expression replaces.
    - [JsObject]: a plain object used as a dictionary, as its own
      properties in creation order; [Object.keys] in the order of
      OrdinaryOwnPropertyKeys (integer-like keys first).
    - [Blocks]: the [Block] record of [types.ts] and [isTableRelatedBlock]
      (helpers.ts 5-16).
    - [TreeBuilder]: the [TreeNode] record and [buildTree] (helpers.ts
      46-87), the fixtures of [__tests__/helpers.test.ts].
    - [RootDiscovery]: [findRootBlocks] (helpers.ts 90-104).
    - [TreeSpec]: the builder of spec 4.2, written from the spec's text
      (its missing-block placeholder, noise filter, child gate, set of
      the ids on the recursion path and content filter), and the
      refinement of it by the code.
    - [JsNumber]: [Number(string)] (StringToNumber), the comparisons
      [checkCompatibility] makes, and [parseInt].
    - [Host]: the [OrcaAPI] of [types.ts] as interfaces ([Nav],
      [Commands], [Toolbar], [Broadcasts]) with laws, and an in-memory
      implementation that satisfies them.
    - [Plugin]: every function of [main.ts] in a state monad [M] over a
      [world] of host state, the module variables [mindMapPanel] and
      [mindMapRenderer], the [debounce] timer, the event loop's timers
      and the suspended [async] calls; [step] is one host input.
    - [Lifecycle]: theorems about [Plugin] against the host laws.
    - [ErrorBoundary]: [withErrorBoundary] of helpers.ts (lines 120-140)
      as a combinator on calls that complete normally or throw
      ([completion]), and the two commands [main.ts] wraps with it
      ([safeShowMindMap], [safeToggleMindMap] and its fallback).
    - [Scenarios]: concrete executions on the in-memory host.
    - [Renderer]: [MindMapRenderer] of [components/MindMap.ts]: the HTML
      text of [renderTreeAsHTML] and [generateMindMapHTML], and the click
      handler of [addInteractivity] over the rendered nodes in document
      order with their [display] styles, and its hover handlers as the
      set of nodes that carry the [hover] class.
    - [SimplePlugin]: [main-simple.ts] over the same host interfaces: its
      own [buildTree], [findRootBlocks], [renderTree], [showMindMap],
      [toggleMindMap], [load] and [unload].
    - [PageDom]: the editor's block elements as records of what the code
      reads from them, and [extractPageStructure] of both page variants.
    - [Markdown]: [blocksToMarkdown] of both page variants,
      [String.prototype.repeat] with its [RangeError], and the exact text
      of the page [generateMindMapHTML] of orca-mindmap.ts writes.
    - [PageWorld]: the state of orca-mindmap.ts ([pluginName],
      [isInMindMapMode], [originalContent], [toggleButton]) with the
      editor element, the head bar and the toolbar retry timer, in a state
      monad; the button functions of lines 300-455.
    - [OrcaMindMap]: [switchToMindMapMode], [switchToEditMode],
      [toggleMindMapMode], [load] and [unload] of orca-mindmap.ts, with
      [innerHTML]'s serializer and parser as section parameters; [step]
      takes one host input (command, shortcut, click, timer, late head
      bar, page change).
    - [MarkmapSimple]: [markmap-simple.ts]: [blockToMarkdown],
      [renderTree] and [countTotalBlocks] with fuel for the stack,
      [createSimpleMindMap] split at its [await], the command, [load],
      [unload], and [handleContextMenu] with its timer over the host's
      context menu.
    - [BasicOutline]: [basic-outline.ts]: [generateOutlineHTML] with
      [renderNode] and [countBlocks], the window and dialog display, the
      two commands, [load] and [unload].
    - [PageMindMap]: [page-mindmap.ts]: the page outline of every root
      block, and the switch of the main content area between it and the
      saved HTML of the page.
    - [MarkmapPlugin]: [markmap-plugin.ts]: the markmap library as the
      interface [MarkmapLib] (each call may throw), [blockToMarkdown]
      with fuel, [loadMarkmap] and [createMindMap] split at their awaits
      (the CDN script's [load] and [error] events and [addPanel] are
      inputs), the click handler on the injected icon, the export button,
      the command, [load] and [unload].
    - [LocalMindMap]: the overlay mode switch of [orca-mindmap-local.ts]:
      [switchToMindMapMode], the [initializeMarkmap] timer with its
      Escape and wheel handlers and its error box, [switchToEditMode],
      [load] and [unload], over the page of [PageWorld] extended with the
      [window] properties, the [keydown] listeners and the pending timers;
      the library is an instance of [MarkmapLib].
    - [LocalContainer]: [createMindMapContainer] of the same file: the
      container id from [Date.now()] and [Math.random().toString(36)],
      the theme test [isDarkTheme] and its colours, the markup as the
      template's constant parts around its substitutions, and the
      [querySelector('svg')] and [svg.id] that [switchToMindMapMode]
      reads back (lines 519-521).

    ** Theorems

    - [TreeBuilder]: a cycle the recursion can follow makes [buildTree]
      fail at every depth (the code has no visited set); a decreasing rank
      gives termination; results do not depend on the depth once reached;
      every node is at the right level, has non-blank children, and shows
      [sanitizeInput] of its own block's text, so no node carries a tag
      into the HTML; the missing-block branch and the fixtures.
    - [TreeSpec]: the spec's builder returns with depth [|blocks| + 1] on
      every input; on a mapping whose blocks carry their keys as ids it
      returns the tree [buildTree] returns from a resolving root, wherever
      [buildTree] returns.  They differ on a missing root (the code's
      empty text against the spec's placeholder) and on cycles.
    - [Sanitizer]: the output is at most 200 code units, holds no [<]
      followed by [>], and is in whitespace normal form; plain text passes
      through; concrete inputs that show where the code departs from the
      spec (a [javascript:] URI rebuilt by tag removal, so the function is
      not idempotent; a multi-line script body kept; an unclosed
      [<script] kept) and the outcome of each sanitizer test.
    - [RootDiscovery]: the roots are exactly the valid, non-table blocks
      with no resolvable parent, each once, in [Object.keys] order, which
      puts integer-like keys first, unlike the insertion order of the spec.
    - [Blocks]: the table-cell pattern stated without regular expressions.
    - [Lifecycle]: when every promise settles before the next input, the
      plugin never loses track of a panel it opened; a cyclic root gives
      an error notification and no panel.  With the promises settling
      where the inputs say, on every host that satisfies the laws: two
      show commands before the first [addPanel] settles leave an open
      panel that [mindMapPanel] does not name; an [unload] while [load]
      waits is undone when it resumes; a panel closed by the user makes
      the next toggle open nothing.  [Plugin] proves that the
      version check accepts exactly 1.5 and later for numeric versions,
      and accepts unreadable ones.
    - [ErrorBoundary]: a wrapped function that throws is caught, with one
      notification and [null], or two notifications with the toggle's
      fallback; the [async] [showMindMap] and [toggleMindMap] of
      [main.ts] complete normally as calls, so for them the wrapper
      passes through.
    - [Scenarios]: the same three behaviours as concrete runs on the
      in-memory host.
    - [Renderer]: a depth printed by the template reads back as that
      number; a block whose sanitized text ends in an unclosed tag such
      as [<img src=x onerror=...//] is written into the HTML, where the
      browser closes the tag on the [</div>] that follows; a click toggles
      exactly the nodes one level below, up to the next node at the
      clicked level or above, so collapsing hides children but leaves
      grandchildren shown.
    - [SimplePlugin]: the simple variant shows block text as raw HTML and
      turns a cyclic page into an unhandled rejection.
    - [PageDom]: every extracted entry has non-blank source text, at most
      200 code units of it and a type; the local variant's structure is a
      sub-list of the CDN variant's.
    - [Markdown]: a block of level below [-1] makes the markdown, and
      so the page, fail with the [RangeError] of [repeat].
    - [OrcaMindMap]: over any sequence of inputs the head bar holds at
      most the one button [toggleButton] names (an invariant proved with
      frame lemmas per operation); in mind-map mode a toggle always gets
      back to edit mode with the saved HTML; a round trip replaces the
      live editor by parsed copies; on every lawful host a retry pending
      at [unload] puts a live button in the head bar after it, and a
      block of level below [-1] makes the switch fail with only a
      notification; a concrete run shows the stale restore after a page
      change.
    - [MarkmapSimple]: with a decreasing rank both recursions return; on
      a cycle the overflow is caught and notified with no panel opened;
      block text reaches the panel's [innerHTML] unescaped; on every
      lawful host a right-click timer pending at [unload] still adds its
      item to the context menu, and a click on it runs
      [createSimpleMindMap]; shared children are counted once per path.
    - [BasicOutline]: [countBlocks] equals [countTotalBlocks], so the
      results above carry over; a missing block is shown as a red text
      in a dialog and reported as a success with 0 nodes.
    - [PageMindMap]: every input keeps a saved page while the mind map is
      shown, so a toggle always gets back to the page (as copies).
    - [Markdown] also proves the two [blocksToMarkdown] equal on pages
      whose trimmed texts are at most 50 code units (equivalence of the
      local variant with the CDN one where no line is wrapped).
    - [MarkmapPlugin], for every library: when [new Transformer()] throws
      in the script's [onload], the waiting call never finishes and every
      later [createMindMap] fails, because [markmap] was stored first;
      with [window.markmap] already set the class is stored instead of an
      instance, so a class without a static [transform] makes every call
      fail.
    - [LocalMindMap], for every library: over any sequence of inputs
      (timers firing late included) the plugin's only [keydown] listener
      is the one [window.markmapEscHandler] names and edit mode leaves no
      overlay, listener or instance (an invariant proved from the effect
      of each operation on the fields it reads); entering and leaving
      gives the editor back untouched; after a library failure Escape and
      the close button do nothing.
    - [LocalContainer]: for every time and every base-36 output of
      [Math.random()], the first [svg] of the markup has as its id the
      container id the function made, on every theme; a light theme
      whose [--orca-color-bg-1] has a saturation of 15% is taken for
      dark.

    ** Bounds and fuel

    [buildTree fuel] stands for the call stack of the running program:
    each nested call uses one unit and [None] is the [RangeError] of a
    stack overflow.  No fixed fuel is assumed: the theorems quantify over
    it ([buildTree_fuel_mono], [buildTree_terminates],
    [buildTree_cycle_diverges]), and for the spec's builder the fuel
    [|blocks| + 1] is proved enough.  The recursions of
    [MarkmapSimple] read their fuel the same way, through the generic
    [tc_dead] and [rank_live] of this file.  [replace_all] runs with fuel
    [length s + 1], enough because each step consumes a code unit or
    stops (proved in [JsRegex]).  Integers of the program are small
    (lengths, levels) and kept as [nat]; code units are [N].

    ** Not modelled

    The host is modelled only through the laws of [Host]; the DOM, the
    markmap library and CDN loading are not modelled, nor is console
    output; where the program calls the markmap library, its calls are
    the operations of the [MarkmapLib] interface and the theorems hold for
    every instance.  Host calls do not throw in the model, so the only exception
    is the stack overflow of [buildTree] (a throwing call is still
    treated by [ErrorBoundary] for any wrapped function).  [Date.now()] is a host clock field, and
    [JSON.stringify] of the saved layout is left out.  In the renderer
    the DOM is the list of rendered nodes, and the text of
    [generateMindMapHTML] is not parsed back into nodes.  In the page
    variants the DOM is the values the code reads, [innerHTML]'s
    serializer and parser are parameters with two laws, the container id
    of [LocalMindMap] is a parameter (its construction and markup are
    [LocalContainer]), and the
    script inside the generated page is text that is not run.  In
    [orca-mindmap-local.ts] the zoom factor the library keeps, the [fit]
    and focusing timers are left out, and the markup's style sheet is
    text that is not interpreted (it hides the host's head bar); in
    [page-mindmap.ts] [updateToggleButton] only restyles the button the
    host renders and is left out; in [markmap-plugin.ts] the CSS text
    and the panel's layout.  The build scripts and test setup are not part of the
    program's behaviour.
    Objects are modelled without their prototype chain, so keys such
    as ["toString"] that the chain supplies are not looked up there, and a
    [null] block value is not represented.  Regular expressions are
    modelled only for the constructs the program uses; case folding under
    the [i] flag is ASCII only, which is exact for the patterns used (all
    their letters are ASCII). *)

From Stdlib Require Export NArith.
From stdpp Require Export base list decidable relations.
From Stdlib Require Strings.String Strings.Ascii.
Export (notations) Stdlib.Strings.String.

(** ** JavaScript strings

    A JavaScript string is a sequence of UTF-16 code units; [.length],
    [substring] and regular expressions all count and index code units.
    A code unit is an [N] (in range it is below 65536). *)

Declare Scope js_scope.
Delimit Scope js_scope with js.

Abbreviation jsstr := (list N).

(** An ASCII literal as the code units it denotes. *)
Definition js (s : String.string) : jsstr :=
  map Ascii.N_of_ascii (String.list_ascii_of_string s).
Arguments js : simpl never.


(** Code units the program names. *)
Definition cu_lt : N := 60.      (* < *)
Definition cu_gt : N := 62.      (* > *)
Definition cu_space : N := 32.
Definition cu_dot : N := 46.     (* . *)
Definition cu_semi : N := 59.    (* ; *)
Definition cu_colon : N := 58.   (* : *)

(** The ECMAScript LineTerminator code points. *)
Definition is_line_terminator (c : N) : bool :=
  (c =? 10)%N || (c =? 13)%N || (c =? 0x2028)%N || (c =? 0x2029)%N.

(** WhiteSpace or LineTerminator: the set matched by [\s] and removed by
    [String.prototype.trim] (ECMAScript WhiteSpace is TAB, VT, FF, ZWNBSP
    and the Unicode category Zs). *)
Definition is_js_space (c : N) : bool :=
  (c =? 9)%N || (c =? 11)%N || (c =? 12)%N || (c =? 32)%N || (c =? 0xA0)%N
  || (c =? 0xFEFF)%N || (c =? 0x1680)%N || ((0x2000 <=? c)%N && (c <=? 0x200A)%N)
  || (c =? 0x202F)%N || (c =? 0x205F)%N || (c =? 0x3000)%N
  || is_line_terminator c.

(** Leading whitespace removal, and [String.prototype.trim]. *)
Fixpoint drop_ws (s : jsstr) : jsstr :=
  match s with
  | c :: r => if is_js_space c then drop_ws r else s
  | [] => []
  end.

Definition js_trim (s : jsstr) : jsstr := rev (drop_ws (rev (drop_ws s))).

(** JavaScript truthiness of a string ([""] is falsy) and of an optional
    string field ([undefined] is falsy). *)
Definition truthy (s : jsstr) : bool :=
  match s with [] => false | _ => true end.

Definition opt_truthy (o : option jsstr) : bool :=
  match o with Some s => truthy s | None => false end.

(** [String.prototype.includes]. *)
Fixpoint is_prefix (k s : jsstr) : bool :=
  match k, s with
  | [], _ => true
  | a :: k', b :: s' => (a =? b)%N && is_prefix k' s'
  | _ :: _, [] => false
  end.

Fixpoint js_includes (s k : jsstr) : bool :=
  is_prefix k s || match s with [] => false | _ :: s' => js_includes s' k end.

(** ** Automation shared by the development *)

Create HintDb orca.

Ltac unbool :=
  repeat match goal with
  | H : (_ && _) = true |- _ => apply andb_prop in H as [? ?]
  | H : (_ || _) = false |- _ => apply orb_false_elim in H as [? ?]
  | H : negb _ = true |- _ => apply negb_true_iff in H
  | H : negb _ = false |- _ => apply negb_false_iff in H
  | H : (_ =? _)%N = true |- _ => apply N.eqb_eq in H
  | H : Nat.eqb _ _ = true |- _ => apply Nat.eqb_eq in H
  end.

(** Close a decidable proposition about closed terms by evaluation. *)
Ltac decide_vm := apply (bool_decide_unpack _); vm_compute; reflexivity.

(** ** Generic lemmas *)

Lemma drop_ws_split s :
  ∃ p, s = p ++ drop_ws s ∧ Forall (λ c, is_js_space c = true) p.
Proof.
  induction s as [|c r IH]; simpl.
  - by exists [].
  - destruct (is_js_space c) eqn:E.
    + destruct IH as [p [Hp Hf]]. exists (c :: p). split; [by rewrite Hp at 1|by constructor].
    + by exists [].
Qed.

Lemma drop_ws_head s c r : drop_ws s = c :: r → is_js_space c = false.
Proof.
  induction s as [|d s IH]; simpl; [done|].
  destruct (is_js_space d) eqn:E; [done|]. by intros [= -> ->].
Qed.

Lemma drop_ws_nospace s :
  Forall (λ c, is_js_space c = false) s → drop_ws s = s.
Proof. destruct s as [|c r]; [done|]. intros Hf. inversion Hf; subst. simpl. by rewrite H1. Qed.

Lemma drop_ws_sublist s : drop_ws s `sublist_of` s.
Proof.
  destruct (drop_ws_split s) as [p [Hp _]].
  rewrite Hp at 2. by apply sublist_inserts_l.
Qed.

Lemma sublist_rev {A} (l k : list A) : l `sublist_of` k → rev l `sublist_of` rev k.
Proof.
  induction 1; simpl; [done| |].
  - by apply sublist_app.
  - by apply sublist_inserts_r.
Qed.

Lemma js_trim_sublist s : js_trim s `sublist_of` s.
Proof.
  unfold js_trim. rewrite <- (rev_involutive s) at 2.
  apply sublist_rev. etrans; [apply drop_ws_sublist|]. apply sublist_rev, drop_ws_sublist.
Qed.

Lemma js_trim_length s : length (js_trim s) ≤ length s.
Proof. apply sublist_length, js_trim_sublist. Qed.

Lemma js_trim_nospace s :
  Forall (λ c, is_js_space c = false) s → js_trim s = s.
Proof.
  intros Hf. unfold js_trim. rewrite (drop_ws_nospace s Hf).
  rewrite drop_ws_nospace; [apply rev_involutive|by apply Forall_rev].
Qed.

Lemma js_trim_infix s : ∃ p q, s = p ++ js_trim s ++ q.
Proof.
  destruct (drop_ws_split s) as [p [Hp _]].
  destruct (drop_ws_split (rev (drop_ws s))) as [p' [Hp' _]].
  exists p, (rev p'). unfold js_trim. rewrite Hp at 1. f_equal.
  apply (f_equal (@rev N)) in Hp'. by rewrite rev_involutive, rev_app_distr in Hp'.
Qed.

Lemma js_trim_head s c t : js_trim s = c :: t → is_js_space c = false.
Proof.
  unfold js_trim. intros E.
  destruct (drop_ws_split (rev (drop_ws s))) as [p [Hp _]].
  apply (f_equal (@rev N)) in Hp. rewrite rev_involutive, rev_app_distr, E in Hp.
  simpl in Hp. by apply (drop_ws_head s c (t ++ rev p)).
Qed.

Lemma js_trim_last s t c : js_trim s = t ++ [c] → is_js_space c = false.
Proof.
  unfold js_trim. intros E.
  apply (f_equal (@rev N)) in E. rewrite rev_involutive, rev_app_distr in E.
  simpl in E. by apply (drop_ws_head (rev (drop_ws s)) c (rev t)).
Qed.

Lemma Forall_replicate_N (P : N → Prop) n x : P x → Forall P (replicate n x).
Proof. intros Hx. induction n; simpl; by constructor. Qed.

(** A sublist made of elements satisfying [P] survives filtering by [P]. *)
Lemma sublist_filter_keep {A} (P : A → Prop) `{∀ x, Decision (P x)} (l k : list A) :
  Forall P l → l `sublist_of` k → l `sublist_of` filter P k.
Proof.
  intros Hl Hs. induction Hs as [|x l1 l2 _ IH|x l1 l2 _ IH].
  - apply sublist_nil_l.
  - inversion Hl; subst. rewrite filter_cons_True by done. by apply sublist_skip, IH.
  - rewrite filter_cons. case_decide; [apply sublist_cons|]; by apply IH.
Qed.

#[export] Hint Resolve js_trim_head js_trim_last : orca.

(** [trim] is idempotent: a trimmed string starts and ends with a
    character that is not white space. *)
Lemma js_trim_idem s : js_trim (js_trim s) = js_trim s.
Proof.
  destruct (js_trim s) as [|c r] eqn:E; [done|].
  destruct (exists_last (l:=c :: r) ltac:(done)) as (t & d & Htd).
  pose proof (js_trim_head s c r E) as Hc. rewrite Htd in E. pose proof (js_trim_last s t d E) as Hd.
  unfold js_trim at 1. cbn [drop_ws]. rewrite Hc, Htd, rev_unit. cbn [drop_ws].
  rewrite Hd. cbn [rev]. by rewrite rev_involutive.
Qed.

(** The first step of a non-empty path. *)
Lemma tc_first {A} (R : relation A) x z : tc R x z → ∃ y, R x y ∧ rtc R y z.
Proof. inversion 1 as [? ? Hxz|? y ? Hxy Hyz]; subst; eauto using tc_rtc, rtc_refl. Qed.

(** Strong induction on the length of a list. *)
(** Two facts about recursions that spend one unit of fuel per call
    along a relation [E]: a key on a cycle of [E] fails at every fuel, and
    under a rank that [E] decreases a fuel above the rank succeeds. *)
Section FuelWalk.
Context {K : Type} (E : relation K).

Lemma tc_dead (dead : nat → K → Prop) :
  (∀ k, dead 0 k) → (∀ fuel k y, E k y → dead fuel y → dead (S fuel) k) →
  ∀ k, tc E k k → ∀ fuel, dead fuel k.
Proof.
  intros H0 HS k Hk fuel. revert k Hk. induction fuel as [|fuel IH]; intros k Hk; [done|].
  destruct (tc_first _ _ _ Hk) as (y & Hy & Hyk). apply (HS _ _ y Hy), IH.
  eapply tc_rtc_l; [exact Hyk|]. by apply tc_once.
Qed.

Lemma rank_live (rank : K → nat) (live : nat → K → Prop) :
  (∀ k c, E k c → rank c < rank k) →
  (∀ fuel k, (∀ y, E k y → live fuel y) → live (S fuel) k) →
  ∀ fuel k, rank k < fuel → live fuel k.
Proof.
  intros Hrank HS fuel. induction fuel as [|fuel IH]; intros k Hk; [lia|].
  apply HS. intros y Hy. apply IH. specialize (Hrank _ _ Hy). lia.
Qed.
End FuelWalk.

Lemma length_ind {A} (P : list A → Prop) :
  (∀ l, (∀ k, length k < length l → P k) → P l) → ∀ l, P l.
Proof.
  intros H. assert (∀ n l, length l ≤ n → P l) as Hn.
  { induction n as [|n IH]; intros l Hl; apply H; intros k Hk; [lia|]. apply IH. lia. }
  intros l. by apply (Hn (length l)).
Qed.

#[export] Hint Resolve js_trim_sublist js_trim_length drop_ws_sublist : orca.

(** [Array.prototype.filter] keeps what it is given and only that. *)
Lemma Forall_List_filter {A} (P : A → Prop) (f : A → bool) l :
  Forall P l → Forall P (List.filter f l).
Proof.
  rewrite !Forall_forall. intros H x Hx.
  apply list_elem_of_In, filter_In in Hx as [Hx _]. by apply H, list_elem_of_In.
Qed.

Lemma Forall_List_filter_true {A} (f : A → bool) l : Forall (λ x, f x = true) (List.filter f l).
Proof. rewrite Forall_forall. intros x Hx. by apply list_elem_of_In, filter_In in Hx as [_ Hx]. Qed.

(** Every result of a successful [mapM] comes from one call. *)
Lemma mapM_Some_Forall {A B} (f : A → option B) (Q : B → Prop) l k :
  mapM f l = Some k → (∀ x y, x ∈ l → f x = Some y → Q y) → Forall Q k.
Proof.
  intros Hm HQ. apply mapM_Some_1 in Hm. induction Hm as [|x y l k Hxy _ IH]; constructor.
  - apply (HQ x); [apply list_elem_of_here|done].
  - apply IH. intros x' y' Hx'. apply HQ. by apply list_elem_of_further.
Qed.

#[export] Hint Resolve Forall_List_filter Forall_List_filter_true : orca.

Lemma List_filter_all {A} (f : A → bool) l : Forall (λ x, f x = true) l → List.filter f l = l.
Proof. induction 1 as [|x l Hx _ IH]; simpl; [done|]. by rewrite Hx, IH. Qed.

(** Two functions that agree on the successful calls of a [mapM] give the
    same result. *)
Lemma mapM_Some_ext {A B} (f g : A → option B) l k :
  mapM f l = Some k → (∀ x y, x ∈ l → f x = Some y → g x = Some y) → mapM g l = Some k.
Proof.
  revert k. induction l as [|x l IH]; intros k Hm Hfg; simpl in *; [done|].
  destruct (f x) as [y|] eqn:Hx; [|done]. simpl in Hm.
  destruct (mapM f l) as [k'|] eqn:Hl; [|done]. simpl in Hm. injection Hm as <-.
  rewrite (Hfg x y) by (done || apply list_elem_of_here). simpl.
  rewrite (IH k'); [done|done|]. intros x' y' Hx'. apply Hfg. by apply list_elem_of_further.
Qed.

Lemma List_filter_neq_elem {A} `{EqDecision A} (x z : A) l :
  x ∈ List.filter (λ y, negb (bool_decide (y = z))) l ↔ x ≠ z ∧ x ∈ l.
Proof.
  rewrite list_elem_of_In, filter_In, <- list_elem_of_In, negb_true_iff, bool_decide_eq_false. naive_solver.
Qed.

(** A member of a list makes it non-empty. *)
Lemma elem_of_length_nz {A} (x : A) l : x ∈ l → (length l =? 0) = false.
Proof. destruct l; [by intros ?%elem_of_nil|done]. Qed.

(** Each argument of a successful [mapM] has its result in the output. *)
Lemma mapM_Some_elem {A B} (f : A → option B) l k x :
  mapM f l = Some k → x ∈ l → ∃ y, f x = Some y ∧ y ∈ k.
Proof.
  intros Hm Hx. apply mapM_Some_1 in Hm. induction Hm as [|x' y l k Hxy _ IH].
  - by apply elem_of_nil in Hx.
  - apply elem_of_cons in Hx as [->|Hx].
    + exists y. split; [done|apply list_elem_of_here].
    + destruct (IH Hx) as (z & Hz & Hzk). exists z. split; [done|by apply list_elem_of_further].
Qed.

(** [k] occurs in [l] as a contiguous part. *)
Definition infix_of {A} (k l : list A) : Prop := ∃ p q, l = p ++ k ++ q.

Lemma infix_of_here {A} (k q : list A) : infix_of k (k ++ q).
Proof. by exists [], q. Qed.

Lemma infix_of_app_l {A} (a k l : list A) : infix_of k l → infix_of k (a ++ l).
Proof. intros (p & q & ->). exists (a ++ p), q. by rewrite app_assoc. Qed.

Lemma infix_of_trans {A} (k l m : list A) : infix_of k l → infix_of l m → infix_of k m.
Proof. intros (p & q & ->) (p' & q' & ->). exists (p' ++ p), (q ++ q'). by rewrite !app_assoc. Qed.

(** [k] is found in a concatenation that spells it out. *)
Ltac solve_infix := repeat (apply infix_of_here || apply infix_of_app_l).

(** The text written for one member of a list is part of the whole. *)
Lemma infix_concat_map {A B} (g : A → list B) x l : x ∈ l → infix_of (g x) (concat (map g l)).
Proof.
  intros Hx. apply list_elem_of_split in Hx as (l1 & l2 & ->).
  rewrite map_app, concat_app. simpl. exists (concat (map g l1)), (concat (map g l2)). done.
Qed.

Lemma infix_app_mid {A} (l1 l2 l3 k : list A) : infix_of k l2 → infix_of k (l1 ++ l2 ++ l3).
Proof. intros (p & q & ->). exists (l1 ++ p), (q ++ l3). by rewrite !app_assoc. Qed.

Lemma is_prefix_spec k s : is_prefix k s = true ↔ ∃ q, s = k ++ q.
Proof.
  revert s. induction k as [|a k IH]; intros [|b s]; simpl.
  - split; [by exists []|done].
  - split; [by exists (b :: s)|done].
  - split; [done|by intros [q ?]].
  - rewrite andb_true_iff, IH, N.eqb_eq. split.
    + intros [-> [q ->]]. by exists q.
    + intros [q [= -> ->]]. split; [done|by exists q].
Qed.

(** [String.prototype.includes] decides [infix_of]. *)
Lemma js_includes_infix s k : js_includes s k = true ↔ infix_of k s.
Proof.
  induction s as [|c s IH]; simpl; rewrite orb_true_iff, is_prefix_spec.
  - split.
    + intros [[q Hq]|?]; [|done]. apply eq_sym, app_eq_nil in Hq as [-> ->]. by exists [], [].
    + intros ([|x p] & q & Hs); [left; by exists q|done].
  - rewrite IH. split.
    + intros [[q ->]|(p & q & ->)]; [by exists [], q|]. by exists (c :: p), q.
    + intros ([|x p] & q & Hs); [left; by exists q|]. right. injection Hs as -> ->. by exists p, q.
Qed.

Lemma List_filter_neq_elem_nat (x z : nat) l :
  x ∈ List.filter (λ y, negb (y =? z)) l ↔ x ≠ z ∧ x ∈ l.
Proof.
  rewrite list_elem_of_In, filter_In, <- list_elem_of_In, negb_true_iff, Nat.eqb_neq. naive_solver.
Qed.

