(* ===== verification/JsRegex.v ===== *)
(** * The regular expressions the plugin uses, with ECMAScript semantics

    The sanitizer ([src/src/utils/helpers.ts]) is five calls of
    [String.prototype.replace] with global regular expressions, and the
    noise filter is one [RegExp.prototype.test].  Every one of those
    patterns is a sequence of single-character atoms, bounded or unbounded
    repetitions (greedy or lazy) of a character class, and the anchors
    [^] and [$].  This file gives that subset its ECMAScript meaning:

    - [mi] is the backtracking matcher of ECMAScript 2023 §22.2.2 for such
      a sequence: a greedy repetition tries the longest run first, a lazy
      one the shortest, and the first success wins;
    - [search] is the leftmost-match loop of [RegExpBuiltinExec];
    - [replace_from] / [replace_all] is [RegExp.prototype[@@replace]] with
      the global flag and a replacement string without [$] patterns;
    - [regex_test] is [RegExp.prototype.test] without the global flag.

    [mrel] is a declarative matching relation; [mi_sound] and
    [mi_complete] relate the matcher to it.  Case-insensitive matching
    folds ASCII letters only: for the classes of this program (ASCII
    letters and punctuation, [.], [[^;]]) that is exactly the
    Canonicalize of the non-unicode mode, which never maps a non-ASCII
    code unit to an ASCII one. *)

From S2P Require Import Prelude.

Module JsRegex.

Inductive cclass :=
| CChar (c : N)
| CRange (lo hi : N)
| CDot
| CDigit
| CSpace
| CNot (cl : cclass)
| CAlt (cl1 cl2 : cclass).

Definition swap_case (c : N) : N :=
  if (65 <=? c)%N && (c <=? 90)%N then (c + 32)%N
  else if (97 <=? c)%N && (c <=? 122)%N then (c - 32)%N else c.

Definition cls_raw (cl : cclass) (c : N) : bool :=
  match cl with
  | CChar a => (a =? c)%N
  | CRange lo hi => (lo <=? c)%N && (c <=? hi)%N
  | CDot => negb (is_line_terminator c)
  | CDigit => (48 <=? c)%N && (c <=? 57)%N
  | CSpace => is_js_space c
  | CNot _ | CAlt _ _ => false
  end.

Fixpoint cls_in (ic : bool) (cl : cclass) (c : N) : bool :=
  match cl with
  | CNot cl' => negb (cls_in ic cl' c)
  | CAlt cl1 cl2 => cls_in ic cl1 c || cls_in ic cl2 c
  | _ => cls_raw cl c || (ic && cls_raw cl (swap_case c))
  end.

Inductive item :=
| Atom (cl : cclass)
| Rep (greedy : bool) (lo : nat) (hi : option nat) (cl : cclass)
| Bol
| Eol.

Record regex := mkRegex { re_items : list item; re_icase : bool }.

#[export] Instance cclass_eq_dec : EqDecision cclass.
Proof. solve_decision. Defined.
#[export] Instance item_eq_dec : EqDecision item.
Proof. solve_decision. Defined.

(** A literal substring of a pattern. *)
Definition lit (s : jsstr) : list item := map (λ c, Atom (CChar c)) s.

(** Length of the longest run of class members at the front, capped by
    the repetition's maximum. *)
Fixpoint run_len (ic : bool) (cl : cclass) (hi : option nat) (s : jsstr) : nat :=
  match hi, s with
  | Some 0, _ => 0
  | _, [] => 0
  | _, c :: r => if cls_in ic cl c then S (run_len ic cl (pred <$> hi) r) else 0
  end.

(** The iteration counts a repetition tries, in the order it tries them. *)
Definition rep_counts (greedy : bool) (lo n : nat) : list nat :=
  if lo <=? n then
    (if greedy then rev (seq lo (S n - lo)) else seq lo (S n - lo))
  else [].

Fixpoint first_some {A} (f : nat → option A) (l : list nat) : option A :=
  match l with
  | [] => None
  | k :: l' => match f k with Some a => Some a | None => first_some f l' end
  end.

(** [mi ic its pos s]: match the items at absolute index [pos], [s] being
    the input from [pos] on; the result is the length of the match. *)
Fixpoint mi (ic : bool) (its : list item) (pos : nat) (s : jsstr) : option nat :=
  match its with
  | [] => Some 0
  | Atom cl :: rest =>
      match s with
      | c :: r => if cls_in ic cl c then S <$> mi ic rest (S pos) r else None
      | [] => None
      end
  | Rep g lo hi cl :: rest =>
      first_some (λ k, Nat.add k <$> mi ic rest (pos + k) (drop k s))
                 (rep_counts g lo (run_len ic cl hi s))
  | Bol :: rest => if Nat.eqb pos 0 then mi ic rest pos s else None
  | Eol :: rest => match s with [] => mi ic rest pos s | _ :: _ => None end
  end.

(** Leftmost match from index [pos]: (offset of the match, its length). *)
Fixpoint search (r : regex) (pos : nat) (s : jsstr) : option (nat * nat) :=
  match mi (re_icase r) (re_items r) pos s with
  | Some n => Some (0, n)
  | None =>
      match s with
      | [] => None
      | _ :: s' => (λ '(k, n), (S k, n)) <$> search r (S pos) s'
      end
  end.

(** Global replace.  [rep] gives the replacement text of a match from
    the matched text: a constant for a replacement string without [$]
    patterns, [λ m, m ++ t] for ['$&t'] or for ['$1t'] when group 1 is the
    whole pattern.  After an empty match the scan moves one code unit on
    and keeps it (AdvanceStringIndex). *)
Fixpoint replace_fuel (fuel : nat) (r : regex) (rep : jsstr → jsstr) (pos : nat) (s : jsstr) : jsstr :=
  match fuel with
  | O => s
  | S f =>
      match search r pos s with
      | None => s
      | Some (k, O) =>
          take k s ++ rep [] ++
          match drop k s with
          | [] => []
          | c :: t => c :: replace_fuel f r rep (pos + k + 1) t
          end
      | Some (k, n) => take k s ++ rep (take n (drop k s)) ++ replace_fuel f r rep (pos + k + n) (drop (k + n) s)
      end
  end.

Definition replace_from (r : regex) (rep : jsstr) (pos : nat) (s : jsstr) : jsstr :=
  replace_fuel (S (length s)) r (λ _, rep) pos s.

(** [s.replace(/r/g, rep)]. *)
Definition replace_all (r : regex) (rep : jsstr) (s : jsstr) : jsstr := replace_from r rep 0 s.

(** [s.replace(/r/g, '$&' ++ t)] and the like: the replacement depends on
    the match. *)
Definition replace_all_fn (r : regex) (rep : jsstr → jsstr) (s : jsstr) : jsstr :=
  replace_fuel (S (length s)) r rep 0 s.

(** [/r/.test(s)]. *)
Definition regex_test (r : regex) (s : jsstr) : bool :=
  match search r 0 s with Some _ => true | None => false end.

(** ** Declarative matching *)

(** ASCII letters: the only code units [swap_case] changes. *)
Definition is_ascii_letter (c : N) : bool :=
  ((65 <=? c)%N && (c <=? 90)%N) || ((97 <=? c)%N && (c <=? 122)%N).

Definition bound_ok (hi : option nat) (n : nat) : Prop :=
  match hi with None => True | Some h => n ≤ h end.

Inductive mrel (ic : bool) : list item → nat → jsstr → jsstr → Prop :=
| mr_nil pos t : mrel ic [] pos [] t
| mr_atom cl rest pos c w t :
    cls_in ic cl c = true → mrel ic rest (S pos) w t →
    mrel ic (Atom cl :: rest) pos (c :: w) t
| mr_rep g lo hi cl rest pos u w t :
    lo ≤ length u → bound_ok hi (length u) →
    Forall (λ c, cls_in ic cl c = true) u →
    mrel ic rest (pos + length u) w t →
    mrel ic (Rep g lo hi cl :: rest) pos (u ++ w) t
| mr_bol rest w t : mrel ic rest 0 w t → mrel ic (Bol :: rest) 0 w t
| mr_eol rest pos : mrel ic rest pos [] [] → mrel ic (Eol :: rest) pos [] [].

(** ** Properties of the matcher *)

Lemma first_some_Some {A} (f : nat → option A) l a :
  first_some f l = Some a → ∃ k, k ∈ l ∧ f k = Some a.
Proof.
  induction l as [|k l IH]; simpl; [done|].
  destruct (f k) eqn:E.
  - intros [= <-]. exists k. split; [apply list_elem_of_here|done].
  - intros H. destruct (IH H) as [j [Hj Hf]]. exists j. split; [by apply list_elem_of_further|done].
Qed.

Lemma first_some_None {A} (f : nat → option A) l :
  first_some f l = None ↔ ∀ k, k ∈ l → f k = None.
Proof.
  induction l as [|k l IH]; simpl.
  - split; [intros _ j Hj; inversion Hj|done].
  - destruct (f k) eqn:E; split.
    + done.
    + intros H. rewrite H in E; [done|apply list_elem_of_here].
    + intros H j Hj. apply elem_of_cons in Hj as [->|Hj]; [done|by apply IH].
    + intros H. apply IH. intros j Hj. by apply H, list_elem_of_further.
Qed.

Lemma first_some_ext {A} (f g : nat → option A) l :
  (∀ k, f k = g k) → first_some f l = first_some g l.
Proof. intros Hfg. induction l as [|k l IH]; simpl; [done|]. by rewrite Hfg, IH. Qed.

Lemma rep_counts_elem g lo n k : k ∈ rep_counts g lo n ↔ lo ≤ k ≤ n.
Proof.
  unfold rep_counts. destruct (Nat.leb_spec lo n).
  - assert (k ∈ seq lo (S n - lo) ↔ lo ≤ k ≤ n) as Hs by (rewrite elem_of_seq; lia).
    destruct g; [|done]. by rewrite list_elem_of_In, <- in_rev, <- list_elem_of_In.
  - split; [intros Hk; inversion Hk|lia].
Qed.

Section Engine.
Context (ic : bool).

Lemma run_len_le cl hi s : run_len ic cl hi s ≤ length s.
Proof.
  revert hi. induction s as [|c r IH]; intros [[|h]|]; simpl; try lia;
    destruct (cls_in ic cl c); simpl; try lia; apply le_n_S, IH.
Qed.

Lemma run_len_bound cl hi s : bound_ok hi (run_len ic cl hi s).
Proof.
  revert hi. induction s as [|c r IH]; intros [[|h]|]; simpl; try done; try lia.
  destruct (cls_in ic cl c); simpl; [|lia]. specialize (IH (Some h)). simpl in IH. lia.
Qed.

Lemma run_len_Forall cl hi s k :
  k ≤ run_len ic cl hi s → Forall (λ c, cls_in ic cl c = true) (take k s).
Proof.
  revert hi k. induction s as [|c r IH]; intros hi [|k] Hk; simpl;
    [constructor|constructor|constructor|].
  destruct hi as [[|h]|]; simpl in Hk; [lia| |];
      destruct (cls_in ic cl c) eqn:E; try lia; constructor; try done;
      eapply (IH _ k), le_S_n, Hk.
Qed.

Lemma run_len_max cl hi u t :
  Forall (λ c, cls_in ic cl c = true) u → bound_ok hi (length u) →
  length u ≤ run_len ic cl hi (u ++ t).
Proof.
  revert hi. induction u as [|c u IH]; intros hi Hu Hb; simpl; [lia|].
  inversion Hu as [|? ? Hc Hu']; subst.
  destruct hi as [[|h]|]; simpl in Hb |- *; [lia| |]; rewrite Hc;
    apply le_n_S, IH; simpl; auto with lia.
Qed.

Lemma bound_ok_mono hi m n : m ≤ n → bound_ok hi n → bound_ok hi m.
Proof. destruct hi; simpl; lia. Qed.

Lemma mi_sound its pos s n :
  mi ic its pos s = Some n → n ≤ length s ∧ mrel ic its pos (take n s) (drop n s).
Proof.
  revert pos s n. induction its as [|it rest IH]; intros pos s n; simpl.
  - intros [= <-]. split; [lia|]. rewrite take_0, drop_0. constructor.
  - destruct it as [cl|g lo hi cl| |].
    + destruct s as [|c r]; [done|]. destruct (cls_in ic cl c) eqn:E; [|done].
      destruct (mi ic rest (S pos) r) as [m|] eqn:Hm; [|done]. simpl. intros [= <-].
      destruct (IH _ _ _ Hm) as [Hle Hr]. split; [simpl; lia|]. simpl. by constructor.
    + intros H. apply first_some_Some in H as [k [Hk Hf]].
      apply rep_counts_elem in Hk.
      destruct (mi ic rest (pos + k) (drop k s)) as [m|] eqn:Hm; [|done].
      simpl in Hf. injection Hf as <-.
      destruct (IH _ _ _ Hm) as [Hle Hr].
      pose proof (run_len_le cl hi s) as Hrl. rewrite length_drop in Hle.
      split; [lia|].
      rewrite <- take_take_drop, <- drop_drop.
      assert (length (take k s) = k) as Hlk by (apply length_take_le; lia).
      apply mr_rep; rewrite ?Hlk; try lia.
      * apply (bound_ok_mono hi k (run_len ic cl hi s)); [lia|apply run_len_bound].
      * apply (run_len_Forall cl hi s k). lia.
      * done.
  + destruct (Nat.eqb_spec pos 0) as [->|]; [|done]. intros H.
    destruct (IH _ _ _ H) as [? ?]. split; [done|]. by constructor.
  + destruct s; [|done]. intros H. destruct (IH _ _ _ H) as [Hle Hr].
    simpl in Hle. assert (n = 0) as -> by lia. simpl in *. split; [lia|by constructor].
Qed.

Lemma mi_length its pos s n : mi ic its pos s = Some n → n ≤ length s.
Proof. intros H. by apply mi_sound in H as [? _]. Qed.

Lemma mi_complete its pos w t : mrel ic its pos w t → is_Some (mi ic its pos (w ++ t)).
Proof.
  induction 1 as [pos t|cl rest pos c w t Hc _ [m Hm]|g lo hi cl rest pos u w t Hlo Hhi Hu _ [m Hm]
                  |rest w t _ IH|rest pos _ IH]; simpl.
  - by eexists.
  - rewrite Hc, Hm. by eexists.
  - destruct (first_some _ _) eqn:E; [by eexists|exfalso].
    rewrite first_some_None in E. rewrite <- app_assoc in E.
    specialize (E (length u)). rewrite drop_app_length, Hm in E.
    discriminate E. apply rep_counts_elem. split; [done|]. by apply run_len_max.
  - done.
  - done.
Qed.

Lemma mrel_atom_in its pos w t cl :
  mrel ic its pos w t → Atom cl ∈ its → ∃ c, c ∈ w ∧ cls_in ic cl c = true.
Proof.
  induction 1 as [|cl' rest pos c w t Hc _ IH|g lo hi cl' rest pos u w t _ _ _ _ IH
                  |rest w t _ IH|rest pos _ IH]; intros Hin.
  - inversion Hin.
  - apply elem_of_cons in Hin as [[= ->]|Hin].
    + exists c. split; [apply list_elem_of_here|done].
    + destruct (IH Hin) as [d [Hd Hcl]]. exists d. split; [by apply list_elem_of_further|done].
  - apply elem_of_cons in Hin as [Heq|Hin]; [done|].
    destruct (IH Hin) as [d [Hd Hcl]]. exists d. split; [apply elem_of_app; by right|done].
  - apply elem_of_cons in Hin as [Heq|Hin]; [done|]. by apply IH.
  - apply elem_of_cons in Hin as [Heq|Hin]; [done|].
    destruct (IH Hin) as [d [Hd _]]. inversion Hd.
Qed.

Lemma mi_None_atom its pos s cl :
  Atom cl ∈ its → (∀ c, c ∈ s → cls_in ic cl c = false) → mi ic its pos s = None.
Proof.
  intros Hin Hs. destruct (mi ic its pos s) as [n|] eqn:E; [|done].
  apply mi_sound in E as [_ Hr].
  destruct (mrel_atom_in _ _ _ _ _ Hr Hin) as [c [Hc Hcl]].
  apply elem_of_take in Hc as [i [Hi _]].
  rewrite Hs in Hcl; [done|]. by eapply list_elem_of_lookup_2.
Qed.

Lemma mi_pos_indep its pos pos' s :
  Bol ∉ its → mi ic its pos s = mi ic its pos' s.
Proof.
  revert pos pos' s. induction its as [|it rest IH]; intros pos pos' s Hb; simpl; [done|].
  apply not_elem_of_cons in Hb as [Hb Hr].
  destruct it as [cl|g lo hi cl| |]; try done.
  - destruct s; [done|]. by rewrite (IH (S pos) (S pos')).
  - apply first_some_ext. intros k. by rewrite (IH (pos + k) (pos' + k)).
  - destruct s; [|done]. by apply IH.
Qed.

End Engine.

(** Inversion lemmas for the declarative matching relation. *)
Lemma mrel_bol_inv ic rest pos w t : mrel ic (Bol :: rest) pos w t → pos = 0 ∧ mrel ic rest 0 w t.
Proof. by inversion 1. Qed.

Lemma mrel_atom_inv ic cl rest pos w t :
  mrel ic (Atom cl :: rest) pos w t →
  ∃ c w', w = c :: w' ∧ cls_in ic cl c = true ∧ mrel ic rest (S pos) w' t.
Proof. inversion 1; subst. eauto. Qed.

Lemma mrel_rep_inv ic g lo hi cl rest pos w t :
  mrel ic (Rep g lo hi cl :: rest) pos w t →
  ∃ u w', w = u ++ w' ∧ lo ≤ length u ∧ bound_ok hi (length u) ∧
    Forall (λ c, cls_in ic cl c = true) u ∧ mrel ic rest (pos + length u) w' t.
Proof. inversion 1; subst. eexists _, _. eauto. Qed.

Lemma mrel_eol_inv ic rest pos w t :
  mrel ic (Eol :: rest) pos w t → w = [] ∧ t = [] ∧ mrel ic rest pos [] [].
Proof. by inversion 1. Qed.

(** ** Properties of the leftmost search *)

Lemma search_Some r pos s k n :
  search r pos s = Some (k, n) →
  k ≤ length s ∧ mi (re_icase r) (re_items r) (pos + k) (drop k s) = Some n ∧
  ∀ j, j < k → mi (re_icase r) (re_items r) (pos + j) (drop j s) = None.
Proof.
  revert pos k. induction s as [|c s IH]; intros pos k; simpl.
  - destruct (mi _ _ pos []) eqn:E; [|done]. intros [= <- <-].
    rewrite Nat.add_0_r. split; [lia|]. split; [done|lia].
  - destruct (mi _ _ pos (c :: s)) eqn:E.
    + intros [= <- <-]. rewrite Nat.add_0_r, drop_0. split; [lia|]. split; [done|lia].
    + destruct (search r (S pos) s) as [[k' n']|] eqn:Es; [|done]. simpl.
      intros [= <- <-]. destruct (IH _ _ Es) as [Hk [Hm Hj]].
      split; [lia|]. split; [by rewrite Nat.add_succ_r|].
      intros [|j] Hjk; [by rewrite Nat.add_0_r|].
      rewrite Nat.add_succ_r. apply Hj. lia.
Qed.

Lemma search_first r pos s k n :
  k ≤ length s → mi (re_icase r) (re_items r) (pos + k) (drop k s) = Some n →
  (∀ j, j < k → mi (re_icase r) (re_items r) (pos + j) (drop j s) = None) →
  search r pos s = Some (k, n).
Proof.
  revert pos k. induction s as [|c s IH]; intros pos [|k] Hk Hm Hj; simpl in *; try lia.
  - rewrite Nat.add_0_r in Hm. by rewrite Hm.
  - rewrite Nat.add_0_r in Hm. by rewrite Hm.
  - assert (mi (re_icase r) (re_items r) pos (c :: s) = None) as E0.
    { specialize (Hj 0). rewrite Nat.add_0_r in Hj. apply Hj. lia. }
    rewrite E0, (IH (S pos) k); [done|lia| |].
    + simpl. by rewrite <- Nat.add_succ_r.
    + intros j Hjk. simpl. rewrite <- Nat.add_succ_r. apply (Hj (S j)). lia.
Qed.

Lemma search_None_atom r pos s cl :
  Atom cl ∈ re_items r → (∀ c, c ∈ s → cls_in (re_icase r) cl c = false) →
  search r pos s = None.
Proof.
  intros Hin. revert pos. induction s as [|c s IH]; intros pos Hs; simpl;
    rewrite (mi_None_atom _ _ _ _ cl); auto.
  rewrite IH; [done|]. intros d Hd. by apply Hs, list_elem_of_further.
Qed.

Lemma search_pos_indep r pos pos' s :
  Bol ∉ re_items r → search r pos s = search r pos' s.
Proof.
  intros Hb. revert pos pos'. induction s as [|c s IH]; intros pos pos'; simpl;
    rewrite (mi_pos_indep _ _ pos pos'); try done.
  by rewrite (IH (S pos) (S pos')).
Qed.

Lemma search_hit r pos s n :
  mi (re_icase r) (re_items r) pos s = Some n → search r pos s = Some (0, n).
Proof. intros Hm. destruct s; simpl; by rewrite Hm. Qed.

(** ** Properties of the global replace *)

Lemma replace_fuel_enough r rep f1 f2 pos s :
  length s < f1 → length s < f2 → replace_fuel f1 r rep pos s = replace_fuel f2 r rep pos s.
Proof.
  revert f2 pos s. induction f1 as [|f1 IH]; intros [|f2] pos s H1 H2; try lia. simpl.
  destruct (search r pos s) as [[k [|n]]|] eqn:E; [| |done].
  - destruct (drop k s) as [|c t] eqn:Ed; [done|].
    assert (length (drop k s) = length s - k) as Hl by apply length_drop.
    rewrite Ed in Hl. simpl in Hl. do 3 f_equal. apply IH; lia.
  - apply search_Some in E as [Hk [Hm _]]. apply mi_length in Hm.
    rewrite length_drop in Hm. do 2 f_equal. apply IH; rewrite length_drop; lia.
Qed.

Lemma replace_from_eq r rep pos s :
  replace_from r rep pos s =
  match search r pos s with
  | None => s
  | Some (k, O) =>
      take k s ++ rep ++
      match drop k s with [] => [] | c :: t => c :: replace_from r rep (pos + k + 1) t end
  | Some (k, n) => take k s ++ rep ++ replace_from r rep (pos + k + n) (drop (k + n) s)
  end.
Proof.
  unfold replace_from at 1. simpl.
  destruct (search r pos s) as [[k [|n]]|] eqn:E; [| |done].
  - destruct (drop k s) as [|c t] eqn:Ed; [done|].
    assert (length (drop k s) = length s - k) as Hl by apply length_drop.
    rewrite Ed in Hl. simpl in Hl. do 3 f_equal. apply replace_fuel_enough; lia.
  - apply search_Some in E as [Hk [Hm _]]. apply mi_length in Hm.
    rewrite length_drop in Hm. do 2 f_equal. apply replace_fuel_enough; rewrite length_drop; lia.
Qed.

Lemma replace_from_nomatch r rep pos s : search r pos s = None → replace_from r rep pos s = s.
Proof. intros E. by rewrite replace_from_eq, E. Qed.

Lemma replace_fuel_pos_indep r rep f pos pos' s :
  Bol ∉ re_items r → replace_fuel f r rep pos s = replace_fuel f r rep pos' s.
Proof.
  intros Hb. revert pos pos' s. induction f as [|f IH]; intros pos pos' s; simpl; [done|].
  rewrite (search_pos_indep r pos pos'); [|done].
  destruct (search r pos' s) as [[k [|n]]|]; [| |done].
  - destruct (drop k s); [done|]. by erewrite IH.
  - by erewrite IH.
Qed.

Lemma replace_from_all r rep pos s :
  Bol ∉ re_items r → replace_from r rep pos s = replace_all r rep s.
Proof. intros Hb. apply replace_fuel_pos_indep, Hb. Qed.

(** A pattern with a mandatory atom that no code unit of the input
    matches leaves the input unchanged. *)
Lemma replace_all_nomatch_atom r rep s cl :
  Atom cl ∈ re_items r → (∀ c, c ∈ s → cls_in (re_icase r) cl c = false) →
  replace_all r rep s = s.
Proof. intros Hin Hs. apply replace_from_nomatch. by eapply search_None_atom. Qed.

Lemma regex_test_spec r s :
  regex_test r s = true ↔ ∃ k n, search r 0 s = Some (k, n).
Proof.
  unfold regex_test. destruct (search r 0 s) as [[k n]|].
  - split; [eauto|done].
  - split; [done|]. by intros (? & ? & ?).
Qed.

(** ** Lemmas for concrete patterns *)

Lemma replace_from_skip r rep pos c s :
  mi (re_icase r) (re_items r) pos (c :: s) = None →
  replace_from r rep pos (c :: s) = c :: replace_from r rep (S pos) s.
Proof.
  intros Hm. rewrite (replace_from_eq r rep pos), (replace_from_eq r rep (S pos)). simpl.
  rewrite Hm. destruct (search r (S pos) s) as [[k [|n]]|]; simpl; [| |done].
  - by replace (pos + S k + 1) with (S (pos + k + 1)) by lia.
  - by replace (pos + S k + S n) with (S (pos + k + S n)) by lia.
Qed.

Lemma replace_from_hit r rep pos s n :
  mi (re_icase r) (re_items r) pos s = Some (S n) →
  replace_from r rep pos s = rep ++ replace_from r rep (pos + S n) (drop (S n) s).
Proof.
  intros Hm. rewrite replace_from_eq.
  destruct s as [|c s]; simpl in *; rewrite Hm; simpl; by rewrite Nat.add_0_r.
Qed.

Lemma first_some_greedy_top {A} (f : nat → option A) lo L :
  lo ≤ L → (∀ k, lo ≤ k < L → f k = None) → first_some f (rep_counts true lo L) = f L.
Proof.
  intros Hle Hk. unfold rep_counts.
  destruct (Nat.leb_spec lo L); [|lia].
  replace (S L - lo) with (S (L - lo)) by lia.
  rewrite seq_S, rev_app_distr. simpl. replace (lo + (L - lo)) with L by lia.
  destruct (f L); [done|]. apply first_some_None. intros k Hin.
  apply list_elem_of_In, in_rev, list_elem_of_In, elem_of_seq in Hin. apply Hk. lia.
Qed.

Lemma first_some_greedy_hit {A} (f : nat → option A) lo L a :
  lo ≤ L → f L = Some a → first_some f (rep_counts true lo L) = Some a.
Proof.
  intros Hle Hf. unfold rep_counts. destruct (Nat.leb_spec lo L); [|lia].
  replace (S L - lo) with (S (L - lo)) by lia.
  rewrite seq_S, rev_app_distr. simpl. replace (lo + (L - lo)) with L by lia. by rewrite Hf.
Qed.

Lemma run_len_split ic cl s :
  Forall (λ c, cls_in ic cl c = true) (take (run_len ic cl None s) s) ∧
  (drop (run_len ic cl None s) s = [] ∨
   ∃ c t, drop (run_len ic cl None s) s = c :: t ∧ cls_in ic cl c = false).
Proof.
  split; [apply (run_len_Forall ic cl None s _ (le_n _))|].
  induction s as [|c r IH]; simpl; [by left|].
  destruct (cls_in ic cl c) eqn:E; simpl; [done|]. right. by exists c, r.
Qed.

Lemma run_len_lookup ic cl s k c t :
  k < run_len ic cl None s → drop k s = c :: t → cls_in ic cl c = true.
Proof.
  intros Hk Hd. pose proof (run_len_Forall ic cl None s (k + 1) ltac:(lia)) as Hf.
  rewrite <- take_take_drop, Hd in Hf. apply Forall_app in Hf as [_ Hf]. by inversion Hf.
Qed.

(** A pattern character that is not a letter matches only itself, with or
    without the ignoreCase flag. *)
Lemma cls_in_char_nonletter ic a c :
  is_ascii_letter a = false → cls_in ic (CChar a) c = (a =? c)%N.
Proof.
  intros Ha. simpl. destruct ic; simpl; [|apply orb_false_r].
  destruct (N.eqb_spec a c) as [|Hne]; [done|]. simpl. unfold swap_case.
  unfold is_ascii_letter in Ha. apply orb_false_iff in Ha as [Ha1 Ha2].
  destruct ((65 <=? c) && (c <=? 90))%N eqn:E1;
    [|destruct ((97 <=? c) && (c <=? 122))%N eqn:E2]; apply N.eqb_neq;
    rewrite ?andb_true_iff, ?andb_false_iff, ?N.leb_le, ?N.leb_gt in *; lia.
Qed.

End JsRegex.
