(* ===== verification/Sanitizer.v ===== *)
(** * The sanitizer: [sanitizeInput] of [src/src/utils/helpers.ts]

    [sanitizeInput] turns the raw text of a block into the display text of
    a tree node: it rejects non-strings, deletes script and iframe
    elements, [javascript:] fragments and every remaining tag, collapses
    whitespace runs to one space, truncates to 197 code units plus
    ["..."] when the text is longer than 200, and trims.  Each regular
    expression of the source is written out as a [JsRegex.regex]. *)

From S2P Require Import Prelude JsRegex.
Import JsRegex.

Module Sanitizer.

(** The values [sanitizeInput] is called with: the tests pass [null],
    [undefined] and a number.  A number's value never matters here. *)
Inductive jsval :=
| JUndefined
| JNull
| JBool (b : bool)
| JNum (z : Z)
| JStr (s : jsstr)
| JObject.

(** [!v] is [negb (js_truthy v)]. *)
Definition js_truthy (v : jsval) : bool :=
  match v with
  | JUndefined | JNull => false
  | JBool b => b
  | JNum z => negb (Z.eqb z 0)
  | JStr s => truthy s
  | JObject => true
  end.

Definition is_string (v : jsval) : bool :=
  match v with JStr _ => true | _ => false end.

(** [/<script.*?>.*?<\/script>/gi] *)
Definition re_script : regex :=
  mkRegex (lit (js "<script") ++ [Rep false 0 None CDot] ++ lit (js ">")
           ++ [Rep false 0 None CDot] ++ lit (js "</script>")) true.

(** [/<iframe.*?>.*?<\/iframe>/gi] *)
Definition re_iframe : regex :=
  mkRegex (lit (js "<iframe") ++ [Rep false 0 None CDot] ++ lit (js ">")
           ++ [Rep false 0 None CDot] ++ lit (js "</iframe>")) true.

(** [/javascript:[^;]*;?/gi] *)
Definition re_jsuri : regex :=
  mkRegex (lit (js "javascript:")
           ++ [Rep true 0 None (CNot (CChar cu_semi)); Rep true 0 (Some 1) (CChar cu_semi)]) true.

(** [/<[^>]*>/g] *)
Definition re_tag : regex :=
  mkRegex [Atom (CChar cu_lt); Rep true 0 None (CNot (CChar cu_gt)); Atom (CChar cu_gt)] false.

(** [/\s+/g] *)
Definition re_ws : regex := mkRegex [Rep true 1 None CSpace] false.

Definition sanitizeInput (input : jsval) : jsstr :=
  match input with
  | JStr s =>
      if negb (js_truthy input) || negb (is_string input) then [] else
      let sanitized := s in
      let sanitized := replace_all re_script [] sanitized in
      let sanitized := replace_all re_iframe [] sanitized in
      let sanitized := replace_all re_jsuri [] sanitized in
      let sanitized := replace_all re_tag [] sanitized in
      let sanitized := replace_all re_ws [cu_space] sanitized in
      let sanitized :=
        if 200 <? length sanitized then take 197 sanitized ++ js "..." else sanitized in
      js_trim sanitized
  | _ => []
  end.

(** ** What the last two replacements compute

    [strip_tags_ref] and [collapse_ws_ref] are one-pass reference
    functions; [replace_tag_ref] and [replace_ws_ref] prove that the global
    regular-expression replacements of lines 32 and 35 compute them. *)

(** Outside a tag, a [<] opens one when some [>] follows it; inside a tag
    everything up to the first [>] is dropped. *)
Fixpoint strip_tags_ref (intag : bool) (s : jsstr) : jsstr :=
  match s with
  | [] => []
  | c :: r =>
      if intag then (if (c =? cu_gt)%N then strip_tags_ref false r else strip_tags_ref true r)
      else if (c =? cu_lt)%N && existsb (N.eqb cu_gt) r then strip_tags_ref true r
      else c :: strip_tags_ref false r
  end.

(** The first code unit of a whitespace run becomes one space, the rest
    of the run is dropped. *)
Fixpoint collapse_ws_ref (inws : bool) (s : jsstr) : jsstr :=
  match s with
  | [] => []
  | c :: r =>
      if is_js_space c then
        (if inws then collapse_ws_ref true r else cu_space :: collapse_ws_ref true r)
      else c :: collapse_ws_ref false r
  end.

(** ** Normal forms *)

(** No two adjacent code units are both whitespace. *)
Fixpoint ws_isolated (s : jsstr) : Prop :=
  match s with
  | c :: ((d :: _) as r) => (is_js_space c = false ∨ is_js_space d = false) ∧ ws_isolated r
  | _ => True
  end.

Definition ws_starts_solid (s : jsstr) : Prop := ∀ c t, s = c :: t → is_js_space c = false.

(** A code unit that none of the five patterns can start or need. *)
Definition plain_char (c : N) : bool :=
  negb (is_js_space c) && negb (c =? cu_lt)%N && negb (c =? cu_colon)%N.

Lemma cls_not_gt c : cls_in false (CNot (CChar cu_gt)) c = negb (cu_gt =? c)%N.
Proof. simpl. by rewrite orb_false_r. Qed.

Lemma mi_tag pos c r :
  mi false (re_items re_tag) pos (c :: r) =
  if (c =? cu_lt)%N then
    match drop (run_len false (CNot (CChar cu_gt)) None r) r with
    | [] => None
    | _ :: _ => Some (S (S (run_len false (CNot (CChar cu_gt)) None r)))
    end
  else None.
Proof.
  cbn [re_items re_tag mi]. rewrite cls_in_char_nonletter by done. rewrite N.eqb_sym.
  destruct (c =? cu_lt)%N; [|done].
  set (L := run_len false (CNot (CChar cu_gt)) None r).
  rewrite first_some_greedy_top; [|lia|].
  - destruct (run_len_split false (CNot (CChar cu_gt)) r) as [_ [Hd|(d & t & Hd & Hcl)]];
      fold L in Hd |- *; rewrite Hd; [done|].
    rewrite cls_not_gt in Hcl. apply negb_false_iff, N.eqb_eq in Hcl as <-.
    simpl. f_equal. lia.
  - intros k [_ Hk]. destruct (drop k r) as [|d t] eqn:Hd.
    + pose proof (run_len_le false (CNot (CChar cu_gt)) None r).
      apply (f_equal length) in Hd. rewrite length_drop in Hd. simpl in Hd. lia.
    + pose proof (run_len_lookup _ _ _ _ _ _ Hk Hd) as Hcl. rewrite cls_not_gt in Hcl.
      cbn [mi]. rewrite cls_in_char_nonletter by done.
      apply negb_true_iff in Hcl. by rewrite Hcl.
Qed.

Lemma strip_intag u t :
  Forall (λ c, (cu_gt =? c)%N = false) u → strip_tags_ref true (u ++ cu_gt :: t) = strip_tags_ref false t.
Proof.
  induction u as [|c u IH]; intros Hu; simpl; [done|].
  inversion Hu as [|? ? Hc Hu']; subst. rewrite N.eqb_sym, Hc. by apply IH.
Qed.

Lemma replace_tag_ref s : replace_all re_tag [] s = strip_tags_ref false s.
Proof.
  unfold replace_all. generalize 0 as pos. revert s.
  induction s as [s IH] using length_ind.
  intros pos. destruct s as [|c r]; [done|].
  destruct (mi false (re_items re_tag) pos (c :: r)) as [n|] eqn:Hm.
  - pose proof Hm as Hm'. rewrite mi_tag in Hm'.
    destruct (N.eqb_spec c cu_lt) as [->|]; [|done].
    set (L := run_len false (CNot (CChar cu_gt)) None r) in *.
    destruct (run_len_split false (CNot (CChar cu_gt)) r) as [Hf [Hd|(d & t & Hd & Hcl)]];
      fold L in Hf, Hd; rewrite Hd in Hm'; [done|]. injection Hm' as <-.
    rewrite cls_not_gt in Hcl. apply negb_false_iff, N.eqb_eq in Hcl as <-.
    rewrite (replace_from_hit _ _ _ _ (S L)) by done. simpl.
    assert (drop (S L) r = t) as Ht.
    { replace (S L) with (L + 1) by lia. by rewrite <- drop_drop, Hd. }
    assert (r = take L r ++ cu_gt :: t) as Hr by (by rewrite <- Hd, take_drop).
    assert (existsb (N.eqb cu_gt) r = true) as Hex.
    { apply existsb_exists. exists cu_gt. split; [|apply N.eqb_refl].
      rewrite Hr. apply in_or_app. right. by left. }
    rewrite Hex, Ht, Hr, strip_intag.
    + apply (IH t). rewrite Hr. simpl. rewrite length_app. simpl. lia.
    + rewrite Forall_forall in Hf |- *. intros x Hx. specialize (Hf x Hx).
      rewrite cls_not_gt in Hf. by apply negb_true_iff.
  - rewrite replace_from_skip by done. simpl. rewrite (IH r) by (simpl; lia).
    pose proof Hm as Hm'. rewrite mi_tag in Hm'.
    destruct (N.eqb_spec c cu_lt) as [->|]; [|done]. simpl.
    destruct (existsb (N.eqb cu_gt) r) eqn:Hex; [|done]. exfalso.
    apply existsb_exists in Hex as [x [Hx Hxe]]. apply N.eqb_eq in Hxe as <-.
    destruct (run_len_split false (CNot (CChar cu_gt)) r) as [Hf [Hd|(d & t & Hd & _)]];
      rewrite Hd in Hm'; [|done].
    rewrite <- (take_drop (run_len false (CNot (CChar cu_gt)) None r) r), Hd, app_nil_r in Hx.
    rewrite Forall_forall in Hf. apply list_elem_of_In in Hx.
    specialize (Hf _ Hx). rewrite cls_not_gt, N.eqb_refl in Hf. done.
Qed.

Lemma mi_ws pos s :
  mi false (re_items re_ws) pos s =
  if 1 <=? run_len false CSpace None s then Some (run_len false CSpace None s) else None.
Proof.
  cbn [re_items re_ws mi]. destruct (Nat.leb_spec 1 (run_len false CSpace None s)).
  - apply first_some_greedy_hit; [done|]. simpl. by rewrite Nat.add_0_r.
  - unfold rep_counts. destruct (Nat.leb_spec 1 (run_len false CSpace None s)); [lia|done].
Qed.

Lemma cls_space c : cls_in false CSpace c = is_js_space c.
Proof. simpl. apply orb_false_r. Qed.

Lemma collapse_skip_ws u t :
  Forall (λ c, is_js_space c = true) u → collapse_ws_ref true (u ++ t) = collapse_ws_ref true t.
Proof. induction u as [|c u IH]; intros Hu; simpl; [done|]. inversion Hu; subst. by rewrite H1, IH. Qed.

Lemma collapse_settle t :
  (∀ c r, t = c :: r → is_js_space c = false) → collapse_ws_ref true t = collapse_ws_ref false t.
Proof. destruct t as [|c r]; intros H; simpl; [done|]. by rewrite (H c r). Qed.

Lemma replace_ws_ref s : replace_all re_ws [cu_space] s = collapse_ws_ref false s.
Proof.
  unfold replace_all. generalize 0 as pos. revert s.
  induction s as [s IH] using length_ind. intros pos. destruct s as [|c r]; [done|].
  destruct (is_js_space c) eqn:Hc.
  - set (L := run_len false CSpace None r).
    assert (mi false (re_items re_ws) pos (c :: r) = Some (S L)) as Hm.
    { rewrite mi_ws. simpl. by rewrite orb_false_r, Hc. }
    rewrite (replace_from_hit re_ws _ _ _ L Hm). simpl. rewrite Hc. f_equal.
    destruct (run_len_split false CSpace r) as [Hf Hd]. fold L in Hf, Hd.
    rewrite <- (take_drop L r) at 2. rewrite collapse_skip_ws.
    + rewrite collapse_settle.
      * apply IH. rewrite length_drop. simpl. lia.
      * intros d t Ht. rewrite Ht in Hd. destruct Hd as [|(d' & t' & [= <- <-] & Hcl)]; [done|].
        by rewrite cls_space in Hcl.
    + rewrite Forall_forall in Hf |- *. intros x Hx. rewrite <- cls_space. by apply Hf.
  - rewrite replace_from_skip.
    + simpl. rewrite Hc. f_equal. apply IH. simpl. lia.
    + rewrite mi_ws. simpl. by rewrite orb_false_r, Hc.
Qed.


(** ** The pipeline after the tag and whitespace steps *)

(** Lines 37-40: the length cap. *)
Lemma sanitizeInput_steps s :
  truthy s = true →
  sanitizeInput (JStr s) =
  let y := collapse_ws_ref false (strip_tags_ref false
             (replace_all re_jsuri [] (replace_all re_iframe [] (replace_all re_script [] s)))) in
  js_trim (if 200 <? length y then take 197 y ++ js "..." else y).
Proof. intros Ht. simpl. rewrite Ht. simpl. by rewrite replace_tag_ref, replace_ws_ref. Qed.

Lemma strip_tags_ref_sublist b s : strip_tags_ref b s `sublist_of` s.
Proof.
  revert b. induction s as [|c r IH]; intros b; simpl; [done|].
  destruct b; [destruct (c =? cu_gt)%N|destruct ((c =? cu_lt)%N && _)];
    try (apply sublist_cons, IH); by apply sublist_skip.
Qed.

Lemma strip_tags_ref_tag_free b s : ¬ [cu_lt; cu_gt] `sublist_of` strip_tags_ref b s.
Proof.
  revert b. induction s as [|c r IH]; intros b; simpl.
  - intros H. by apply sublist_nil_r in H.
  - destruct b; [destruct (c =? cu_gt)%N; apply IH|].
    destruct ((c =? cu_lt)%N && existsb (N.eqb cu_gt) r) eqn:E; [apply IH|].
    intros H. apply sublist_cons_l in H as (k1 & k2 & Hk & Hs).
    destruct k1 as [|x k1]; simpl in Hk; injection Hk as -> Hk.
    + rewrite N.eqb_refl in E. simpl in E.
      apply singleton_sublist_l in Hs. rewrite <- Hk in Hs.
      eapply elem_of_sublist in Hs; [|apply strip_tags_ref_sublist].
      apply list_elem_of_In in Hs.
      assert (existsb (N.eqb cu_gt) r = true) as Hex
        by (apply existsb_exists; exists cu_gt; split; [done|apply N.eqb_refl]).
      by rewrite Hex in E.
    + apply (IH false). rewrite Hk. apply sublist_inserts_l. by apply sublist_skip.
Qed.

Lemma collapse_ws_ref_nonws b s :
  filter (λ c, is_js_space c = false) (collapse_ws_ref b s) = filter (λ c, is_js_space c = false) s.
Proof.
  revert b. induction s as [|c r IH]; intros b; simpl; [done|].
  destruct (is_js_space c) eqn:Hc.
  - rewrite (filter_cons_False _ c) by (rewrite Hc; done).
    destruct b; [apply IH|]. rewrite filter_cons_False by done. apply IH.
  - rewrite !filter_cons_True by done. by rewrite IH.
Qed.

(** The length cap keeps [<] and [>] in order: it only cuts and appends
    dots. *)
Lemma truncate_angle_sublist y :
  [cu_lt; cu_gt] `sublist_of` (if 200 <? length y then take 197 y ++ js "..." else y) →
  [cu_lt; cu_gt] `sublist_of` y.
Proof.
  destruct (200 <? length y); [|done]. intros H.
  apply (sublist_filter_keep (λ c, c ≠ cu_dot)) in H; [|repeat constructor; discriminate].
  rewrite list.filter_app in H.
  assert (filter (λ c, c ≠ cu_dot) (js "...") = []) as Hd by done.
  rewrite Hd, app_nil_r in H. etrans; [apply H|]. etrans; [apply sublist_filter|apply sublist_take].
Qed.

(** No [<] of the output is followed by a [>]. *)
Lemma sanitizeInput_tag_free v : ¬ [cu_lt; cu_gt] `sublist_of` sanitizeInput v.
Proof.
  intros Hs. destruct v as [| | | |s|]; try (simpl in Hs; by apply sublist_nil_r in Hs).
  destruct (truthy s) eqn:Ht; [|simpl in Hs; rewrite Ht in Hs; by apply sublist_nil_r in Hs].
  rewrite sanitizeInput_steps in Hs by done. cbv zeta in Hs.
  pose proof (transitivity Hs (js_trim_sublist _)) as Hs'. clear Hs.
  apply truncate_angle_sublist in Hs'. rename Hs' into Hs.
  apply (sublist_filter_keep (λ c, is_js_space c = false)) in Hs; [|by repeat constructor].
  rewrite collapse_ws_ref_nonws in Hs. eapply (strip_tags_ref_tag_free false).
  etrans; [apply Hs|apply sublist_filter].
Qed.

Lemma tag_sublist a b c : [cu_lt; cu_gt] `sublist_of` a ++ cu_lt :: b ++ cu_gt :: c.
Proof. apply sublist_inserts_l, sublist_skip, sublist_inserts_l, sublist_skip, sublist_nil_l. Qed.

(** [C5] The output contains no tag-shaped fragment: no [<] is followed,
    anywhere later, by a [>]. *)
Theorem sanitizeInput_no_tag v : ¬ ∃ a b c, sanitizeInput v = a ++ cu_lt :: b ++ cu_gt :: c.
Proof. intros (a & b & c & E). apply (sanitizeInput_tag_free v). rewrite E. apply tag_sublist. Qed.

(** [C6] Whatever the input, the result is at most 200 code units long. *)
Theorem sanitizeInput_length v : length (sanitizeInput v) ≤ 200.
Proof.
  destruct v as [| | | |s|]; try (simpl; lia).
  destruct (truthy s) eqn:Ht; [|simpl; rewrite Ht; simpl; lia].
  rewrite sanitizeInput_steps by done. cbv zeta.
  etrans; [apply js_trim_length|].
  match goal with |- context [if 200 <? length ?y then _ else _] =>
    destruct (Nat.ltb_spec 200 (length y)) end; [|lia].
  rewrite length_app, length_take. assert (length (js "...") = 3) as -> by done. lia.
Qed.

(** ** Whitespace normal form *)

Lemma ws_isolated_cons c s :
  ws_isolated s → is_js_space c = false ∨ ws_starts_solid s → ws_isolated (c :: s).
Proof.
  destruct s as [|d s]; [done|]. intros Hs [Hc|Hd]; simpl; split; auto.
  right. by apply (Hd d s).
Qed.

Lemma ws_isolated_tail c s : ws_isolated (c :: s) → ws_isolated s.
Proof. destruct s; simpl; tauto. Qed.

Lemma ws_isolated_app_l x y : ws_isolated (x ++ y) → ws_isolated x.
Proof.
  induction x as [|c x IH]; simpl; [done|]. destruct x as [|d x]; [done|].
  simpl. intros [? ?]. split; [done|by apply IH].
Qed.

Lemma ws_isolated_app_r x y : ws_isolated (x ++ y) → ws_isolated y.
Proof. induction x as [|c x IH]; simpl; [done|]. intros H. apply IH. by apply ws_isolated_tail in H. Qed.

Lemma ws_isolated_app x y :
  ws_isolated x → ws_isolated y → ws_starts_solid y → ws_isolated (x ++ y).
Proof.
  induction x as [|c x IH]; intros Hx Hy Hs; simpl; [done|].
  apply ws_isolated_cons; [apply IH; [by apply ws_isolated_tail in Hx|done|done]|].
  destruct x as [|d x]; simpl.
  - by right.
  - destruct Hx as [[Hc|Hd] _]; [by left|right]. intros ? ? [= <- _]. done.
Qed.

Lemma collapse_true_solid s : ws_starts_solid (collapse_ws_ref true s).
Proof.
  induction s as [|c r IH]; simpl; intros d t Ht; [done|].
  destruct (is_js_space c) eqn:Hc; [by apply (IH d t)|]. by injection Ht as <- _.
Qed.

Lemma collapse_ws_isolated b s : ws_isolated (collapse_ws_ref b s).
Proof.
  revert b. induction s as [|c r IH]; intros b; simpl; [done|].
  destruct (is_js_space c) eqn:Hc; [destruct b|];
    [done| |]; apply ws_isolated_cons; auto using collapse_true_solid.
Qed.

Lemma collapse_spaces b s :
  Forall (λ c, is_js_space c = true → c = cu_space) (collapse_ws_ref b s).
Proof.
  revert b. induction s as [|c r IH]; intros b; simpl; [done|].
  destruct (is_js_space c) eqn:Hc; [destruct b|]; [done| |]; constructor; auto.
  by rewrite Hc.
Qed.

Lemma ws_normal_nil :
  Forall (λ c, is_js_space c = true → c = cu_space) [] ∧ ws_isolated [] ∧
  (∀ c t, [] = c :: t → is_js_space c = false) ∧ (∀ t c, [] = t ++ [c] → is_js_space c = false).
Proof. split_and!; [constructor|done|done|]. intros t c H. by destruct t. Qed.

(** The output is in whitespace normal form: every whitespace code
    unit is a plain space, no two are adjacent, and the output neither
    starts nor ends with whitespace. *)
Theorem sanitizeInput_ws_normal v :
  Forall (λ c, is_js_space c = true → c = cu_space) (sanitizeInput v) ∧
  ws_isolated (sanitizeInput v) ∧
  (∀ c t, sanitizeInput v = c :: t → is_js_space c = false) ∧
  (∀ t c, sanitizeInput v = t ++ [c] → is_js_space c = false).
Proof.
  destruct v as [| | | |s|]; try apply ws_normal_nil.
  destruct (truthy s) eqn:Ht; [|simpl; rewrite Ht; apply ws_normal_nil].
  rewrite sanitizeInput_steps by done. cbv zeta.
  set (y := collapse_ws_ref false _).
  assert (Forall (λ c, is_js_space c = true → c = cu_space) y ∧ ws_isolated y) as [Hy1 Hy2]
    by (split; [apply collapse_spaces|apply collapse_ws_isolated]).
  set (z := if 200 <? length y then take 197 y ++ js "..." else y).
  assert (Forall (λ c, is_js_space c = true → c = cu_space) z ∧ ws_isolated z) as [Hz1 Hz2].
  { subst z. destruct (200 <? length y); [|done]. split.
    - apply Forall_app. split; [by apply Forall_take|by repeat constructor].
    - apply ws_isolated_app; [|by repeat split; left|by intros ? ? [= <- _]].
      rewrite <- (take_drop 197 y) in Hy2. by apply ws_isolated_app_l in Hy2. }
  split_and!.
  - rewrite Forall_forall in Hz1 |- *. intros c Hc. apply Hz1.
    eapply elem_of_sublist; [apply Hc|apply js_trim_sublist].
  - destruct (js_trim_infix z) as (p & q & Hpq). rewrite Hpq in Hz2.
    by apply ws_isolated_app_r, ws_isolated_app_l in Hz2.
  - apply js_trim_head.
  - apply js_trim_last.
Qed.

(** ** Text without markup *)

Lemma collapse_plain b s :
  Forall (λ c, is_js_space c = false) s → collapse_ws_ref b s = s.
Proof.
  revert b. induction s as [|c r IH]; intros b Hs; simpl; [done|].
  inversion Hs as [|? ? Hc Hr]; subst. rewrite Hc. f_equal. by apply IH.
Qed.

Lemma strip_plain s : Forall (λ c, (c =? cu_lt)%N = false) s → strip_tags_ref false s = s.
Proof.
  induction s as [|c r IH]; intros Hs; simpl; [done|].
  inversion Hs as [|? ? Hc Hr]; subst. rewrite Hc. simpl. f_equal. by apply IH.
Qed.

Lemma replace_plain r s a :
  Atom (CChar a) ∈ re_items r → is_ascii_letter a = false →
  Forall (λ c, (c =? a)%N = false) s → replace_all r [] s = s.
Proof.
  intros Hin Ha Hs. apply (replace_all_nomatch_atom _ _ _ _ Hin). intros c Hc.
  rewrite cls_in_char_nonletter, N.eqb_sym by done.
  rewrite Forall_forall in Hs. by apply Hs.
Qed.

(** Text without markup, whitespace or colons is returned unchanged
    up to 200 code units, and longer text is cut to 197 code units
    followed by ["..."]. *)
Theorem sanitizeInput_plain s :
  s ≠ [] → Forall (λ c, plain_char c = true) s →
  sanitizeInput (JStr s) = if length s <=? 200 then s else take 197 s ++ js "...".
Proof.
  intros Hne Hs. destruct s as [|c0 s0] eqn:Es; [done|]. rewrite <- Es in *.
  assert (∀ P : N → Prop, (∀ c, plain_char c = true → P c) → Forall P s) as Hp.
  { intros P HP. rewrite Forall_forall in Hs |- *. intros c Hc. by apply HP, Hs. }
  assert (Forall (λ c, (c =? cu_lt)%N = false) s) as Hlt.
  { apply Hp. intros c Hc. unfold plain_char in Hc. by unbool. }
  assert (Forall (λ c, (c =? cu_colon)%N = false) s) as Hcol.
  { apply Hp. intros c Hc. unfold plain_char in Hc. by unbool. }
  assert (Forall (λ c, is_js_space c = false) s) as Hws.
  { apply Hp. intros c Hc. unfold plain_char in Hc. by unbool. }
  rewrite sanitizeInput_steps by (by rewrite Es). cbv zeta.
  rewrite (replace_plain re_script s cu_lt), (replace_plain re_iframe s cu_lt),
    (replace_plain re_jsuri s cu_colon); try done; try decide_vm.
  rewrite strip_plain, collapse_plain by done.
  destruct (Nat.ltb_spec 200 (length s)), (Nat.leb_spec (length s) 200); try lia.
  - apply js_trim_nospace. apply Forall_app. split; [by apply Forall_take|by repeat constructor].
  - by apply js_trim_nospace.
Qed.

(** The test "long text truncation" ('a'.repeat(300)). *)
Lemma sanitizeInput_plain_witness :
  replicate 300 97%N ≠ [] ∧ Forall (λ c, plain_char c = true) (replicate 300 97%N) ∧
  sanitizeInput (JStr (replicate 300 97%N)) = take 197 (replicate 300 97%N) ++ js "...".
Proof.
  assert (Forall (λ c, plain_char c = true) (replicate 300 97%N)) as Hf
    by (apply Forall_replicate_N; reflexivity).
  split; [discriminate|]. split; [exact Hf|].
  rewrite (sanitizeInput_plain (replicate 300 97%N)); [reflexivity|discriminate|exact Hf].
Defined.

(** ** The repository's tests and the spec's guarantees, on concrete inputs *)

(** The sanitizer tests of [src/src/__tests__/helpers.test.ts] that
    the code passes: the XSS input keeps only its text, and the empty
    string, [null], [undefined] and a number give [""]. *)
Theorem sanitizeInput_tests_pass :
  sanitizeInput (JStr (js "<script>alert(" ++ [0x22]%N ++ js "xss" ++ [0x22]%N
                       ++ js ")</script>" ++ [0x6B63; 0x5E38; 0x5185; 0x5BB9]%N
                       ++ js "<iframe>test</iframe>"))
    = [0x6B63; 0x5E38; 0x5185; 0x5BB9]%N ∧
  sanitizeInput (JStr []) = [] ∧ sanitizeInput JNull = [] ∧
  sanitizeInput JUndefined = [] ∧ sanitizeInput (JNum 123) = [].
Proof. split_and!; vm_compute; reflexivity. Qed.

(** The two table tests fail: [sanitizeInput] deletes the tags but
    keeps the cell text "表格内容1", "表格内容2" and "阶段" that the tests
    expect to be gone (the class names are gone, as they expect). *)
Theorem sanitizeInput_table_tests_fail :
  let out1 := sanitizeInput (JStr (
    [0xA]%N ++ js "    " ++ [0x666E; 0x901A; 0x6587; 0x672C; 0x5185; 0x5BB9; 0xA]%N
    ++ js "    <div class=" ++ [0x22]%N ++ js "orca-no-editable-container" ++ [0x22]%N
    ++ js ">" ++ [0xA]%N ++ js "      <div class=" ++ [0x22]%N ++ js "orca-table2" ++ [0x22]%N
    ++ js ">" ++ [0xA]%N ++ js "        <div class=" ++ [0x22]%N ++ js "orca-table2-cell"
    ++ [0x22]%N ++ js ">" ++ [0x8868; 0x683C; 0x5185; 0x5BB9]%N ++ js "1</div>" ++ [0xA]%N
    ++ js "        <div class=" ++ [0x22]%N ++ js "orca-table2-cell" ++ [0x22]%N ++ js ">"
    ++ [0x8868; 0x683C; 0x5185; 0x5BB9]%N ++ js "2</div>" ++ [0xA]%N ++ js "      </div>"
    ++ [0xA]%N ++ js "    </div>" ++ [0xA]%N ++ js "    "
    ++ [0x66F4; 0x591A; 0x666E; 0x901A; 0x6587; 0x672C; 0xA]%N ++ js "    ")) in
  let out2 := sanitizeInput (JStr (
    [0xA]%N ++ js "    " ++ [0x6B63; 0x5E38; 0x5185; 0x5BB9; 0xA]%N ++ js "    <div class="
    ++ [0x22]%N ++ js "orca-table2-cell orca-table2-hl orca-table2-vc" ++ [0x22]%N ++ js ">"
    ++ [0xA]%N ++ js "      <div class=" ++ [0x22]%N ++ js "orca-container orca-block"
    ++ [0x22]%N ++ js ">" ++ [0xA]%N ++ js "        <span class=" ++ [0x22]%N
    ++ js "orca-inline" ++ [0x22]%N ++ js ">" ++ [0x9636; 0x6BB5]%N ++ js "</span>" ++ [0xA]%N
    ++ js "      </div>" ++ [0xA]%N ++ js "    </div>" ++ [0xA]%N ++ js "    "
    ++ [0x7ED3; 0x675F; 0x5185; 0x5BB9; 0xA]%N ++ js "    ")) in
  js_includes out1 (js "orca-table2") = false ∧
  js_includes out1 ([0x8868; 0x683C; 0x5185; 0x5BB9]%N ++ js "1") = true ∧
  js_includes out1 ([0x8868; 0x683C; 0x5185; 0x5BB9]%N ++ js "2") = true ∧
  js_includes out2 (js "orca-table2-cell") = false ∧
  js_includes out2 [0x9636; 0x6BB5]%N = true.
Proof. vm_compute. split_and!; reflexivity. Qed.

(** Tag removal runs after the [javascript:] filter, so a tag inside
    the scheme name reassembles it: the output contains "javascript:",
    and sanitizing the output again removes it, so [sanitizeInput] is not
    idempotent. *)
Theorem sanitizeInput_reassembles_js_uri :
  sanitizeInput (JStr (js "java<b>script:alert(1)")) = js "javascript:alert(1)" ∧
  sanitizeInput (JStr (sanitizeInput (JStr (js "java<b>script:alert(1)")))) = [].
Proof. split; vm_compute; reflexivity. Qed.

(** [.] does not match a line terminator, so a script element whose
    body spans a line is not removed by line 27; line 32 then deletes
    only its tags and the script body is kept as text. *)
Theorem sanitizeInput_multiline_script_kept :
  sanitizeInput (JStr (js "<script>" ++ [10%N] ++ js "alert(1)</script>ok")) = js "alert(1)ok".
Proof. vm_compute. reflexivity. Qed.

(** A [<script] with no closing [>] matches none of the patterns and
    is returned as it is. *)
Theorem sanitizeInput_keeps_unclosed_script :
  sanitizeInput (JStr (js "x<script")) = js "x<script".
Proof. vm_compute. reflexivity. Qed.

(** The output is trimmed: line 42 is the last step. *)
Lemma sanitizeInput_trimmed v : js_trim (sanitizeInput v) = sanitizeInput v.
Proof. destruct v; try done. unfold sanitizeInput. case_match; [done|apply js_trim_idem]. Qed.

End Sanitizer.
