(* ===== verification/JsObject.v ===== *)
(** * Plain JavaScript objects used as dictionaries

    The host hands the plugin its blocks as a [Record<string, Block>]: a
    plain object whose own properties are the block ids.  The code reads
    it with [allBlocks[id]] and enumerates it with [Object.keys].  An
    object is modelled as its own properties in creation order; the
    prototype chain is not modelled (see the root file).  [object_keys]
    follows OrdinaryOwnPropertyKeys (ECMAScript 2023 §10.1.11.1): array
    index keys first in ascending numeric order, then the other string
    keys in creation order. *)

From S2P Require Import Prelude.

Module JsObject.

Definition obj (A : Type) := list (jsstr * A).

(** [o[k]] for an own property. *)
Fixpoint obj_get {A} (o : obj A) (k : jsstr) : option A :=
  match o with
  | [] => None
  | (k', v) :: o' => if decide (k = k') then Some v else obj_get o' k
  end.

(** [o[k] = v]: an existing property keeps its place, a new one goes last. *)
Fixpoint obj_set {A} (o : obj A) (k : jsstr) (v : A) : obj A :=
  match o with
  | [] => [(k, v)]
  | (k', v') :: o' => if decide (k = k') then (k, v) :: o' else (k', v') :: obj_set o' k v
  end.

(** An object literal [{k1: v1, k2: v2, ...}]. *)
Definition obj_of_list {A} (l : list (jsstr * A)) : obj A :=
  fold_left (λ o kv, obj_set o kv.1 kv.2) l [].

(** Own property keys are distinct. *)
Definition obj_wf {A} (o : obj A) : Prop := NoDup o.*1.

Definition is_digit (c : N) : bool := (48 <=? c)%N && (c <=? 57)%N.

Fixpoint digits_value (acc : N) (s : jsstr) : N :=
  match s with
  | [] => acc
  | c :: r => digits_value (acc * 10 + (c - 48))%N r
  end.

(** A key is an array index when it is the canonical decimal form of an
    integer [i] with [0 <= i < 2^32 - 1]. *)
Definition array_index (k : jsstr) : option N :=
  match k with
  | [] => None
  | c :: r =>
      if forallb is_digit k && (negb (c =? 48)%N || bool_decide (r = [])) then
        let n := digits_value 0 k in
        if (n <? 4294967295)%N then Some n else None
      else None
  end.

Fixpoint insert_by_index (k : jsstr) (i : N) (l : list (jsstr * N)) : list (jsstr * N) :=
  match l with
  | [] => [(k, i)]
  | (k', i') :: l' => if (i <? i')%N then (k, i) :: l else (k', i') :: insert_by_index k i l'
  end.

Definition index_keys (ks : list jsstr) : list (jsstr * N) :=
  fold_right (λ k acc, match array_index k with Some i => insert_by_index k i acc | None => acc end) [] ks.

(** [Object.keys(o)]. *)
Definition object_keys {A} (o : obj A) : list jsstr :=
  (index_keys o.*1).*1 ++ List.filter (λ k, match array_index k with Some _ => false | None => true end) o.*1.

(** ** Properties *)

Lemma obj_get_Some {A} (o : obj A) k v : obj_get o k = Some v → k ∈ o.*1.
Proof.
  induction o as [|[k' v'] o IH]; simpl; [done|].
  case_decide as Hk; [intros _; subst; apply list_elem_of_here|].
  intros Hg. apply list_elem_of_further. by apply IH.
Qed.

Lemma obj_get_elem {A} (o : obj A) k : k ∈ o.*1 → is_Some (obj_get o k).
Proof.
  induction o as [|[k' v'] o IH]; simpl; [intros H; inversion H|].
  intros Hk. case_decide as Hd; [by eexists|]. apply IH.
  apply elem_of_cons in Hk as [->|Hk]; [done|exact Hk].
Qed.

Lemma insert_by_index_perm k i l : (insert_by_index k i l).*1 ≡ₚ k :: l.*1.
Proof.
  induction l as [|[k' i'] l IH]; [done|]. cbn [insert_by_index].
  destruct (i <? i')%N; [done|]. rewrite !fmap_cons, IH. simpl. apply perm_swap.
Qed.

Lemma index_keys_perm ks :
  (index_keys ks).*1 ≡ₚ List.filter (λ k, match array_index k with Some _ => true | None => false end) ks.
Proof.
  induction ks as [|k ks IH]; simpl; [done|].
  destruct (array_index k) as [i|]; [|done].
  rewrite insert_by_index_perm. by rewrite IH.
Qed.

Lemma filter_bool_split {B} (f : B → bool) (l : list B) :
  List.filter f l ++ List.filter (λ x, negb (f x)) l ≡ₚ l.
Proof.
  induction l as [|x l IH]; simpl; [done|].
  destruct (f x); simpl; [by rewrite IH|].
  rewrite <- Permutation_middle. by rewrite IH.
Qed.

(** [Object.keys] lists every own key exactly once. *)
Theorem object_keys_perm {A} (o : obj A) : object_keys o ≡ₚ o.*1.
Proof.
  unfold object_keys. rewrite index_keys_perm.
  etrans; [|apply (filter_bool_split (λ k, match array_index k with Some _ => true | None => false end))].
  assert (List.filter (λ k, match array_index k with Some _ => false | None => true end) o.*1 =
          List.filter (λ k, negb (match array_index k with Some _ => true | None => false end)) o.*1)
    as -> by (apply List.filter_ext; intros k; by destruct (array_index k)).
  reflexivity.
Qed.

Lemma obj_set_keys {A} (o : obj A) k v :
  (obj_set o k v).*1 = if decide (k ∈ o.*1) then o.*1 else o.*1 ++ [k].
Proof.
  induction o as [|[k' v'] o IH].
  - destruct (decide (k ∈ [])) as [H|H]; [inversion H|done].
  - cbn [obj_set]. destruct (decide (k = k')) as [->|Hne].
    + clear IH. rewrite !fmap_cons. simpl. case_decide as H; [done|].
      exfalso. apply H, list_elem_of_here.
    + rewrite !fmap_cons, IH. clear IH. simpl.
      case_decide as H1; case_decide as H2; try done.
      * exfalso. apply H2, list_elem_of_further, H1.
      * exfalso. apply elem_of_cons in H2 as [->|H2]; [done|]. by apply H1.
Qed.

Lemma obj_set_wf {A} (o : obj A) k v : obj_wf o → obj_wf (obj_set o k v).
Proof.
  unfold obj_wf. rewrite obj_set_keys. case_decide as H; [done|].
  intros Hnd. apply list.NoDup_app. split_and!; [done| |by apply list.NoDup_singleton].
  intros x Hx Hy. apply list_elem_of_singleton in Hy as ->. by apply H.
Qed.

Lemma obj_of_list_wf {A} (l : list (jsstr * A)) : obj_wf (obj_of_list l).
Proof.
  unfold obj_of_list. cut (∀ o, obj_wf o → obj_wf (fold_left (λ o kv, obj_set o kv.1 kv.2) l o)).
  { intros H. apply H. constructor. }
  induction l as [|[k v] l IH]; intros o Ho; simpl; [done|]. apply IH, obj_set_wf, Ho.
Qed.

Lemma object_keys_NoDup {A} (o : obj A) : obj_wf o → NoDup (object_keys o).
Proof. unfold obj_wf. intros H. by rewrite object_keys_perm. Qed.

Lemma elem_of_object_keys {A} (o : obj A) k : k ∈ object_keys o ↔ k ∈ o.*1.
Proof. by rewrite object_keys_perm. Qed.

Lemma obj_get_set {A} (o : obj A) k v k' :
  obj_get (obj_set o k v) k' = if decide (k' = k) then Some v else obj_get o k'.
Proof.
  induction o as [|[k0 v0] o IH]; simpl; [done|].
  destruct (decide (k = k0)) as [->|Hne]; simpl; [by case_decide|].
  rewrite IH. repeat case_decide; congruence.
Qed.

(** A property read from an object literal is one of the literal's
    entries. *)
Lemma obj_get_of_list {A} (l : list (jsstr * A)) k v :
  obj_get (obj_of_list l) k = Some v → (k, v) ∈ l.
Proof.
  unfold obj_of_list. cut (∀ o, obj_get (fold_left (λ o kv, obj_set o kv.1 kv.2) l o) k = Some v →
                              (k, v) ∈ l ∨ obj_get o k = Some v).
  { intros H Hg. by destruct (H [] Hg). }
  induction l as [|[k1 v1] l IH]; intros o Hg; simpl in *; [by right|].
  destruct (IH _ Hg) as [Hin|Ho]; [left; by apply list_elem_of_further|].
  rewrite obj_get_set in Ho. case_decide; simplify_eq; [left; apply list_elem_of_here|by right].
Qed.

End JsObject.
