(* ===== verification/Blocks.v ===== *)
(** * Blocks and the noise filter of [src/src/utils/helpers.ts]

    [Block] is the host's record ([src/src/types.ts], lines 2-9): every
    field may be absent at run time, so each is an [option].  The untyped
    [properties] field is never read by the code and is left out.

    [isTableRelatedBlock] (helpers.ts lines 5-16) flags text that looks
    like the cells of a table: text that contains one of two keywords, or
    whose trimmed form is a number, a dot, optional spaces and CJK
    ideographs.  [table_cell_pattern_spec] states the regular expression
    of line 13 declaratively. *)

From S2P Require Import Prelude JsRegex JsObject.
Import JsRegex JsObject.

Module Blocks.

Record Block := mkBlock {
  b_id : option jsstr;
  b_text : option jsstr;
  b_children : option (list jsstr);
  b_parent : option jsstr;
  b_type : option jsstr
}.

(** ['阶段'] and ['功能与特点']. *)
Definition tableKeywords : list jsstr :=
  [[0x9636; 0x6BB5]%N; [0x529F; 0x80FD; 0x4E0E; 0x7279; 0x70B9]%N].

(** [/^\d+\.\s*[一-鿿]+$/] *)
Definition re_table_cell : regex :=
  mkRegex [Bol; Rep true 1 None CDigit; Atom (CChar cu_dot); Rep true 0 None CSpace;
           Rep true 1 None (CRange 0x4E00 0x9FFF); Eol] false.

Definition isTableRelatedBlock (block : Block) : bool :=
  match b_text block with
  | None => false
  | Some text =>
      if negb (truthy text) then false else
      let hasTableKeyword := existsb (λ keyword, js_includes text keyword) tableKeywords in
      let isTableCellPattern := regex_test re_table_cell (js_trim text) in
      hasTableKeyword || isTableCellPattern
  end.

(** [block.type === 'table2'] *)
Definition is_table2 (block : Block) : bool := bool_decide (b_type block = Some (js "table2")).

Definition is_cjk (c : N) : bool := (0x4E00 <=? c)%N && (c <=? 0x9FFF)%N.

Lemma cls_in_digit c : cls_in false CDigit c = is_digit c.
Proof. simpl. apply orb_false_r. Qed.

Lemma cls_in_cjk c : cls_in false (CRange 0x4E00 0x9FFF) c = is_cjk c.
Proof. simpl. apply orb_false_r. Qed.

Lemma cls_in_space c : cls_in false CSpace c = is_js_space c.
Proof. simpl. apply orb_false_r. Qed.

Lemma Forall_cls {P : N → bool} {ic cl} (l : jsstr) :
  (∀ c, cls_in ic cl c = P c) → Forall (λ c, cls_in ic cl c = true) l ↔ Forall (λ c, P c = true) l.
Proof.
  intros HP. split; intros H; (eapply Forall_impl; [exact H|]); intros c Hc;
    [by rewrite <- HP|by rewrite HP].
Qed.

(** The numbered-cell pattern of line 13, declaratively: digits, a dot,
    whitespace, and at least one CJK ideograph, with nothing around. *)
Theorem table_cell_pattern_spec s :
  regex_test re_table_cell s = true ↔
  ∃ d w h, s = d ++ cu_dot :: w ++ h ∧ d ≠ [] ∧ h ≠ [] ∧
    Forall (λ c, is_digit c = true) d ∧ Forall (λ c, is_js_space c = true) w ∧
    Forall (λ c, is_cjk c = true) h.
Proof.
  rewrite regex_test_spec. split.
  - intros (k & n & Hs). apply search_Some in Hs as (_ & Hm & _).
    apply mi_sound in Hm as [_ Hr]. simpl in Hr.
    remember (take n (drop k s)) as m eqn:Em. remember (drop n (drop k s)) as t eqn:Et.
    apply mrel_bol_inv in Hr as [-> Hr].
    apply mrel_rep_inv in Hr as (d & w1 & -> & Hd & _ & Hdf & Hr).
    apply mrel_atom_inv in Hr as (c & w2 & -> & Hc & Hr).
    apply mrel_rep_inv in Hr as (w & w3 & -> & _ & _ & Hwf & Hr).
    apply mrel_rep_inv in Hr as (h & w4 & -> & Hh & _ & Hhf & Hr).
    apply mrel_eol_inv in Hr as (-> & -> & _).
    rewrite cls_in_char_nonletter in Hc by done. apply N.eqb_eq in Hc as <-.
    exists d, w, h. split_and!.
    + rewrite drop_0 in Em, Et. rewrite <- (take_drop n s), <- Em, <- Et. by rewrite !app_nil_r.
    + intros ->. simpl in Hd. lia.
    + intros ->. simpl in Hh. lia.
    + by apply (Forall_cls d cls_in_digit).
    + by apply (Forall_cls w cls_in_space).
    + by apply (Forall_cls h cls_in_cjk).
  - intros (d & w & h & -> & Hd & Hh & Hdf & Hwf & Hhf).
    assert (mrel false (re_items re_table_cell) 0 (d ++ cu_dot :: w ++ h) []) as Hr.
    { simpl. apply mr_bol. apply mr_rep; [destruct d; [done|simpl; lia]|done|by apply (Forall_cls d cls_in_digit)|].
      apply mr_atom; [done|]. apply mr_rep; [lia|done|by apply (Forall_cls w cls_in_space)|].
      rewrite <- (app_nil_r h). apply mr_rep; [destruct h; [done|simpl; lia]|done|by apply (Forall_cls h cls_in_cjk)|].
      apply mr_eol, mr_nil. }
    apply mi_complete in Hr as [n Hn]. rewrite app_nil_r in Hn.
    exists 0, n. by apply search_hit.
Qed.

End Blocks.
