(* ===== verification/TreeBuilder.v ===== *)
(** * [buildTree] of [src/src/utils/helpers.ts] (lines 46-87)

    [buildTree(blockId, allBlocks, level)] turns the block graph below
    [blockId] into a tree of display nodes.  The JavaScript function
    recurses once per child and has no guard against cycles, so it can
    recurse until the engine's stack overflows ([RangeError]).  The model
    makes that visible: [buildTree fuel ...] returns [None] when the
    recursion is deeper than [fuel], which stands for the call stack.

    - [buildTree_fuel_mono]: a result, once reached, does not change with
      more fuel;
    - [buildTree_terminates]: under a rank that decreases along every
      edge the recursion follows, enough fuel gives a result;
    - [buildTree_cycle_diverges]: a cycle through blocks the recursion
      enters makes every call on the cycle fail for every fuel;
    - [buildTree_wf], [buildTree_nodes_sound]: the shape of the result and
      where each node's text comes from. *)

From S2P Require Import Prelude JsRegex Sanitizer JsObject Blocks.
Import JsRegex Sanitizer JsObject Blocks.

Module TreeBuilder.

(** [TreeNode] of [src/src/types.ts] (lines 11-17). *)
Inductive TreeNode := mkTreeNode {
  t_id : jsstr;
  t_content : jsstr;
  t_children : list TreeNode;
  t_level : nat;
  t_parent : option jsstr
}.

(** The filter of lines 73-76: [childBlock && childBlock.id && childBlock.text?.trim()]. *)
Definition child_ok (allBlocks : obj Block) (childId : jsstr) : bool :=
  match obj_get allBlocks childId with
  | Some childBlock => opt_truthy (b_id childBlock) && opt_truthy (js_trim <$> b_text childBlock)
  | None => false
  end.

(** [sanitizeInput(block.text || '')] *)
Definition block_content (block : Block) : jsstr :=
  sanitizeInput (JStr (default [] (b_text block))).

(** The children the recursion descends into (lines 72-76). *)
Definition kids (allBlocks : obj Block) (block : Block) : list jsstr :=
  List.filter (child_ok allBlocks) (default [] (b_children block)).

(** The test of line 62: the node is kept empty and not expanded. *)
Definition suppressed (block : Block) : bool :=
  negb (truthy (js_trim (block_content block))) || is_table2 block || isTableRelatedBlock block.

Fixpoint buildTree (fuel : nat) (blockId : jsstr) (allBlocks : obj Block) (level : nat)
    : option TreeNode :=
  match fuel with
  | O => None
  | S fuel' =>
      match obj_get allBlocks blockId with
      | Some block =>
          if negb (opt_truthy (b_id block)) then
            Some (mkTreeNode (if truthy blockId then blockId else js "unknown") [] [] level None)
          else
          let content := block_content block in
          if suppressed block then
            Some (mkTreeNode (default [] (b_id block)) [] [] level (b_parent block))
          else
          match mapM (λ childId, buildTree fuel' childId allBlocks (S level)) (kids allBlocks block) with
          | Some nodes =>
              let children := List.filter (λ child, 0 <? length (js_trim (t_content child))) nodes in
              Some (mkTreeNode (default [] (b_id block)) content children level (b_parent block))
          | None => None
          end
      | None =>
          Some (mkTreeNode (if truthy blockId then blockId else js "unknown") [] [] level None)
      end
  end.

(** ** The recursion as a relation on keys *)

(** [k] is a block that the recursion expands: it exists, has an id and
    is not suppressed. *)
Definition expands (o : obj Block) (k : jsstr) : bool :=
  match obj_get o k with
  | Some block => opt_truthy (b_id block) && negb (suppressed block)
  | None => false
  end.

(** One recursive call of line 77: from [k] to one of its kept children. *)
Definition step (o : obj Block) (k c : jsstr) : Prop :=
  ∃ block, obj_get o k = Some block ∧ expands o k = true ∧ c ∈ kids o block.

(** ** Fixtures of [src/src/__tests__/helpers.test.ts] *)

(** The blocks of the test "构建树形结构" (lines 7-12). *)
Definition test_blocks : obj Block :=
  obj_of_list [
    (js "1", mkBlock (Some (js "1")) (Some [0x6839; 0x8282; 0x70B9]%N) (Some [js "2"; js "3"]) None None);
    (js "2", mkBlock (Some (js "2")) (Some ([0x5B50; 0x8282; 0x70B9]%N ++ js "1")) (Some []) None None);
    (js "3", mkBlock (Some (js "3")) (Some ([0x5B50; 0x8282; 0x70B9]%N ++ js "2")) (Some [js "4"]) None None);
    (js "4", mkBlock (Some (js "4")) (Some [0x5B59; 0x8282; 0x70B9]%N) (Some []) None None)].

(** The tree the test expects (lines 16-22). *)
Definition test_tree : TreeNode :=
  mkTreeNode (js "1") [0x6839; 0x8282; 0x70B9]%N
    [mkTreeNode (js "2") ([0x5B50; 0x8282; 0x70B9]%N ++ js "1") [] 1 None;
     mkTreeNode (js "3") ([0x5B50; 0x8282; 0x70B9]%N ++ js "2")
       [mkTreeNode (js "4") [0x5B59; 0x8282; 0x70B9]%N [] 2 None] 1 None] 0 None.

(** The blocks of the test "处理不存在的块" (lines 65-67). *)
Definition test_blocks_missing : obj Block :=
  obj_of_list [(js "1", mkBlock (Some (js "1")) (Some [0x5B58; 0x5728; 0x7684; 0x5757]%N) (Some []) None None)].

(** Two blocks that list each other as children. *)
Definition cycle_blocks : obj Block :=
  obj_of_list [(js "a", mkBlock (Some (js "a")) (Some (js "A")) (Some [js "b"]) None None);
               (js "b", mkBlock (Some (js "b")) (Some (js "B")) (Some [js "a"]) (Some (js "a")) None)].

(** A rank for [test_blocks]: the height of each block. *)
Definition test_rank (k : jsstr) : nat :=
  if bool_decide (k = js "1") then 2 else if bool_decide (k = js "3") then 1 else 0.

(** ** Properties of every node of a tree *)

Fixpoint tree_all (P : TreeNode → Prop) (t : TreeNode) : Prop :=
  P t ∧ (fix go (ts : list TreeNode) : Prop :=
           match ts with [] => True | t' :: ts' => tree_all P t' ∧ go ts' end) (t_children t).

(** Where a node's text comes from: a node has no text, or its text is
    [sanitizeInput(block.text || '')] of a block of [allBlocks] that has
    this node's id and is not suppressed. *)
Definition node_sound (o : obj Block) (n : TreeNode) : Prop :=
  t_content n = [] ∨
  ∃ k block, obj_get o k = Some block ∧ b_id block = Some (t_id n) ∧
    suppressed block = false ∧ t_content n = block_content block.

(** The shape of lines 72-86: each child is one level deeper than its
    parent and has text that is not blank. *)
Definition node_shape (n : TreeNode) : Prop :=
  Forall (λ c, t_level c = S (t_level n) ∧ 0 < length (js_trim (t_content c))) (t_children n).

Lemma buildTree_S_expand fuel k o level block :
  obj_get o k = Some block → opt_truthy (b_id block) = true → suppressed block = false →
  buildTree (S fuel) k o level =
  (λ nodes, mkTreeNode (default [] (b_id block)) (block_content block)
     (List.filter (λ child, 0 <? length (js_trim (t_content child))) nodes) level (b_parent block))
  <$> mapM (λ childId, buildTree fuel childId o (S level)) (kids o block).
Proof. intros Hg Hid Hs. simpl. rewrite Hg, Hid, Hs. simpl. by destruct (mapM _ _). Qed.

(** Every call that does not expand its block returns at once. *)
Lemma buildTree_S_leaf fuel k o level :
  expands o k = false →
  ∃ t, buildTree (S fuel) k o level = Some t ∧ t_content t = [] ∧ t_children t = [] ∧ t_level t = level.
Proof.
  unfold expands. simpl. destruct (obj_get o k) as [block|]; [|by eexists].
  destruct (opt_truthy (b_id block)); simpl; [|by eexists].
  intros Hs. apply negb_false_iff in Hs. rewrite Hs. by eexists.
Qed.

(** A call that does not expand its block does not use its fuel. *)
Lemma buildTree_S_leaf_indep n m k o level :
  expands o k = false → buildTree (S n) k o level = buildTree (S m) k o level.
Proof.
  unfold expands. simpl. destruct (obj_get o k) as [block|]; [|done].
  destruct (opt_truthy (b_id block)); simpl; [|done].
  intros Hs. apply negb_false_iff in Hs. by rewrite Hs.
Qed.

(** ** Fuel *)

(** More fuel never changes a result: the fuel only stands for the
    call stack. *)
Theorem buildTree_fuel_mono n m k o level t :
  buildTree n k o level = Some t → n ≤ m → buildTree m k o level = Some t.
Proof.
  revert m k level t. induction n as [|n IH]; intros [|m] k level t Hb Hnm; try done; [lia|].
  destruct (expands o k) eqn:He.
  - unfold expands in He. destruct (obj_get o k) as [block|] eqn:Hg; [|done].
    apply andb_true_iff in He as [Hid Hs]. apply negb_true_iff in Hs.
    rewrite (buildTree_S_expand n _ _ _ block) in Hb by done.
    rewrite (buildTree_S_expand m _ _ _ block) by done.
    destruct (mapM _ (kids o block)) as [nodes|] eqn:Hm; [|done].
    rewrite (mapM_Some_2 _ _ nodes); [done|].
    apply mapM_Some_1 in Hm. eapply Forall2_impl; [apply Hm|]. intros c y Hc. apply IH; [done|lia].
  - by rewrite (buildTree_S_leaf_indep m n).
Qed.

(** [C3] Termination: if some rank of the keys decreases along every step
    of the recursion, a fuel above the rank of the start key gives a
    result.  (A rank exists exactly when no cycle is reachable.) *)
Theorem buildTree_terminates o (rank : jsstr → nat) :
  (∀ k c, step o k c → rank c < rank k) →
  ∀ fuel k level, rank k < fuel → is_Some (buildTree fuel k o level).
Proof.
  intros Hrank fuel. induction fuel as [|fuel IH]; intros k level Hk; [lia|].
  destruct (expands o k) eqn:He.
  - unfold expands in He. destruct (obj_get o k) as [block|] eqn:Hg; [|done].
    pose proof He as He'. apply andb_true_iff in He as [Hid Hs]. apply negb_true_iff in Hs.
    rewrite (buildTree_S_expand _ _ _ _ block) by done.
    apply fmap_is_Some, mapM_is_Some_2, Forall_forall. intros c Hc. apply IH.
    assert (rank c < rank k); [|lia]. apply Hrank. exists block. unfold expands. rewrite Hg.
    split_and!; [done|done|exact Hc].
  - destruct (buildTree_S_leaf fuel k o level He) as (t & -> & _). by eexists.
Qed.

(** A key the recursion can reach again from itself never returns. *)
Lemma buildTree_tc_None o k :
  tc (step o) k k → ∀ fuel level, buildTree fuel k o level = None.
Proof.
  intros Hk fuel. revert k Hk. induction fuel as [|fuel IH]; intros k Hk level; [done|].
  destruct (tc_first _ _ _ Hk) as (y & Hstep & Hyk).
  pose proof Hstep as (block & Hg & He & Hy).
  unfold expands in He. rewrite Hg in He.
  apply andb_true_iff in He as [Hid Hs]. apply negb_true_iff in Hs.
  rewrite (buildTree_S_expand _ _ _ _ block) by done.
  rewrite mapM_None_2; [done|]. apply Exists_exists. exists y.
  split; [exact Hy|]. apply IH.
  eapply tc_rtc_l; [apply Hyk|]. by apply tc_once.
Qed.

(** [C1] Cycles: the code keeps no set of visited blocks, so a key from
    which the recursion can come back to itself makes [buildTree] fail
    for every fuel: in the running program the recursion exhausts the
    stack. *)
Theorem buildTree_cycle_diverges o k :
  tc (step o) k k → ∀ fuel level, buildTree fuel k o level = None.
Proof. apply buildTree_tc_None. Qed.

(** ** Shape and provenance of the result *)

Lemma tree_all_eq P t : tree_all P t ↔ P t ∧ Forall (tree_all P) (t_children t).
Proof.
  destruct t as [i c ts l p]. simpl. apply and_iff_compat_l.
  induction ts as [|t ts IH]; simpl; [split; [constructor|done]|].
  rewrite Forall_cons, IH. done.
Qed.

Lemma tree_all_leaf P t : t_children t = [] → P t → tree_all P t.
Proof. intros Hc HP. apply tree_all_eq. rewrite Hc. by split. Qed.

Lemma tree_all_and P Q t : tree_all P t → tree_all Q t → tree_all (λ n, P n ∧ Q n) t.
Proof.
  revert t. fix IH 1. intros [i c ts l p] HP HQ.
  apply tree_all_eq in HP as [HP HPs], HQ as [HQ HQs]. apply tree_all_eq. split; [done|]. simpl in *.
  clear -IH HPs HQs. induction ts as [|t ts IHts]; constructor;
    [apply IH; [apply (Forall_inv HPs)|apply (Forall_inv HQs)]|].
  apply IHts; [apply (Forall_inv_tail HPs)|apply (Forall_inv_tail HQs)].
Qed.

Lemma tree_all_impl (P Q : TreeNode → Prop) t : (∀ n, P n → Q n) → tree_all P t → tree_all Q t.
Proof.
  intros HPQ. revert t. fix IH 1. intros [i c ts l p] HP.
  apply tree_all_eq in HP as [HP HPs]. apply tree_all_eq. split; [by apply HPQ|]. simpl in *.
  clear -IH HPs. induction ts as [|t ts IHts]; constructor; [apply IH, (Forall_inv HPs)|].
  apply IHts, (Forall_inv_tail HPs).
Qed.

(** The invariant of a successful call, by induction on the fuel. *)
Lemma buildTree_inv fuel k o level t :
  buildTree fuel k o level = Some t →
  t_level t = level ∧ tree_all (λ n, node_sound o n ∧ node_shape n) t.
Proof.
  revert k level t. induction fuel as [|fuel IH]; intros k level t Hb; [done|].
  destruct (expands o k) eqn:He.
  - unfold expands in He. destruct (obj_get o k) as [block|] eqn:Hg; [|done].
    apply andb_true_iff in He as [Hid Hs]. apply negb_true_iff in Hs.
    rewrite (buildTree_S_expand _ _ _ _ block) in Hb by done.
    destruct (mapM _ (kids o block)) as [nodes|] eqn:Hm; [|done].
    cbn [fmap option_fmap option_map] in Hb. injection Hb as <-.
    assert (Forall (λ c, t_level c = S level ∧ tree_all (λ n, node_sound o n ∧ node_shape n) c) nodes)
      as Hn by (eapply mapM_Some_Forall; [exact Hm|]; intros x y _; apply IH).
    split; [done|]. apply tree_all_eq. cbn [t_children t_level t_content t_id]. split_and!.
    + right. exists k, block. destruct (b_id block) as [i|]; [done|discriminate].
    + unfold node_shape. cbn [t_children t_level]. apply Forall_and; split.
      * apply Forall_List_filter. eapply Forall_impl; [exact Hn|]. by intros c [-> _].
      * eapply Forall_impl; [apply Forall_List_filter_true|]. intros c. simpl. apply Nat.ltb_lt.
    + apply Forall_List_filter. eapply Forall_impl; [exact Hn|]. by intros c [_ ?].
  - destruct (buildTree_S_leaf fuel k o level He) as (t' & Ht & Hc & Hch & Hl).
    rewrite Ht in Hb. injection Hb as <-. split; [done|].
    apply tree_all_leaf; [done|]. split; [by left|]. unfold node_shape. rewrite Hch. constructor.
Qed.

(** [C8] Shape: the root of a successful call is at the requested level,
    and in the whole tree every child is one level below its parent and
    has text that [trim] leaves non-empty. *)
Theorem buildTree_wf fuel k o level t :
  buildTree fuel k o level = Some t → t_level t = level ∧ tree_all node_shape t.
Proof.
  intros Hb. destruct (buildTree_inv _ _ _ _ _ Hb) as [Hl Ha]. split; [done|].
  eapply tree_all_impl; [|exact Ha]. by intros n [_ ?].
Qed.


(** [C4] Markup safety of the tree: [renderTreeAsHTML] of
    [src/src/components/MindMap.ts] writes each node's content into the
    page as HTML, and no node of a tree built by [buildTree] has a [<]
    followed later by a [>] in its content: no complete tag comes from a
    node's content alone (the markup around it can still close one, see
    [Renderer.rendered_content_closes_tag]). *)
Theorem buildTree_content_tag_free fuel k o level t :
  buildTree fuel k o level = Some t →
  tree_all (λ n, ¬ ∃ a b c, t_content n = a ++ cu_lt :: b ++ cu_gt :: c) t.
Proof.
  intros Hb. eapply tree_all_impl; [|apply (buildTree_inv _ _ _ _ _ Hb)].
  intros n [[->|(k' & block & _ & _ & _ & ->)] _] (a & b & c & E).
  - by destruct a.
  - apply (sanitizeInput_tag_free (JStr (default [] (b_text block)))).
    unfold block_content in E. rewrite E. apply tag_sublist.
Qed.

(** A key with no block (or a block without an id) gives an empty
    leaf whose id is the key, or ['unknown'] for the empty key
    (lines 49-57): the error is a value, not an exception. *)
Theorem buildTree_missing fuel k o level :
  obj_get o k = None →
  buildTree (S fuel) k o level = Some (mkTreeNode (if truthy k then k else js "unknown") [] [] level None).
Proof. intros Hg. simpl. by rewrite Hg. Qed.

(** The test "处理不存在的块" of [helpers.test.ts] (lines 64-74)
    expects the text '未知块' for a missing block; the code gives the
    empty text, so the test fails. *)
Theorem buildTree_missing_test_fails fuel :
  ∃ t, buildTree (S fuel) (js "999") test_blocks_missing 0 = Some t ∧
    t_id t = js "999" ∧ t_children t = [] ∧ t_content t = [] ∧ t_content t ≠ [0x672A; 0x77E5; 0x5757]%N.
Proof. eexists. split; [reflexivity|]. by split_and!. Qed.

(** The test "构建树形结构" (lines 6-23): from block '1' the code
    builds exactly the tree the test expects; three nested calls suffice. *)
Example buildTree_test_tree : buildTree 3 (js "1") test_blocks 0 = Some test_tree.
Proof. vm_compute. reflexivity. Qed.

(** ** The fixtures satisfy the hypotheses *)

Lemma test_rank_decreases : ∀ k c, step test_blocks k c → test_rank c < test_rank k.
Proof.
  intros k c (block & Hg & _ & Hc). apply obj_get_of_list in Hg.
  rewrite !elem_of_cons, elem_of_nil in Hg. apply list_elem_of_In in Hc.
  destruct Hg as [Hg|[Hg|[Hg|[Hg|[]]]]]; injection Hg as -> ->; vm_compute in Hc;
    intuition subst; vm_compute; lia.
Qed.

Lemma cycle_blocks_cycle : tc (step cycle_blocks) (js "a") (js "a").
Proof.
  apply (tc_l _ _ (js "b")); [|apply tc_once]; (eexists; split; [reflexivity|split; [reflexivity|]]); decide_vm.
Qed.

Lemma buildTree_cycle_diverges_witness :
  tc (step cycle_blocks) (js "a") (js "a") ∧ buildTree 1000 (js "a") cycle_blocks 0 = None.
Proof. split; [apply cycle_blocks_cycle|]. apply buildTree_cycle_diverges, cycle_blocks_cycle. Defined.

Lemma buildTree_terminates_witness : is_Some (buildTree 3 (js "1") test_blocks 0).
Proof. apply (buildTree_terminates test_blocks test_rank); [apply test_rank_decreases|vm_compute; lia]. Defined.

Lemma buildTree_fuel_mono_witness : buildTree 100 (js "1") test_blocks 0 = Some test_tree.
Proof. apply (buildTree_fuel_mono 3); [vm_compute; reflexivity|lia]. Defined.

Lemma buildTree_wf_witness : t_level test_tree = 0 ∧ tree_all node_shape test_tree.
Proof. apply (buildTree_wf 3 (js "1") test_blocks). vm_compute. reflexivity. Defined.


Lemma buildTree_content_tag_free_witness :
  tree_all (λ n, ¬ ∃ a b c, t_content n = a ++ cu_lt :: b ++ cu_gt :: c) test_tree.
Proof. apply (buildTree_content_tag_free 3 (js "1") test_blocks 0). vm_compute. reflexivity. Defined.

Lemma buildTree_missing_witness :
  buildTree 1 (js "999") test_blocks_missing 0 = Some (mkTreeNode (js "999") [] [] 0 None).
Proof. apply (buildTree_missing 0 (js "999") test_blocks_missing 0). vm_compute. reflexivity. Defined.

End TreeBuilder.
