(* ===== verification/RootDiscovery.v ===== *)
(** * [findRootBlocks] of [src/src/utils/helpers.ts] (lines 90-104)

    The roots are the keys, in [Object.keys] order, of the blocks that
    have an id and non-blank text, are not table related, and whose
    [parent] is unset or names no block of the mapping. *)

From S2P Require Import Prelude JsRegex JsObject Blocks.
Import JsRegex JsObject Blocks.

Module RootDiscovery.

(** The filter of lines 92-103. *)
Definition is_root (blocks : obj Block) (id : jsstr) : bool :=
  match obj_get blocks id with
  | None => false
  | Some block =>
      if negb (opt_truthy (b_id block)) || negb (opt_truthy (js_trim <$> b_text block)) then false
      else if is_table2 block || isTableRelatedBlock block then false
      else negb (opt_truthy (b_parent block)) ||
           match b_parent block with
           | Some p => match obj_get blocks p with Some _ => false | None => true end
           | None => true
           end
  end.

Definition findRootBlocks (blocks : obj Block) : list jsstr :=
  let allBlockIds := object_keys blocks in
  List.filter (is_root blocks) allBlockIds.

(** The blocks of the test "查找根块" of [helpers.test.ts] (lines 44-48). *)
Definition test_root_blocks : obj Block :=
  obj_of_list [
    (js "1", mkBlock (Some (js "1")) (Some ([0x6839; 0x8282; 0x70B9]%N ++ js "1")) (Some [js "2"]) None None);
    (js "2", mkBlock (Some (js "2")) (Some [0x5B50; 0x8282; 0x70B9]%N) (Some []) (Some (js "1")) None);
    (js "3", mkBlock (Some (js "3")) (Some ([0x6839; 0x8282; 0x70B9]%N ++ js "2")) (Some []) None None)].

(** Three parentless blocks created in the order ["b"], ["10"], ["2"]. *)
Definition order_blocks : obj Block :=
  obj_of_list [
    (js "b", mkBlock (Some (js "b")) (Some (js "B")) (Some []) None None);
    (js "10", mkBlock (Some (js "10")) (Some (js "X")) (Some []) None None);
    (js "2", mkBlock (Some (js "2")) (Some (js "Y")) (Some []) None None)].

(** ** Properties *)

Lemma is_root_true blocks id :
  is_root blocks id = true ↔
  ∃ block, obj_get blocks id = Some block ∧ opt_truthy (b_id block) = true ∧
    opt_truthy (js_trim <$> b_text block) = true ∧ is_table2 block = false ∧
    isTableRelatedBlock block = false ∧
    (∀ p, b_parent block = Some p → truthy p = true → obj_get blocks p = None).
Proof.
  unfold is_root. destruct (obj_get blocks id) as [block|]; [|split; [done|by intros (? & ? & _)]].
  split.
  - destruct (opt_truthy (b_id block)) eqn:Hi, (opt_truthy (js_trim <$> b_text block)) eqn:Ht;
      simpl; try done.
    destruct (is_table2 block) eqn:H2, (isTableRelatedBlock block) eqn:Hr; simpl; try done.
    intros Hp. exists block. split_and!; try done.
    intros p Hbp Htp. rewrite Hbp in Hp. simpl in Hp. rewrite Htp in Hp. simpl in Hp.
    by destruct (obj_get blocks p).
  - intros (b & [= <-] & -> & -> & -> & -> & Hp). simpl.
    destruct (b_parent block) as [p|]; [|done]. simpl.
    destruct (truthy p) eqn:Htp; [|done]. by rewrite (Hp p eq_refl Htp).
Qed.

(** [C30] Root discovery (spec 4.3): a key is returned exactly when it
    names a block that has an id and non-blank text, is neither a
    [table2] block nor table related, and whose parent is unset, empty, or
    names no block of the mapping. *)
Theorem findRootBlocks_spec blocks id :
  id ∈ findRootBlocks blocks ↔
  ∃ block, obj_get blocks id = Some block ∧ opt_truthy (b_id block) = true ∧
    opt_truthy (js_trim <$> b_text block) = true ∧ is_table2 block = false ∧
    isTableRelatedBlock block = false ∧
    (∀ p, b_parent block = Some p → truthy p = true → obj_get blocks p = None).
Proof.
  unfold findRootBlocks. rewrite list_elem_of_In, filter_In, <- list_elem_of_In, elem_of_object_keys.
  rewrite <- is_root_true. split; [by intros [_ ?]|].
  intros Hr. split; [|done]. unfold is_root in Hr.
  destruct (obj_get blocks id) eqn:Hg; [|done]. by eapply obj_get_Some.
Qed.

(** Each root is listed once when the mapping's keys are distinct,
    and the roots come in the order of [Object.keys]. *)
Theorem findRootBlocks_NoDup_ordered blocks :
  obj_wf blocks → NoDup (findRootBlocks blocks) ∧ findRootBlocks blocks `sublist_of` object_keys blocks.
Proof.
  intros Hwf. assert (findRootBlocks blocks `sublist_of` object_keys blocks) as Hs.
  { unfold findRootBlocks. induction (object_keys blocks) as [|k ks IH]; simpl; [done|].
    destruct (is_root blocks k); [by apply sublist_skip|by apply sublist_cons]. }
  split; [|done]. apply (sublist_NoDup _ (object_keys blocks)); [by apply object_keys_NoDup|exact Hs].
Qed.

(** The test "查找根块" (lines 43-56) passes: the roots are '1'
    and '3'. *)
Example findRootBlocks_test : findRootBlocks test_root_blocks = [js "1"; js "3"].
Proof. vm_compute. reflexivity. Qed.

(** The spec (4.3) names insertion order as the reference order, but
    [Object.keys] lists integer-like keys first in ascending numeric
    order: blocks created as ['b'], ['10'], ['2'] come back as ['2'],
    ['10'], ['b']. *)
Example findRootBlocks_key_order :
  order_blocks.*1 = [js "b"; js "10"; js "2"] ∧ findRootBlocks order_blocks = [js "2"; js "10"; js "b"].
Proof. split; vm_compute; reflexivity. Qed.

Lemma findRootBlocks_NoDup_ordered_witness :
  NoDup (findRootBlocks test_root_blocks) ∧ findRootBlocks test_root_blocks `sublist_of` object_keys test_root_blocks.
Proof. apply findRootBlocks_NoDup_ordered, obj_of_list_wf. Defined.

End RootDiscovery.
