(* ===== verification/TreeSpec.v ===== *)
(** * The tree builder of spec 4.2, and the code as its refinement

    [spec_build] is written from the text of spec 4.2, not from the code:
    the missing-block policy with its placeholder, the noise filter (the
    reserved tabular-cell type or the keyword and numbered-cell tests of
    [Blocks]), the gate on children (the block resolves and its trimmed
    text is not empty), the set of identifiers on the current path that
    the spec requires, [content = sanitize(block.text)], and the filter
    that keeps only children with non-empty content.  It returns for the
    fuel [|blocks| + 1] on every input ([spec_build_total]).

    [spec_buildTree_refines] compares the code with it: on a mapping in
    which every block carries its own key as [id] (the data model of
    spec 3), wherever [buildTree] returns from a root that resolves, the
    spec's builder returns the same tree.  The two differ on a missing
    root, where the code gives the empty text and the spec (with the test
    of helpers.test.ts line 72) the placeholder, and on cyclic input,
    where the code exhausts the stack. *)

From S2P Require Import Prelude JsRegex Sanitizer JsObject Blocks TreeBuilder.
Import JsRegex Sanitizer JsObject Blocks TreeBuilder.

Module TreeSpec.

(** The localized placeholder of the missing-block policy (['未知块']). *)
Definition unknown_block : jsstr := [0x672A; 0x77E5; 0x5757]%N.

(** The reserved tabular-cell tag of the data model. *)
Definition tabular_cell : jsstr := js "table2".

(** The noise-filter policy. *)
Definition noise (b : Block) : bool := bool_decide (b_type b = Some tabular_cell) || isTableRelatedBlock b.

(** [sanitize(block.text)]: an absent text is not a string. *)
Definition spec_content (b : Block) : jsstr :=
  match b_text b with Some t => sanitizeInput (JStr t) | None => [] end.

(** The gate on a child identifier: it resolves and its trimmed text is
    not empty. *)
Definition gate (o : obj Block) (c : jsstr) : bool :=
  match obj_get o c with
  | Some b => match b_text b with Some t => negb (bool_decide (js_trim t = [])) | None => false end
  | None => false
  end.

(** The builder of spec 4.2; [path] is the per-call-stack visited set. *)
Fixpoint spec_build (fuel : nat) (path : list jsstr) (k : jsstr) (o : obj Block) (level : nat)
    : option TreeNode :=
  match fuel with
  | O => None
  | S fuel' =>
      match obj_get o k with
      | None => Some (mkTreeNode k unknown_block [] level None)
      | Some b =>
          let content := spec_content b in
          if bool_decide (content = []) || noise b then
            Some (mkTreeNode (default k (b_id b)) [] [] level (b_parent b))
          else
            let next := List.filter (λ c, gate o c && negb (bool_decide (c ∈ k :: path)))
                          (default [] (b_children b)) in
            (λ nodes, mkTreeNode (default k (b_id b)) content
                        (List.filter (λ n, negb (bool_decide (t_content n = []))) nodes) level (b_parent b))
              <$> mapM (λ c, spec_build fuel' (k :: path) c o (S level)) next
      end
  end.

(** The builder started with the fuel that is always enough. *)
Definition spec_buildTree (k : jsstr) (o : obj Block) (level : nat) : option TreeNode :=
  spec_build (S (length o)) [] k o level.

(** Every block carries its own, non-empty key as [id]. *)
Definition well_keyed (o : obj Block) : Prop :=
  ∀ k b, obj_get o k = Some b → b_id b = Some k ∧ k ≠ [].

Definition keyed_check (o : obj Block) : bool :=
  forallb (λ kv, bool_decide (b_id kv.2 = Some kv.1) && truthy kv.1) o.

(** The keys not on the path: the measure of the recursion. *)
Definition unvisited (o : obj Block) (path : list jsstr) : nat :=
  length (List.filter (λ c, negb (bool_decide (c ∈ path))) o.*1).

(** ** The two builders step by step *)

Lemma keyed_check_sound o : keyed_check o = true → well_keyed o.
Proof.
  induction o as [|[k' b'] o IH]; intros Hc k b; simpl; [done|].
  apply andb_true_iff in Hc as [Hkb Hc]. apply andb_true_iff in Hkb as [Hid Ht].
  destruct (decide (k = k')) as [->|]; [intros [= <-]; split; [by apply bool_decide_eq_true in Hid|by destruct k']|].
  by apply IH.
Qed.

Lemma spec_content_block_content b : spec_content b = block_content b.
Proof. unfold spec_content, block_content. by destruct (b_text b). Qed.

Lemma negb_truthy s : negb (truthy s) = bool_decide (s = []).
Proof. destruct s; [done|]. by rewrite bool_decide_eq_false_2. Qed.

(** The code's test of line 62 is the spec's: the sanitized text is
    already trimmed. *)
Lemma suppressed_spec b : suppressed b = bool_decide (spec_content b = []) || noise b.
Proof.
  unfold suppressed, noise, is_table2, tabular_cell. rewrite spec_content_block_content.
  unfold block_content at 1. rewrite sanitizeInput_trimmed, negb_truthy. by rewrite orb_assoc.
Qed.

(** On a well-keyed mapping the code's filter of lines 73-76 is the gate. *)
Lemma gate_child_ok o c : well_keyed o → gate o c = child_ok o c.
Proof.
  intros Hwk. unfold gate, child_ok. destruct (obj_get o c) as [b|] eqn:Hg; [|done].
  destruct (Hwk c b Hg) as [-> Hne]. cbn [opt_truthy]. destruct c as [|x c]; [done|]. change (truthy (x :: c)) with true.
  destruct (b_text b); [|done]. cbn [fmap option_fmap option_map opt_truthy andb].
  by rewrite <- negb_truthy, negb_involutive.
Qed.

Lemma buildTree_S_suppressed fuel k o level b :
  obj_get o k = Some b → opt_truthy (b_id b) = true → suppressed b = true →
  buildTree (S fuel) k o level = Some (mkTreeNode (default [] (b_id b)) [] [] level (b_parent b)).
Proof. intros Hg Hid Hs. simpl. by rewrite Hg, Hid, Hs. Qed.

(** Every node [buildTree] returns has trimmed content. *)
Lemma buildTree_trimmed fuel k o level t :
  buildTree fuel k o level = Some t → js_trim (t_content t) = t_content t.
Proof.
  intros Hb. destruct (buildTree_inv _ _ _ _ _ Hb) as [_ Ha]. apply tree_all_eq in Ha as [[Hs _] _].
  destruct Hs as [->|(k' & b & _ & _ & _ & ->)]; [done|apply sanitizeInput_trimmed].
Qed.

(** The code's filter of line 78 is the spec's on trimmed contents. *)
Lemma content_filter_spec (nodes : list TreeNode) :
  Forall (λ n, js_trim (t_content n) = t_content n) nodes →
  List.filter (λ child, 0 <? length (js_trim (t_content child))) nodes =
  List.filter (λ n, negb (bool_decide (t_content n = []))) nodes.
Proof.
  intros Hn. apply filter_ext_in. intros n Hin. eapply Forall_forall in Hn; [|by apply list_elem_of_In].
  rewrite Hn, <- negb_truthy, negb_involutive. by destruct (t_content n).
Qed.

Lemma spec_build_S fuel V k o level b :
  obj_get o k = Some b →
  spec_build (S fuel) V k o level =
  if bool_decide (spec_content b = []) || noise b then
    Some (mkTreeNode (default k (b_id b)) [] [] level (b_parent b))
  else
    (λ nodes, mkTreeNode (default k (b_id b)) (spec_content b)
                (List.filter (λ n, negb (bool_decide (t_content n = []))) nodes) level (b_parent b))
      <$> mapM (λ c, spec_build fuel (k :: V) c o (S level))
            (List.filter (λ c, gate o c && negb (bool_decide (c ∈ k :: V))) (default [] (b_children b))).
Proof. intros Hg. simpl. by rewrite Hg. Qed.

(** ** Fuel *)

Lemma spec_build_mono n : ∀ m V k o level t,
  n ≤ m → spec_build n V k o level = Some t → spec_build m V k o level = Some t.
Proof.
  induction n as [|n IH]; intros m V k o level t Hnm Hs; [done|].
  destruct m as [|m]; [lia|]. destruct (obj_get o k) as [b|] eqn:Hg; [|simpl in *; by rewrite Hg in *].
  rewrite (spec_build_S n _ _ _ _ b) in Hs by done. rewrite (spec_build_S m _ _ _ _ b) by done.
  case_match; [done|].
  destruct (mapM _ _) as [nodes|] eqn:Hm; [|done]. erewrite mapM_Some_ext; [exact Hs|exact Hm|].
  intros c y _. apply IH. lia.
Qed.

Lemma fresh_cons (v : jsstr) V c :
  negb (bool_decide (c ∈ v :: V)) = negb (bool_decide (c ∈ V)) && negb (bool_decide (c = v)).
Proof. repeat case_bool_decide; rewrite ?elem_of_cons in *; naive_solver. Qed.

Lemma filter_fresh_lt (v : jsstr) V l :
  length (List.filter (λ c, negb (bool_decide (c ∈ v :: V))) l) ≤ length (List.filter (λ c, negb (bool_decide (c ∈ V))) l) ∧
  (v ∈ l → v ∉ V →
   length (List.filter (λ c, negb (bool_decide (c ∈ v :: V))) l) < length (List.filter (λ c, negb (bool_decide (c ∈ V))) l)).
Proof.
  induction l as [|x l [IHle IHlt]]; simpl.
  - split; [done|]. intros Hv. by apply elem_of_nil in Hv.
  - rewrite fresh_cons. destruct (negb (bool_decide (x ∈ V))) eqn:Hx; simpl.
    + destruct (decide (x = v)) as [->|Hne].
      * rewrite bool_decide_eq_true_2 by done. simpl. split; [lia|]. intros _ _. lia.
      * rewrite bool_decide_eq_false_2 by done. simpl. split; [lia|].
        intros Hv HV. apply elem_of_cons in Hv as [->|Hv]; [done|]. specialize (IHlt Hv HV). lia.
    + split; [done|]. intros Hv HV. apply elem_of_cons in Hv as [->|Hv]; [|by apply IHlt].
      exfalso. apply negb_false_iff, bool_decide_eq_true in Hx. done.
Qed.

Lemma unvisited_cons o V k : k ∈ o.*1 → k ∉ V → unvisited o (k :: V) < unvisited o V.
Proof. intros Hk HV. by apply filter_fresh_lt. Qed.

(** With the visited set, [|unvisited keys| + 1] fuel always returns. *)
Lemma spec_build_total fuel : ∀ o V k level,
  unvisited o V ≤ fuel → k ∉ V → is_Some (spec_build (S fuel) V k o level).
Proof.
  induction fuel as [|fuel IH]; intros o V k level Hm Hk;
    (destruct (obj_get o k) as [b|] eqn:Hg; [|simpl; rewrite Hg; by eexists]);
    rewrite (spec_build_S _ _ _ _ _ b) by done; (case_match; [by eexists|]);
    apply fmap_is_Some, mapM_is_Some_2, Forall_forall; intros c Hc;
    apply list_elem_of_In, filter_In in Hc as [_ Hc]; apply andb_true_iff in Hc as [_ Hc];
    apply negb_true_iff, bool_decide_eq_false in Hc;
    pose proof (unvisited_cons o V k (obj_get_Some _ _ _ Hg) Hk).
  - lia.
  - apply IH; [lia|done].
Qed.

(** ** Refinement *)

(** At the code's own fuel, and from any path whose members reach the
    start key. *)
Lemma spec_build_refines fuel : ∀ V k o level t,
  well_keyed o → is_Some (obj_get o k) → buildTree fuel k o level = Some t →
  (∀ v, v ∈ V → tc (step o) v k) → spec_build fuel V k o level = Some t.
Proof.
  induction fuel as [|fuel IH]; intros V k o level t Hwk [b Hg] Hb HV; [done|].
  destruct (Hwk k b Hg) as [Hid Hk]. assert (opt_truthy (b_id b) = true) as Hid' by (rewrite Hid; by destruct k).
  rewrite (spec_build_S _ _ _ _ _ b) by done. rewrite <- suppressed_spec.
  destruct (suppressed b) eqn:Hs.
  { rewrite (buildTree_S_suppressed _ _ _ _ b) in Hb by done. by rewrite Hid in *. }
  rewrite (buildTree_S_expand _ _ _ _ b) in Hb by done. rewrite Hid, <- spec_content_block_content in Hb.
  destruct (mapM _ (kids o b)) as [nodes|] eqn:Hm; [|done]. injection Hb as <-.
  assert (∀ c, c ∈ kids o b → step o k c) as Hstep.
  { intros c Hc. exists b. unfold expands. by rewrite Hg, Hid', Hs. }
  assert (Forall (λ c, is_Some (buildTree fuel c o (S level))) (kids o b)) as Hok
    by (apply mapM_is_Some_1; by eexists).
  assert (List.filter (λ c, gate o c && negb (bool_decide (c ∈ k :: V))) (default [] (b_children b)) = kids o b)
    as ->.
  { apply filter_ext_in. intros c Hin. rewrite gate_child_ok by done.
    destruct (child_ok o c) eqn:Hc; [cbn [andb]|done]. apply negb_true_iff, bool_decide_eq_false. intros Hv.
    assert (c ∈ kids o b) as Hck by (apply list_elem_of_In, filter_In; by split).
    eapply Forall_forall in Hok as [y Hy]; [|exact Hck]. rewrite (buildTree_tc_None o c) in Hy; [done|].
    apply elem_of_cons in Hv as [->|Hv]; [by apply tc_once, Hstep|].
    eapply tc_r; [by apply HV|by apply Hstep]. }
  rewrite (mapM_Some_ext _ _ _ nodes Hm).
  - cbn [fmap option_fmap option_map]. rewrite content_filter_spec; [by rewrite Hid|].
    eapply mapM_Some_Forall; [exact Hm|]. intros c y _. apply buildTree_trimmed.
  - intros c y Hc Hy. apply IH; [done| |done|].
    + unfold kids in Hc. apply list_elem_of_In, filter_In in Hc as [_ Hc]. unfold child_ok in Hc.
      destruct (obj_get o c); [by eexists|done].
    + intros v Hv. apply elem_of_cons in Hv as [->|Hv]; [by apply tc_once, Hstep|].
      eapply tc_r; [by apply HV|by apply Hstep].
Qed.

(** [C2] Refinement of spec 4.2: on a mapping where every block carries
    its own key as [id], wherever [buildTree] of helpers.ts returns from a
    root that resolves, the spec's builder (with its visited set, its
    placeholder, and the enough fuel [|blocks| + 1]) returns the same
    tree: the same ids, sanitized contents, levels, parents and children
    in the same order. *)
Theorem spec_buildTree_refines fuel k o level t :
  well_keyed o → is_Some (obj_get o k) → buildTree fuel k o level = Some t →
  spec_buildTree k o level = Some t.
Proof.
  intros Hwk Hk Hb.
  assert (spec_build fuel [] k o level = Some t) as Hs
    by (apply spec_build_refines; [done..|intros v Hv; by apply elem_of_nil in Hv]).
  destruct (spec_build_total (length o) o [] k level) as [t' Ht'].
  { unfold unvisited. rewrite <- (length_fmap fst o). apply List.filter_length_le. }
  { apply not_elem_of_nil. }
  unfold spec_buildTree. destruct (decide (fuel ≤ S (length o))).
  - eapply spec_build_mono; [|exact Hs]. lia.
  - rewrite Ht'. apply (spec_build_mono (S (length o)) fuel) in Ht'; [congruence|lia].
Qed.

(** ** Examples *)

(** On the two-block cycle of [TreeBuilder], where the code never
    returns, the spec's builder returns the block and its child. *)
Example spec_build_cycle :
  spec_buildTree (js "a") cycle_blocks 0 =
  Some (mkTreeNode (js "a") (js "A") [mkTreeNode (js "b") (js "B") [] 1 (Some (js "a"))] 0 None).
Proof. vm_compute. reflexivity. Qed.

(** On a missing root the spec's placeholder, where the code gives the
    empty text. *)
Example spec_build_missing :
  spec_buildTree (js "999") test_blocks_missing 0 = Some (mkTreeNode (js "999") unknown_block [] 0 None) ∧
  buildTree 1 (js "999") test_blocks_missing 0 = Some (mkTreeNode (js "999") [] [] 0 None).
Proof. split; vm_compute; reflexivity. Qed.

Lemma spec_buildTree_refines_witness :
  well_keyed test_blocks ∧ is_Some (obj_get test_blocks (js "1")) ∧ spec_buildTree (js "1") test_blocks 0 = Some test_tree.
Proof.
  split_and!; [apply keyed_check_sound; vm_compute; reflexivity|vm_compute; by eexists|].
  apply (spec_buildTree_refines 3 (js "1") test_blocks 0 test_tree);
    [apply keyed_check_sound; vm_compute; reflexivity|vm_compute; by eexists|vm_compute; reflexivity].
Defined.

End TreeSpec.
