(* ===== verification/JsNumber.v ===== *)
(** * [Number(string)] and the comparisons [main.ts] makes with it

    [checkCompatibility] of [src/src/main.ts] turns the parts of the
    host's version string into numbers with [Number] and compares them
    with [1] and [5].  [StringToNumber] (ECMAScript 2023 §7.1.4.1.1) is
    modelled on its grammar: surrounding whitespace is ignored, the empty
    string is [0], [0x]/[0o]/[0b] literals, signed decimal literals with
    fraction and exponent, [Infinity], and [NaN] for everything else.  A
    finite value is kept exactly as [m * 10^e]; rounding to a double is
    not modelled, which changes a comparison with [1] or [5] only for
    literals with more than 15 significant digits within 10^-15 of those
    values. *)

From S2P Require Import Prelude JsObject.
Import JsObject.
From Stdlib Require Import ZArith.

Module JsNumber.

Inductive jsnum := NaN | PosInf | NegInf | Dec (m : Z) (e : Z).

Definition digit_in (base : Z) (c : N) : option Z :=
  let v := if (48 <=? c)%N && (c <=? 57)%N then Some (Z.of_N c - 48)%Z
           else if (97 <=? c)%N && (c <=? 122)%N then Some (Z.of_N c - 87)%Z
           else if (65 <=? c)%N && (c <=? 90)%N then Some (Z.of_N c - 55)%Z
           else None in
  match v with Some d => if (d <? base)%Z then Some d else None | None => None end.

(** The value of a run of digits, [None] if some code unit is not a digit. *)
Fixpoint digits_value_in (base acc : Z) (s : jsstr) : option Z :=
  match s with
  | [] => Some acc
  | c :: r => match digit_in base c with
              | Some d => digits_value_in base (acc * base + d)%Z r
              | None => None
              end
  end.

(** A non-empty run of digits. *)
Definition digits (base : Z) (s : jsstr) : option Z :=
  match s with [] => None | _ => digits_value_in base 0 s end.

(** The longest prefix of decimal digits. *)
Fixpoint span_digits (s : jsstr) : jsstr * jsstr :=
  match s with
  | c :: r => if is_digit c then let (d, t) := span_digits r in (c :: d, t) else ([], s)
  | [] => ([], [])
  end.

(** [ExponentPart] or nothing: the exponent and whether the rest is empty. *)
Definition exponent (s : jsstr) : option Z :=
  match s with
  | [] => Some 0%Z
  | c :: r =>
      if (c =? 101)%N || (c =? 69)%N then
        match r with
        | 43 :: t => digits 10 t
        | 45 :: t => Z.opp <$> digits 10 t
        | _ => digits 10 r
        end%N
      else None
  end.

(** [StrUnsignedDecimalLiteral]: digits, an optional fraction and an
    optional exponent, with at least one digit before the exponent. *)
Definition unsigned_decimal (s : jsstr) : option jsnum :=
  if bool_decide (s = js "Infinity") then Some PosInf else
  let (ip, r) := span_digits s in
  let (fp, r') := match r with 46 :: t => span_digits t | _ => ([], r) end%N in
  if (length ip + length fp =? 0)%nat then None else
  match exponent r', digits_value_in 10 0 (ip ++ fp) with
  | Some e, Some m => Some (Dec m (e - Z.of_nat (length fp))%Z)
  | _, _ => None
  end.

Definition neg (x : jsnum) : jsnum :=
  match x with NaN => NaN | PosInf => NegInf | NegInf => PosInf | Dec m e => Dec (- m) e end.

(** [StringToNumber]. *)
Definition Number (s : jsstr) : jsnum :=
  match js_trim s with
  | [] => Dec 0 0
  | 48 :: c :: r =>
      if (c =? 120)%N || (c =? 88)%N then match digits 16 r with Some v => Dec v 0 | None => NaN end
      else if (c =? 111)%N || (c =? 79)%N then match digits 8 r with Some v => Dec v 0 | None => NaN end
      else if (c =? 98)%N || (c =? 66)%N then match digits 2 r with Some v => Dec v 0 | None => NaN end
      else default NaN (unsigned_decimal (48 :: c :: r))
  | 43 :: r => default NaN (unsigned_decimal r)
  | 45 :: r => default NaN (neg <$> unsigned_decimal r)
  | t => default NaN (unsigned_decimal t)
  end%N.

(** [x < k] and [x === k] for an integer [k]; [undefined] converts to
    [NaN] in [<] and is never [===] a number. *)
Definition lt_int (x : option jsnum) (k : Z) : bool :=
  match x with
  | Some (Dec m e) => if (0 <=? e)%Z then (m * 10 ^ e <? k)%Z else (m <? k * 10 ^ (- e))%Z
  | Some NegInf => true
  | _ => false
  end.

Definition eq_int (x : option jsnum) (k : Z) : bool :=
  match x with
  | Some (Dec m e) => if (0 <=? e)%Z then (m * 10 ^ e =? k)%Z else (m =? k * 10 ^ (- e))%Z
  | _ => false
  end.

(** The longest prefix of digits in base [R]. *)
Fixpoint digit_prefix (R : Z) (s : jsstr) : jsstr :=
  match s with
  | c :: r => match digit_in R c with Some _ => c :: digit_prefix R r | None => [] end
  | [] => []
  end.

(** The sign of [parseInt] and the rest of the text. *)
Definition parse_sign (s : jsstr) : Z * jsstr :=
  match s with
  | c :: t => if (c =? 45)%N then (-1, t)%Z else if (c =? 43)%N then (1%Z, t) else (1%Z, s)
  | [] => (1%Z, s)
  end.

(** The radix: a [0x] or [0X] prefix selects 16. *)
Definition parse_radix (s : jsstr) : Z * jsstr :=
  match s with
  | c :: c2 :: t => if (c =? 48)%N && ((c2 =? 120)%N || (c2 =? 88)%N) then (16%Z, t) else (10%Z, s)
  | _ => (10%Z, s)
  end.

(** [parseInt(string)] with no radix (ECMAScript 2023 §19.2.5): leading
    whitespace, a sign, a [0x] prefix that selects base 16, then the
    longest run of digits; [None] is [NaN]. *)
Definition parseInt (s : jsstr) : option Z :=
  let '(sign, t) := parse_sign (drop_ws s) in
  let '(R, t) := parse_radix t in
  match digit_prefix R t with
  | [] => None
  | d => (λ v, sign * v)%Z <$> digits_value_in R 0 d
  end.

(** The value of a decimal digit string. *)
Definition decimal_value (d : jsstr) : Z := fold_left (λ acc c, acc * 10 + (Z.of_N c - 48))%Z d 0%Z.

(** ** Properties *)

Lemma digit_range c : is_digit c = true → (48 <= c <= 57)%N.
Proof. unfold is_digit. intros Hd. apply andb_prop in Hd as [H1 H2]. apply N.leb_le in H1, H2. lia. Qed.

Lemma digit_in_10 c : is_digit c = true → digit_in 10 c = Some (Z.of_N c - 48)%Z.
Proof.
  intros Hd. pose proof (digit_range c Hd). unfold digit_in. unfold is_digit in Hd. rewrite Hd.
  destruct (Z.ltb_spec (Z.of_N c - 48) 10); [done|lia].
Qed.

Lemma digits_value_in_10 d acc :
  Forall (λ c, is_digit c = true) d →
  digits_value_in 10 acc d = Some (fold_left (λ acc c, acc * 10 + (Z.of_N c - 48))%Z d acc).
Proof.
  revert acc. induction d as [|c d IH]; intros acc Hd; [done|].
  inversion Hd as [|? ? Hc Hd']; subst. simpl. rewrite digit_in_10 by done. by apply IH.
Qed.

Lemma span_digits_all d : Forall (λ c, is_digit c = true) d → span_digits d = (d, []).
Proof. induction 1 as [|c d Hc _ IH]; simpl; [done|]. by rewrite Hc, IH. Qed.

Lemma digit_not_space c : is_digit c = true → is_js_space c = false.
Proof.
  intros Hd. pose proof (digit_range c Hd). unfold is_js_space, is_line_terminator.
  repeat match goal with
  | |- context [(?a =? ?b)%N] => destruct (N.eqb_spec a b); [lia|]
  | |- context [(?a <=? ?b)%N] => destruct (N.leb_spec a b)
  end; simpl; try done; lia.
Qed.

Lemma unsigned_decimal_digits d :
  d ≠ [] → Forall (λ c, is_digit c = true) d → unsigned_decimal d = Some (Dec (decimal_value d) 0).
Proof.
  intros Hne Hd. unfold unsigned_decimal. rewrite bool_decide_eq_false_2.
  - rewrite span_digits_all by done. simpl.
    destruct (length d + 0 =? 0)%nat eqn:E; [apply Nat.eqb_eq in E; destruct d; simpl in E; [done|lia]|].
    rewrite app_nil_r, digits_value_in_10 by done. unfold decimal_value. by rewrite Z.sub_0_r.
  - intros ->. inversion Hd as [|? ? Hc _]. discriminate.
Qed.

(** [Number] of a decimal digit string is its value. *)
Lemma Number_digits d :
  d ≠ [] → Forall (λ c, is_digit c = true) d → Number d = Dec (decimal_value d) 0.
Proof.
  intros Hne Hd. unfold Number.
  rewrite js_trim_nospace by (eapply Forall_impl; [exact Hd|]; apply digit_not_space).
  transitivity (default NaN (unsigned_decimal d)); [|by rewrite unsigned_decimal_digits].
  destruct d as [|c r]; [done|]. inversion Hd as [|? ? Hc Hr]; subst.
  pose proof (digit_range c Hc) as Hcr.
  assert (c = 48 ∨ 49 <= c <= 57)%N as [->|Hc'] by lia.
  - destruct r as [|c2 r]; [done|]. inversion Hr as [|? ? Hc2 _]; subst.
    pose proof (digit_range c2 Hc2). simpl.
    repeat match goal with |- context [(c2 =? ?b)%N] => destruct (N.eqb_spec c2 b); [lia|] end.
    done.
  - assert (c = 49 ∨ c = 50 ∨ c = 51 ∨ c = 52 ∨ c = 53 ∨ c = 54 ∨ c = 55 ∨ c = 56 ∨ c = 57)%N as Hcs by lia.
    repeat destruct Hcs as [->|Hcs]; try subst c; done.
Qed.

Lemma digit_prefix_all d : Forall (λ c, is_digit c = true) d → digit_prefix 10 d = d.
Proof. induction 1 as [|c d Hc _ IH]; simpl; [done|]. by rewrite digit_in_10, IH. Qed.

(** [parseInt] of a decimal digit string is its value. *)
Lemma parseInt_digits d :
  d ≠ [] → Forall (λ c, is_digit c = true) d → parseInt d = Some (decimal_value d).
Proof.
  intros Hne Hd. unfold parseInt.
  rewrite drop_ws_nospace by (eapply Forall_impl; [exact Hd|]; apply digit_not_space).
  destruct d as [|c r]; [done|]. inversion Hd as [|? ? Hc Hr]; subst.
  pose proof (digit_range c Hc) as Hcr.
  assert (parse_sign (c :: r) = (1%Z, c :: r)) as ->.
  { simpl. destruct (N.eqb_spec c 45); [lia|]. destruct (N.eqb_spec c 43); [lia|done]. }
  assert (parse_radix (c :: r) = (10%Z, c :: r)) as ->.
  { destruct r as [|c2 r]; [done|]. inversion Hr as [|? ? Hc2 _]; subst.
    pose proof (digit_range c2 Hc2). simpl.
    destruct (N.eqb_spec c2 120); [lia|]. destruct (N.eqb_spec c2 88); [lia|]. by rewrite andb_false_r. }
  rewrite digit_prefix_all by done. rewrite digits_value_in_10 by done. unfold decimal_value. simpl. f_equal. lia.
Qed.

End JsNumber.
