(* ===== verification/Host.v ===== *)
(** * The host API the plugin calls ([OrcaAPI] of [src/src/types.ts])

    [types.ts] declares the host object [window.orca] as groups of
    functions: [commands], [toolbar], [nav], [plugins] and [broadcasts]
    (lines 19-52).  Each group that keeps state is an interface here: a
    class of operations on an abstract state, and a class of laws that say
    what the plugin may rely on.  [Plugin] proves its theorems against the
    laws; [MemHost] below is one implementation that satisfies them and
    runs the examples.  The functions the plugin hands to the host are
    named by [handler]. *)

From S2P Require Import Prelude.

Module Host.

Inductive notify_type := NSuccess | NWarn | NError | NInfo.

(** The functions the plugin hands to the host: those of [main.ts]
    ([safeShowMindMap], [safeToggleMindMap], [handleBlockUpdate],
    [handleThemeChange]), of [main-simple.ts] ([showMindMap],
    [toggleMindMap]), of [orca-mindmap.ts] ([toggleMindMapMode]), of
    [markmap-simple.ts] (the [createMindMap] callback) and of
    [basic-outline.ts] (the [showInWindow] and [showDialog] callbacks). *)
Inductive handler :=
  | HSafeShowMindMap | HSafeToggleMindMap | HBlockUpdate | HThemeChange
  | HShowMindMap | HToggleMindMap
  | HToggleMindMapMode
  | HCreateMindMap
  | HShowInWindow | HShowDialog.

#[export] Instance notify_type_eq_dec : EqDecision notify_type.
Proof. solve_decision. Defined.
#[export] Instance handler_eq_dec : EqDecision handler.
Proof. solve_decision. Defined.

(** [orca.nav] *)
Class Nav (S : Type) := {
  addPanel : jsstr → S → jsstr * S;
  closePanel : jsstr → S → S
}.

(** [orca.commands] *)
Class Commands (S : Type) := {
  registerCommand : jsstr → handler → jsstr → S → S;
  unregisterCommand : jsstr → S → S;
  registerShortcut : jsstr → jsstr → S → S;
  unregisterShortcut : jsstr → S → S
}.

(** [orca.toolbar] *)
Class Toolbar (S : Type) := {
  registerToolbarButton : jsstr → jsstr → S → S;
  unregisterToolbarButton : jsstr → S → S
}.

(** [orca.broadcasts] *)
Class Broadcasts (S : Type) := {
  registerHandler : jsstr → handler → S → S;
  unregisterHandler : jsstr → handler → S → S
}.

(** What the plugin relies on.  A panel that [addPanel] opens is new,
    open and has a non-empty id, [closePanel] closes exactly the panel it is given. *)
Class NavLaws (S : Type) `{Nav S} := {
  panels : S → list jsstr;
  addPanel_fresh id s : (addPanel id s).1 ∉ panels s;
  addPanel_truthy id s : truthy (addPanel id s).1 = true;
  addPanel_panels id s : panels (addPanel id s).2 = (addPanel id s).1 :: panels s;
  closePanel_panels p s : panels (closePanel p s) = List.filter (λ q, negb (bool_decide (q = p))) (panels s)
}.

(** Registration replaces, unregistration removes, and the two kinds of
    registration do not interfere. *)
Class CommandsLaws (S : Type) `{Commands S} := {
  lookupCommand : jsstr → S → option handler;
  lookupShortcut : jsstr → S → option jsstr;
  lookupCommand_register c id f d s :
    lookupCommand c (registerCommand id f d s) = if decide (c = id) then Some f else lookupCommand c s;
  lookupCommand_unregister c id s :
    lookupCommand c (unregisterCommand id s) = if decide (c = id) then None else lookupCommand c s;
  lookupCommand_registerShortcut c k id s : lookupCommand c (registerShortcut k id s) = lookupCommand c s;
  lookupCommand_unregisterShortcut c k s : lookupCommand c (unregisterShortcut k s) = lookupCommand c s;
  lookupShortcut_register k' k id s :
    lookupShortcut k' (registerShortcut k id s) = if decide (k' = k) then Some id else lookupShortcut k' s;
  lookupShortcut_unregister k' k s :
    lookupShortcut k' (unregisterShortcut k s) = if decide (k' = k) then None else lookupShortcut k' s;
  lookupShortcut_registerCommand k id f d s : lookupShortcut k (registerCommand id f d s) = lookupShortcut k s;
  lookupShortcut_unregisterCommand k id s : lookupShortcut k (unregisterCommand id s) = lookupShortcut k s
}.

Class ToolbarLaws (S : Type) `{Toolbar S} := {
  lookupButton : jsstr → S → option jsstr;
  lookupButton_register b id c s :
    lookupButton b (registerToolbarButton id c s) = if decide (b = id) then Some c else lookupButton b s;
  lookupButton_unregister b id s :
    lookupButton b (unregisterToolbarButton id s) = if decide (b = id) then None else lookupButton b s
}.

(** A handler is registered for an event until it is unregistered. *)
Class BroadcastsLaws (S : Type) `{Broadcasts S} := {
  handlersOf : jsstr → S → list handler;
  handlersOf_register e e' f g s :
    g ∈ handlersOf e (registerHandler e' f s) ↔ (e = e' ∧ g = f) ∨ g ∈ handlersOf e s;
  handlersOf_unregister e e' f g s :
    g ∈ handlersOf e (unregisterHandler e' f s) ↔ ¬ (e = e' ∧ g = f) ∧ g ∈ handlersOf e s
}.

(** ** An implementation *)

Record MemNav := mkMemNav { mn_open : list jsstr }.
Record MemCommands := mkMemCommands { mc_cmds : list (jsstr * handler); mc_keys : list (jsstr * jsstr) }.
Record MemToolbar := mkMemToolbar { mt_buttons : list (jsstr * jsstr) }.
Record MemBroadcasts := mkMemBroadcasts { mb_handlers : list (jsstr * handler) }.

Fixpoint assoc {A} (k : jsstr) (l : list (jsstr * A)) : option A :=
  match l with [] => None | (k', v) :: l' => if decide (k = k') then Some v else assoc k l' end.

Definition assoc_del {A} (k : jsstr) (l : list (jsstr * A)) : list (jsstr * A) :=
  List.filter (λ kv, negb (bool_decide (kv.1 = k))) l.

(** A new panel id: longer than every open one. *)
Definition fresh_panel (open : list jsstr) : jsstr :=
  replicate (S (foldr (λ p m, length p `max` m) 0 open)) 112%N.

#[export] Instance mem_nav : Nav MemNav := {
  addPanel _ s := (fresh_panel (mn_open s), mkMemNav (fresh_panel (mn_open s) :: mn_open s));
  closePanel p s := mkMemNav (List.filter (λ q, negb (bool_decide (q = p))) (mn_open s))
}.

#[export] Instance mem_commands : Commands MemCommands := {
  registerCommand id f _ s := mkMemCommands ((id, f) :: assoc_del id (mc_cmds s)) (mc_keys s);
  unregisterCommand id s := mkMemCommands (assoc_del id (mc_cmds s)) (mc_keys s);
  registerShortcut k id s := mkMemCommands (mc_cmds s) ((k, id) :: assoc_del k (mc_keys s));
  unregisterShortcut k s := mkMemCommands (mc_cmds s) (assoc_del k (mc_keys s))
}.

#[export] Instance mem_toolbar : Toolbar MemToolbar := {
  registerToolbarButton id c s := mkMemToolbar ((id, c) :: assoc_del id (mt_buttons s));
  unregisterToolbarButton id s := mkMemToolbar (assoc_del id (mt_buttons s))
}.

#[export] Instance mem_broadcasts : Broadcasts MemBroadcasts := {
  registerHandler e f s := mkMemBroadcasts ((e, f) :: mb_handlers s);
  unregisterHandler e f s := mkMemBroadcasts (List.filter (λ ef, negb (bool_decide (ef = (e, f)))) (mb_handlers s))
}.

(** ** The implementation satisfies the laws *)

Lemma assoc_del_assoc {A} (k k' : jsstr) (l : list (jsstr * A)) :
  assoc k' (assoc_del k l) = if decide (k' = k) then None else assoc k' l.
Proof.
  unfold assoc_del. induction l as [|[k0 v0] l IH]; simpl; [by case_decide|].
  case_bool_decide; simpl; rewrite IH; by repeat case_decide; simplify_eq.
Qed.

Lemma fresh_panel_fresh open : fresh_panel open ∉ open.
Proof.
  assert (∀ p, p ∈ open → length p ≤ foldr (λ p m, length p `max` m) 0 open) as Hle.
  { induction open as [|q qs IH]; intros p Hp; simpl; [by apply elem_of_nil in Hp|].
    apply elem_of_cons in Hp as [->|Hp]; [lia|]. specialize (IH p Hp). lia. }
  intros Hin. apply Hle in Hin. unfold fresh_panel in Hin. rewrite length_replicate in Hin. lia.
Qed.

Ltac assoc_solve := intros; simpl; rewrite ?assoc_del_assoc; by repeat case_decide.

#[export] Program Instance mem_nav_laws : NavLaws MemNav := {| panels := mn_open |}.
Next Obligation. intros. apply fresh_panel_fresh. Qed.
Next Obligation. done. Qed.
Next Obligation. done. Qed.
Next Obligation. done. Qed.

#[export] Program Instance mem_commands_laws : CommandsLaws MemCommands :=
  {| lookupCommand c s := assoc c (mc_cmds s); lookupShortcut k s := assoc k (mc_keys s) |}.
Solve Obligations with assoc_solve.

#[export] Program Instance mem_toolbar_laws : ToolbarLaws MemToolbar :=
  {| lookupButton b s := assoc b (mt_buttons s) |}.
Solve Obligations with assoc_solve.

Lemma handlers_in e g (l : list (jsstr * handler)) :
  g ∈ (List.filter (λ ef, bool_decide (ef.1 = e)) l).*2 ↔ (e, g) ∈ l.
Proof.
  induction l as [|[e0 g0] l IH]; simpl; [split; intros H; by apply elem_of_nil in H|].
  case_bool_decide; rewrite ?fmap_cons, ?elem_of_cons, IH; naive_solver.
Qed.

#[export] Program Instance mem_broadcasts_laws : BroadcastsLaws MemBroadcasts :=
  {| handlersOf e s := (List.filter (λ ef, bool_decide (ef.1 = e)) (mb_handlers s)).*2 |}.
Next Obligation. intros. cbn [mb_handlers registerHandler mem_broadcasts]. rewrite !handlers_in, elem_of_cons. naive_solver. Qed.
Next Obligation.
  intros. cbn [mb_handlers unregisterHandler mem_broadcasts]. rewrite !handlers_in, List_filter_neq_elem. naive_solver.
Qed.

End Host.
