(* ===== verification/Plugin.v ===== *)
(** * The plugin lifecycle of [src/src/main.ts]

    [main.ts] keeps two module variables, [mindMapPanel] and
    [mindMapRenderer], and registers its functions with the host in
    [load].  The host calls them back: commands, the toolbar button, the
    [Ctrl+M] shortcut, and broadcasts on block changes.  [showMindMap] and
    [load] are [async]: each runs up to its first [await], and the rest
    runs when the host settles the promise, possibly after other inputs.

    The model is a state monad [M] over a [world] that holds the host's
    state (through the interfaces of [Host]), the module variables, the
    event loop (timers and suspended calls), and a ghost list of the
    panels the plugin opened.  Each async function is split at its
    [await] into a first part and a [task] that resumes it.  [step] is one
    input of the host: an external call, a timer, or a promise that
    settles. *)

From S2P Require Import Prelude JsRegex Sanitizer JsObject Blocks TreeBuilder RootDiscovery JsNumber Host.
Import JsRegex Sanitizer JsObject Blocks TreeBuilder RootDiscovery JsNumber Host.

Module Plugin.

(** ** Texts *)

Definition msg_no_blocks : jsstr := [0x5F53; 0x524D; 0x7B14; 0x8BB0; 0x6CA1; 0x6709; 0x5185; 0x5BB9; 0x5757]%N.
Definition msg_no_roots : jsstr := [0x672A; 0x627E; 0x5230; 0x6839; 0x7EA7; 0x5757]%N.
Definition msg_no_valid : jsstr := [0x6CA1; 0x6709; 0x6709; 0x6548; 0x7684; 0x5185; 0x5BB9; 0x5757]%N.
Definition msg_shown : jsstr := [0x5927; 0x7EB2; 0x89C6; 0x56FE; 0x5DF2; 0x663E; 0x793A]%N.
Definition msg_show_failed : jsstr := [0x663E; 0x793A; 0x5927; 0x7EB2; 0x5931; 0x8D25]%N ++ js ": ".
Definition msg_closed : jsstr := [0x5927; 0x7EB2; 0x89C6; 0x56FE; 0x5DF2; 0x5173; 0x95ED]%N.
Definition msg_incompatible : jsstr :=
  [0x63D2; 0x4EF6; 0x7248; 0x672C; 0x4E0D; 0x517C; 0x5BB9; 0xFF0C; 0x8BF7; 0x66F4; 0x65B0; 0x864E; 0x9CB8; 0x7B14; 0x8BB0]%N.
Definition msg_enabled : jsstr := [0x5927; 0x7EB2; 0x63D2; 0x4EF6; 0x5DF2; 0x542F; 0x7528]%N.
Definition msg_disabled : jsstr := [0x5927; 0x7EB2; 0x63D2; 0x4EF6; 0x5DF2; 0x7981; 0x7528]%N.

(** The message of the [RangeError] V8 throws when the stack overflows. *)
Definition range_error_message : jsstr := js "Maximum call stack size exceeded".

Definition cmd_show : jsstr := js "outline-plugin.showMindMap".
Definition cmd_toggle : jsstr := js "outline-plugin.toggleMindMap".
Definition button_id : jsstr := js "outline-plugin.button".
Definition shortcut_key : jsstr := js "Ctrl+M".
Definition ev_updated : jsstr := js "core.block.updated".
Definition ev_created : jsstr := js "core.block.created".
Definition ev_deleted : jsstr := js "core.block.deleted".
Definition ev_theme : jsstr := js "core.themeChanged".

(** [String.prototype.split] with a one-code-unit separator. *)
Fixpoint split_on (sep : N) (s : jsstr) : list jsstr :=
  match s with
  | [] => [[]]
  | c :: r => if (c =? sep)%N then [] :: split_on sep r
              else match split_on sep r with p :: ps => (c :: p) :: ps | [] => [[c]] end
  end.

(** The object saved by [showMindMap] (lines 68-72). *)
Record layoutData := mkLayout { ld_timestamp : nat; ld_blockCount : nat; ld_treeCount : nat }.

(** Where a suspended [async] call resumes. *)
Inductive task :=
  | ShowAfterAddPanel (panelId : jsstr) (currentBlocks : obj Block) (treeCount : nat)  (** line 55 *)
  | LoadAfterInit.                                                                   (** line 186 *)

(** The inputs of the host. *)
Inductive input :=
  | ILoad | IUnload
  | ICommand (id : jsstr) | IShortcut (key : jsstr) | IButton (id : jsstr)
  | IBroadcast (event : jsstr)
  | IUserClosePanel (p : jsstr)    (** the user closes a panel in the host's window *)
  | IFire (t : nat)                (** a timer expires *)
  | IResume (i : nat).             (** the [i]-th pending promise settles *)

Section Plugin.
Context {NS CS TS BS : Type} `{NavLaws NS} `{CommandsLaws CS} `{ToolbarLaws TS} `{BroadcastsLaws BS}.

(** [window.orca] as the plugin sees it. *)
Record host := mkHost {
  blocks : option (obj Block);     (** [orca.state.blocks] *)
  apiVersion : option jsstr;       (** [orca.state.apiVersion] *)
  hostShape : bool;                (** [orca.state && orca.commands] *)
  nav : NS; cmds : CS; bar : TS; bc : BS;
  notes : list (notify_type * jsstr);               (** [orca.notify] *)
  savedData : list (jsstr * jsstr * layoutData);   (** [orca.plugins.setData] *)
  schemas : list jsstr;                             (** [orca.plugins.setSettingsSchema] *)
  clock : nat                                       (** [Date.now()] *)
}.

(** The module variables of [main.ts] (lines 13-14) and the [timeout]
    variable of the [debounce] closure behind [refreshMindMap]. *)
Record pstate := mkPState {
  mindMapPanel : option jsstr;
  mindMapRenderer : bool;
  timeout : option nat
}.

Record world := mkWorld {
  w_host : host;
  w_plugin : pstate;
  timers : list nat;        (** timers scheduled with [setTimeout] *)
  nextTimer : nat;
  tasks : list task;        (** suspended calls, oldest first *)
  owned : list jsstr        (** ghost: every panel the plugin opened *)
}.

Definition M (A : Type) : Type := world → A * world.

#[export] Instance M_ret : MRet M := λ A a w, (a, w).
#[export] Instance M_bind : MBind M := λ A B f m w, let (a, w') := m w in f a w'.

Definition skip : M unit := mret ().
Definition get : M world := λ w, (w, w).
Definition modify (f : world → world) : M unit := λ w, ((), f w).

Definition with_host (f : host → host) (w : world) : world :=
  mkWorld (f (w_host w)) (w_plugin w) (timers w) (nextTimer w) (tasks w) (owned w).
Definition with_plugin (f : pstate → pstate) (w : world) : world :=
  mkWorld (w_host w) (f (w_plugin w)) (timers w) (nextTimer w) (tasks w) (owned w).
Definition with_loop (ts : list nat) (n : nat) (tk : list task) (w : world) : world :=
  mkWorld (w_host w) (w_plugin w) ts n tk (owned w).

Definition set_panel (p : option jsstr) : M unit :=
  modify (with_plugin (λ s, mkPState p (mindMapRenderer s) (timeout s))).
Definition set_renderer (b : bool) : M unit :=
  modify (with_plugin (λ s, mkPState (mindMapPanel s) b (timeout s))).
Definition set_timeout (t : option nat) : M unit :=
  modify (with_plugin (λ s, mkPState (mindMapPanel s) (mindMapRenderer s) t)).

Definition on_nav (f : NS → NS) : M unit :=
  modify (with_host (λ h, mkHost (blocks h) (apiVersion h) (hostShape h) (f (nav h)) (cmds h) (bar h) (bc h)
                                 (notes h) (savedData h) (schemas h) (clock h))).
Definition on_cmds (f : CS → CS) : M unit :=
  modify (with_host (λ h, mkHost (blocks h) (apiVersion h) (hostShape h) (nav h) (f (cmds h)) (bar h) (bc h)
                                 (notes h) (savedData h) (schemas h) (clock h))).
Definition on_bar (f : TS → TS) : M unit :=
  modify (with_host (λ h, mkHost (blocks h) (apiVersion h) (hostShape h) (nav h) (cmds h) (f (bar h)) (bc h)
                                 (notes h) (savedData h) (schemas h) (clock h))).
Definition on_bc (f : BS → BS) : M unit :=
  modify (with_host (λ h, mkHost (blocks h) (apiVersion h) (hostShape h) (nav h) (cmds h) (bar h) (f (bc h))
                                 (notes h) (savedData h) (schemas h) (clock h))).

(** [orca.notify(type, message)] *)
Definition notify (t : notify_type) (m : jsstr) : M unit :=
  modify (with_host (λ h, mkHost (blocks h) (apiVersion h) (hostShape h) (nav h) (cmds h) (bar h) (bc h)
                                 (notes h ++ [(t, m)]) (savedData h) (schemas h) (clock h))).

Definition setData (pluginId key : jsstr) (d : layoutData) : M unit :=
  modify (with_host (λ h, mkHost (blocks h) (apiVersion h) (hostShape h) (nav h) (cmds h) (bar h) (bc h)
                                 (notes h) (savedData h ++ [(pluginId, key, d)]) (schemas h) (clock h))).

Definition setSettingsSchema (pluginId : jsstr) : M unit :=
  modify (with_host (λ h, mkHost (blocks h) (apiVersion h) (hostShape h) (nav h) (cmds h) (bar h) (bc h)
                                 (notes h) (savedData h) (schemas h ++ [pluginId]) (clock h))).

(** [await orca.nav.addPanel(id, ...)]: the host opens the panel; the
    plugin records it as its own. *)
Definition open_panel (id : jsstr) : M jsstr :=
  λ w, let (p, n) := addPanel id (nav (w_host w)) in
       (p, let w' := snd (on_nav (λ _, n) w) in
           mkWorld (w_host w') (w_plugin w') (timers w') (nextTimer w') (tasks w') (p :: owned w')).

Definition suspend (t : task) : M unit :=
  modify (λ w, with_loop (timers w) (nextTimer w) (tasks w ++ [t]) w).

(** [clearTimeout(t)] and [setTimeout(..., 500)]. *)
Definition clearTimeout (t : option nat) : M unit :=
  modify (λ w, with_loop (match t with Some t => List.filter (λ u, negb (u =? t)) (timers w) | None => timers w end)
                         (nextTimer w) (tasks w) w).
Definition setTimeout : M nat :=
  λ w, (nextTimer w, with_loop (timers w ++ [nextTimer w]) (S (nextTimer w)) (tasks w) w).

(** ** The functions of [main.ts] *)

Context (stack : nat).

(** [showMindMap] (lines 17-86) up to [await orca.nav.addPanel] (line 55).
    [stack] is the depth of nested calls the engine allows [buildTree];
    when it runs out, [buildTree] throws a [RangeError] that the [catch]
    of lines 80-84 turns into an error notification. *)
Definition showMindMap : M unit :=
  w ← get;
  match blocks (w_host w) with
  | None => notify NWarn msg_no_blocks
  | Some currentBlocks =>
      if length (object_keys currentBlocks) =? 0 then notify NWarn msg_no_blocks else
      let rootBlockIds := findRootBlocks currentBlocks in
      if length rootBlockIds =? 0 then notify NWarn msg_no_roots else
      match mapM (λ rootId, buildTree stack rootId currentBlocks 0) rootBlockIds with
      | None => notify NError (msg_show_failed ++ range_error_message)
      | Some trees =>
          let validTrees := List.filter (λ tree, 0 <? length (js_trim (t_content tree))) trees in
          if length validTrees =? 0 then notify NWarn msg_no_valid else
          (match mindMapPanel (w_plugin w) with
           | Some p => if truthy p then on_nav (closePanel p) else skip
           | None => skip
           end);;
          (if mindMapRenderer (w_plugin w) then skip else set_renderer true);;
          p ← open_panel (js "outline-mindmap");
          suspend (ShowAfterAddPanel p currentBlocks (length validTrees))
      end
  end.

(** The rest of [showMindMap] once the panel's promise settles (lines
    56-78); the [await] of [setData] has nothing after it. *)
Definition showMindMap_resume (p : jsstr) (currentBlocks : obj Block) (treeCount : nat) : M unit :=
  set_panel (Some p);;
  notify NSuccess msg_shown;;
  w ← get;
  setData (js "outline-plugin") (js "last-layout")
    (mkLayout (clock (w_host w)) (length (object_keys currentBlocks)) treeCount).

(** [toggleMindMap] (lines 89-97); [showMindMap()] is not awaited. *)
Definition toggleMindMap : M unit :=
  w ← get;
  match mindMapPanel (w_plugin w) with
  | Some p => if truthy p then (on_nav (closePanel p);; set_panel None;; notify NInfo msg_closed) else showMindMap
  | None => showMindMap
  end.

(** [refreshMindMap()] (lines 100-104): the [debounce] closure of
    helpers.ts (lines 113-116) clears its pending timer and sets a new
    one. *)
Definition refreshMindMap : M unit :=
  w ← get;
  clearTimeout (timeout (w_plugin w));;
  t ← setTimeout;
  set_timeout (Some t).

(** The function the timer runs, 500 ms later (lines 100-104). *)
Definition refresh_callback : M unit :=
  w ← get;
  match mindMapPanel (w_plugin w) with
  | Some p => if truthy p then showMindMap else skip
  | None => skip
  end.

Definition handleBlockUpdate : M unit := refreshMindMap.
Definition handleThemeChange : M unit := skip.

(** [checkCompatibility] (lines 119-134). *)
Definition checkCompatibility (h : host) : bool :=
  if negb (hostShape h) then false else
  match apiVersion h with
  | Some v =>
      if truthy v then
        let parts := map Number (split_on cu_dot v) in
        let major := parts !! 0 in
        let minor := parts !! 1 in
        negb (lt_int major 1 || (eq_int major 1 && lt_int minor 5))
      else true
  | None => true
  end.

(** [initializePlugin] (lines 137-166) up to its [await]. *)
Definition initializePlugin : M unit := setSettingsSchema (js "outline-plugin").

(** [load] (lines 175-228) up to [await initializePlugin()]. *)
Definition load : M unit :=
  w ← get;
  if negb (checkCompatibility (w_host w)) then notify NError msg_incompatible
  else (initializePlugin;; suspend LoadAfterInit).

(** The rest of [load] (lines 188-221). *)
Definition load_resume : M unit :=
  on_cmds (registerCommand cmd_show HSafeShowMindMap [0x663E; 0x793A; 0x5927; 0x7EB2; 0x89C6; 0x56FE]%N);;
  on_cmds (registerCommand cmd_toggle HSafeToggleMindMap [0x5207; 0x6362; 0x5927; 0x7EB2; 0x89C6; 0x56FE]%N);;
  on_bar (registerToolbarButton button_id cmd_show);;
  on_cmds (registerShortcut shortcut_key cmd_toggle);;
  on_bc (registerHandler ev_updated HBlockUpdate);;
  on_bc (registerHandler ev_created HBlockUpdate);;
  on_bc (registerHandler ev_deleted HBlockUpdate);;
  on_bc (registerHandler ev_theme HThemeChange);;
  notify NSuccess msg_enabled.

(** [unload] (lines 231-266). *)
Definition unload : M unit :=
  w ← get;
  (match mindMapPanel (w_plugin w) with
   | Some p => if truthy p then (on_nav (closePanel p);; set_panel None) else skip
   | None => skip
   end);;
  set_renderer false;;
  on_cmds (unregisterCommand cmd_show);;
  on_cmds (unregisterCommand cmd_toggle);;
  on_bar (unregisterToolbarButton button_id);;
  on_cmds (unregisterShortcut shortcut_key);;
  on_bc (unregisterHandler ev_updated HBlockUpdate);;
  on_bc (unregisterHandler ev_created HBlockUpdate);;
  on_bc (unregisterHandler ev_deleted HBlockUpdate);;
  on_bc (unregisterHandler ev_theme HThemeChange);;
  notify NInfo msg_disabled.

(** [safeShowMindMap] and [safeToggleMindMap] (lines 169-172): nothing
    escapes [showMindMap]'s own [catch] synchronously, and the model's
    host calls do not throw, so [withErrorBoundary] passes them through. *)
Definition run_handler (f : handler) : M unit :=
  match f with
  | HSafeShowMindMap => showMindMap
  | HSafeToggleMindMap => toggleMindMap
  | HBlockUpdate => handleBlockUpdate
  | HThemeChange => handleThemeChange
  | HShowMindMap | HToggleMindMap | HToggleMindMapMode | HCreateMindMap | HShowInWindow | HShowDialog => skip   (** not functions of [main.ts] *)
  end.

Fixpoint run_all (fs : list handler) : M unit :=
  match fs with [] => skip | f :: fs' => run_handler f;; run_all fs' end.

(** The host runs the function registered under a command id. *)
Definition invoke (id : jsstr) : M unit :=
  w ← get;
  match lookupCommand id (cmds (w_host w)) with Some f => run_handler f | None => skip end.

Definition resume (t : task) : M unit :=
  match t with
  | ShowAfterAddPanel p b n => showMindMap_resume p b n
  | LoadAfterInit => load_resume
  end.

(** One input of the host. *)
Definition step (i : input) : M unit :=
  match i with
  | ILoad => load
  | IUnload => unload
  | ICommand id => invoke id
  | IShortcut k => w ← get; match lookupShortcut k (cmds (w_host w)) with Some id => invoke id | None => skip end
  | IButton b => w ← get; match lookupButton b (bar (w_host w)) with Some id => invoke id | None => skip end
  | IBroadcast e => w ← get; run_all (handlersOf e (bc (w_host w)))
  | IUserClosePanel p => on_nav (closePanel p)
  | IFire t =>
      w ← get;
      if bool_decide (t ∈ timers w) then
        (modify (λ w, with_loop (List.filter (λ u, negb (u =? t)) (timers w)) (nextTimer w) (tasks w) w);;
         refresh_callback)
      else skip
  | IResume i =>
      w ← get;
      match tasks w !! i with
      | Some t => modify (λ w, with_loop (timers w) (nextTimer w) (delete i (tasks w)) w);; resume t
      | None => skip
      end
  end.

(** Run every pending continuation, oldest first: the behaviour when each
    promise settles before the next input arrives. *)
Definition drain : M unit :=
  w ← get;
  modify (λ w, with_loop (timers w) (nextTimer w) [] w);;
  foldr (λ t m, resume t;; m) skip (tasks w).

Definition step_atomic (i : input) : M unit := step i;; drain.

Fixpoint run (ins : list input) : M unit :=
  match ins with [] => skip | i :: ins' => step i;; run ins' end.

Fixpoint run_atomic (ins : list input) : M unit :=
  match ins with [] => skip | i :: ins' => step_atomic i;; run_atomic ins' end.

End Plugin.

(** ** A host to run the examples on *)

Abbreviation mem_world := (world (NS:=MemNav) (CS:=MemCommands) (TS:=MemToolbar) (BS:=MemBroadcasts)).

(** A freshly started host with the given blocks and API version, before
    [load]. *)
Definition init_world (b : option (obj Block)) (v : option jsstr) : mem_world :=
  mkWorld (mkHost b v true (mkMemNav []) (mkMemCommands [] []) (mkMemToolbar []) (mkMemBroadcasts []) [] [] [] 0)
          (mkPState None false None) [] 0 [] [].

(** ** [checkCompatibility] *)

Lemma split_on_app sep d t :
  Forall (λ c, (c =? sep)%N = false) d → split_on sep (d ++ sep :: t) = d :: split_on sep t.
Proof. induction 1 as [|c d Hc _ IH]; simpl; [by rewrite N.eqb_refl|]. by rewrite Hc, IH. Qed.

Lemma split_on_none sep d : Forall (λ c, (c =? sep)%N = false) d → split_on sep d = [d].
Proof. induction 1 as [|c d Hc _ IH]; simpl; [done|]. by rewrite Hc, IH. Qed.

Lemma digits_not_dot d : Forall (λ c, is_digit c = true) d → Forall (λ c, (c =? cu_dot)%N = false) d.
Proof.
  intros Hd. eapply Forall_impl; [exact Hd|]. intros c Hc. apply digit_range in Hc.
  apply N.eqb_neq. unfold cu_dot. lia.
Qed.

Lemma lt_int_Dec0 v k : lt_int (Some (Dec v 0)) k = (v <? k)%Z.
Proof. simpl. by rewrite Z.mul_1_r. Qed.

Lemma eq_int_Dec0 v k : eq_int (Some (Dec v 0)) k = (v =? k)%Z.
Proof. simpl. by rewrite Z.mul_1_r. Qed.

(** [C31] [checkCompatibility] on a version [major.minor] or
    [major.minor.rest] made of decimal digits accepts exactly the
    versions from 1.5 on. *)
Theorem checkCompatibility_numeric {NS CS TS BS : Type} (h : @host NS CS TS BS) major minor rest :
  hostShape h = true → apiVersion h = Some (major ++ cu_dot :: minor ++ rest) →
  major ≠ [] → minor ≠ [] →
  Forall (λ c, is_digit c = true) major → Forall (λ c, is_digit c = true) minor →
  (rest = [] ∨ ∃ r, rest = cu_dot :: r) →
  checkCompatibility h = true ↔
  (1 < decimal_value major ∨ (decimal_value major = 1 ∧ 5 <= decimal_value minor))%Z.
Proof.
  intros Hs Hv HM Hm HdM Hdm Hr. unfold checkCompatibility. rewrite Hs, Hv. simpl negb.
  assert (truthy (major ++ cu_dot :: minor ++ rest) = true) as -> by (by destruct major).
  rewrite split_on_app by (by apply digits_not_dot).
  assert (∃ ps, split_on cu_dot (minor ++ rest) = minor :: ps) as [ps ->].
  { destruct Hr as [->|[r ->]]; [rewrite app_nil_r, split_on_none by (by apply digits_not_dot); by eexists|].
    rewrite split_on_app by (by apply digits_not_dot). by eexists. }
  cbn [map lookup list_lookup]. rewrite !Number_digits by done.
  rewrite lt_int_Dec0, eq_int_Dec0, lt_int_Dec0.
  destruct (Z.ltb_spec (decimal_value major) 1), (Z.eqb_spec (decimal_value major) 1),
    (Z.ltb_spec (decimal_value minor) 5); simpl; split; intros; try done; lia.
Qed.

Lemma checkCompatibility_numeric_witness :
  checkCompatibility (w_host (init_world None (Some (js "1.5.0")))) = true ↔
  (1 < decimal_value (js "1") ∨ (decimal_value (js "1") = 1 ∧ 5 <= decimal_value (js "5")))%Z.
Proof.
  apply (checkCompatibility_numeric _ (js "1") (js "5") (js ".0"));
    [reflexivity|reflexivity|discriminate|discriminate|decide_vm|decide_vm|right; by eexists].
Defined.

(** [checkCompatibility] (lines 125-131) accepts versions it
    cannot read: ['1'] has no minor part and [undefined < 5] is false,
    so version 1.0 passes the 1.5 check; a non-numeric version gives
    [NaN], for which every comparison is false.  ['1.4.9'] and ['0.9']
    are refused as intended. *)
Theorem checkCompatibility_accepts_unreadable :
  checkCompatibility (w_host (init_world None (Some (js "1")))) = true ∧
  checkCompatibility (w_host (init_world None (Some (js "abc")))) = true ∧
  checkCompatibility (w_host (init_world None (Some (js "1.x")))) = true ∧
  checkCompatibility (w_host (init_world None (Some (js "1.4.9")))) = false ∧
  checkCompatibility (w_host (init_world None (Some (js "0.9")))) = false.
Proof. split_and!; vm_compute; reflexivity. Qed.

End Plugin.
