(* ===== verification/Lifecycle.v ===== *)
(** * Properties of the plugin lifecycle of [main.ts]

    The theorems hold for every host that satisfies the laws of [Host].
    The panel invariant: every panel the plugin opened that is still open
    is the one [mindMapPanel] names, so that [toggleMindMap] and [unload]
    can close it.  It holds when every promise settles before the next
    input ([run_atomic]), and the interleavings of [Races] break it. *)

From S2P Require Import Prelude JsRegex Sanitizer JsObject Blocks TreeBuilder RootDiscovery JsNumber Host Plugin.
Import JsRegex Sanitizer JsObject Blocks TreeBuilder RootDiscovery JsNumber Host Plugin.

Module Lifecycle.

Create HintDb lifecycle.




Section Lifecycle.
Context {NS CS TS BS : Type} `{NavLaws NS} `{CommandsLaws CS} `{ToolbarLaws TS} `{BroadcastsLaws BS}.
Context (stack : nat).

#[local] Abbreviation W := (world (NS:=NS) (CS:=CS) (TS:=TS) (BS:=BS)).

Definition exec {A} (m : M A) (w : W) : W := snd (m w).

(** What the panel invariant reads. *)
Definition core (w : W) : list jsstr * NS * option jsstr * list task * BS :=
  (owned w, nav (w_host w), mindMapPanel (w_plugin w), tasks w, bc (w_host w)).

(** A computation that leaves it alone. *)
Definition neutral {A} (m : M A) : Prop := ∀ w : W, core (exec m w) = core w.

(** Every panel the plugin opened and that is still open is the one
    [mindMapPanel] names. *)
Definition tracked (w : W) : Prop :=
  ∀ p, p ∈ owned w → p ∈ panels (nav (w_host w)) → mindMapPanel (w_plugin w) = Some p.

(** The broadcasts reach only the two handlers [load] registers. *)
Definition bc_ok (b : BS) : Prop := ∀ e f, f ∈ handlersOf e b → f = HBlockUpdate ∨ f = HThemeChange.

Definition handlers_ok (w : W) : Prop := bc_ok (bc (w_host w)).

(** No call is suspended, and the invariant holds. *)
Definition quiescent (w : W) : Prop :=
  tasks w = [] ∧ Forall (λ p, truthy p = true) (owned w) ∧ tracked w ∧ handlers_ok w.

(** The invariant without the condition on suspended calls. *)
Definition pre_q (w : W) : Prop :=
  Forall (λ p, truthy p = true) (owned w) ∧ tracked w ∧ handlers_ok w.

(** A [showMindMap] is suspended at its [await]: the panel it opened is
    the only panel of the plugin that is open. *)
Definition show_pending (w : W) : Prop :=
  ∃ p b n, tasks w = [ShowAfterAddPanel p b n] ∧ Forall (λ q, truthy q = true) (owned w) ∧
    handlers_ok w ∧ ∀ q, q ∈ owned w → q ∈ panels (nav (w_host w)) → q = p.

(** What one input leaves before its promises settle. *)
Definition settled (w : W) : Prop :=
  (pre_q w ∧ (tasks w = [] ∨ tasks w = [LoadAfterInit])) ∨ show_pending w.

(** The panels once the current one is closed (lines 46-48 and 236-239). *)
Definition close_current (w : W) : NS :=
  match mindMapPanel (w_plugin w) with
  | Some p => if truthy p then closePanel p (nav (w_host w)) else nav (w_host w)
  | None => nav (w_host w)
  end.

(** ** The monad *)

Lemma exec_bind {A B} (m : M A) (f : A → M B) w : exec (m ≫= f) w = exec (f (fst (m w))) (exec m w).
Proof. unfold exec, mbind, M_bind. by destruct (m w). Qed.

Lemma neutral_bind {A B} (m : M A) (f : A → M B) : neutral m → (∀ a, neutral (f a)) → neutral (m ≫= f).
Proof. intros Hm Hf w. rewrite exec_bind, Hf. apply Hm. Qed.

Lemma neutral_ret {A} (a : A) : neutral (mret a).
Proof. done. Qed.

Lemma neutral_get : neutral get.
Proof. done. Qed.

Lemma neutral_notify t m : neutral (notify t m).
Proof. done. Qed.

Lemma neutral_setData p k d : neutral (setData p k d).
Proof. done. Qed.

Lemma neutral_setSettingsSchema p : neutral (setSettingsSchema p).
Proof. done. Qed.

Lemma neutral_set_renderer b : neutral (set_renderer b).
Proof. done. Qed.

Lemma neutral_set_timeout t : neutral (set_timeout t).
Proof. done. Qed.

Lemma neutral_on_cmds f : neutral (on_cmds f).
Proof. done. Qed.

Lemma neutral_on_bar f : neutral (on_bar f).
Proof. done. Qed.

Lemma neutral_clearTimeout t : neutral (clearTimeout t).
Proof. done. Qed.

Lemma neutral_setTimeout : neutral setTimeout.
Proof. done. Qed.

#[local] Hint Resolve neutral_ret neutral_get neutral_notify neutral_setData neutral_setSettingsSchema
  neutral_set_renderer neutral_set_timeout neutral_on_cmds neutral_on_bar neutral_clearTimeout
  neutral_setTimeout : lifecycle.

(** Split a computation into its primitive steps and close the neutral
    ones. *)
Ltac neutral_tac :=
  repeat match goal with
  | |- neutral (_ ≫= _) => apply neutral_bind; [|intros ?]
  | |- neutral (match ?x with _ => _ end) => destruct x
  | |- neutral (if ?b then _ else _) => destruct b
  | |- neutral skip => apply neutral_ret
  end; eauto with lifecycle.

Lemma pre_q_eq w w' :
  owned w' = owned w → nav (w_host w') = nav (w_host w) → mindMapPanel (w_plugin w') = mindMapPanel (w_plugin w) →
  bc (w_host w') = bc (w_host w) → pre_q w → pre_q w'.
Proof. unfold pre_q, tracked, handlers_ok. intros E1 E2 E3 E5. by rewrite E1, E2, E3, E5. Qed.

Lemma pre_q_core w w' : core w' = core w → pre_q w → pre_q w'.
Proof. unfold core. intros E. injection E as E1 E2 E3 _ E5. by apply pre_q_eq. Qed.

Lemma neutral_refreshMindMap : neutral refreshMindMap.
Proof. unfold refreshMindMap. neutral_tac. Qed.

Lemma neutral_run_all fs : Forall (λ f, f = HBlockUpdate ∨ f = HThemeChange) fs → neutral (run_all stack fs).
Proof.
  induction 1 as [|f fs [-> | ->] _ IH]; simpl; [apply neutral_ret|..];
    apply neutral_bind; intros; [apply neutral_refreshMindMap|apply IH| apply neutral_ret|apply IH].
Qed.

Lemma bc_ok_register e f b : f = HBlockUpdate ∨ f = HThemeChange → bc_ok b → bc_ok (registerHandler e f b).
Proof. intros Hf Hb e' g. rewrite handlersOf_register. intros [[_ ->]|Hg]; [done|by eapply Hb]. Qed.

Lemma bc_ok_unregister e f b : bc_ok b → bc_ok (unregisterHandler e f b).
Proof. intros Hb e' g. rewrite handlersOf_unregister. intros [_ Hg]. by eapply Hb. Qed.

(** ** Draining the suspended calls *)

Lemma exec_drain w :
  exec drain w = exec (foldr (λ t m, resume t;; m) skip (tasks w)) (with_loop (timers w) (nextTimer w) [] w).
Proof. done. Qed.

Lemma exec_skip_r {A} (m : M A) w : exec (m;; skip) w = exec m w.
Proof. rewrite exec_bind. done. Qed.

Lemma drain_nil w : tasks w = [] → pre_q w → quiescent (exec drain w).
Proof. intros Ht Hq. rewrite exec_drain, Ht. split; [done|]. apply (pre_q_core w); [|done]. unfold core. cbn. by rewrite Ht. Qed.

Lemma drain_load w : tasks w = [LoadAfterInit] → pre_q w → quiescent (exec drain w).
Proof.
  intros Ht (Ho & Htr & Hh). rewrite exec_drain, Ht. simpl foldr. rewrite exec_skip_r.
  split_and!; [done|done|done|]. unfold handlers_ok.
  change (bc (w_host (exec load_resume (with_loop (timers w) (nextTimer w) [] w)))) with
    (registerHandler ev_theme HThemeChange (registerHandler ev_deleted HBlockUpdate
      (registerHandler ev_created HBlockUpdate (registerHandler ev_updated HBlockUpdate (bc (w_host w)))))).
  repeat apply bc_ok_register; auto.
Qed.

Lemma show_resume_fields p b n w :
  owned (exec (showMindMap_resume p b n) w) = owned w ∧
  nav (w_host (exec (showMindMap_resume p b n) w)) = nav (w_host w) ∧
  mindMapPanel (w_plugin (exec (showMindMap_resume p b n) w)) = Some p ∧
  tasks (exec (showMindMap_resume p b n) w) = tasks w ∧
  bc (w_host (exec (showMindMap_resume p b n) w)) = bc (w_host w).
Proof. split_and!; reflexivity. Qed.

Lemma drain_show w : show_pending w → quiescent (exec drain w).
Proof.
  intros (p & b & n & Ht & Ho & Hh & Hp). rewrite exec_drain, Ht. simpl foldr. rewrite exec_skip_r.
  destruct (show_resume_fields p b n (with_loop (timers w) (nextTimer w) [] w)) as (E1 & E2 & E3 & E4 & E5).
  unfold quiescent, tracked, handlers_ok. rewrite E1, E2, E3, E4, E5. split_and!; [done|done| |done].
  intros q Hq Hqo. f_equal. symmetry. by apply Hp.
Qed.

Lemma drain_settled w : settled w → quiescent (exec drain w).
Proof. intros [[Hq [Ht|Ht]]|Hs]; [by apply drain_nil|by apply drain_load|by apply drain_show]. Qed.

(** ** [showMindMap] *)

Lemma settled_neutral {A} (m : M A) w : neutral m → quiescent w → settled (exec m w).
Proof.
  intros Hm (Ht & Hq). left. split; [by apply (pre_q_core w); [apply Hm|]|].
  left. specialize (Hm w). unfold core in Hm. injection Hm as _ _ _ E _. by rewrite E.
Qed.

(** The part of [showMindMap] that runs once there are trees to show
    (lines 46-55). *)
Lemma show_open_fields w cb k :
  let m : M unit :=
    (match mindMapPanel (w_plugin w) with
     | Some p => if truthy p then on_nav (closePanel p) else skip
     | None => skip
     end);;
    (if mindMapRenderer (w_plugin w) then skip else set_renderer true);;
    p ← open_panel (js "outline-mindmap");
    suspend (ShowAfterAddPanel p cb k) in
  owned (exec m w) = (addPanel (js "outline-mindmap") (close_current w)).1 :: owned w ∧
  nav (w_host (exec m w)) = (addPanel (js "outline-mindmap") (close_current w)).2 ∧
  tasks (exec m w) = tasks w ++ [ShowAfterAddPanel (addPanel (js "outline-mindmap") (close_current w)).1 cb k] ∧
  bc (w_host (exec m w)) = bc (w_host w).
Proof.
  unfold close_current. destruct (mindMapPanel (w_plugin w)) as [q|]; [destruct (truthy q)|];
    destruct (mindMapRenderer (w_plugin w)); unfold exec, mbind, M_bind, open_panel; simpl;
    match goal with |- context [addPanel ?i ?n] => destruct (addPanel i n) end; split_and!; reflexivity.
Qed.

(** The panels still open after [close_current] are open ones other than
    the closed panel. *)
Lemma close_current_panels w q :
  q ∈ panels (close_current w) → q ∈ panels (nav (w_host w)) ∧
    ∀ p, mindMapPanel (w_plugin w) = Some p → truthy p = true → q ≠ p.
Proof.
  unfold close_current. destruct (mindMapPanel (w_plugin w)) as [p|]; [destruct (truthy p) eqn:Hp|].
  - rewrite closePanel_panels, List_filter_neq_elem. intros [Hne Hq]. split; [done|]. by intros ? [= <-].
  - intros Hq. split; [done|]. intros ? [= <-]. congruence.
  - intros Hq. split; [done|]. done.
Qed.

Lemma showMindMap_settled w : quiescent w → settled (exec (showMindMap stack) w).
Proof.
  intros Hq. unfold showMindMap. rewrite exec_bind. change (exec get w) with w. cbn [fst get].
  destruct (blocks (w_host w)) as [cb|]; [|by apply settled_neutral; eauto with lifecycle].
  destruct (length (object_keys cb) =? 0); [by apply settled_neutral; eauto with lifecycle|].
  destruct (length (findRootBlocks cb) =? 0); [by apply settled_neutral; eauto with lifecycle|].
  destruct (mapM _ _) as [trees|]; [|by apply settled_neutral; eauto with lifecycle].
  destruct (length _ =? 0); [by apply settled_neutral; eauto with lifecycle|].
  match goal with |- settled (exec (_ ≫= λ _, _ ≫= λ _, open_panel _ ≫= λ p, suspend (ShowAfterAddPanel p _ ?k)) w) =>
    destruct (show_open_fields w cb k) as (E1 & E2 & E3 & E4) end.
  destruct Hq as (Ht & Ho & Htr & Hh).
  right. eexists _, cb, _. unfold handlers_ok. rewrite E1, E2, E3, E4, Ht. split_and!; [done| |done|].
  - constructor; [apply addPanel_truthy|done].
  - intros q Hq Hqo. rewrite addPanel_panels in Hqo.
    apply elem_of_cons in Hqo as [->|Hqo]; [done|].
    apply elem_of_cons in Hq as [->|Hq]; [done|].
    apply close_current_panels in Hqo as [Hqo Hne]. specialize (Htr q Hq Hqo).
    exfalso. apply (Hne q Htr); [|done]. by eapply Forall_forall in Ho.
Qed.

(** ** Closing the panel *)

(** [toggleMindMap] when a panel is open (lines 91-93). *)
Lemma toggle_close_fields p w :
  let w' := exec (on_nav (closePanel p);; set_panel None;; notify NInfo msg_closed) w in
  owned w' = owned w ∧ nav (w_host w') = closePanel p (nav (w_host w)) ∧
  mindMapPanel (w_plugin w') = None ∧ tasks w' = tasks w ∧ bc (w_host w') = bc (w_host w).
Proof. split_and!; reflexivity. Qed.

(** Closing the tracked panel leaves no panel of the plugin open. *)
Lemma tracked_close w p (nv : NS) (pp : option jsstr) :
  tracked w → mindMapPanel (w_plugin w) = Some p →
  (∀ q, q ∈ panels nv → q ∈ panels (nav (w_host w)) ∧ q ≠ p) →
  ∀ q, q ∈ owned w → q ∈ panels nv → pp = Some q.
Proof. intros Htr Hp Hnv q Hq Hqo. destruct (Hnv q Hqo) as [Hqo' Hne]. specialize (Htr q Hq Hqo'). congruence. Qed.

Lemma closePanel_elem p n q : q ∈ panels (closePanel p n) → q ∈ panels n ∧ q ≠ p.
Proof. rewrite closePanel_panels, List_filter_neq_elem. naive_solver. Qed.

Lemma toggleMindMap_settled w : quiescent w → settled (exec (toggleMindMap stack) w).
Proof.
  intros Hq. unfold toggleMindMap. rewrite exec_bind. change (exec get w) with w. cbn [fst get].
  destruct (mindMapPanel (w_plugin w)) as [p|] eqn:Hp; [destruct (truthy p)|]; [|by apply showMindMap_settled..].
  destruct (toggle_close_fields p w) as (E1 & E2 & E3 & E4 & E5).
  destruct Hq as (Ht & Ho & Htr & Hh). left. unfold pre_q, tracked, handlers_ok.
  rewrite E1, E2, E3, E4, E5. split_and!; [done| |done|by left].
  eapply tracked_close; [done|done|]. apply closePanel_elem.
Qed.

(** [unload] (lines 231-266). *)
Lemma unload_fields w :
  let w' := exec unload w in
  owned w' = owned w ∧ nav (w_host w') = close_current w ∧
  mindMapPanel (w_plugin w') =
    (match mindMapPanel (w_plugin w) with Some p => if truthy p then None else Some p | None => None end) ∧
  tasks w' = tasks w ∧
  bc (w_host w') = unregisterHandler ev_theme HThemeChange (unregisterHandler ev_deleted HBlockUpdate
    (unregisterHandler ev_created HBlockUpdate (unregisterHandler ev_updated HBlockUpdate (bc (w_host w))))).
Proof.
  unfold exec, unload, close_current, mbind, M_bind. simpl.
  destruct (mindMapPanel (w_plugin w)) as [p|] eqn:Hp; [destruct (truthy p)|];
    split_and!; unfold skip, mret, M_ret; simpl; rewrite ?Hp; reflexivity.
Qed.

Lemma unload_settled w : quiescent w → settled (exec unload w).
Proof.
  intros (Ht & Ho & Htr & Hh). destruct (unload_fields w) as (E1 & E2 & E3 & E4 & E5).
  left. unfold pre_q, tracked, handlers_ok. rewrite E1, E2, E3, E4, E5. split_and!; [done| | |by left].
  - unfold close_current in *. destruct (mindMapPanel (w_plugin w)) as [p|] eqn:Hp; [destruct (truthy p)|].
    + eapply tracked_close; [done|done|]. apply closePanel_elem.
    + intros q Hq Hqo. rewrite <- Hp. by apply Htr.
    + intros q Hq Hqo. rewrite <- Hp. by apply Htr.
  - repeat apply bc_ok_unregister. done.
Qed.

(** ** One input *)

Lemma run_handler_settled f w : quiescent w → settled (exec (run_handler stack f) w).
Proof.
  intros Hq. destruct f; simpl; try (by apply settled_neutral; [apply neutral_ret|]).
  - by apply showMindMap_settled.
  - by apply toggleMindMap_settled.
  - apply settled_neutral; [apply neutral_refreshMindMap|done].
Qed.

Lemma invoke_settled id w : quiescent w → settled (exec (invoke stack id) w).
Proof.
  intros Hq. unfold invoke. rewrite exec_bind. change (exec get w) with w. cbn [fst get].
  destruct (lookupCommand id _); [by apply run_handler_settled|by apply settled_neutral; [apply neutral_ret|]].
Qed.

Lemma refresh_callback_settled w : quiescent w → settled (exec (refresh_callback stack) w).
Proof.
  intros Hq. unfold refresh_callback. rewrite exec_bind. change (exec get w) with w. cbn [fst get].
  destruct (mindMapPanel (w_plugin w)) as [p|]; [destruct (truthy p)|];
    [by apply showMindMap_settled|by apply settled_neutral; [apply neutral_ret|]..].
Qed.

Lemma load_settled w : quiescent w → settled (exec load w).
Proof.
  intros Hq. unfold load. rewrite exec_bind. change (exec get w) with w. cbn [fst get].
  destruct (negb (checkCompatibility (w_host w))); [by apply settled_neutral; [apply neutral_notify|]|].
  destruct Hq as (Ht & Hq). left. split; [by apply (pre_q_eq w)|]. right. simpl. by rewrite Ht.
Qed.

Lemma neutral_quiescent {A} (m : M A) w : neutral m → quiescent w → quiescent (exec m w).
Proof.
  intros Hm Hq. destruct (settled_neutral m w Hm Hq) as [[Hp [Ht|Ht]]|(p & b & n & Ht & _)];
    [by split| |]; exfalso; pose proof (Hm w) as E; unfold core in E; injection E as _ _ _ E _;
    destruct Hq as [Hq _]; congruence.
Qed.

Lemma step_settled i w : quiescent w → settled (exec (step stack i) w).
Proof.
  intros Hq. destruct i as [| |id|k|b|e|p|t|n]; simpl.
  - by apply load_settled.
  - by apply unload_settled.
  - by apply invoke_settled.
  - rewrite exec_bind. change (exec get w) with w. cbn [fst get].
    destruct (lookupShortcut k _); [by apply invoke_settled|by apply settled_neutral; [apply neutral_ret|]].
  - rewrite exec_bind. change (exec get w) with w. cbn [fst get].
    destruct (lookupButton b _); [by apply invoke_settled|by apply settled_neutral; [apply neutral_ret|]].
  - rewrite exec_bind. change (exec get w) with w. cbn [fst get].
    apply settled_neutral; [|done]. apply neutral_run_all, Forall_forall. intros f Hf.
    destruct Hq as (_ & _ & _ & Hh). by eapply Hh.
  - destruct Hq as (Ht & Ho & Htr & Hh). left. split; [|by left].
    split_and!; [done| |done]. intros q Hq Hqo. apply closePanel_elem in Hqo as [Hqo _]. by apply Htr.
  - rewrite exec_bind. change (exec get w) with w. cbn [fst get].
    case_bool_decide; [|by apply settled_neutral; [apply neutral_ret|]].
    rewrite exec_bind. apply refresh_callback_settled. apply neutral_quiescent; [|done]. done.
  - rewrite exec_bind. change (exec get w) with w. cbn [fst get].
    destruct Hq as [Ht Hq]. rewrite Ht. simpl. apply settled_neutral; [apply neutral_ret|by split].
Qed.

Lemma step_atomic_quiescent i w : quiescent w → quiescent (exec (step_atomic stack i) w).
Proof. intros Hq. unfold step_atomic. rewrite exec_bind. by apply drain_settled, step_settled. Qed.



(** ** Claims *)

(** [C9] The panel invariant of [main.ts] when every promise settles
    before the next input: from a world with nothing suspended, only the
    plugin's two broadcast handlers, and every panel of the plugin that
    is open named by [mindMapPanel], any sequence of host inputs keeps
    all of this, whatever the blocks, the stack depth and the host. *)
Theorem run_atomic_tracked ins : ∀ w, quiescent w → quiescent (exec (run_atomic stack ins) w).
Proof.
  induction ins as [|i ins IH]; intros w Hq; simpl; [done|].
  rewrite exec_bind. by apply IH, step_atomic_quiescent.
Qed.

(** [C11] The stack overflow of [buildTree] on a cyclic root is caught by
    [showMindMap] (lines 80-84): it only notifies the error, and opens no
    panel and changes nothing else. *)
Theorem showMindMap_cycle_error w cb r :
  blocks (w_host w) = Some cb → r ∈ findRootBlocks cb → tc (TreeBuilder.step cb) r r →
  exec (showMindMap stack) w = exec (notify NError (msg_show_failed ++ range_error_message)) w.
Proof.
  intros Hb Hr Hc. unfold showMindMap. rewrite exec_bind. change (exec get w) with w. cbn [fst get].
  rewrite Hb. assert (r ∈ object_keys cb) as Hk.
  { unfold findRootBlocks in Hr. apply list_elem_of_In, filter_In in Hr as [Hr _]. by apply list_elem_of_In. }
  rewrite (elem_of_length_nz r _ Hk), (elem_of_length_nz r _ Hr).
  rewrite mapM_None_2; [done|]. apply Exists_exists. exists r. split; [done|]. by apply buildTree_tc_None.
Qed.

(** ** Interleavings and stale state

    The invariant above needs every promise to settle before the next
    input.  The theorems below take the inputs as the host delivers them,
    with the continuations run only where an [IResume] says so. *)

(** [currentBlocks] has roots whose trees [showMindMap] shows (it gets
    past lines 24-44). *)
Definition show_opens (cb : obj Block) : Prop :=
  (length (object_keys cb) =? 0) = false ∧ (length (findRootBlocks cb) =? 0) = false ∧
  ∃ trees, mapM (λ rootId, buildTree stack rootId cb 0) (findRootBlocks cb) = Some trees ∧
    (length (List.filter (λ tree, 0 <? length (js_trim (t_content tree))) trees) =? 0) = false.

Lemma exec_skip (w : W) : exec skip w = w.
Proof. done. Qed.

Lemma exec_run_cons i ins (w : W) : exec (run stack (i :: ins)) w = exec (run stack ins) (exec (step stack i) w).
Proof. apply exec_bind. Qed.

(** What [showMindMap] leaves when it gets to [addPanel]. *)
Lemma showMindMap_opens_fields w cb :
  blocks (w_host w) = Some cb → show_opens cb →
  let w' := exec (showMindMap stack) w in
  let p := (addPanel (js "outline-mindmap") (close_current w)).1 in
  owned w' = p :: owned w ∧ nav (w_host w') = (addPanel (js "outline-mindmap") (close_current w)).2 ∧
  (∃ k, tasks w' = tasks w ++ [ShowAfterAddPanel p cb k]) ∧
  cmds (w_host w') = cmds (w_host w) ∧ blocks (w_host w') = blocks (w_host w) ∧
  mindMapPanel (w_plugin w') = mindMapPanel (w_plugin w).
Proof.
  intros Hb (Hk & Hr & trees & Hm & Hv). unfold showMindMap. rewrite exec_bind. change (exec get w) with w.
  cbn [fst get]. rewrite Hb, Hk, Hr, Hm, Hv.
  match goal with |- context [ShowAfterAddPanel _ cb ?k] => destruct (show_open_fields w cb k) as (E1 & E2 & E3 & _) end.
  rewrite E1, E2, E3. split_and!; [done|done|by eexists|..];
    unfold close_current, exec, mbind, M_bind, open_panel, suspend, modify, with_loop, set_renderer, with_plugin,
      on_nav, with_host, skip, mret, M_ret;
    destruct (mindMapPanel (w_plugin w)) as [q|] eqn:Hp; try destruct (truthy q);
    destruct (mindMapRenderer (w_plugin w)); cbn;
    try (match goal with |- context [addPanel ?i ?n] => destruct (addPanel i n) end); cbn; rewrite ?Hb, ?Hp; reflexivity.
Qed.

Lemma exec_command_show (w : W) :
  lookupCommand cmd_show (cmds (w_host w)) = Some HSafeShowMindMap →
  exec (step stack (ICommand cmd_show)) w = exec (showMindMap stack) w.
Proof. intros Hc. unfold step, invoke. rewrite exec_bind. cbn [fst get]. by rewrite Hc. Qed.

Lemma exec_resume_first (w : W) t ts :
  tasks w = t :: ts → exec (step stack (IResume 0)) w = exec (resume t) (with_loop (timers w) (nextTimer w) ts w).
Proof.
  intros Ht. unfold step. rewrite exec_bind. cbn [fst get]. rewrite Ht. cbn [lookup list_lookup].
  rewrite exec_bind. f_equal. unfold exec, modify. cbn. by rewrite Ht.
Qed.

(** [load] on a compatible host only records its pending resume. *)
Lemma load_fields (w : W) :
  checkCompatibility (w_host w) = true →
  cmds (w_host (exec load w)) = cmds (w_host w) ∧ tasks (exec load w) = tasks w ++ [LoadAfterInit].
Proof. intros Hc. unfold load. rewrite exec_bind. cbn [fst get]. by rewrite Hc. Qed.

Lemma unload_cmds (w : W) :
  cmds (w_host (exec unload w)) =
  unregisterShortcut shortcut_key (unregisterCommand cmd_toggle (unregisterCommand cmd_show (cmds (w_host w)))).
Proof.
  unfold exec, unload, mbind, M_bind. cbn [fst snd get].
  by destruct (mindMapPanel (w_plugin w)) as [p|]; [destruct (truthy p)|].
Qed.

Lemma load_resume_fields (w : W) :
  cmds (w_host (exec load_resume w)) =
    registerShortcut shortcut_key cmd_toggle (registerCommand cmd_toggle HSafeToggleMindMap
      [0x5207; 0x6362; 0x5927; 0x7EB2; 0x89C6; 0x56FE]%N (registerCommand cmd_show HSafeShowMindMap
      [0x663E; 0x793A; 0x5927; 0x7EB2; 0x89C6; 0x56FE]%N (cmds (w_host w)))) ∧
  bc (w_host (exec load_resume w)) =
    registerHandler ev_theme HThemeChange (registerHandler ev_deleted HBlockUpdate
      (registerHandler ev_created HBlockUpdate (registerHandler ev_updated HBlockUpdate (bc (w_host w))))).
Proof. split; reflexivity. Qed.

Lemma cmd_show_toggle : cmd_show ≠ cmd_toggle.
Proof. by vm_compute. Qed.

(** [C10] Interleaving: two [showMindMap] calls that both pass line 46
    before either [addPanel] settles (two show commands in a row, the
    promises settling after both) leave two panels of the plugin open
    while [mindMapPanel] names only the second; [toggleMindMap] and
    [unload] then never close the first.  This holds on every host that
    satisfies the laws of [Host], for every page whose trees the view
    can show. *)
Theorem show_race_untracked w cb :
  tasks w = [] → mindMapPanel (w_plugin w) = None → blocks (w_host w) = Some cb → show_opens cb →
  lookupCommand cmd_show (cmds (w_host w)) = Some HSafeShowMindMap →
  let w' := exec (run stack [ICommand cmd_show; ICommand cmd_show; IResume 0; IResume 0]) w in
  ∃ p1 p2, p1 ≠ p2 ∧ p1 ∈ owned w' ∧ p1 ∈ panels (nav (w_host w')) ∧ p2 ∈ panels (nav (w_host w')) ∧
    mindMapPanel (w_plugin w') = Some p2.
Proof.
  intros Ht Hp Hb Hs Hc. cbv zeta. rewrite !exec_run_cons, exec_skip, (exec_command_show w Hc).
  destruct (showMindMap_opens_fields w cb Hb Hs) as (A1 & A2 & [k1 A3] & A4 & A5 & A6).
  set (w1 := exec (showMindMap stack) w) in *.
  rewrite (exec_command_show w1) by (by rewrite A4).
  destruct (showMindMap_opens_fields w1 cb) as (B1 & B2 & [k2 B3] & _); [by rewrite A5|done|].
  set (w2 := exec (showMindMap stack) w1) in *.
  assert (close_current w = nav (w_host w)) as Cw by (unfold close_current; by rewrite Hp).
  assert (close_current w1 = nav (w_host w1)) as Cw1 by (unfold close_current; by rewrite A6, Hp).
  rewrite Cw in A1, A2, A3. rewrite Cw1 in B1, B2, B3. rewrite A3, Ht in B3.
  set (p1 := (addPanel (js "outline-mindmap") (nav (w_host w))).1) in *.
  set (p2 := (addPanel (js "outline-mindmap") (nav (w_host w1))).1) in *.
  assert (p1 ∈ panels (nav (w_host w1))) as Hp1 by (rewrite A2, addPanel_panels; apply list_elem_of_here).
  assert (p2 ∉ panels (nav (w_host w1))) as Hp2 by apply addPanel_fresh.
  rewrite (exec_resume_first w2 _ _ B3). cbn [resume].
  destruct (show_resume_fields p1 cb k1 (with_loop (timers w2) (nextTimer w2) [ShowAfterAddPanel p2 cb k2] w2))
    as (C1 & C2 & _ & C4 & _).
  set (w3 := exec (showMindMap_resume p1 cb k1) _) in *.
  rewrite (exec_resume_first w3 (ShowAfterAddPanel p2 cb k2) []) by done. cbn [resume].
  destruct (show_resume_fields p2 cb k2 (with_loop (timers w3) (nextTimer w3) [] w3)) as (D1 & D2 & D3 & _).
  rewrite D1, D2, D3. unfold with_loop. cbn [owned w_host]. rewrite C1, C2. unfold with_loop. cbn [owned w_host].
  rewrite B1, B2, addPanel_panels. exists p1, p2. split_and!.
  - intros ->. done.
  - apply list_elem_of_further. fold p2. rewrite A1. apply list_elem_of_here.
  - by apply list_elem_of_further.
  - apply list_elem_of_here.
  - done.
Qed.

(** [C29] Stale continuation: [unload] does not cancel a [load] that is
    still waiting for [setSettingsSchema].  When that promise settles
    after [unload], the rest of [load] registers the two commands, the
    shortcut and the block handlers again, and they stay registered
    although the plugin is unloaded; on every host that satisfies the
    laws of [Host] and accepts the API version. *)
Theorem unload_keeps_pending_load w :
  checkCompatibility (w_host w) = true → tasks w = [] →
  let w' := exec (run stack [ILoad; IUnload; IResume 0]) w in
  lookupCommand cmd_show (cmds (w_host w')) = Some HSafeShowMindMap ∧
  lookupCommand cmd_toggle (cmds (w_host w')) = Some HSafeToggleMindMap ∧
  lookupShortcut shortcut_key (cmds (w_host w')) = Some cmd_toggle ∧
  HBlockUpdate ∈ handlersOf ev_updated (bc (w_host w')).
Proof.
  intros Hc Ht. cbv zeta. rewrite !exec_run_cons, exec_skip.
  change (exec (step stack ILoad) w) with (exec load w).
  change (exec (step stack IUnload) (exec load w)) with (exec unload (exec load w)).
  destruct (load_fields w Hc) as [L1 L2]. rewrite Ht in L2.
  destruct (unload_fields (exec load w)) as (_ & _ & _ & U4 & _). rewrite L2 in U4.
  rewrite (exec_resume_first _ _ _ U4). cbn [resume].
  destruct (load_resume_fields (with_loop (timers (exec unload (exec load w))) (nextTimer (exec unload (exec load w))) []
                                 (exec unload (exec load w)))) as [R1 R2].
  rewrite R1, R2. split_and!.
  - rewrite lookupCommand_registerShortcut, !lookupCommand_register.
    rewrite decide_False by apply cmd_show_toggle. by rewrite decide_True.
  - rewrite lookupCommand_registerShortcut, lookupCommand_register. by rewrite decide_True.
  - rewrite lookupShortcut_register. by rewrite decide_True.
  - rewrite !handlersOf_register. right. right. right. left. done.
Qed.

(** [C32] Stale panel id: when the user closes the panel in the host,
    [mindMapPanel] keeps its id, so the next [toggleMindMap] takes the
    branch of lines 91-93: it opens nothing, leaves the open panels as
    they are and reports the view closed.  Only the toggle after it
    shows the view again, in a panel that was not open. *)
Theorem toggle_after_user_close w p cb :
  mindMapPanel (w_plugin w) = Some p → truthy p = true → p ∉ panels (nav (w_host w)) →
  let w' := exec (toggleMindMap stack) w in
  panels (nav (w_host w')) = panels (nav (w_host w)) ∧ owned w' = owned w ∧
  last (notes (w_host w')) = Some (NInfo, msg_closed) ∧
  (blocks (w_host w) = Some cb → show_opens cb →
   ∃ q, q ∉ panels (nav (w_host w)) ∧ q ∈ panels (nav (w_host (exec (toggleMindMap stack) w')))).
Proof.
  intros Hp Ht Hn. cbv zeta.
  assert (exec (toggleMindMap stack) w = exec (on_nav (closePanel p);; set_panel None;; notify NInfo msg_closed) w) as E.
  { unfold toggleMindMap. rewrite exec_bind. cbn [fst get]. by rewrite Hp, Ht. }
  destruct (toggle_close_fields p w) as (T1 & T2 & T3 & _). rewrite E, T1, T2, closePanel_panels.
  assert (List.filter (λ q, negb (bool_decide (q = p))) (panels (nav (w_host w))) = panels (nav (w_host w))) as F.
  { apply List_filter_all, Forall_forall. intros q Hq. apply negb_true_iff, bool_decide_eq_false. by intros ->. }
  rewrite F. split_and!; [done|done| |].
  - unfold exec, mbind, M_bind, notify, modify, with_host. cbn. by rewrite last_snoc.
  - intros Hb Hs. set (w' := exec (on_nav (closePanel p);; set_panel None;; notify NInfo msg_closed) w) in *.
    assert (exec (toggleMindMap stack) w' = exec (showMindMap stack) w') as E'.
    { unfold toggleMindMap. rewrite exec_bind. cbn [fst get]. by rewrite T3. }
    assert (blocks (w_host w') = Some cb) as Hb' by done.
    destruct (showMindMap_opens_fields w' cb Hb' Hs) as (_ & S2 & _).
    rewrite E', S2. unfold close_current. rewrite T3.
    exists (addPanel (js "outline-mindmap") (nav (w_host w'))).1. split.
    + rewrite T2, <- F, <- closePanel_panels. apply addPanel_fresh.
    + rewrite addPanel_panels. apply list_elem_of_here.
Qed.

End Lifecycle.

(** ** On the in-memory host *)

Lemma init_world_quiescent b v : quiescent (init_world b v).
Proof.
  split_and!; [done|constructor| |].
  - intros p Hp. by apply elem_of_nil in Hp.
  - intros e f Hf. by apply elem_of_nil in Hf.
Qed.

Lemma run_atomic_tracked_witness :
  quiescent (exec (run_atomic 100 [ILoad; ICommand cmd_show; ICommand cmd_toggle; ICommand cmd_show; IBroadcast ev_updated])
                  (init_world (Some test_blocks) (Some (js "1.5.0")))).
Proof. apply run_atomic_tracked, init_world_quiescent. Defined.

Lemma showMindMap_cycle_error_witness :
  exec (showMindMap 1000) (init_world (Some cycle_blocks) None) =
  exec (notify NError (msg_show_failed ++ range_error_message)) (init_world (Some cycle_blocks) None).
Proof.
  apply (showMindMap_cycle_error 1000 _ cycle_blocks (js "a")); [reflexivity| |apply cycle_blocks_cycle].
  apply list_elem_of_In. vm_compute. left. reflexivity.
Defined.

(** The plugin loaded on a page of four blocks. *)
Definition loaded_world : mem_world :=
  exec (run_atomic 100 [ILoad]) (init_world (Some test_blocks) (Some (js "1.5.0"))).

Lemma show_opens_test_blocks : show_opens 100 test_blocks.
Proof. split_and!; [reflexivity|reflexivity|]. eexists. split; [reflexivity|vm_compute; reflexivity]. Defined.

Lemma show_race_untracked_witness :
  let w' := exec (run 100 [ICommand cmd_show; ICommand cmd_show; IResume 0; IResume 0]) loaded_world in
  ∃ p1 p2, p1 ≠ p2 ∧ p1 ∈ owned w' ∧ p1 ∈ panels (nav (w_host w')) ∧ p2 ∈ panels (nav (w_host w')) ∧
    mindMapPanel (w_plugin w') = Some p2.
Proof.
  apply (show_race_untracked 100 loaded_world test_blocks);
    [vm_compute; reflexivity|vm_compute; reflexivity|vm_compute; reflexivity|apply show_opens_test_blocks|
     vm_compute; reflexivity].
Defined.

Lemma unload_keeps_pending_load_witness :
  let w' := exec (run 100 [ILoad; IUnload; IResume 0]) (init_world (Some test_blocks) (Some (js "1.5.0"))) in
  lookupCommand cmd_show (cmds (w_host w')) = Some HSafeShowMindMap ∧
  lookupCommand cmd_toggle (cmds (w_host w')) = Some HSafeToggleMindMap ∧
  lookupShortcut shortcut_key (cmds (w_host w')) = Some cmd_toggle ∧
  HBlockUpdate ∈ handlersOf ev_updated (bc (w_host w')).
Proof. apply (unload_keeps_pending_load 100); vm_compute; reflexivity. Defined.

(** The view shown, then its panel closed by the user. *)
Definition user_closed_world : mem_world :=
  exec (run_atomic 100 [ICommand cmd_show; IUserClosePanel [112%N]]) loaded_world.

Lemma toggle_after_user_close_witness :
  let w' := exec (toggleMindMap 100) user_closed_world in
  panels (nav (w_host w')) = panels (nav (w_host user_closed_world)) ∧ owned w' = owned user_closed_world ∧
  last (notes (w_host w')) = Some (NInfo, msg_closed) ∧
  (blocks (w_host user_closed_world) = Some test_blocks → show_opens 100 test_blocks →
   ∃ q, q ∉ panels (nav (w_host user_closed_world)) ∧ q ∈ panels (nav (w_host (exec (toggleMindMap 100) w')))).
Proof.
  apply (toggle_after_user_close 100 user_closed_world [112%N] test_blocks);
    [vm_compute; reflexivity|reflexivity|vm_compute; apply not_elem_of_nil].
Defined.

End Lifecycle.
