(* ===== verification/ErrorBoundary.v ===== *)
(** * [withErrorBoundary] of [src/src/utils/helpers.ts] and its use in [main.ts]

    [withErrorBoundary(fn, fallback)] (helpers.ts 120-140) returns a
    function that calls [fn] inside [try]; when [fn] throws, it notifies
    a generic error (if [window.orca] exists) and returns what the
    fallback returns, or [null].  [main.ts] wraps [showMindMap] and
    [toggleMindMap] with it (lines 169-172) and registers the wrapped
    functions as its commands.

    A call of a JavaScript function completes normally with a value or
    throws ([completion], after the exception monad of CertiRocq).  An
    [async] function never throws when called: whatever goes wrong in it
    rejects the promise it returns, so the [catch] of [withErrorBoundary]
    never sees it.  The theorems show what the combinator does on each
    outcome, and that the wrapped handlers of [main.ts] do exactly what
    [Plugin.run_handler] runs for them. *)

From S2P Require Import Prelude JsObject Blocks TreeBuilder Host Plugin Lifecycle.
Import Host Plugin Lifecycle.

Module ErrorBoundary.

(** How a call completes: with a value or with a thrown value. *)
Inductive completion (R : Type) := Normal (r : R) | Throw (e : jsstr).
Arguments Normal {R} r.
Arguments Throw {R} e.

(** ['操作失败，请重试'] (line 130). *)
Definition msg_boundary : jsstr := [0x64CD; 0x4F5C; 0x5931; 0x8D25; 0xFF0C; 0x8BF7; 0x91CD; 0x8BD5]%N.

(** ['切换大纲视图失败'] (main.ts line 171). *)
Definition msg_toggle_failed : jsstr := [0x5207; 0x6362; 0x5927; 0x7EB2; 0x89C6; 0x56FE; 0x5931; 0x8D25]%N.

Section Boundary.
Context {NS CS TS BS : Type} `{NavLaws NS} `{CommandsLaws CS} `{ToolbarLaws TS} `{BroadcastsLaws BS}.
#[local] Abbreviation PM := (M (NS:=NS) (CS:=CS) (TS:=TS) (BS:=BS)).

(** Whether [window.orca] is set. *)
Context (window_orca : bool).

(** The function [withErrorBoundary(fn, fallback)] returns, called with
    [args] (lines 124-139): [Normal None] is the [null] of line 137; an
    exception of the fallback propagates. *)
Definition withErrorBoundary {A R} (fn : A → PM (completion R)) (fallback : option (A → PM (completion R)))
    (args : A) : PM (completion (option R)) :=
  c ← fn args;
  match c with
  | Normal r => mret (Normal (Some r))
  | Throw _ =>
      (if window_orca then notify NError msg_boundary else skip);;
      match fallback with
      | Some f => c' ← f args; mret (match c' with Normal r => Normal (Some r) | Throw e' => Throw e' end)
      | None => mret (Normal None)
      end
  end.

Context (stack : nat).

(** [showMindMap()] as a call: the [async] function runs up to its first
    [await] and returns its promise. *)
Definition showMindMap_call (_ : unit) : PM (completion unit) := showMindMap stack;; mret (Normal ()).

(** [toggleMindMap()] as a call: it returns [undefined]; the host calls
    it makes do not throw and the [showMindMap()] it starts is not
    awaited. *)
Definition toggleMindMap_call (_ : unit) : PM (completion unit) := toggleMindMap stack;; mret (Normal ()).

(** The fallback of [safeToggleMindMap] (lines 170-172). *)
Definition toggle_fallback (_ : unit) : PM (completion unit) := notify NError msg_toggle_failed;; mret (Normal ()).

Definition safeShowMindMap : unit → PM (completion (option unit)) := withErrorBoundary showMindMap_call None.
Definition safeToggleMindMap : unit → PM (completion (option unit)) :=
  withErrorBoundary toggleMindMap_call (Some toggle_fallback).

End Boundary.

(** ** What the wrapper does *)

Section Proofs.
Context {NS CS TS BS : Type} `{NavLaws NS} `{CommandsLaws CS} `{ToolbarLaws TS} `{BroadcastsLaws BS}.
Context (stack : nat).
#[local] Abbreviation W := (world (NS:=NS) (CS:=CS) (TS:=TS) (BS:=BS)).
#[local] Abbreviation PM := (M (NS:=NS) (CS:=CS) (TS:=TS) (BS:=BS)).

(** A call that completes normally goes through untouched. *)
Lemma withErrorBoundary_normal {A R} wo (fn : A → PM (completion R)) fb args (w : W) r :
  fst (fn args w) = Normal r → withErrorBoundary wo fn fb args w = (Normal (Some r), exec (fn args) w).
Proof. intros Hf. unfold withErrorBoundary, exec, mbind, M_bind. destruct (fn args w) as [c w']. cbn in *. by subst. Qed.

(** A call that throws is caught: the generic message, then the
    fallback on the state the call left. *)
Lemma withErrorBoundary_caught {A R} (fn : A → PM (completion R)) fb args (w : W) e :
  fst (fn args w) = Throw e →
  withErrorBoundary true fn fb args w =
  (c ← (match fb with
        | Some f => c' ← f args; mret (match c' with Normal r => Normal (Some r) | Throw e' => Throw e' end)
        | None => mret (Normal None)
        end); mret c) (exec (notify NError msg_boundary) (exec (fn args) w)).
Proof.
  intros Hf. unfold withErrorBoundary, exec, mbind, M_bind. destruct (fn args w) as [c w']. cbn in *. subst.
  unfold notify, modify. destruct fb as [f|]; cbn; [|done]. by destruct (f args _).
Qed.

(** Equivalence: the commands [main.ts] registers,
    [withErrorBoundary(showMindMap)] and [withErrorBoundary(toggleMindMap,
    fallback)], do exactly what [showMindMap] and [toggleMindMap] do, for
    any [window.orca]: the first is [async] and the second's calls do not
    throw, so the [catch] never runs, neither the generic message nor the
    fallback is shown, and both return normally.  This is the refinement
    [Plugin.run_handler] relies on. *)
Theorem safe_handlers_pass_through wo (w : W) :
  safeShowMindMap wo stack tt w = (Normal (Some ()), exec (run_handler stack HSafeShowMindMap) w) ∧
  safeToggleMindMap wo stack tt w = (Normal (Some ()), exec (run_handler stack HSafeToggleMindMap) w).
Proof.
  unfold safeShowMindMap, safeToggleMindMap, withErrorBoundary, showMindMap_call, toggleMindMap_call, exec,
    mbind, M_bind. cbn [run_handler].
  split; [destruct (showMindMap stack w)|destruct (toggleMindMap stack w)]; done.
Qed.

(** [C12] Errors: whatever the wrapped function throws never escapes.
    Without a fallback the call returns [null] after the one generic
    message; with the fallback of [safeToggleMindMap] the user gets the
    generic message and then the fallback's own, two error
    notifications for one failure. *)
Theorem withErrorBoundary_throw (fn : unit → PM (completion unit)) (w : W) e :
  fst (fn tt w) = Throw e →
  let w1 := exec (fn tt) w in
  withErrorBoundary true fn None tt w = (Normal None, exec (notify NError msg_boundary) w1) ∧
  fst (withErrorBoundary true fn (Some toggle_fallback) tt w) = Normal (Some ()) ∧
  notes (w_host (exec (withErrorBoundary true fn (Some toggle_fallback) tt) w)) =
    notes (w_host w1) ++ [(NError, msg_boundary); (NError, msg_toggle_failed)].
Proof.
  intros Hf. cbv zeta. unfold exec at 2 3. rewrite !(withErrorBoundary_caught fn _ tt w e Hf).
  split_and!; [done|done|]. unfold toggle_fallback, mbind, M_bind, notify, modify, with_host, mret, M_ret. cbn.
  by rewrite <- app_assoc.
Qed.

End Proofs.

(** ** Examples *)

(** A function that throws at once. *)
Definition thrower {A : Type} (_ : A) : M (NS:=MemNav) (CS:=MemCommands) (TS:=MemToolbar) (BS:=MemBroadcasts) (completion unit) :=
  λ w, (Throw (js "TypeError"), w).

Lemma withErrorBoundary_throw_witness :
  let w := init_world (Some TreeBuilder.test_blocks) (Some (js "1.5.0")) in
  let w1 := exec (thrower tt) w in
  withErrorBoundary true thrower None tt w = (Normal None, exec (notify NError msg_boundary) w1) ∧
  fst (withErrorBoundary true thrower (Some toggle_fallback) tt w) = Normal (Some ()) ∧
  notes (w_host (exec (withErrorBoundary true thrower (Some toggle_fallback) tt) w)) =
    notes (w_host w1) ++ [(NError, msg_boundary); (NError, msg_toggle_failed)].
Proof. apply (withErrorBoundary_throw thrower _ (js "TypeError")). reflexivity. Defined.

End ErrorBoundary.
