(* ===== verification/Scenarios.v ===== *)
(** * Executions of [main.ts] on the in-memory host

    Concrete runs of [Plugin.run] and [Plugin.run_atomic] from a freshly
    started host: interleavings in which a promise settles after a later
    input, which break the panel invariant of [Lifecycle] and the
    effect of [unload], a panel closed by the user, and the version
    strings [checkCompatibility] lets through. *)

From S2P Require Import Prelude JsRegex Sanitizer JsObject Blocks TreeBuilder RootDiscovery JsNumber Host Plugin Lifecycle.
Import JsRegex Sanitizer JsObject Blocks TreeBuilder RootDiscovery JsNumber Host Plugin Lifecycle.

Module Scenarios.

(** The host of the test fixtures, with a supported API version. *)
Definition w0 : mem_world := init_world (Some test_blocks) (Some (js "1.5.0")).

(** Two [showMindMap] calls whose panels settle after both have started:
    the second call is the toolbar button pressed again, or the debounced
    refresh, before the host answers the first. *)
Definition double_show : list input :=
  [ILoad; IResume 0; ICommand cmd_show; ICommand cmd_show; IResume 0; IResume 0].

(** The host unloads the plugin while [load] waits for its settings. *)
Definition unload_while_loading : list input := [ILoad; IUnload; IResume 0].

(** Interleaving breaks the panel invariant: from a world that
    satisfies it, two [showMindMap] calls that both pass line 46 before
    either [addPanel] settles leave two panels of the plugin open, and
    [mindMapPanel] names only one of them, so [toggleMindMap] and
    [unload] never close the other. *)
Theorem show_race_leaks_panel :
  quiescent w0 ∧ ¬ tracked (exec (run 100 double_show) w0).
Proof.
  split; [apply init_world_quiescent|]. intros Htr.
  specialize (Htr [112%N]). vm_compute in Htr.
  assert (Some [112%N; 112%N] = Some [112%N]) as E; [|discriminate E].
  apply Htr; apply list_elem_of_In; vm_compute; auto.
Qed.

(** [unload] does not cancel a [load] that is still waiting for
    [setSettingsSchema]: when the promise settles after [unload], the
    commands are registered again and stay registered, while the same
    inputs with every promise settled at once leave none. *)
Theorem unload_during_load_reregisters :
  lookupCommand cmd_show (cmds (w_host (exec (run 100 unload_while_loading) w0))) = Some HSafeShowMindMap ∧
  HBlockUpdate ∈ handlersOf ev_updated (bc (w_host (exec (run 100 unload_while_loading) w0))) ∧
  lookupCommand cmd_show (cmds (w_host (exec (run_atomic 100 [ILoad; IUnload]) w0))) = None.
Proof. split_and!; [reflexivity| |reflexivity]. apply list_elem_of_In. vm_compute. auto. Qed.

(** A panel the user closes in the host keeps its id in
    [mindMapPanel]; the next [toggleMindMap] then only "closes" it again
    and reports the view closed (lines 90-93), opening nothing: the user
    has to toggle twice to see the view. *)
Theorem toggle_after_user_close_run :
  let w1 := exec (run_atomic 100 [ILoad; ICommand cmd_show]) w0 in
  mn_open (nav (w_host w1)) = [[112%N]] ∧
  let w2 := exec (run_atomic 100 [IUserClosePanel [112%N]; ICommand cmd_toggle]) w1 in
  mn_open (nav (w_host w2)) = [] ∧ last (notes (w_host w2)) = Some (NInfo, msg_closed) ∧
  mn_open (nav (w_host (exec (run_atomic 100 [ICommand cmd_toggle]) w2))) = [[112%N]].
Proof. vm_compute. split_and!; reflexivity. Qed.

End Scenarios.
