(* ===== verification/Renderer.v ===== *)
(** * The renderer of [src/src/components/MindMap.ts]

    [renderTreeAsHTML] writes one [div] per node, in preorder, all
    siblings of one container, with the node's depth in [data-level] and
    its content as raw HTML; [generateMindMapHTML] wraps the trees in the
    panel's markup.  [addInteractivity] makes a click on a node that is
    not a root toggle the nodes that follow it one level deeper, up to
    the next node at its own level or above.  The DOM is modelled by the
    list of rendered nodes with their [style.display] and [collapsed]
    class; HTML parsing is not modelled. *)

From S2P Require Import Prelude JsRegex Sanitizer JsObject Blocks TreeBuilder JsNumber.
Import JsRegex Sanitizer JsObject Blocks TreeBuilder JsNumber.
From Stdlib Require Import ZArith.

Module Renderer.

Definition quote : jsstr := [0x22]%N.

(** [Number.prototype.toString] of a non-negative integer. *)
Fixpoint dec_digits (fuel : nat) (n : N) (acc : jsstr) : jsstr :=
  match fuel with
  | O => acc
  | S f => let acc' := (48 + n mod 10)%N :: acc in
           if (n / 10 =? 0)%N then acc' else dec_digits f (n / 10) acc'
  end.

Definition nat_to_js (n : nat) : jsstr := dec_digits (S n) (N.of_nat n) [].

(** [Number.prototype.toString] of an integer, as a template literal
    writes it. *)
Definition z_to_js (z : Z) : jsstr :=
  if (z <? 0)%Z then js "-" ++ nat_to_js (Z.to_nat (- z)) else nat_to_js (Z.to_nat z).

(** [getTextColor] (lines 131-141). *)
Definition colors : list jsstr :=
  [js "var(--orca-color-text-1)"; js "var(--orca-color-text-2)"; js "var(--orca-color-text-3)";
   js "var(--orca-color-primary)"; js "var(--orca-color-secondary)"].

Definition getTextColor (depth : nat) : jsstr := nth (Nat.min depth (length colors - 1)) colors [].

(** [getBullet] (lines 144-147): '● ', '○ ', '▪ ', '▫ ', '‣ '. *)
Definition bullets : list jsstr :=
  [[0x25CF; 0x20]%N; [0x25CB; 0x20]%N; [0x25AA; 0x20]%N; [0x25AB; 0x20]%N; [0x2023; 0x20]%N].

Definition getBullet (depth : nat) : jsstr := nth (Nat.min depth (length bullets - 1)) bullets [].

(** [Math.max(12, 16 - depth * 2)] *)
Definition fontSize (depth : nat) : nat := Z.to_nat (Z.max 12 (16 - Z.of_nat depth * 2)).

(** [renderTreeAsHTML] (lines 12-27). *)
Fixpoint renderTreeAsHTML (node : TreeNode) (depth : nat) : jsstr :=
  match node with
  | mkTreeNode id content children _ _ =>
      let indent := concat (replicate depth (js "  ")) in
      indent ++ js "<div class=" ++ quote ++ js "mindmap-node" ++ quote ++ js " data-level=" ++ quote
        ++ nat_to_js depth ++ quote ++ js " data-id=" ++ quote ++ id ++ quote ++ js " style=" ++ quote
        ++ js "margin: 5px 0; font-size: " ++ nat_to_js (fontSize depth) ++ js "px; color: "
        ++ getTextColor depth ++ js ";" ++ quote ++ js ">"
        ++ getBullet depth ++ content
        ++ js "</div>" ++ [0xA]%N
        ++ concat (map (λ child, renderTreeAsHTML child (S depth)) children)
  end.

Definition html_head : jsstr :=
    [0xA]%N ++ js "      <div class=" ++ [0x22]%N ++ js "mindmap-container" ++ [0x22]%N ++
    js ">" ++ [0xA]%N ++ js "        <div class=" ++ [0x22]%N ++ js "mindmap-header" ++ [0x22]%N ++
    js ">" ++ [0xA]%N ++ js "          <h3 class=" ++ [0x22]%N ++ js "mindmap-title" ++ [0x22]%N ++
    js ">" ++ [0xA]%N ++ js "            " ++ [0xD83D; 0xDCD6]%N ++ js " " ++
    [0x7B14; 0x8BB0; 0x5927; 0x7EB2; 0x7ED3; 0x6784; 0xA]%N ++ js "          </h3>" ++ [0xA]%N ++
    js "          <div class=" ++ [0x22]%N ++ js "mindmap-controls" ++ [0x22]%N ++ js ">" ++
    [0xA]%N ++ js "            <button class=" ++ [0x22]%N ++ js "mindmap-btn" ++ [0x22]%N ++
    js " onclick=" ++ [0x22]%N ++
    js "this.closest('.mindmap-container').querySelector('.mindmap-content').classList.toggle('collapsed')" ++
    [0x22]%N ++ js ">" ++ [0xA]%N ++ js "              " ++
    [0x5207; 0x6362; 0x6298; 0x53E0; 0xA]%N ++ js "            </button>" ++ [0xA]%N ++
    js "          </div>" ++ [0xA]%N ++ js "        </div>" ++ [0xA]%N ++
    js "        <div class=" ++ [0x22]%N ++ js "mindmap-content" ++ [0x22]%N ++ js ">" ++
    [0xA]%N ++ js "    ".

Definition html_footer (totalBlocks : nat) : jsstr :=
    [0xA]%N ++ js "        </div>" ++ [0xA]%N ++ js "        <div class=" ++ [0x22]%N ++
    js "mindmap-footer" ++ [0x22]%N ++ js ">" ++ [0xA]%N ++ js "          " ++
    [0xD83D; 0xDCA1]%N ++ js " " ++ [0x5C42; 0x7EA7; 0x7ED3; 0x6784; 0x53EF; 0x89C6; 0x5316]%N ++
    js " | " ++ [0x5171]%N ++ js " " ++ nat_to_js totalBlocks ++
    js " " ++ [0x4E2A; 0x5757; 0xA]%N ++ js "        </div>" ++ [0xA]%N ++ js "      </div>" ++
    [0xA]%N ++ js "    ".

(** [generateMindMapHTML] (lines 30-59). *)
Definition generateMindMapHTML (trees : list TreeNode) (totalBlocks : nat) : jsstr :=
  html_head ++ concat (map (λ tree, renderTreeAsHTML tree 0) trees) ++ html_footer totalBlocks.

(** ** The rendered nodes and [addInteractivity] *)

(** [element.style.display] *)
Inductive display := DUnset | DBlock | DNone.

(** One [div.mindmap-node] of the content area. *)
Record rnode := mkRNode { r_level : nat; r_node : TreeNode; r_display : display; r_collapsed : bool }.

(** The [div]s [renderTreeAsHTML] writes for a tree, in document order. *)
Fixpoint flatten (depth : nat) (t : TreeNode) : list rnode :=
  match t with
  | mkTreeNode _ _ children _ _ =>
      mkRNode depth t DUnset false :: concat (map (flatten (S depth)) children)
  end.

(** The content area of [generateMindMapHTML]. *)
Definition rendered (trees : list TreeNode) : list rnode := concat (map (flatten 0) trees).

(** The loop of lines 81-97: the positions of the following siblings one
    level deeper, up to the first at [currentLevel] or above. *)
Fixpoint child_positions (currentLevel pos : nat) (siblings : list rnode) : list nat :=
  match siblings with
  | [] => []
  | n :: rest =>
      if r_level n <=? currentLevel then []
      else (if r_level n =? S currentLevel then [pos] else []) ++ child_positions currentLevel (S pos) rest
  end.

Definition toggle_display (d : display) : display := match d with DNone => DBlock | _ => DNone end.

Definition toggle_at (p : nat) (ns : list rnode) : list rnode :=
  alter (λ n, mkRNode (r_level n) (r_node n) (toggle_display (r_display n)) (r_collapsed n)) p ns.

(** The nodes a click on position [i] toggles (lines 75-97): none for
    a node whose [data-level] is ['0']. *)
Definition clicked_children (ns : list rnode) (i : nat) : list nat :=
  match ns !! i with
  | Some node =>
      if bool_decide (nat_to_js (r_level node) = js "0") then []
      else child_positions (r_level node) (S i) (drop (S i) ns)
  | None => []
  end.

(** The click handler of lines 75-106 on the node at position [i]. *)
Definition click (i : nat) (ns : list rnode) : list rnode :=
  match ns !! i with
  | Some node =>
      if bool_decide (nat_to_js (r_level node) = js "0") then ns else
      let ns' := foldl (λ acc p, toggle_at p acc) ns (clicked_children ns i) in
      alter (λ n, mkRNode (r_level n) (r_node n) (r_display n) (negb (r_collapsed n))) i ns'
  | None => ns
  end.

(** The element [createInteractiveMindMap(trees, totalBlocks)] returns
    (lines 62-70), as its listeners see it: the nodes of the content area
    it parsed from [generateMindMapHTML] ([totalBlocks] only reaches the
    footer's text), and the positions of the nodes that carry the class
    [hover]. *)
Record interactive := mkInteractive { im_nodes : list rnode; im_hovered : list nat }.

Definition createInteractiveMindMap (trees : list TreeNode) (totalBlocks : nat) : interactive :=
  mkInteractive (rendered trees) [].

(** The [mouseover] and [mouseout] listeners (lines 111-127): [target]
    is the position of [target.closest('.mindmap-node')], [None] when the
    pointer is outside every node; [classList] is a set. *)
Definition mouseover (target : option nat) (d : interactive) : interactive :=
  match target with
  | Some i => if bool_decide (i ∈ im_hovered d) then d else mkInteractive (im_nodes d) (im_hovered d ++ [i])
  | None => d
  end.

Definition mouseout (target : option nat) (d : interactive) : interactive :=
  match target with
  | Some i => mkInteractive (im_nodes d) (List.filter (λ j, negb (j =? i)) (im_hovered d))
  | None => d
  end.

(** The [click] listener on the element. *)
Definition click_on (i : nat) (d : interactive) : interactive := mkInteractive (click i (im_nodes d)) (im_hovered d).

(** ** Fixtures *)

(** A chain of four blocks, each the only child of the previous one. *)
Definition chain_tree : TreeNode :=
  mkTreeNode (js "r") (js "R") [mkTreeNode (js "a") (js "A") [mkTreeNode (js "b") (js "B")
    [mkTreeNode (js "c") (js "C") [] 3 None] 2 None] 1 None] 0 None.

(** Block text that opens an [img] element and never closes it. *)
Definition img_payload : jsstr := js "<img src=x onerror=alert(1)//".

Definition img_blocks : obj Block :=
  obj_of_list [(js "1", mkBlock (Some (js "1")) (Some img_payload) (Some []) None None)].

(** ** Printing numbers *)

Lemma decimal_value_snoc ds x : decimal_value (ds ++ [x]) = (decimal_value ds * 10 + (Z.of_N x - 48))%Z.
Proof. unfold decimal_value. by rewrite fold_left_app. Qed.

Lemma dec_digits_spec fuel : ∀ n acc, (n < N.of_nat fuel)%N →
  ∃ ds, dec_digits fuel n acc = ds ++ acc ∧ ds ≠ [] ∧ Forall (λ c, is_digit c = true) ds ∧
    decimal_value ds = Z.of_N n.
Proof.
  induction fuel as [|f IH]; intros n acc Hn; [lia|]. simpl.
  assert (Hd : is_digit (48 + n mod 10)%N = true).
  { unfold is_digit. pose proof (N.mod_lt n 10 ltac:(lia)) as Hm. revert Hm. generalize (n mod 10)%N. intros m Hm. apply andb_true_iff; split; apply N.leb_le; lia. }
  destruct (N.eqb_spec (n / 10) 0) as [Hq|Hq].
  - exists [(48 + n mod 10)%N]. split_and!; [done|done|by constructor|].
    unfold decimal_value. cbn [fold_left]. pose proof (N.div_mod n 10 ltac:(lia)) as Hdm. rewrite Hq in Hdm. lia.
  - destruct (IH (n / 10)%N ((48 + n mod 10)%N :: acc)) as (ds & E & Hne & Hds & Hv).
    { assert (n ≠ 0)%N by (intros ->; by apply Hq). assert (n / 10 < n)%N by (apply N.div_lt; lia). lia. }
    exists (ds ++ [(48 + n mod 10)%N]). rewrite E, <- app_assoc. split_and!; [done| |by apply Forall_app; auto|].
    + by destruct ds.
    + rewrite decimal_value_snoc, Hv. pose proof (N.div_mod n 10 ltac:(lia)). lia.
Qed.

(** Round trip: [Number] of the decimal text the renderer writes
    for a depth or a count gives the number back. *)
Theorem nat_to_js_Number n : Number (nat_to_js n) = Dec (Z.of_nat n) 0.
Proof.
  destruct (dec_digits_spec (S n) (N.of_nat n) [] ltac:(lia)) as (ds & E & Hne & Hds & Hv).
  unfold nat_to_js. rewrite E, app_nil_r, Number_digits by done. rewrite Hv. f_equal. lia.
Qed.

Lemma nat_to_js_zero n : nat_to_js n = js "0" → n = 0.
Proof.
  destruct (dec_digits_spec (S n) (N.of_nat n) [] ltac:(lia)) as (ds & E & _ & _ & Hv).
  unfold nat_to_js. rewrite E, app_nil_r. intros ->. change (decimal_value (js "0")) with 0%Z in Hv. lia.
Qed.

(** ** Properties of the click handler *)

(** Every [div] of a subtree rendered at [depth] is at [depth] or deeper. *)
Lemma flatten_levels : ∀ t depth, Forall (λ n, depth ≤ r_level n) (flatten depth t).
Proof.
  fix IH 1. intros [i c ch l p] depth. simpl. constructor; [simpl; lia|].
  apply Forall_concat, Forall_fmap. induction ch as [|t ch IHch]; constructor.
  - simpl. eapply Forall_impl; [apply IH|]. simpl. lia.
  - apply IHch.
Qed.

Lemma child_positions_skip d j L X :
  Forall (λ n, S (S d) ≤ r_level n) L → child_positions d j (L ++ X) = child_positions d (j + length L) X.
Proof.
  revert j. induction L as [|n L IHL]; intros j HL; simpl; [by rewrite Nat.add_0_r|].
  inversion HL as [|? ? Hn HL']; subst.
  destruct (Nat.leb_spec (r_level n) d); [lia|]. destruct (Nat.eqb_spec (r_level n) (S d)); [lia|].
  simpl. rewrite IHL by done. f_equal. lia.
Qed.

Lemma child_positions_stop d j X :
  (∀ n, head X = Some n → r_level n ≤ d) → child_positions d j X = [].
Proof. destruct X as [|n X]; intros HX; simpl; [done|]. by rewrite (proj2 (Nat.leb_le _ _) (HX n eq_refl)). Qed.

Lemma child_positions_here d j n L :
  r_level n = S d → child_positions d j (n :: L) = j :: child_positions d (S j) L.
Proof. intros Hn. simpl. rewrite Hn, Nat.eqb_refl. by rewrite (proj2 (Nat.leb_gt _ _)) by lia. Qed.

Lemma children_toggled P ch d X :
  (∀ n, head X = Some n → r_level n ≤ d) →
  let ns := P ++ concat (map (flatten (S d)) ch) ++ X in
  map (λ p, r_node <$> ns !! p) (child_positions d (length P) (concat (map (flatten (S d)) ch) ++ X)) = map Some ch.
Proof.
  intros HX. revert P. induction ch as [|[i c ch' l p] ch IH]; intros P.
  - simpl. by rewrite child_positions_stop.
  - cbv zeta. set (t0 := mkTreeNode i c ch' l p).
    change (concat (map (flatten (S d)) (t0 :: ch))) with (flatten (S d) t0 ++ concat (map (flatten (S d)) ch)).
    change (flatten (S d) t0) with (mkRNode (S d) t0 DUnset false :: concat (map (flatten (S (S d))) ch')).
    rewrite <- !app_assoc. cbn [app]. rewrite child_positions_here by done. cbn [map].
    rewrite child_positions_skip.
    2: { apply Forall_concat, Forall_fmap, Forall_forall. intros t _. apply flatten_levels. }
    rewrite lookup_app_r, Nat.sub_diag by lia. simpl. f_equal.
    specialize (IH (P ++ flatten (S d) (mkTreeNode i c ch' l p))).
    rewrite <- !app_assoc in IH. simpl in IH. rewrite length_app in IH. simpl in IH.
    rewrite <- IH. f_equal. f_equal. lia.
Qed.

(** [C33] A click on a node that is not a root toggles exactly the [div]s
    of its direct children: whatever precedes the node, and whatever
    follows its subtree at its own level or above, the positions the
    handler collects hold the node's children, in order. *)
Theorem click_toggles_children P t d X :
  0 < d → (∀ n, head X = Some n → r_level n ≤ d) →
  let ns := P ++ flatten d t ++ X in
  map (λ p, r_node <$> ns !! p) (clicked_children ns (length P)) = map Some (t_children t).
Proof.
  intros Hd HX. destruct t as [i c ch l p]. cbv zeta. unfold clicked_children.
  change (flatten d (mkTreeNode i c ch l p)) with (mkRNode d (mkTreeNode i c ch l p) DUnset false :: concat (map (flatten (S d)) ch)).
  rewrite lookup_app_r, Nat.sub_diag, <- app_comm_cons by lia. cbn [lookup list_lookup r_level].
  rewrite bool_decide_eq_false_2 by (intros E; apply nat_to_js_zero in E; lia).
  destruct d as [|d]; [lia|].
  replace (P ++ mkRNode (S d) (mkTreeNode i c ch l p) DUnset false :: concat (map (flatten (S (S d))) ch) ++ X)
    with ((P ++ [mkRNode (S d) (mkTreeNode i c ch l p) DUnset false]) ++ concat (map (flatten (S (S d))) ch) ++ X)
    by (by rewrite <- app_assoc).
  rewrite drop_app_length' by (rewrite length_app; simpl; lia).
  replace (S (length P)) with (length (P ++ [mkRNode (S d) (mkTreeNode i c ch l p) DUnset false]))
    by (rewrite length_app; simpl; lia).
  by apply children_toggled.
Qed.

Lemma click_toggles_children_witness :
  let ns := take 2 (rendered [test_tree]) ++ flatten 1 (nth 1 (t_children test_tree) test_tree) ++ [] in
  map (λ p, r_node <$> ns !! p) (clicked_children ns (length (take 2 (rendered [test_tree])))) =
  map Some (t_children (nth 1 (t_children test_tree) test_tree)).
Proof. apply (click_toggles_children (take 2 (rendered [test_tree])) _ 1 []); [lia|done]. Defined.

(** Collapsing hides only the direct children: a click on the
    second node of a chain of four hides the third, and the fourth stays
    displayed under its hidden parent. *)
Theorem collapse_keeps_grandchildren :
  let ns := click 1 (rendered [chain_tree]) in
  map r_display ns = [DUnset; DUnset; DNone; DUnset] ∧ map r_collapsed ns = [false; true; false; false].
Proof. vm_compute. split; reflexivity. Qed.

(** The sanitizer's guarantee does not make the content safe to
    insert as HTML: a text with an unclosed [<img] tag passes
    [sanitizeInput] unchanged, [buildTree] keeps it as the node's
    content, and [generateMindMapHTML] follows it with ["</div>"], whose
    [>] closes the tag: the page gets an [img] element whose [onerror]
    runs [alert(1)]. *)
Theorem rendered_content_closes_tag :
  sanitizeInput (JStr img_payload) = img_payload ∧
  ∃ t, buildTree 2 (js "1") img_blocks 0 = Some t ∧ t_content t = img_payload ∧
    js_includes (generateMindMapHTML [t] 1) (img_payload ++ js "</div>") = true.
Proof. split; [vm_compute; reflexivity|]. eexists. split; [vm_compute; reflexivity|]. vm_compute. auto. Qed.

(** The [hover] class is a set: the listeners never list a node twice,
    and a [mouseout] on a node takes its class away whatever came
    before; neither listener touches the nodes' display. *)
Lemma hover_listeners t (d : interactive) :
  NoDup (im_hovered d) →
  NoDup (im_hovered (mouseover t d)) ∧ NoDup (im_hovered (mouseout t d)) ∧
  im_nodes (mouseover t d) = im_nodes d ∧ im_nodes (mouseout t d) = im_nodes d ∧
  (∀ i, t = Some i → i ∉ im_hovered (mouseout t d)).
Proof.
  intros Hd. destruct t as [i|]; cbn; [|split_and!; by auto].
  assert (i ∉ List.filter (λ j, negb (j =? i)) (im_hovered d)) as Hout.
  { intros (_ & Hj)%list_elem_of_In%filter_In. by apply negb_true_iff, Nat.eqb_neq in Hj. }
  case_bool_decide as Hi; cbn; (split_and!; [| by apply NoDup_ListNoDup, List.NoDup_filter, NoDup_ListNoDup|done|done|by intros j [= <-]]); [done|].
  apply NoDup_app. split_and!; [done| |by apply NoDup_singleton]. by intros x Hx ->%list_elem_of_singleton.
Qed.

End Renderer.
