(* ===== verification/SimplePlugin.v ===== *)
(** * The simplified plugin of [src/src/main-simple.ts]

    [main-simple.ts] is a second build of the outline plugin: the same
    commands, toolbar button and shortcut as [main.ts], but its own
    [buildTree] without the sanitizer, the noise filter or an error
    boundary, its own [findRootBlocks] and an inline renderer
    [renderTree].  Its state is [pluginName] and [mindMapPanel].

    The pure part comes first: [buildTree] (lines 14-28) with the same
    reading of its fuel as [TreeBuilder.buildTree] ([None] is the
    [RangeError] of a stack overflow, [Some None] the [null] of a missing
    block), [findRootBlocks] (31-36), [renderTree] (39-51) and the panel
    HTML that [showMindMap] assembles (62-84). *)

From S2P Require Import Prelude JsObject Blocks TreeBuilder Renderer Host Plugin.
Import JsObject Blocks TreeBuilder Renderer Host.

Module SimplePlugin.

(** The node object of lines 22-27. *)
Inductive SNode := mkSNode {
  sn_id : option jsstr;
  sn_content : jsstr;
  sn_children : list SNode;
  sn_level : nat
}.

(** [buildTree] (lines 14-28). *)
Fixpoint buildTree (fuel : nat) (blockId : jsstr) (allBlocks : obj Block) (level : nat)
    : option (option SNode) :=
  match fuel with
  | O => None
  | S fuel' =>
      match obj_get allBlocks blockId with
      | None => Some None
      | Some block =>
          children ← mapM (λ childId, buildTree fuel' childId allBlocks (S level))
                          (default [] (b_children block));
          Some (Some (mkSNode (b_id block) (take 200 (default [] (b_text block)))
                              (omap id children) level))
      end
  end.

(** [findRootBlocks] (lines 31-36): [!block.parent || !blocks[block.parent]]. *)
Definition is_root (blocks : obj Block) (id : jsstr) : bool :=
  match obj_get blocks id with
  | Some block =>
      match b_parent block with
      | Some p => negb (truthy p) || negb (bool_decide (is_Some (obj_get blocks p)))
      | None => true
      end
  | None => true
  end.

Definition findRootBlocks (blocks : obj Block) : list jsstr :=
  List.filter (is_root blocks) (object_keys blocks).

(** [renderTree] (lines 39-51). *)
Fixpoint renderTree (node : SNode) (depth : nat) : jsstr :=
  match node with
  | mkSNode _ content children _ =>
      concat (replicate depth (js "  ")) ++ js "<div style=" ++ quote
        ++ js "margin: 5px 0; font-size: " ++ nat_to_js (fontSize depth)
        ++ js "px; padding-left: " ++ nat_to_js (depth * 20) ++ js "px;" ++ quote ++ js ">"
        ++ nth (Nat.min depth 4) bullets [] ++ content ++ js "</div>" ++ [0xA]%N
        ++ concat (map (λ child, renderTree child (S depth)) children)
  end.

Definition panel_head : jsstr :=
    [0xA]%N ++ js "    <div style=" ++ [0x22]%N ++
    js "padding: 20px; font-family: var(--orca-font-family, sans-serif);" ++ [0x22]%N ++ js ">" ++
    [0xA]%N ++ js "      <h3 style=" ++ [0x22]%N ++
    js "margin: 0 0 15px 0; color: var(--orca-color-text-1, #333);" ++ [0x22]%N ++ js ">" ++
    [0xD83D; 0xDCD6]%N ++ js " " ++ [0x7B14; 0x8BB0; 0x5927; 0x7EB2; 0x7ED3; 0x6784]%N ++
    js "</h3>" ++ [0xA]%N ++ js "      <div style=" ++ [0x22]%N ++
    js "border: 1px solid var(--orca-color-border, #e0e0e0); border-radius: 8px; padding: 15px; background: var(--orca-color-bg-2, #fafafa); max-height: 500px; overflow-y: auto;" ++
    [0x22]%N ++ js ">" ++ [0xA]%N ++ js "  ".

Definition panel_footer (total : nat) : jsstr :=
    [0xA]%N ++ js "      </div>" ++ [0xA]%N ++ js "      <p style=" ++ [0x22]%N ++
    js "margin-top: 15px; font-size: 12px; color: var(--orca-color-text-3, #999);" ++ [0x22]%N ++
    js ">" ++ [0xD83D; 0xDCA1]%N ++ js " " ++ [0x5171]%N ++ js " " ++
    nat_to_js total ++
    js " " ++ [0x4E2A; 0x5757]%N ++ js "</p>" ++ [0xA]%N ++ js "    </div>" ++ [0xA]%N ++ js "  ".

(** [htmlContent] of [showMindMap] (lines 70-84). *)
Definition panelHTML (trees : list SNode) (total : nat) : jsstr :=
  panel_head ++ concat (map (λ tree, renderTree tree 0) trees) ++ panel_footer total.

(** One recursive call of line 19: every child id of a block is visited. *)
Definition sstep (o : obj Block) (k c : jsstr) : Prop :=
  ∃ block, obj_get o k = Some block ∧ c ∈ default [] (b_children block).

(** ** The plugin's state and functions *)

Section Simple.
Context {NS CS TS BS : Type} `{NavLaws NS} `{CommandsLaws CS} `{ToolbarLaws TS} `{BroadcastsLaws BS}.

#[local] Abbreviation host := (Plugin.host (NS:=NS) (CS:=CS) (TS:=TS) (BS:=BS)).

(** The module variables [pluginName] and [mindMapPanel] (lines 10-11),
    the [showMindMap] calls suspended at [await orca.nav.addPanel] with
    the id their promise resolves to, and two ghost records: the HTML of
    every panel the plugin opened, and the reasons of the promises it
    left rejected with no handler. *)
Record sworld := mkSWorld {
  s_host : host;
  pluginName : option jsstr;
  mindMapPanel : option jsstr;
  s_tasks : list jsstr;
  views : list (jsstr * jsstr);
  rejections : list jsstr
}.

Definition M (A : Type) : Type := sworld → A * sworld.

#[export] Instance SM_ret : MRet M := λ A a w, (a, w).
#[export] Instance SM_bind : MBind M := λ A B f m w, let (a, w') := m w in f a w'.

Definition skip : M unit := mret ().
Definition get : M sworld := λ w, (w, w).
Definition modify (f : sworld → sworld) : M unit := λ w, ((), f w).

Definition on_host (f : host → host) : M unit :=
  modify (λ w, mkSWorld (f (s_host w)) (pluginName w) (mindMapPanel w) (s_tasks w) (views w) (rejections w)).
Definition set_name (n : jsstr) : M unit :=
  modify (λ w, mkSWorld (s_host w) (Some n) (mindMapPanel w) (s_tasks w) (views w) (rejections w)).
Definition set_panel (p : option jsstr) : M unit :=
  modify (λ w, mkSWorld (s_host w) (pluginName w) p (s_tasks w) (views w) (rejections w)).
Definition set_tasks (ts : list jsstr) : M unit :=
  modify (λ w, mkSWorld (s_host w) (pluginName w) (mindMapPanel w) ts (views w) (rejections w)).

(** An [async] function whose promise nobody awaits ends in a rejection. *)
Definition reject (reason : jsstr) : M unit :=
  modify (λ w, mkSWorld (s_host w) (pluginName w) (mindMapPanel w) (s_tasks w) (views w) (rejections w ++ [reason])).

Definition with_nav (f : NS → NS) (h : host) : host :=
  Plugin.mkHost (Plugin.blocks h) (Plugin.apiVersion h) (Plugin.hostShape h) (f (Plugin.nav h))
    (Plugin.cmds h) (Plugin.bar h) (Plugin.bc h) (Plugin.notes h) (Plugin.savedData h) (Plugin.schemas h) (Plugin.clock h).
Definition with_cmds (f : CS → CS) (h : host) : host :=
  Plugin.mkHost (Plugin.blocks h) (Plugin.apiVersion h) (Plugin.hostShape h) (Plugin.nav h)
    (f (Plugin.cmds h)) (Plugin.bar h) (Plugin.bc h) (Plugin.notes h) (Plugin.savedData h) (Plugin.schemas h) (Plugin.clock h).
Definition with_bar (f : TS → TS) (h : host) : host :=
  Plugin.mkHost (Plugin.blocks h) (Plugin.apiVersion h) (Plugin.hostShape h) (Plugin.nav h)
    (Plugin.cmds h) (f (Plugin.bar h)) (Plugin.bc h) (Plugin.notes h) (Plugin.savedData h) (Plugin.schemas h) (Plugin.clock h).

Definition notify (t : notify_type) (m : jsstr) : M unit :=
  on_host (λ h, Plugin.mkHost (Plugin.blocks h) (Plugin.apiVersion h) (Plugin.hostShape h) (Plugin.nav h)
    (Plugin.cmds h) (Plugin.bar h) (Plugin.bc h) (Plugin.notes h ++ [(t, m)]) (Plugin.savedData h)
    (Plugin.schemas h) (Plugin.clock h)).

(** [orca.nav.addPanel(id, { component: () => div with innerHTML html })]:
    the host opens the panel, which shows [html]. *)
Definition open_panel (id html : jsstr) : M jsstr :=
  λ w, let (p, n) := addPanel id (Plugin.nav (s_host w)) in
       (p, mkSWorld (with_nav (λ _, n) (s_host w)) (pluginName w) (mindMapPanel w) (s_tasks w)
                    ((p, html) :: views w) (rejections w)).

Definition close_if_open : M unit :=
  w ← get;
  match mindMapPanel w with
  | Some p => if truthy p then on_host (with_nav (closePanel p)) else skip
  | None => skip
  end.

Definition exec {A} (m : M A) (w : sworld) : sworld := snd (m w).

Context (stack : nat) (name : jsstr).

(** [pluginName] in a template: ["undefined"] before [load]. *)
Definition name_of (w : sworld) : jsstr := default (js "undefined") (pluginName w).

Definition cmd_show (w : sworld) : jsstr := name_of w ++ js ".showMindMap".
Definition cmd_toggle (w : sworld) : jsstr := name_of w ++ js ".toggleMindMap".
Definition button_id (w : sworld) : jsstr := name_of w ++ js ".button".

(** [showMindMap] (lines 54-105) up to [await orca.nav.addPanel]; a
    [RangeError] of [buildTree] rejects its promise. *)
Definition showMindMap : M unit :=
  w ← get;
  match Plugin.blocks (s_host w) with
  | None => notify NWarn Plugin.msg_no_blocks
  | Some currentBlocks =>
      if length (object_keys currentBlocks) =? 0 then notify NWarn Plugin.msg_no_blocks else
      let rootBlockIds := findRootBlocks currentBlocks in
      if length rootBlockIds =? 0 then notify NWarn Plugin.msg_no_roots else
      match mapM (λ rootId, buildTree stack rootId currentBlocks 0) rootBlockIds with
      | None => reject Plugin.range_error_message
      | Some ts =>
          let htmlContent := panelHTML (omap id ts) (length (object_keys currentBlocks)) in
          close_if_open;;
          p ← open_panel (js "outline-mindmap") htmlContent;
          w' ← get;
          set_tasks (s_tasks w' ++ [p])
      end
  end.

(** The rest of [showMindMap] (lines 92-104) once [addPanel] settles. *)
Definition showMindMap_resume (p : jsstr) : M unit :=
  set_panel (Some p);;
  notify NSuccess Plugin.msg_shown.

(** [toggleMindMap] (lines 108-116); [showMindMap()] is not awaited. *)
Definition toggleMindMap : M unit :=
  w ← get;
  match mindMapPanel w with
  | Some p => if truthy p then (on_host (with_nav (closePanel p));; set_panel None;; notify NInfo Plugin.msg_closed)
              else showMindMap
  | None => showMindMap
  end.

(** [load(name)] (lines 119-151). *)
Definition load : M unit :=
  set_name name;;
  w ← get;
  on_host (with_cmds (registerCommand (cmd_show w) HShowMindMap [0x663E; 0x793A; 0x5927; 0x7EB2; 0x89C6; 0x56FE]%N));;
  on_host (with_cmds (registerCommand (cmd_toggle w) HToggleMindMap [0x5207; 0x6362; 0x5927; 0x7EB2; 0x89C6; 0x56FE]%N));;
  on_host (with_bar (registerToolbarButton (button_id w) (cmd_show w)));;
  on_host (with_cmds (registerShortcut Plugin.shortcut_key (cmd_toggle w)));;
  notify NSuccess Plugin.msg_enabled.

(** [unload()] (lines 154-175). *)
Definition unload : M unit :=
  w ← get;
  (match mindMapPanel w with
   | Some p => if truthy p then (on_host (with_nav (closePanel p));; set_panel None) else skip
   | None => skip
   end);;
  on_host (with_cmds (unregisterCommand (cmd_show w)));;
  on_host (with_cmds (unregisterCommand (cmd_toggle w)));;
  on_host (with_bar (unregisterToolbarButton (button_id w)));;
  on_host (with_cmds (unregisterShortcut Plugin.shortcut_key));;
  notify NInfo Plugin.msg_disabled.

Definition run_handler (f : handler) : M unit :=
  match f with
  | HShowMindMap => showMindMap
  | HToggleMindMap => toggleMindMap
  | _ => skip   (** not functions of [main-simple.ts] *)
  end.

Definition invoke (id : jsstr) : M unit :=
  w ← get;
  match lookupCommand id (Plugin.cmds (s_host w)) with Some f => run_handler f | None => skip end.

(** One input of the host; this build sets no timers and listens to no
    broadcast. *)
Definition step (i : Plugin.input) : M unit :=
  match i with
  | Plugin.ILoad => load
  | Plugin.IUnload => unload
  | Plugin.ICommand id => invoke id
  | Plugin.IShortcut k =>
      w ← get; match lookupShortcut k (Plugin.cmds (s_host w)) with Some id => invoke id | None => skip end
  | Plugin.IButton b =>
      w ← get; match lookupButton b (Plugin.bar (s_host w)) with Some id => invoke id | None => skip end
  | Plugin.IUserClosePanel p => on_host (with_nav (closePanel p))
  | Plugin.IBroadcast _ | Plugin.IFire _ => skip
  | Plugin.IResume i =>
      w ← get;
      match s_tasks w !! i with
      | Some p => set_tasks (delete i (s_tasks w));; showMindMap_resume p
      | None => skip
      end
  end.

Fixpoint run (ins : list Plugin.input) : M unit :=
  match ins with [] => skip | i :: ins' => step i;; run ins' end.

End Simple.

(** ** A host to run the examples on *)

Abbreviation mem_sworld := (sworld (NS:=MemNav) (CS:=MemCommands) (TS:=MemToolbar) (BS:=MemBroadcasts)).

Definition init_sworld (b : option (obj Block)) : mem_sworld :=
  mkSWorld (Plugin.mkHost b None true (mkMemNav []) (mkMemCommands [] []) (mkMemToolbar []) (mkMemBroadcasts []) [] [] [] 0)
           None None [] [] [].

(** ** [buildTree] *)

Lemma buildTree_simple_tc_None o k : tc (sstep o) k k → ∀ fuel level, buildTree fuel k o level = None.
Proof.
  intros Hk fuel. revert k Hk. induction fuel as [|fuel IH]; intros k Hk level; [done|].
  destruct (tc_first _ _ _ Hk) as (y & (block & Hg & Hy) & Hyk).
  simpl. rewrite Hg, mapM_None_2; [done|]. apply Exists_exists. exists y. split; [done|].
  apply IH. eapply tc_rtc_l; [apply Hyk|]. apply tc_once. by exists block.
Qed.

Lemma buildTree_Some_node fuel k o level block y :
  obj_get o k = Some block → buildTree fuel k o level = Some y →
  ∃ n, y = Some n ∧ sn_content n = take 200 (default [] (b_text block)).
Proof.
  intros Hg. destruct fuel; simpl; [done|]. rewrite Hg.
  destruct (mapM _ _); simpl; [|done]. intros [= <-]. by eexists.
Qed.

(** ** [renderTree] and the panel *)

Lemma renderTree_content n d : infix_of (sn_content n) (renderTree n d).
Proof. destruct n as [i c ch l]. cbn [renderTree sn_content]. solve_infix. Qed.

Lemma panelHTML_content n trees total : n ∈ trees → infix_of (sn_content n) (panelHTML trees total).
Proof.
  intros Hn. unfold panelHTML. apply infix_app_mid.
  eapply infix_of_trans; [apply (renderTree_content n 0)|]. by apply (infix_concat_map (λ t, renderTree t 0)).
Qed.

(** ** The plugin *)

Section SimpleProofs.
Context {NS CS TS BS : Type} `{NavLaws NS} `{CommandsLaws CS} `{ToolbarLaws TS} `{BroadcastsLaws BS}.
#[local] Abbreviation W := (sworld (NS:=NS) (CS:=CS) (TS:=TS) (BS:=BS)).
Context (stack : nat).

Lemma sexec_bind {A B} (m : M A) (f : A → M B) (w : W) : exec (m ≫= f) w = exec (f (fst (m w))) (exec m w).
Proof. unfold exec, mbind, SM_bind. by destruct (m w). Qed.

Lemma views_close_if_open (w : W) : views (exec close_if_open w) = views w.
Proof.
  unfold close_if_open. rewrite sexec_bind. cbn [fst get]. change (exec get w) with w.
  destruct (mindMapPanel w) as [p|]; [destruct (truthy p)|]; reflexivity.
Qed.

Lemma views_open_panel id html (w : W) :
  views (exec (open_panel id html) w) = ((addPanel id (Plugin.nav (s_host w))).1, html) :: views w.
Proof. unfold exec, open_panel. by destruct (addPanel _ _). Qed.

(** [C24] Errors: [main-simple.ts] has no [try]/[catch] around [buildTree]:
    when a root can reach itself, [showMindMap] ends in a rejected
    promise that nobody handles; the user gets no notification, and the
    panel already open stays as it was. *)
Theorem showMindMap_cycle_rejects (w : W) cb r :
  Plugin.blocks (s_host w) = Some cb → r ∈ findRootBlocks cb → tc (sstep cb) r r →
  exec (showMindMap stack) w = exec (reject Plugin.range_error_message) w.
Proof.
  intros Hb Hr Hc. unfold showMindMap. rewrite sexec_bind. cbn [fst get]. change (exec get w) with w.
  rewrite Hb. assert (r ∈ object_keys cb) as Hk.
  { unfold findRootBlocks in Hr. apply list_elem_of_In, filter_In in Hr as [Hr _]. by apply list_elem_of_In. }
  rewrite (elem_of_length_nz r _ Hk), (elem_of_length_nz r _ Hr).
  rewrite mapM_None_2; [done|]. apply Exists_exists. exists r. split; [done|]. by apply buildTree_simple_tc_None.
Qed.

(** Unsanitized output: [main-simple.ts] writes a root block's text
    (up to 200 code units) into the panel's HTML as it is, so markup in a
    block runs in the page.  The panel [showMindMap] opens shows the text
    of every root it can build. *)
Theorem showMindMap_shows_raw_text (w : W) cb r block t :
  Plugin.blocks (s_host w) = Some cb → r ∈ findRootBlocks cb →
  obj_get cb r = Some block → b_text block = Some t → length t ≤ 200 →
  Forall (λ k, is_Some (buildTree stack k cb 0)) (findRootBlocks cb) →
  ∃ p html, views (exec (showMindMap stack) w) = (p, html) :: views w ∧ infix_of t html.
Proof.
  intros Hb Hr Hg Ht Hlen Hall. unfold showMindMap. rewrite sexec_bind. cbn [fst get]. change (exec get w) with w.
  rewrite Hb. assert (r ∈ object_keys cb) as Hk.
  { unfold findRootBlocks in Hr. apply list_elem_of_In, filter_In in Hr as [Hr _]. by apply list_elem_of_In. }
  rewrite (elem_of_length_nz r _ Hk), (elem_of_length_nz r _ Hr).
  destruct (mapM_is_Some_2 _ _ Hall) as [ts Hts]. rewrite Hts.
  destruct (mapM_Some_elem _ _ _ r Hts Hr) as (y & Hy & Hyts).
  destruct (buildTree_Some_node _ _ _ _ _ _ Hg Hy) as (n & -> & Hn). rewrite Ht in Hn. simpl in Hn. rewrite take_ge in Hn by lia.
  rewrite !sexec_bind. cbn [exec set_tasks modify get fst snd].
  eexists _, _. split.
  - cbn [views]. rewrite views_open_panel, views_close_if_open. reflexivity.
  - rewrite <- Hn. apply panelHTML_content. apply list_elem_of_omap. by exists (Some n).
Qed.

End SimpleProofs.

Lemma showMindMap_cycle_rejects_witness :
  exec (showMindMap 1000) (init_sworld (Some cycle_blocks)) =
  exec (reject Plugin.range_error_message) (init_sworld (Some cycle_blocks)).
Proof.
  apply (showMindMap_cycle_rejects 1000 _ cycle_blocks (js "a")); [reflexivity| |].
  - apply list_elem_of_In. vm_compute. left. reflexivity.
  - apply (tc_l _ _ (js "b")); [|apply tc_once]; (eexists; split; [reflexivity|]); decide_vm.
Defined.

Lemma showMindMap_shows_raw_text_witness :
  ∃ p html, views (exec (showMindMap 10) (init_sworld (Some img_blocks))) =
    (p, html) :: views (init_sworld (Some img_blocks)) ∧ infix_of img_payload html.
Proof.
  apply (showMindMap_shows_raw_text 10 _ img_blocks (js "1") (mkBlock (Some (js "1")) (Some img_payload) (Some []) None None));
    [reflexivity|decide_vm|reflexivity|reflexivity|vm_compute; lia|decide_vm].
Defined.

End SimplePlugin.
