(* ===== verification/PageDom.v ===== *)
(** * The page DOM that the page-mode variants read

    [orca-mindmap.ts] and [orca-mindmap-local.ts] do not read
    [orca.state.blocks]: they walk the editor's DOM.  [extractPageStructure]
    takes every [.orca-container.orca-block] element under
    [.orca-block-editor-blocks], in document order, and reads its
    [data-id], [data-indent] and [data-type] attributes and the text of
    its [.orca-repr-main-content] element.  An element is modelled by the
    values the code reads from it; [textContent] of an element is a
    string.  The id the code makes up with [Date.now()] and
    [Math.random()] for an element without [data-id] is not modelled: such
    an entry has no id ([None]), and no later code reads the id. *)

From S2P Require Import Prelude JsObject JsNumber.
Import JsObject JsNumber.
From Stdlib Require Import ZArith.

Module PageDom.

(** [.orca-repr-main-content]: the [textContent] of its
    [.orca-inline, .orca-repr-title, h1, ..., h6] descendants in document
    order, and its own [textContent]. *)
Record main_content := mkMain { mc_texts : list jsstr; mc_textContent : jsstr }.

(** One [.orca-container.orca-block] element. *)
Record dom_block := mkDomBlock {
  data_id : option jsstr;          (** [dataset.id] *)
  data_indent : option jsstr;      (** [dataset.indent] *)
  data_type : option jsstr;        (** [dataset.type] *)
  main : option main_content;      (** [querySelector('.orca-repr-main-content')] *)
  has_table_part : bool;           (** [querySelector] of [table], [.orca-table], [thead], [tbody], [tr], [td] or [th] *)
  in_table : bool;                 (** [closest] of [table], [.orca-table] or [tr] *)
  className : jsstr
}.

(** An entry of the structure (orca-mindmap.ts lines 44-50); [element] is
    not read later and is left out. *)
Record page_block := mkPageBlock {
  pb_id : option jsstr;
  pb_content : jsstr;
  pb_level : option Z;             (** [parseInt] of the indent; [None] is [NaN] *)
  pb_type : jsstr
}.

(** [Array.prototype.join]. *)
Fixpoint js_join (sep : jsstr) (l : list jsstr) : jsstr :=
  match l with [] => [] | [x] => x | x :: l' => x ++ sep ++ js_join sep l' end.

(** The text of a block (orca-mindmap.ts lines 32-41). *)
Definition block_text (b : dom_block) : jsstr :=
  match main b with
  | Some ce =>
      match mc_texts ce with
      | [] => mc_textContent ce
      | ts => js_trim (js_join [32%N] ts)
      end
  | None => []
  end.

(** The entry of one element, if its text is not blank (lines 26-51). *)
Definition page_entry (b : dom_block) : option page_block :=
  let indent := parseInt (if opt_truthy (data_indent b) then default [] (data_indent b) else js "0") in
  let type := if opt_truthy (data_type b) then default [] (data_type b) else js "text" in
  let content := block_text b in
  if truthy (js_trim content) then
    Some (mkPageBlock (if opt_truthy (data_id b) then data_id b else None) (take 200 content) indent type)
  else None.

(** [extractPageStructure] of orca-mindmap.ts (lines 18-55): [None] is a
    page without [.orca-block-editor-blocks]. *)
Definition extractPageStructure (editor : option (list dom_block)) : list page_block :=
  match editor with
  | None => []
  | Some blocks => omap page_entry blocks
  end.

(** The table test of orca-mindmap-local.ts (lines 39-53). *)
Definition is_table_block (b : dom_block) : bool :=
  has_table_part b || in_table b
  || bool_decide ((if opt_truthy (data_type b) then default [] (data_type b) else js "text") = js "table")
  || js_includes (className b) (js "table").

(** [extractPageStructure] of orca-mindmap-local.ts (lines 20-82). *)
Definition extractPageStructure_local (editor : option (list dom_block)) : list page_block :=
  match editor with
  | None => []
  | Some blocks => omap page_entry (List.filter (λ b, negb (is_table_block b)) blocks)
  end.

(** ** Properties *)

Lemma page_entry_wf b pb :
  page_entry b = Some pb →
  length (pb_content pb) ≤ 200 ∧ pb_content pb `prefix_of` block_text b ∧
  truthy (js_trim (block_text b)) = true ∧ pb_type pb ≠ [].
Proof.
  unfold page_entry. destruct (truthy (js_trim (block_text b))) eqn:Ht; [|done].
  intros [= <-]. cbn. split_and!.
  - rewrite length_take. lia.
  - exists (drop 200 (block_text b)). by rewrite take_drop.
  - done.
  - destruct (data_type b) as [[|??]|]; done.
Qed.

(** [C19] Shape of the extracted structure: every entry comes from an
    element of the editor whose text is not blank; its content is the first
    at most 200 code units of that text and its type is never empty. *)
Theorem extractPageStructure_wf ed pb :
  pb ∈ extractPageStructure ed →
  ∃ bs b, ed = Some bs ∧ b ∈ bs ∧
    length (pb_content pb) ≤ 200 ∧ pb_content pb `prefix_of` block_text b ∧
    truthy (js_trim (block_text b)) = true ∧ pb_type pb ≠ [].
Proof.
  destruct ed as [bs|]; [|by rewrite elem_of_nil].
  intros (b & Hb & He)%list_elem_of_omap. exists bs, b. auto using page_entry_wf.
Qed.

(** The local variant reads the same entries, less those of table
    elements: its structure is a sub-list of the CDN variant's, in the same
    order. *)
Theorem extractPageStructure_local_sublist ed :
  extractPageStructure_local ed `sublist_of` extractPageStructure ed.
Proof.
  destruct ed as [bs|]; [|done]. cbn. induction bs as [|b bs IH]; [done|].
  cbn. destruct (is_table_block b); cbn; destruct (page_entry b); try constructor; done.
Qed.

Lemma extractPageStructure_wf_witness :
  ∃ pb, pb ∈ extractPageStructure (Some [mkDomBlock None None None (Some (mkMain [js "Plan"] [])) false false []]) ∧
  ∃ bs b, Some [mkDomBlock None None None (Some (mkMain [js "Plan"] [])) false false []] = Some bs ∧ b ∈ bs ∧
    length (pb_content pb) ≤ 200 ∧ pb_content pb `prefix_of` block_text b ∧
    truthy (js_trim (block_text b)) = true ∧ pb_type pb ≠ [].
Proof.
  eexists. split; [vm_compute; left|].
  apply extractPageStructure_wf. vm_compute. left.
Defined.

End PageDom.
