(* ===== verification/Markdown.v ===== *)
(** * Markdown and the markmap page of the page-mode variants

    [orca-mindmap.ts] turns the entries of [extractPageStructure] into a
    markdown outline, one ATX heading per entry at level
    [min(level + 1, 6)] ([blocksToMarkdown], lines 76-88), and writes the
    markmap page: HTML whose inline script holds the markdown in a
    JavaScript template literal, with only its backticks escaped
    ([generateMindMapHTML], lines 58-297).  [orca-mindmap-local.ts] has
    its own [blocksToMarkdown] (lines 85-114), which also breaks long
    texts every 50 code units.

    [String.prototype.repeat] is modelled with its [RangeError] for a
    negative count ([None]); [NaN] counts as 0.  The container id that
    the code makes from [Date.now()] and [Math.random()] is an argument.
    The page is text: [switchToMindMapMode] inserts it with [innerHTML],
    which does not run the [script] elements it holds, so neither the
    CDN libraries nor the inline script that would read the markdown
    ever run, and the page shows only its loading message. *)

From S2P Require Import Prelude JsRegex JsObject JsNumber PageDom.
Import JsRegex JsObject JsNumber PageDom.
From Stdlib Require Import ZArith.

Module Markdown.

(** [s.repeat(count)]: [None] is the [RangeError] of a negative count,
    and [NaN] repeats zero times. *)
Definition js_repeat (s : jsstr) (count : option Z) : option jsstr :=
  match count with
  | None => Some []
  | Some n => if (n <? 0)%Z then None else Some (concat (replicate (Z.to_nat n) s))
  end.

(** [Math.min(block.level + 1, 6)] *)
Definition heading_count (level : option Z) : option Z := (λ l, Z.min (l + 1) 6)%Z <$> level.

(** The loop of [blocksToMarkdown] in orca-mindmap.ts (lines 79-85). *)
Fixpoint md_lines (bs : list page_block) : option jsstr :=
  match bs with
  | [] => Some []
  | b :: bs' =>
      indent ← js_repeat (js "#") (heading_count (pb_level b));
      let content := js_trim (pb_content b) in
      rest ← md_lines bs';
      Some ((if truthy content then indent ++ js " " ++ content ++ [10; 10]%N else []) ++ rest)
  end.

(** [blocksToMarkdown] of orca-mindmap.ts (lines 76-88). *)
Definition blocksToMarkdown (bs : list page_block) : option jsstr := js_trim <$> md_lines bs.

(** [/(.{50})/g] and [/\n\s+/g] *)
Definition re_wrap : regex := mkRegex [Rep true 50 (Some 50) CDot] false.
Definition re_nl_ws : regex := mkRegex [Atom (CChar 10); Rep true 1 None CSpace] false.

(** Lines 100-102 of orca-mindmap-local.ts. *)
Definition wrap50 (content : jsstr) : jsstr :=
  if 50 <? length content
  then replace_all re_nl_ws [10]%N (replace_all_fn re_wrap (λ m, m ++ [10]%N) content)
  else content.

(** The loop of [blocksToMarkdown] in orca-mindmap-local.ts (lines 95-109). *)
Fixpoint md_lines_local (bs : list page_block) : option jsstr :=
  match bs with
  | [] => Some []
  | b :: bs' =>
      indent ← js_repeat (js "#") (heading_count (pb_level b));
      let content := wrap50 (js_trim (pb_content b)) in
      rest ← md_lines_local bs';
      Some ((if truthy content then indent ++ js " " ++ content ++ [10; 10]%N else []) ++ rest)
  end.

(** ['# 页面内容为空'] *)
Definition empty_markdown : jsstr := js "# " ++ [0x9875; 0x9762; 0x5185; 0x5BB9; 0x4E3A; 0x7A7A]%N.

(** [blocksToMarkdown] of orca-mindmap-local.ts (lines 85-114). *)
Definition blocksToMarkdown_local (bs : list page_block) : option jsstr :=
  match bs with [] => Some empty_markdown | _ => js_trim <$> md_lines_local bs end.

(** [markdown.replace(/`/g, '\\`')] (line 209). *)
Definition re_backtick : regex := mkRegex [Atom (CChar 96)] false.
Definition escape_backticks (markdown : jsstr) : jsstr := replace_all re_backtick [92; 96]%N markdown.

(** ** The page of [generateMindMapHTML] (orca-mindmap.ts lines 58-297) *)

Definition empty_page_html : jsstr :=
    [0xA]%N ++ js "      <div style=" ++ [0x22; 0xA]%N ++ js "        display: flex;" ++ [0xA]%N ++
    js "        align-items: center;" ++ [0xA]%N ++ js "        justify-content: center;" ++
    [0xA]%N ++ js "        height: 100vh;" ++ [0xA]%N ++ js "        background: white;" ++
    [0xA]%N ++ js "        font-family: var(--orca-font-family, sans-serif);" ++ [0xA]%N ++
    js "        color: #666;" ++ [0xA]%N ++ js "      " ++ [0x22]%N ++ js ">" ++ [0xA]%N ++
    js "        <div>" ++ [0x9875; 0x9762; 0x5185; 0x5BB9; 0x4E3A; 0x7A7A]%N ++ js "</div>" ++
    [0xA]%N ++ js "      </div>" ++ [0xA]%N ++ js "    ".

Definition markmap_part0 : jsstr :=
    [0xA]%N ++ js "    <div style=" ++ [0x22; 0xA]%N ++ js "      width: 100%;" ++ [0xA]%N ++
    js "      height: 100vh;" ++ [0xA]%N ++ js "      background: white;" ++ [0xA]%N ++
    js "      overflow: hidden;" ++ [0xA]%N ++
    js "      font-family: var(--orca-font-family, -apple-system, BlinkMacSystemFont, 'Segoe UI', sans-serif);" ++
    [0xA]%N ++ js "    " ++ [0x22]%N ++ js ">" ++ [0xA]%N ++ js "      <div id=" ++ [0x22]%N.

Definition markmap_part1 : jsstr :=
    [0x22]%N ++ js " style=" ++ [0x22]%N ++ js "width: 100%; height: 100%;" ++ [0x22]%N ++
    js "></div>" ++ [0xA]%N ++ js "      <div id=" ++ [0x22]%N ++ js "loading-".

Definition markmap_part2 : jsstr :=
    [0x22]%N ++ js " style=" ++ [0x22; 0xA]%N ++ js "        position: absolute;" ++ [0xA]%N ++
    js "        top: 50%;" ++ [0xA]%N ++ js "        left: 50%;" ++ [0xA]%N ++
    js "        transform: translate(-50%, -50%);" ++ [0xA]%N ++ js "        color: #666;" ++
    [0xA]%N ++ js "        font-size: 16px;" ++ [0xA]%N ++ js "      " ++ [0x22]%N ++ js ">" ++
    [0x52A0; 0x8F7D; 0x601D; 0x7EF4; 0x5BFC; 0x56FE; 0x4E2D]%N ++ js "...</div>" ++ [0xA]%N ++
    js "      " ++ [0xA]%N ++ js "      <!-- " ++ [0x4F7F; 0x7528; 0x56FD; 0x5185]%N ++ js "CDN" ++
    [0x52A0; 0x8F7D; 0x5E93]%N ++ js " -->" ++ [0xA]%N ++ js "      <script src=" ++ [0x22]%N ++
    js "https://lib.baomitu.com/d3/7.8.5/d3.min.js" ++ [0x22]%N ++ js "></script>" ++ [0xA]%N ++
    js "      <script src=" ++ [0x22]%N ++
    js "https://cdn.staticfile.org/markmap-lib/0.17.0/browser/index.min.js" ++ [0x22]%N ++
    js "></script>" ++ [0xA]%N ++ js "      <script src=" ++ [0x22]%N ++
    js "https://cdn.staticfile.org/markmap-view/0.17.0/browser/index.min.js" ++ [0x22]%N ++
    js "></script>" ++ [0xA]%N ++ js "      " ++ [0xA]%N ++ js "      <!-- " ++
    [0x591A; 0x4E2A; 0x56FD; 0x5185]%N ++ js "CDN" ++ [0x5907; 0x7528; 0x65B9; 0x6848]%N ++
    js " -->" ++ [0xA]%N ++ js "      <script>" ++ [0xA]%N ++
    js "        let scriptLoadAttempts = 0;" ++ [0xA]%N ++
    js "        const maxLoadAttempts = 3;" ++ [0xA]%N ++ js "        " ++ [0xA]%N ++
    js "        // CDN" ++ [0x5907; 0x9009; 0x65B9; 0x6848; 0x5217; 0x8868; 0xA]%N ++
    js "        const cdnSources = [" ++ [0xA]%N ++ js "          {" ++ [0xA]%N ++
    js "            name: '" ++ [0x4E03; 0x725B; 0x4E91]%N ++ js "CDN'," ++ [0xA]%N ++
    js "            d3: 'https://cdn.staticfile.org/d3/7.8.5/d3.min.js'," ++ [0xA]%N ++
    js "            markmapLib: 'https://cdn.staticfile.org/markmap-lib/0.17.0/browser/index.min.js'," ++
    [0xA]%N ++
    js "            markmapView: 'https://cdn.staticfile.org/markmap-view/0.17.0/browser/index.min.js'" ++
    [0xA]%N ++ js "          }," ++ [0xA]%N ++ js "          {" ++ [0xA]%N ++
    js "            name: '360CDN'," ++ [0xA]%N ++
    js "            d3: 'https://lib.baomitu.com/d3/7.8.5/d3.min.js'," ++ [0xA]%N ++
    js "            markmapLib: 'https://lib.baomitu.com/markmap-lib/0.17.0/browser/index.min.js'," ++
    [0xA]%N ++
    js "            markmapView: 'https://lib.baomitu.com/markmap-view/0.17.0/browser/index.min.js'" ++
    [0xA]%N ++ js "          }," ++ [0xA]%N ++ js "          {" ++ [0xA]%N ++
    js "            name: 'unpkg" ++ [0x955C; 0x50CF]%N ++ js "'," ++ [0xA]%N ++
    js "            d3: 'https://unpkg.com/d3@7/dist/d3.min.js'," ++ [0xA]%N ++
    js "            markmapLib: 'https://unpkg.com/markmap-lib@0.17.0/dist/browser/index.min.js'," ++
    [0xA]%N ++
    js "            markmapView: 'https://unpkg.com/markmap-view@0.17.0/dist/browser/index.min.js'" ++
    [0xA]%N ++ js "          }" ++ [0xA]%N ++ js "        ];" ++ [0xA]%N ++ js "        " ++
    [0xA]%N ++ js "        function loadScriptsFromCDN(cdnIndex = 0) {" ++ [0xA]%N ++
    js "          if (cdnIndex >= cdnSources.length) {" ++ [0xA]%N ++
    js "            console.error('" ++ [0x6240; 0x6709]%N ++ js "CDN" ++
    [0x6E90; 0x90FD; 0x5931; 0x8D25; 0x4E86]%N ++ js "');" ++ [0xA]%N ++
    js "            return;" ++ [0xA]%N ++ js "          }" ++ [0xA]%N ++ js "          " ++
    [0xA]%N ++ js "          const cdn = cdnSources[cdnIndex];" ++ [0xA]%N ++
    js "          console.log(`" ++ [0x5C1D; 0x8BD5; 0x4ECE]%N ++ js " ${cdn.name} " ++
    [0x52A0; 0x8F7D; 0x811A; 0x672C]%N ++ js "...`);" ++ [0xA]%N ++ js "          " ++ [0xA]%N ++
    js "          const scripts = [cdn.d3, cdn.markmapLib, cdn.markmapView];" ++ [0xA]%N ++
    js "          let loadedCount = 0;" ++ [0xA]%N ++ js "          let hasError = false;" ++
    [0xA]%N ++ js "          " ++ [0xA]%N ++ js "          scripts.forEach(src => {" ++ [0xA]%N ++
    js "            const script = document.createElement('script');" ++ [0xA]%N ++
    js "            script.src = src;" ++ [0xA]%N ++ js "            " ++ [0xA]%N ++
    js "            script.onload = () => {" ++ [0xA]%N ++ js "              loadedCount++;" ++
    [0xA]%N ++ js "              if (loadedCount === scripts.length && !hasError) {" ++ [0xA]%N ++
    js "                console.log(`${cdn.name} " ++ [0x52A0; 0x8F7D; 0x5B8C; 0x6210]%N ++
    js "`);" ++ [0xA]%N ++ js "                // " ++
    [0x9A8C; 0x8BC1; 0x5E93; 0x662F; 0x5426; 0x6B63; 0x786E; 0x52A0; 0x8F7D; 0xA]%N ++
    js "                setTimeout(() => {" ++ [0xA]%N ++
    js "                  if (typeof d3 === 'undefined' || typeof markmap === 'undefined') {" ++
    [0xA]%N ++ js "                    console.warn(`${cdn.name} " ++
    [0x811A; 0x672C; 0x52A0; 0x8F7D; 0x4F46; 0x5E93; 0x672A; 0x5B9A; 0x4E49; 0xFF0C; 0x5C1D; 0x8BD5; 0x4E0B; 0x4E00; 0x4E2A]%N ++
    js "CDN`);" ++ [0xA]%N ++ js "                    loadScriptsFromCDN(cdnIndex + 1);" ++
    [0xA]%N ++ js "                  }" ++ [0xA]%N ++ js "                }, 100);" ++ [0xA]%N ++
    js "              }" ++ [0xA]%N ++ js "            };" ++ [0xA]%N ++ js "            " ++
    [0xA]%N ++ js "            script.onerror = () => {" ++ [0xA]%N ++
    js "              if (!hasError) {" ++ [0xA]%N ++ js "                hasError = true;" ++
    [0xA]%N ++ js "                console.warn(`${cdn.name} " ++
    [0x52A0; 0x8F7D; 0x5931; 0x8D25; 0xFF0C; 0x5C1D; 0x8BD5; 0x4E0B; 0x4E00; 0x4E2A]%N ++
    js "CDN`);" ++ [0xA]%N ++
    js "                setTimeout(() => loadScriptsFromCDN(cdnIndex + 1), 500);" ++ [0xA]%N ++
    js "              }" ++ [0xA]%N ++ js "            };" ++ [0xA]%N ++ js "            " ++
    [0xA]%N ++ js "            document.head.appendChild(script);" ++ [0xA]%N ++
    js "          });" ++ [0xA]%N ++ js "          " ++ [0xA]%N ++ js "          // " ++
    [0x8D85; 0x65F6; 0x68C0; 0x6D4B; 0xA]%N ++ js "          setTimeout(() => {" ++ [0xA]%N ++
    js "            if (loadedCount < scripts.length) {" ++ [0xA]%N ++
    js "              console.warn(`${cdn.name} " ++
    [0x52A0; 0x8F7D; 0x8D85; 0x65F6; 0xFF0C; 0x5C1D; 0x8BD5; 0x4E0B; 0x4E00; 0x4E2A]%N ++
    js "CDN`);" ++ [0xA]%N ++ js "              if (!hasError) {" ++ [0xA]%N ++
    js "                hasError = true;" ++ [0xA]%N ++
    js "                loadScriptsFromCDN(cdnIndex + 1);" ++ [0xA]%N ++ js "              }" ++
    [0xA]%N ++ js "            }" ++ [0xA]%N ++ js "          }, 5000);" ++ [0xA]%N ++
    js "        }" ++ [0xA]%N ++ js "        " ++ [0xA]%N ++ js "        // " ++
    [0x68C0; 0x6D4B; 0x521D; 0x59CB; 0x811A; 0x672C; 0x662F; 0x5426; 0x52A0; 0x8F7D; 0x6210; 0x529F; 0xA]%N ++
    js "        setTimeout(() => {" ++ [0xA]%N ++
    js "          if (typeof d3 === 'undefined' || typeof markmap === 'undefined') {" ++ [0xA]%N ++
    js "            console.log('" ++ [0x521D; 0x59CB]%N ++ js "CDN" ++
    [0x52A0; 0x8F7D; 0x5931; 0x8D25; 0xFF0C; 0x542F; 0x52A8; 0x5907; 0x7528]%N ++ js "CDN" ++
    [0x65B9; 0x6848]%N ++ js "...');" ++ [0xA]%N ++ js "            loadScriptsFromCDN(0);" ++
    [0xA]%N ++ js "          }" ++ [0xA]%N ++ js "        }, 2000);" ++ [0xA]%N ++
    js "      </script>" ++ [0xA]%N ++ js "      " ++ [0xA]%N ++ js "      <script>" ++ [0xA]%N ++
    js "        (function() {" ++ [0xA]%N ++ js "          const containerId = '".

Definition markmap_part3 : jsstr :=
    js "';" ++ [0xA]%N ++ js "          const markdown = `".

Definition markmap_part4 : jsstr :=
    js "`;" ++ [0xA]%N ++ js "          " ++ [0xA]%N ++ js "          // " ++
    [0x7B49; 0x5F85; 0x6240; 0x6709; 0x811A; 0x672C; 0x52A0; 0x8F7D; 0x5B8C; 0x6210; 0xFF0C; 0x589E; 0x52A0; 0x8D85; 0x65F6; 0x5904; 0x7406; 0xA]%N ++
    js "          let waitAttempts = 0;" ++ [0xA]%N ++
    js "          const maxWaitAttempts = 100; // 10" ++ [0x79D2; 0x8D85; 0x65F6; 0xA]%N ++
    js "          " ++ [0xA]%N ++ js "          function waitForMarkmap() {" ++ [0xA]%N ++
    js "            waitAttempts++;" ++ [0xA]%N ++ js "            " ++ [0xA]%N ++
    js "            if (typeof d3 !== 'undefined' && typeof markmap !== 'undefined' && markmap.Transformer && markmap.Markmap) {" ++
    [0xA]%N ++ js "              console.log('" ++
    [0x6240; 0x6709; 0x811A; 0x672C; 0x52A0; 0x8F7D; 0x5B8C; 0x6210; 0xFF0C; 0x5F00; 0x59CB; 0x521D; 0x59CB; 0x5316]%N ++
    js " Markmap');" ++ [0xA]%N ++ js "              initializeMarkmap();" ++ [0xA]%N ++
    js "            } else if (waitAttempts >= maxWaitAttempts) {" ++ [0xA]%N ++
    js "              console.error('" ++ [0x811A; 0x672C; 0x52A0; 0x8F7D; 0x8D85; 0x65F6]%N ++
    js "');" ++ [0xA]%N ++
    js "              const container = document.getElementById(containerId);" ++ [0xA]%N ++
    js "              const loadingEl = document.getElementById('loading-' + containerId);" ++
    [0xA]%N ++ js "              if (loadingEl) loadingEl.style.display = 'none';" ++ [0xA]%N ++
    js "              if (container) {" ++ [0xA]%N ++
    js "                container.innerHTML = `" ++ [0xA]%N ++
    js "                  <div style=" ++ [0x22]%N ++
    js "display:flex;flex-direction:column;align-items:center;justify-content:center;height:100%;color:#ef4444;font-size:16px;text-align:center;" ++
    [0x22]%N ++ js ">" ++ [0xA]%N ++ js "                    <div>" ++
    [0x7F51; 0x7EDC; 0x8FDE; 0x63A5; 0x95EE; 0x9898; 0xFF0C; 0x65E0; 0x6CD5; 0x52A0; 0x8F7D; 0x601D; 0x7EF4; 0x5BFC; 0x56FE; 0x5E93]%N ++
    js "</div>" ++ [0xA]%N ++ js "                    <div style=" ++ [0x22]%N ++
    js "font-size:14px;color:#666;margin-top:10px;" ++ [0x22]%N ++ js ">" ++ [0xA]%N ++
    js "                      " ++ [0x68C0; 0x6D4B; 0x5230; 0x7684; 0x72B6; 0x6001; 0xFF1A]%N ++
    js "<br/>" ++ [0xA]%N ++ js "                      D3: ${typeof d3 !== 'undefined' ? '" ++
    [0x2713]%N ++ js "' : '" ++ [0x2717]%N ++ js "'}<br/>" ++ [0xA]%N ++
    js "                      Markmap: ${typeof markmap !== 'undefined' ? '" ++ [0x2713]%N ++
    js "' : '" ++ [0x2717]%N ++ js "'}" ++ [0xA]%N ++ js "                    </div>" ++ [0xA]%N ++
    js "                    <button onclick=" ++ [0x22]%N ++ js "location.reload()" ++ [0x22]%N ++
    js " style=" ++ [0x22]%N ++
    js "margin-top:15px;padding:8px 16px;background:#3498db;color:white;border:none;border-radius:4px;cursor:pointer;" ++
    [0x22]%N ++ js ">" ++ [0xA]%N ++ js "                      " ++ [0x91CD; 0x8BD5; 0xA]%N ++
    js "                    </button>" ++ [0xA]%N ++ js "                  </div>" ++ [0xA]%N ++
    js "                `;" ++ [0xA]%N ++ js "              }" ++ [0xA]%N ++
    js "            } else {" ++ [0xA]%N ++ js "              setTimeout(waitForMarkmap, 100);" ++
    [0xA]%N ++ js "            }" ++ [0xA]%N ++ js "          }" ++ [0xA]%N ++ js "          " ++
    [0xA]%N ++ js "          function initializeMarkmap() {" ++ [0xA]%N ++
    js "            try {" ++ [0xA]%N ++
    js "              const loadingEl = document.getElementById('loading-' + containerId);" ++
    [0xA]%N ++ js "              if (loadingEl) loadingEl.style.display = 'none';" ++ [0xA]%N ++
    js "              " ++ [0xA]%N ++
    js "              const container = document.getElementById(containerId);" ++ [0xA]%N ++
    js "              if (!container) return;" ++ [0xA]%N ++ js "              " ++ [0xA]%N ++
    js "              // " ++ [0x4F7F; 0x7528]%N ++ js " Markmap " ++ [0x5E93; 0xA]%N ++
    js "              const transformer = new markmap.Transformer();" ++ [0xA]%N ++
    js "              const { root, features } = transformer.transform(markdown);" ++ [0xA]%N ++
    js "              " ++ [0xA]%N ++ js "              // " ++
    [0x52A0; 0x8F7D; 0x5FC5; 0x8981; 0x7684; 0x8D44; 0x6E90; 0xA]%N ++
    js "              const { styles, scripts } = transformer.getUsedAssets(features);" ++
    [0xA]%N ++ js "              if (styles) markmap.loadCSS(styles);" ++ [0xA]%N ++
    js "              if (scripts) markmap.loadJS(scripts);" ++ [0xA]%N ++ js "              " ++
    [0xA]%N ++ js "              // " ++ [0x521B; 0x5EFA; 0x601D; 0x7EF4; 0x5BFC; 0x56FE; 0xA]%N ++
    js "              const mm = markmap.Markmap.create(container, {" ++ [0xA]%N ++
    js "                color: (d) => {" ++ [0xA]%N ++
    js "                  const colors = ['#3498db', '#e74c3c', '#2ecc71', '#f39c12', '#9b59b6', '#1abc9c', '#34495e', '#e67e22'];" ++
    [0xA]%N ++ js "                  return colors[d.depth % colors.length];" ++ [0xA]%N ++
    js "                }," ++ [0xA]%N ++ js "                duration: 500," ++ [0xA]%N ++
    js "                maxWidth: 300," ++ [0xA]%N ++ js "                paddingX: 8," ++
    [0xA]%N ++ js "                spacingVertical: 8," ++ [0xA]%N ++
    js "                spacingHorizontal: 120," ++ [0xA]%N ++
    js "                fitRatio: 0.95," ++ [0xA]%N ++
    js "                initialExpandLevel: -1" ++ [0xA]%N ++ js "              });" ++ [0xA]%N ++
    js "              " ++ [0xA]%N ++ js "              mm.setData(root);" ++ [0xA]%N ++
    js "              mm.fit();" ++ [0xA]%N ++ js "              " ++ [0xA]%N ++
    js "              console.log('Markmap " ++ [0x521D; 0x59CB; 0x5316; 0x6210; 0x529F]%N ++
    js "');" ++ [0xA]%N ++ js "            } catch (error) {" ++ [0xA]%N ++
    js "              console.error('Markmap " ++ [0x521D; 0x59CB; 0x5316; 0x5931; 0x8D25]%N ++
    js ":', error);" ++ [0xA]%N ++
    js "              const container = document.getElementById(containerId);" ++ [0xA]%N ++
    js "              if (container) {" ++ [0xA]%N ++
    js "                container.innerHTML = '<div style=" ++ [0x22]%N ++
    js "display:flex;align-items:center;justify-content:center;height:100%;color:#ef4444;font-size:16px;" ++
    [0x22]%N ++ js ">" ++ [0x601D; 0x7EF4; 0x5BFC; 0x56FE; 0x52A0; 0x8F7D; 0x5931; 0x8D25]%N ++
    js ": ' + error.message + '</div>';" ++ [0xA]%N ++ js "              }" ++ [0xA]%N ++
    js "            }" ++ [0xA]%N ++ js "          }" ++ [0xA]%N ++ js "          " ++ [0xA]%N ++
    js "          // " ++ [0x5F00; 0x59CB; 0x68C0; 0x67E5]%N ++ js " Markmap " ++
    [0x662F; 0x5426; 0x52A0; 0x8F7D; 0x5B8C; 0x6210; 0xA]%N ++
    js "          setTimeout(waitForMarkmap, 200);" ++ [0xA]%N ++ js "        })();" ++ [0xA]%N ++
    js "      </script>" ++ [0xA]%N ++ js "    </div>" ++ [0xA]%N ++ js "  ".


Definition markmap_page (containerId markdown_js : jsstr) : jsstr :=
  markmap_part0 ++ containerId ++ markmap_part1 ++ containerId ++ markmap_part2 ++ containerId ++ markmap_part3 ++ markdown_js ++ markmap_part4.

(** [generateMindMapHTML(blocks)]; [containerId] stands for
    [markmap-${Date.now()}-${random}]. *)
Definition generateMindMapHTML (containerId : jsstr) (blocks : list page_block) : option jsstr :=
  if length blocks =? 0 then Some empty_page_html else
  markdown ← blocksToMarkdown blocks;
  Some (markmap_page containerId (escape_backticks markdown)).

(** ** The two variants' markdown *)

(** A block whose level is below [-1] makes [repeat] throw, whatever
    the other blocks are. *)
Lemma md_lines_negative bs b l :
  b ∈ bs → pb_level b = Some l → (l < -1)%Z → md_lines bs = None.
Proof.
  intros Hb Hl Hneg. induction bs as [|b' bs IH]; [by apply elem_of_nil in Hb|]. cbn [md_lines].
  apply elem_of_cons in Hb as [->|Hb].
  - rewrite Hl. cbn. by rewrite (proj2 (Z.ltb_lt _ _)) by lia.
  - destruct (js_repeat _ _); cbn; [|done]. by rewrite IH.
Qed.

Lemma generateMindMapHTML_negative cid bs b l :
  b ∈ bs → pb_level b = Some l → (l < -1)%Z → generateMindMapHTML cid bs = None.
Proof.
  intros Hb Hl Hneg. unfold generateMindMapHTML, blocksToMarkdown.
  rewrite (elem_of_length_nz b bs Hb), (md_lines_negative bs b l Hb Hl Hneg). done.
Qed.

Lemma wrap50_short c : length c ≤ 50 → wrap50 c = c.
Proof. intros Hc. unfold wrap50. by rewrite (proj2 (Nat.ltb_ge _ _) Hc). Qed.

Lemma md_lines_local_short bs :
  Forall (λ b, length (js_trim (pb_content b)) ≤ 50) bs → md_lines_local bs = md_lines bs.
Proof.
  induction 1 as [|b bs Hb _ IH]; [done|]. cbn [md_lines_local md_lines]. by rewrite wrap50_short, IH.
Qed.

(** [C16] Equivalence: on a page with at least one block whose texts are
    at most 50 code units once trimmed, [blocksToMarkdown] of
    orca-mindmap-local.ts writes exactly the markdown of the one of
    orca-mindmap.ts, errors included; the variants differ only by the
    line breaks of [wrap50] and the text for an empty page. *)
Theorem blocksToMarkdown_local_equiv bs :
  bs ≠ [] → Forall (λ b, length (js_trim (pb_content b)) ≤ 50) bs →
  blocksToMarkdown_local bs = blocksToMarkdown bs.
Proof.
  intros Hne Hbs. unfold blocksToMarkdown_local, blocksToMarkdown.
  destruct bs as [|b bs']; [done|]. by rewrite md_lines_local_short.
Qed.

Lemma blocksToMarkdown_local_equiv_witness :
  let bs := [mkPageBlock None (js "Plan") (Some 0%Z) (js "text"); mkPageBlock None (js "Cost") (Some 1%Z) (js "text")] in
  bs ≠ [] ∧ Forall (λ b, length (js_trim (pb_content b)) ≤ 50) bs ∧
  blocksToMarkdown_local bs = blocksToMarkdown bs.
Proof.
  cbv zeta. split; [discriminate|]. split; [repeat constructor; vm_compute; lia|].
  apply blocksToMarkdown_local_equiv; [discriminate|repeat constructor; vm_compute; lia].
Defined.

End Markdown.
