(* ===== verification/PageWorld.v ===== *)
(** * The page, the toolbar and the state of the page-mode variants

    [orca-mindmap.ts] and [orca-mindmap-local.ts] switch the editor of
    the current page between the host's blocks and a mind map, through a
    button they insert in the host's head bar.  Both keep the module
    variables [pluginName], [isInMindMapMode] and [toggleButton];
    [orca-mindmap.ts] also keeps [originalContent], the editor's HTML.

    The page is modelled by what the code reads and writes:
    - the editor [.orca-block-editor-blocks], whose content is either the
      host's live block elements ([Live]) or elements parsed from HTML
      that the plugin assigned to [innerHTML] ([Copy]); [serialize] and
      [parse] are the browser's [innerHTML] getter and parser, with the
      laws the proofs need stated as hypotheses where they are used;
    - the head bar [.orca-headbar-global-tools.orca-headbar-right], as the
      list of the plugin's buttons in it (the host's own buttons are not
      touched), and the buttons whose style is the active one;
    - the overlays [#mindmap-overlay] that the local variant appends.
    Timers are counted: [retries] is the number of pending
    [setTimeout(addButtonToToolbar, 1000)] calls.  [createToggleButton],
    [updateButtonState], [addButtonToToolbar] and [removeButtonFromToolbar]
    are the same text in both files and are modelled once, here. *)

From S2P Require Import Prelude JsObject Host Plugin PageDom.
Import JsObject Host PageDom.

Module PageWorld.

Inductive econtent := Live (bs : list dom_block) | Copy (html : jsstr).

Record editor := mkEditor { e_content : econtent; e_editable : jsstr; e_display : jsstr }.

Record page := mkPage {
  p_editor : option editor;       (** [.orca-block-editor-blocks] *)
  p_toolbar : option (list nat);  (** the plugin's buttons in the head bar, first child first *)
  p_active : list nat;            (** buttons with the active style *)
  p_overlays : list jsstr         (** [#mindmap-overlay] elements, in DOM order *)
}.

Section PageWorld.
Context {NS CS TS BS : Type} `{NavLaws NS} `{CommandsLaws CS} `{ToolbarLaws TS} `{BroadcastsLaws BS}.

#[local] Abbreviation host := (Plugin.host (NS:=NS) (CS:=CS) (TS:=TS) (BS:=BS)).

Record pworld := mkPW {
  pw_host : host;
  pw_page : page;
  pluginName : option jsstr;
  isInMindMapMode : bool;
  originalContent : jsstr;
  toggleButton : option nat;
  next_button : nat;              (** the next element [createElement] makes *)
  retries : nat
}.

Definition M (A : Type) : Type := pworld → A * pworld.

#[export] Instance PM_ret : MRet M := λ A a w, (a, w).
#[export] Instance PM_bind : MBind M := λ A B f m w, let (a, w') := m w in f a w'.

Definition skip : M unit := mret ().
Definition get : M pworld := λ w, (w, w).
Definition modify (f : pworld → pworld) : M unit := λ w, ((), f w).
Definition exec {A} (m : M A) (w : pworld) : pworld := snd (m w).

Definition on_page (f : page → page) : M unit :=
  modify (λ w, mkPW (pw_host w) (f (pw_page w)) (pluginName w) (isInMindMapMode w) (originalContent w)
                    (toggleButton w) (next_button w) (retries w)).
Definition set_mode (b : bool) : M unit :=
  modify (λ w, mkPW (pw_host w) (pw_page w) (pluginName w) b (originalContent w)
                    (toggleButton w) (next_button w) (retries w)).
Definition set_original (s : jsstr) : M unit :=
  modify (λ w, mkPW (pw_host w) (pw_page w) (pluginName w) (isInMindMapMode w) s
                    (toggleButton w) (next_button w) (retries w)).
Definition set_button (b : option nat) : M unit :=
  modify (λ w, mkPW (pw_host w) (pw_page w) (pluginName w) (isInMindMapMode w) (originalContent w)
                    b (next_button w) (retries w)).
Definition set_name (n : jsstr) : M unit :=
  modify (λ w, mkPW (pw_host w) (pw_page w) (Some n) (isInMindMapMode w) (originalContent w)
                    (toggleButton w) (next_button w) (retries w)).
Definition set_retries (n : nat) : M unit :=
  modify (λ w, mkPW (pw_host w) (pw_page w) (pluginName w) (isInMindMapMode w) (originalContent w)
                    (toggleButton w) (next_button w) n).

Definition on_cmds (f : CS → CS) : M unit :=
  modify (λ w, let h := pw_host w in
    mkPW (Plugin.mkHost (Plugin.blocks h) (Plugin.apiVersion h) (Plugin.hostShape h) (Plugin.nav h)
            (f (Plugin.cmds h)) (Plugin.bar h) (Plugin.bc h) (Plugin.notes h) (Plugin.savedData h)
            (Plugin.schemas h) (Plugin.clock h))
         (pw_page w) (pluginName w) (isInMindMapMode w) (originalContent w) (toggleButton w) (next_button w) (retries w)).

Definition notify (t : notify_type) (m : jsstr) : M unit :=
  modify (λ w, let h := pw_host w in
    mkPW (Plugin.mkHost (Plugin.blocks h) (Plugin.apiVersion h) (Plugin.hostShape h) (Plugin.nav h)
            (Plugin.cmds h) (Plugin.bar h) (Plugin.bc h) (Plugin.notes h ++ [(t, m)]) (Plugin.savedData h)
            (Plugin.schemas h) (Plugin.clock h))
         (pw_page w) (pluginName w) (isInMindMapMode w) (originalContent w) (toggleButton w) (next_button w) (retries w)).

(** The editor with its content, [contentEditable] or [style.display]
    changed. *)
Definition with_editor (f : editor → editor) (p : page) : page :=
  mkPage (f <$> p_editor p) (p_toolbar p) (p_active p) (p_overlays p).

(** ** The head-bar button (orca-mindmap.ts lines 299-349 and 429-455) *)

(** [createToggleButton()]: a new element; its [onclick] is
    [toggleMindMapMode], which [step] runs for a click on it. *)
Definition createToggleButton : M nat :=
  λ w, (next_button w, mkPW (pw_host w) (pw_page w) (pluginName w) (isInMindMapMode w) (originalContent w)
                            (toggleButton w) (S (next_button w)) (retries w)).

(** [updateButtonState()]: the button takes the active style exactly in
    mind-map mode; the style lives on the element, in or out of the bar. *)
Definition updateButtonState : M unit :=
  w ← get;
  match toggleButton w with
  | None => skip
  | Some b =>
      on_page (λ p, mkPage (p_editor p) (p_toolbar p)
                           ((if isInMindMapMode w then [b] else []) ++ List.filter (λ x, negb (x =? b)) (p_active p))
                           (p_overlays p))
  end.

(** [toggleButton && toggleButton.parentNode]: the button is in the bar. *)
Definition attached (w : pworld) : option nat :=
  match toggleButton w, p_toolbar (pw_page w) with
  | Some b, Some bar => if bool_decide (b ∈ bar) then Some b else None
  | _, _ => None
  end.

(** [addButtonToToolbar()]: without a head bar it tries again a second
    later. *)
Definition addButtonToToolbar : M unit :=
  w ← get;
  match p_toolbar (pw_page w) with
  | None => set_retries (S (retries w))
  | Some bar =>
      match attached w with
      | Some _ => skip
      | None =>
          b ← createToggleButton;
          set_button (Some b);;
          on_page (λ p, mkPage (p_editor p) (Some (b :: bar)) (p_active p) (p_overlays p))
      end
  end.

(** [removeButtonFromToolbar()] *)
Definition removeButtonFromToolbar : M unit :=
  w ← get;
  match attached w with
  | Some b =>
      on_page (λ p, mkPage (p_editor p) ((λ bar, List.filter (λ x, negb (x =? b)) bar) <$> p_toolbar p)
                           (p_active p) (p_overlays p));;
      set_button None
  | None => skip
  end.

End PageWorld.

End PageWorld.
