(* ===== verification/OrcaMindMap.v ===== *)
(** * The page-mode plugin of [src/src/orca-mindmap.ts]

    A button in the head bar (and the command [<name>.toggle] with the
    shortcut [Ctrl+Shift+M]) switches the current page between its editor
    and a markmap mind map.  [switchToMindMapMode] saves the editor's
    [innerHTML] in [originalContent], reads the page structure from the
    editor's DOM and replaces the editor's content by the page of
    [generateMindMapHTML]; [switchToEditMode] assigns [originalContent]
    back to [innerHTML].  Both catch their exceptions and notify them;
    the only exception the model has is the [RangeError] of
    [String.prototype.repeat] for a negative indent.

    The section's [serialize] and [parse] are the browser's [innerHTML]
    getter and HTML parser on the editor; reading [innerHTML] back from
    content the plugin assigned gives the assigned text.  [containerId]
    stands for the id made from [Date.now()] and [Math.random()]. *)

From S2P Require Import Prelude JsObject JsNumber Host Plugin Renderer PageDom Markdown PageWorld.
Import JsObject JsNumber Host Renderer PageDom Markdown PageWorld.
From Stdlib Require Import ZArith.

Module OrcaMindMap.

Definition msg_no_editor : jsstr := [0x627E; 0x4E0D; 0x5230; 0x4E3B; 0x7F16; 0x8F91; 0x533A; 0x57DF]%N.
Definition msg_no_content : jsstr :=
  [0x5F53; 0x524D; 0x9875; 0x9762; 0x6CA1; 0x6709; 0x53EF; 0x663E; 0x793A; 0x7684; 0x5185; 0x5BB9]%N.
Definition msg_switched (n : nat) : jsstr :=
  [0x5DF2; 0x5207; 0x6362; 0x5230; 0x601D; 0x7EF4; 0x5BFC; 0x56FE; 0x6A21; 0x5F0F]%N ++ js " - " ++
  nat_to_js n ++ js " " ++ [0x4E2A; 0x8282; 0x70B9]%N.
Definition msg_failed (m : jsstr) : jsstr := [0x5207; 0x6362; 0x5931; 0x8D25]%N ++ js ": " ++ m.
Definition msg_back : jsstr := [0x5DF2; 0x8FD4; 0x56DE; 0x7F16; 0x8F91; 0x6A21; 0x5F0F]%N.
Definition msg_enabled : jsstr :=
  [0x601D; 0x7EF4; 0x5BFC; 0x56FE; 0x63D2; 0x4EF6; 0x5DF2; 0x542F; 0x7528]%N ++ js " - " ++
  [0x53F3; 0x4E0A; 0x89D2; 0xD83E; 0xDDE0; 0x6309; 0x94AE]%N.
Definition msg_disabled : jsstr := [0x601D; 0x7EF4; 0x5BFC; 0x56FE; 0x63D2; 0x4EF6; 0x5DF2; 0x7981; 0x7528]%N.
Definition cmd_description : jsstr := [0x5207; 0x6362; 0x601D; 0x7EF4; 0x5BFC; 0x56FE; 0x6A21; 0x5F0F]%N.
Definition shortcut : jsstr := js "Ctrl+Shift+M".

(** The message of the [RangeError] that [blocksToMarkdown] throws: the
    first negative count it passes to [repeat]. *)
Fixpoint repeat_error (bs : list page_block) : jsstr :=
  match bs with
  | [] => []
  | b :: bs' =>
      match heading_count (pb_level b) with
      | Some n => if (n <? 0)%Z then js "Invalid count value: " ++ z_to_js n else repeat_error bs'
      | None => repeat_error bs'
      end
  end.

(** The inputs of the host and the user. *)
Inductive pinput :=
  | PLoad | PUnload
  | PCommand (id : jsstr) | PShortcut (k : jsstr)
  | PClick (b : nat)               (** a click on a button of the head bar *)
  | PFireRetry                     (** a pending [addButtonToToolbar] timer fires *)
  | PToolbarReady                  (** the host renders its head bar *)
  | PNavigate (e : editor).        (** the host renders a page into a new editor *)

Section OrcaMindMap.
Context {NS CS TS BS : Type} `{NavLaws NS} `{CommandsLaws CS} `{ToolbarLaws TS} `{BroadcastsLaws BS}.
#[local] Abbreviation W := (pworld (NS:=NS) (CS:=CS) (TS:=TS) (BS:=BS)).
#[local] Abbreviation PM := (M (NS:=NS) (CS:=CS) (TS:=TS) (BS:=BS)).
Context (serialize : list dom_block → jsstr) (parse : jsstr → list dom_block).
Context (containerId name : jsstr).

(** [mainEditor.innerHTML] *)
Definition inner_html (e : editor) : jsstr :=
  match e_content e with Live bs => serialize bs | Copy h => h end.

(** [mainEditor.querySelectorAll('.orca-container.orca-block')] *)
Definition editor_blocks (e : editor) : list dom_block :=
  match e_content e with Live bs => bs | Copy h => parse h end.

(** [switchToMindMapMode()] (lines 352-390). *)
Definition switchToMindMapMode : PM unit :=
  w ← get;
  if isInMindMapMode w then skip else
  match p_editor (pw_page w) with
  | None => notify NError msg_no_editor
  | Some e =>
      set_original (inner_html e);;
      let blocks := extractPageStructure (Some (editor_blocks e)) in
      if length blocks =? 0 then notify NWarn msg_no_content else
      match generateMindMapHTML containerId blocks with
      | None => notify NError (msg_failed (repeat_error blocks))
      | Some html =>
          on_page (with_editor (λ e, mkEditor (Copy html) (js "false") (e_display e)));;
          set_mode true;;
          updateButtonState;;
          notify NSuccess (msg_switched (length blocks))
      end
  end.

(** [switchToEditMode()] (lines 393-418). *)
Definition switchToEditMode : PM unit :=
  w ← get;
  if negb (isInMindMapMode w) || negb (truthy (originalContent w)) then skip else
  match p_editor (pw_page w) with
  | None => notify NError msg_no_editor
  | Some _ =>
      on_page (with_editor (λ e, mkEditor (Copy (originalContent w)) (js "plaintext-only") (e_display e)));;
      set_mode false;;
      set_original [];;
      updateButtonState;;
      notify NSuccess msg_back
  end.

(** [toggleMindMapMode()] (lines 421-427). *)
Definition toggleMindMapMode : PM unit :=
  w ← get; if isInMindMapMode w then switchToEditMode else switchToMindMapMode.

(** [`${pluginName}.toggle`]: ["undefined"] before [load]. *)
Definition cmd_toggle (w : W) : jsstr := default (js "undefined") (pluginName w) ++ js ".toggle".

(** [load(name)] (lines 458-482). *)
Definition load : PM unit :=
  set_name name;;
  w ← get;
  on_cmds (registerCommand (cmd_toggle w) HToggleMindMapMode cmd_description);;
  on_cmds (registerShortcut shortcut (cmd_toggle w));;
  addButtonToToolbar;;
  notify NSuccess msg_enabled.

(** [unload()] (lines 485-510). *)
Definition unload : PM unit :=
  w ← get;
  (if isInMindMapMode w then switchToEditMode else skip);;
  removeButtonFromToolbar;;
  on_cmds (unregisterCommand (cmd_toggle w));;
  on_cmds (unregisterShortcut shortcut);;
  set_mode false;;
  set_original [];;
  notify NInfo msg_disabled.

Definition invoke (id : jsstr) : PM unit :=
  w ← get;
  match lookupCommand id (Plugin.cmds (pw_host w)) with
  | Some HToggleMindMapMode => toggleMindMapMode
  | _ => skip
  end.

(** One input. *)
Definition step (i : pinput) : PM unit :=
  match i with
  | PLoad => load
  | PUnload => unload
  | PCommand id => invoke id
  | PShortcut k =>
      w ← get; match lookupShortcut k (Plugin.cmds (pw_host w)) with Some id => invoke id | None => skip end
  | PClick b =>
      w ← get;
      match p_toolbar (pw_page w) with
      | Some bar => if bool_decide (b ∈ bar) then toggleMindMapMode else skip
      | None => skip
      end
  | PFireRetry =>
      w ← get;
      match retries w with O => skip | S n => set_retries n;; addButtonToToolbar end
  | PToolbarReady =>
      on_page (λ p, mkPage (p_editor p) (Some (default [] (p_toolbar p))) (p_active p) (p_overlays p))
  | PNavigate e => on_page (λ p, mkPage (Some e) (p_toolbar p) (p_active p) (p_overlays p))
  end.

Fixpoint run (ins : list pinput) : PM unit :=
  match ins with [] => skip | i :: ins' => step i;; run ins' end.

End OrcaMindMap.

(** ** A page to run the examples on *)

Abbreviation mem_pworld := (pworld (NS:=MemNav) (CS:=MemCommands) (TS:=MemToolbar) (BS:=MemBroadcasts)).

(** A block element of the editor with its text and indent. *)
Definition demo_block (t indent : jsstr) : dom_block :=
  mkDomBlock (Some t) (Some indent) None (Some (mkMain [t] t)) false false [].

(** An [innerHTML] getter and parser: one [div] per block, and no block
    element in parsed markup. *)
Definition demo_serialize (bs : list dom_block) : jsstr := concat (map (λ _, js "<div></div>") bs).
Definition demo_parse (h : jsstr) : list dom_block := [].

Definition page_a : list dom_block := [demo_block (js "Alpha") (js "0"); demo_block (js "Beta") (js "1")].
Definition page_b : list dom_block := [demo_block (js "Gamma") (js "0")].
Definition page_bad : list dom_block := [demo_block (js "Deep") (js "-2")].

(** The host before [load]: an editor showing [bs] and, if [bar], a head
    bar. *)
Definition init_pworld (bs : list dom_block) (bar : bool) : mem_pworld :=
  mkPW (Plugin.mkHost None None true (mkMemNav []) (mkMemCommands [] []) (mkMemToolbar []) (mkMemBroadcasts []) [] [] [] 0)
       (mkPage (Some (mkEditor (Live bs) (js "true") [])) (if bar then Some [] else None) [] [])
       None false [] None 0 0.

Definition demo_run (ins : list pinput) (w : mem_pworld) : mem_pworld :=
  exec (run demo_serialize demo_parse (js "markmap-1") (js "orca-mindmap") ins) w.

(** ** Invariants of the plugin's state *)

Section Invariants.
Context {NS CS TS BS : Type} `{NavLaws NS} `{CommandsLaws CS} `{ToolbarLaws TS} `{BroadcastsLaws BS}.
#[local] Abbreviation W := (pworld (NS:=NS) (CS:=CS) (TS:=TS) (BS:=BS)).
Context (serialize : list dom_block → jsstr) (parse : jsstr → list dom_block) (containerId name : jsstr).

(** The browser serializes a non-empty list of block elements to a
    non-empty text, and parses the empty text to no element. *)
Hypothesis serialize_nonempty : ∀ bs, bs ≠ [] → truthy (serialize bs) = true.
Hypothesis parse_empty : parse [] = [].

(** In mind-map mode there is content to go back to. *)
Definition mode_ok (w : W) : Prop := isInMindMapMode w = true → truthy (originalContent w) = true.

(** Every button of the plugin in the head bar is the one [toggleButton]
    names. *)
Definition bar_ok (w : W) : Prop :=
  ∀ bar b, p_toolbar (pw_page w) = Some bar → b ∈ bar → toggleButton w = Some b.

Definition page_inv (w : W) : Prop := mode_ok w ∧ bar_ok w.

(** The fields the invariant reads. *)
Definition view (w : W) := (isInMindMapMode w, originalContent w, p_toolbar (pw_page w), toggleButton w).

(** A computation that keeps [page_inv]. *)
Definition preserves {A} (m : M A) : Prop := ∀ w : W, page_inv w → page_inv (exec m w).

Ltac pw_unfold :=
  unfold exec, mbind, PM_bind, get, modify, skip, mret, PM_ret, on_page, set_mode, set_original,
    set_button, set_name, set_retries, on_cmds, notify, with_editor in *; cbn in *.

Lemma extract_nonempty_html e :
  (length (extractPageStructure (Some (editor_blocks parse e))) =? 0) = false →
  truthy (inner_html serialize e) = true.
Proof.
  unfold extractPageStructure, editor_blocks, inner_html. destruct (e_content e) as [bs|h].
  - intros Hl. apply serialize_nonempty. intros ->. done.
  - destruct h as [|c h]; [rewrite parse_empty; done|done].
Qed.

Lemma updateButtonState_inv (w : W) : page_inv w → page_inv (exec updateButtonState w).
Proof. unfold updateButtonState. pw_unfold. by destruct (toggleButton w). Qed.

Lemma updateButtonState_fields (w : W) :
  isInMindMapMode (exec updateButtonState w) = isInMindMapMode w ∧
  originalContent (exec updateButtonState w) = originalContent w ∧
  p_editor (pw_page (exec updateButtonState w)) = p_editor (pw_page w).
Proof. unfold updateButtonState. pw_unfold. by destruct (toggleButton w). Qed.

Lemma attached_None_empty (w : W) bar :
  bar_ok w → p_toolbar (pw_page w) = Some bar → attached w = None → bar = [].
Proof.
  intros Hb Hbar Ha. destruct bar as [|x bar]; [done|]. exfalso.
  pose proof (Hb _ x Hbar (list_elem_of_here _ _)) as Ht.
  unfold attached in Ha. rewrite Ht, Hbar, bool_decide_true in Ha; [done|apply list_elem_of_here].
Qed.

Lemma addButtonToToolbar_inv (w : W) : page_inv w → page_inv (exec addButtonToToolbar w).
Proof.
  intros [Hm Hb]. unfold addButtonToToolbar. pw_unfold.
  destruct (p_toolbar (pw_page w)) as [bar|] eqn:Ebar; pw_unfold; [|done].
  destruct (attached w) eqn:Ea; pw_unfold; [done|].
  rewrite (attached_None_empty w bar Hb Ebar Ea). split; [done|].
  intros bar' b [= <-] Hin. apply list_elem_of_singleton in Hin. by subst.
Qed.

Lemma removeButtonFromToolbar_inv (w : W) : page_inv w → page_inv (exec removeButtonFromToolbar w).
Proof.
  intros [Hm Hb]. unfold removeButtonFromToolbar. pw_unfold.
  destruct (attached w) as [b|] eqn:Ea; pw_unfold; [|done]. split; [done|].
  intros bar' x Hbar' Hx. exfalso.
  destruct (p_toolbar (pw_page w)) as [bar|] eqn:Ebar; simplify_eq/=.
  apply List_filter_neq_elem_nat in Hx as [Hxb Hx].
  pose proof (Hb _ _ Ebar Hx) as Ht. unfold attached in Ea. rewrite Ht, Ebar, bool_decide_true in Ea by done.
  congruence.
Qed.

Lemma pexec_bind {A B} (m : M A) (f : A → M B) (w : W) : exec (m ≫= f) w = exec (f (fst (m w))) (exec m w).
Proof. unfold exec, mbind, PM_bind. by destruct (m w). Qed.

Lemma pexec_get (w : W) : exec get w = w.
Proof. done. Qed.


Lemma view_notify t m (w : W) : view (exec (notify t m) w) = view w.
Proof. done. Qed.
Lemma view_on_cmds f (w : W) : view (exec (on_cmds f) w) = view w.
Proof. done. Qed.
Lemma view_set_name n (w : W) : view (exec (set_name n) w) = view w.
Proof. done. Qed.
Lemma view_set_retries n (w : W) : view (exec (set_retries n) w) = view w.
Proof. done. Qed.
Lemma view_with_editor f (w : W) : view (exec (on_page (with_editor f)) w) = view w.
Proof. done. Qed.
Lemma view_updateButtonState (w : W) : view (exec updateButtonState w) = view w.
Proof. unfold updateButtonState. rewrite pexec_bind, pexec_get. cbn [fst get]. by destruct (toggleButton w). Qed.

Lemma page_inv_view (w w' : W) : view w' = view w → page_inv w → page_inv w'.
Proof.
  unfold view, page_inv, mode_ok, bar_ok. intros Hv. injection Hv as E1 E2 E3 E4.
  by rewrite E1, E2, E3, E4.
Qed.

Lemma switchToMindMapMode_inv (w : W) :
  page_inv w → page_inv (exec (switchToMindMapMode serialize parse containerId) w).
Proof.
  intros [Hm Hb]. unfold switchToMindMapMode. rewrite pexec_bind, pexec_get. cbn [fst get].
  destruct (isInMindMapMode w) eqn:Em; [done|].
  destruct (p_editor (pw_page w)) as [e|] eqn:Ee.
  2:{ apply (page_inv_view w); [apply view_notify|done]. }
  rewrite pexec_bind. cbv beta. set (w1 := exec (set_original (inner_html serialize e)) w).
  assert (page_inv w1) as Hw1 by (split; [unfold mode_ok; cbn; congruence|exact Hb]).
  destruct (length _ =? 0) eqn:El; [apply (page_inv_view w1); [apply view_notify|done]|].
  destruct (generateMindMapHTML _ _) as [html|]; [|apply (page_inv_view w1); [apply view_notify|done]].
  rewrite !pexec_bind. eapply page_inv_view; [rewrite view_notify; apply view_updateButtonState|].
  split; [|exact Hb]. intros _. by apply extract_nonempty_html.
Qed.

Lemma switchToEditMode_inv (w : W) : page_inv w → page_inv (exec switchToEditMode w).
Proof.
  intros [Hm Hb]. unfold switchToEditMode. rewrite pexec_bind, pexec_get. cbn [fst get].
  destruct (_ || _); [done|].
  destruct (p_editor (pw_page w)); [|apply (page_inv_view w); [apply view_notify|done]].
  rewrite !pexec_bind. eapply page_inv_view; [rewrite view_notify; apply view_updateButtonState|].
  split; [by unfold mode_ok|exact Hb].
Qed.


Lemma preserves_bind {A B} (m : M A) (f : A → M B) : preserves m → (∀ a, preserves (f a)) → preserves (m ≫= f).
Proof. intros Hm Hf w Hw. rewrite pexec_bind. apply Hf, Hm, Hw. Qed.

Lemma preserves_view {A} (m : M A) : (∀ w, view (exec m w) = view w) → preserves m.
Proof. intros Hv w Hw. by apply (page_inv_view w). Qed.

Lemma preserves_get : preserves get.
Proof. by apply preserves_view. Qed.
Lemma preserves_skip : preserves skip.
Proof. by apply preserves_view. Qed.
Lemma preserves_notify t m : preserves (notify t m).
Proof. by apply preserves_view. Qed.
Lemma preserves_on_cmds f : preserves (on_cmds f).
Proof. by apply preserves_view. Qed.
Lemma preserves_set_name n : preserves (set_name n).
Proof. by apply preserves_view. Qed.
Lemma preserves_set_retries n : preserves (set_retries n).
Proof. by apply preserves_view. Qed.
Lemma preserves_editor (f : option editor → option editor) :
  preserves (on_page (λ p, mkPage (f (p_editor p)) (p_toolbar p) (p_active p) (p_overlays p))).
Proof. by apply preserves_view. Qed.

Lemma preserves_leave_mode {A} (f : unit → M A) :
  (∀ a, preserves (f a)) → preserves (set_mode false ≫= λ _, set_original [] ≫= f).
Proof.
  intros Hf w [Hm Hb]. rewrite !pexec_bind. apply Hf. split; [by unfold mode_ok|exact Hb].
Qed.

Create HintDb page_inv.
#[local] Hint Resolve preserves_get preserves_skip preserves_notify preserves_on_cmds preserves_set_name
  preserves_set_retries preserves_editor addButtonToToolbar_inv removeButtonFromToolbar_inv
  switchToMindMapMode_inv switchToEditMode_inv : page_inv.
#[local] Hint Unfold preserves : page_inv.

(** Split a computation at its binds and close each piece. *)
Ltac preserve :=
  repeat first [ solve [auto with page_inv]
               | apply preserves_leave_mode; intros ?
               | apply preserves_bind; [|intros ?]
               | case_match ].

Lemma toggleMindMapMode_inv : preserves (toggleMindMapMode serialize parse containerId).
Proof. unfold toggleMindMapMode. preserve. Qed.
#[local] Hint Resolve toggleMindMapMode_inv : page_inv.

Lemma invoke_inv id : preserves (invoke serialize parse containerId id).
Proof. unfold invoke. preserve. Qed.
#[local] Hint Resolve invoke_inv : page_inv.

Lemma step_inv i : preserves (step serialize parse containerId name i).
Proof.
  destruct i; cbn [step]; [unfold load|unfold unload| | | | | |]; preserve.
  intros w [Hm Hb]. split; [done|]. intros bar b Hbar Hin. cbn in Hbar.
  destruct (p_toolbar (pw_page w)) eqn:E; simplify_eq/=; [by eapply Hb|by apply elem_of_nil in Hin].
Qed.

Lemma run_inv ins : preserves (run serialize parse containerId name ins).
Proof. induction ins; cbn [run]; preserve; apply step_inv. Qed.

Lemma notify_fields t m (w : W) :
  isInMindMapMode (exec (notify t m) w) = isInMindMapMode w ∧
  originalContent (exec (notify t m) w) = originalContent w ∧
  p_editor (pw_page (exec (notify t m) w)) = p_editor (pw_page w).
Proof. done. Qed.

Lemma switchToMindMapMode_live (w : W) bs ed disp html :
  isInMindMapMode w = false → p_editor (pw_page w) = Some (mkEditor (Live bs) ed disp) →
  (length (extractPageStructure (Some bs)) =? 0) = false →
  generateMindMapHTML containerId (extractPageStructure (Some bs)) = Some html →
  let w1 := exec (switchToMindMapMode serialize parse containerId) w in
  isInMindMapMode w1 = true ∧ originalContent w1 = serialize bs ∧
  p_editor (pw_page w1) = Some (mkEditor (Copy html) (js "false") disp).
Proof.
  intros Hm He Hl Hg. unfold switchToMindMapMode. rewrite !pexec_bind, pexec_get. cbn [fst get].
  rewrite Hm, He, !pexec_bind. cbn [editor_blocks inner_html e_content]. rewrite Hl, Hg, !pexec_bind.
  destruct (notify_fields NSuccess (msg_switched (length (extractPageStructure (Some bs))))
              (exec updateButtonState (exec (set_mode true) (exec (on_page (with_editor
                 (λ e, mkEditor (Copy html) (js "false") (e_display e)))) (exec (set_original (serialize bs)) w)))))
    as (-> & -> & ->).
  destruct (updateButtonState_fields (exec (set_mode true) (exec (on_page (with_editor
                 (λ e, mkEditor (Copy html) (js "false") (e_display e)))) (exec (set_original (serialize bs)) w))))
    as (-> & -> & ->).
  cbn. by rewrite He.
Qed.

Lemma switchToEditMode_copy (w : W) e :
  isInMindMapMode w = true → truthy (originalContent w) = true → p_editor (pw_page w) = Some e →
  let w1 := exec switchToEditMode w in
  isInMindMapMode w1 = false ∧
  p_editor (pw_page w1) = Some (mkEditor (Copy (originalContent w)) (js "plaintext-only") (e_display e)).
Proof.
  intros Hm Ho He. unfold switchToEditMode. rewrite pexec_bind, pexec_get. cbn [fst get].
  rewrite Hm, Ho, He. cbn [negb orb]. rewrite !pexec_bind.
  destruct (notify_fields NSuccess msg_back (exec updateButtonState (exec (set_original [])
              (exec (set_mode false) (exec (on_page (with_editor
                 (λ e, mkEditor (Copy (originalContent w)) (js "plaintext-only") (e_display e)))) w)))))
    as (-> & _ & ->).
  destruct (updateButtonState_fields (exec (set_original [])
              (exec (set_mode false) (exec (on_page (with_editor
                 (λ e, mkEditor (Copy (originalContent w)) (js "plaintext-only") (e_display e)))) w))))
    as (-> & _ & ->).
  cbn. by rewrite He.
Qed.


Lemma toggle_fold (w : W) :
  exec (toggleMindMapMode serialize parse containerId) w =
  exec (if isInMindMapMode w then switchToEditMode else switchToMindMapMode serialize parse containerId) w.
Proof. unfold toggleMindMapMode. by rewrite pexec_bind, pexec_get. Qed.

(** [C13] Invariant: from a state where it holds, after any sequence of
    inputs (including pages the host renders and a head bar that appears
    late), every button of the plugin in the head bar is the one
    [toggleButton] names: there is at most one, and [unload] can remove
    it. *)
Theorem run_one_button ins (w : W) :
  page_inv w →
  ∀ bar b, p_toolbar (pw_page (exec (run serialize parse containerId name ins) w)) = Some bar → b ∈ bar →
  toggleButton (exec (run serialize parse containerId name ins) w) = Some b.
Proof. intros Hw. apply (run_inv ins w Hw). Qed.

(** [C14] Liveness of the mode switch: whatever inputs came before, in
    mind-map mode a toggle returns to edit mode and gives the editor the
    HTML saved when the mind map was shown; the [!originalContent] guard
    of line 394 never blocks it. *)
Theorem toggle_returns_to_editor ins (w : W) e :
  page_inv w →
  let w' := exec (run serialize parse containerId name ins) w in
  isInMindMapMode w' = true → p_editor (pw_page w') = Some e →
  isInMindMapMode (exec (toggleMindMapMode serialize parse containerId) w') = false ∧
  p_editor (pw_page (exec (toggleMindMapMode serialize parse containerId) w')) =
    Some (mkEditor (Copy (originalContent w')) (js "plaintext-only") (e_display e)).
Proof.
  intros Hw w' Hm He. destruct (run_inv ins w Hw) as [Hmo _]. rewrite toggle_fold, Hm.
  by apply switchToEditMode_copy; [| apply Hmo |].
Qed.

(** [C17] Round trip of the editor: showing the mind map and toggling back
    gives the editor the serialization of its blocks, but as new elements
    parsed from that HTML, not the host's live ones, and with
    [contentEditable] set to ['plaintext-only'] whatever it was. *)
Theorem toggle_twice_copies_editor (w : W) bs ed disp html :
  isInMindMapMode w = false → p_editor (pw_page w) = Some (mkEditor (Live bs) ed disp) →
  (length (extractPageStructure (Some bs)) =? 0) = false →
  generateMindMapHTML containerId (extractPageStructure (Some bs)) = Some html →
  let w2 := exec (toggleMindMapMode serialize parse containerId ≫= λ _, toggleMindMapMode serialize parse containerId) w in
  isInMindMapMode w2 = false ∧ p_editor (pw_page w2) = Some (mkEditor (Copy (serialize bs)) (js "plaintext-only") disp).
Proof.
  intros Hm He Hl Hg. cbv zeta. rewrite pexec_bind, (toggle_fold w), Hm.
  destruct (switchToMindMapMode_live w bs ed disp html Hm He Hl Hg) as (E1 & E2 & E3).
  assert (truthy (originalContent (exec (switchToMindMapMode serialize parse containerId) w)) = true) as Ht.
  { rewrite E2. apply serialize_nonempty. intros ->. done. }
  destruct (switchToEditMode_copy _ _ E1 Ht E3) as [F1 F2].
  rewrite toggle_fold, E1, F1, F2, E2. done.
Qed.

(** [C21] Error path: when a block of the page has a level below [-1]
    (a [data-indent] of [-2] or less), ['#'.repeat] throws in
    [blocksToMarkdown]; the [catch] of lines 386-389 notifies the first
    invalid count, the mode and the editor stay as they were, but
    [originalContent] has already been overwritten with the editor's
    HTML (line 363). *)
Theorem switchToMindMapMode_negative_level (w : W) e b l :
  isInMindMapMode w = false → p_editor (pw_page w) = Some e →
  b ∈ extractPageStructure (Some (editor_blocks parse e)) → pb_level b = Some l → (l < -1)%Z →
  let w' := exec (switchToMindMapMode serialize parse containerId) w in
  isInMindMapMode w' = false ∧ p_editor (pw_page w') = Some e ∧ originalContent w' = inner_html serialize e ∧
  last (Plugin.notes (pw_host w')) =
    Some (NError, msg_failed (repeat_error (extractPageStructure (Some (editor_blocks parse e))))).
Proof.
  intros Hm He Hb Hl Hneg. cbv zeta. unfold switchToMindMapMode. rewrite pexec_bind, pexec_get. cbn [fst get].
  rewrite Hm, He, pexec_bind. cbn zeta.
  rewrite (elem_of_length_nz b _ Hb), (generateMindMapHTML_negative containerId _ b l Hb Hl Hneg).
  unfold exec, notify, set_original, modify. cbn. by rewrite last_snoc, Hm, He.
Qed.

Ltac pw_eval := cbv beta iota zeta delta [step load unload set_name on_cmds addButtonToToolbar removeButtonFromToolbar
    attached createToggleButton set_button set_retries set_mode set_original on_page notify exec mbind PM_bind get modify
    skip mret PM_ret pw_host pw_page pluginName isInMindMapMode originalContent toggleButton next_button retries
    p_editor p_toolbar p_active p_overlays default fst snd].

(** [load] without a head bar: the button waits for a retry. *)
Lemma load_no_bar (w : W) :
  p_toolbar (pw_page w) = None →
  let w' := exec (load name) w in
  p_toolbar (pw_page w') = None ∧ retries w' = S (retries w) ∧
  pluginName w' = Some name ∧ isInMindMapMode w' = isInMindMapMode w.
Proof.
  destruct w as [h [ed tb act ov] pn im oc btn nb rt]. cbn [pw_page p_toolbar]. intros ->.
  destruct btn; pw_eval; split_and!; reflexivity.
Qed.

(** [unload] in edit mode without a head bar: only the commands change. *)
Lemma unload_no_bar (w : W) :
  p_toolbar (pw_page w) = None → isInMindMapMode w = false →
  let w' := exec unload w in
  p_toolbar (pw_page w') = None ∧ retries w' = retries w ∧ pluginName w' = pluginName w ∧
  Plugin.cmds (pw_host w') = unregisterShortcut shortcut (unregisterCommand (cmd_toggle w) (Plugin.cmds (pw_host w))).
Proof.
  destruct w as [h [ed tb act ov] pn im oc btn nb rt]. cbn [pw_page p_toolbar isInMindMapMode]. intros -> ->.
  destruct btn; pw_eval; split_and!; reflexivity.
Qed.

(** A retry that finds an empty head bar puts a new button in it. *)
Lemma fire_retry_adds (w : W) r :
  p_toolbar (pw_page w) = Some [] → retries w = S r →
  let w' := exec (step serialize parse containerId name PFireRetry) w in
  p_toolbar (pw_page w') = Some [next_button w] ∧ toggleButton w' = Some (next_button w) ∧
  pluginName w' = pluginName w ∧ Plugin.cmds (pw_host w') = Plugin.cmds (pw_host w).
Proof.
  destruct w as [h [ed tb act ov] pn im oc btn nb rt]. cbn [pw_page p_toolbar retries]. intros -> ->.
  destruct btn; pw_eval; split_and!; reflexivity.
Qed.

(** [C20] A retry that outlives the plugin: [load] on a page without a head
    bar schedules [addButtonToToolbar] again (line 434), and [unload]
    does not cancel the timer.  When the head bar appears and the timer
    fires after [unload], the plugin's button is put in the head bar, its
    command is no longer registered, and a click on it still runs
    [toggleMindMapMode]; on every host that satisfies the laws of
    [Host]. *)
Theorem retry_adds_button_after_unload (w : W) :
  p_toolbar (pw_page w) = None → isInMindMapMode w = false →
  let w' := exec (run serialize parse containerId name [PLoad; PUnload; PToolbarReady; PFireRetry]) w in
  ∃ b, p_toolbar (pw_page w') = Some [b] ∧ toggleButton w' = Some b ∧
    lookupCommand (cmd_toggle w') (Plugin.cmds (pw_host w')) = None ∧
    exec (step serialize parse containerId name (PClick b)) w' = exec (toggleMindMapMode serialize parse containerId) w'.
Proof.
  intros Hb Hm. cbv zeta. cbn [run]. rewrite !pexec_bind.
  change (exec (step serialize parse containerId name PLoad) w) with (exec (load name) w).
  destruct (load_no_bar w Hb) as (L1 & L2 & L3 & L4). set (w1 := exec (load name) w) in *. clearbody w1.
  change (exec (step serialize parse containerId name PUnload) w1) with (exec unload w1).
  destruct (unload_no_bar w1 L1 ltac:(by rewrite L4)) as (U1 & U2 & U3 & U4).
  set (w2 := exec unload w1) in *. clearbody w2.
  set (w3 := exec (step serialize parse containerId name PToolbarReady) w2).
  assert (p_toolbar (pw_page w3) = Some [] ∧ retries w3 = retries w2 ∧ pluginName w3 = pluginName w2 ∧
          Plugin.cmds (pw_host w3) = Plugin.cmds (pw_host w2)) as (R1 & R2 & R3 & R4).
  { subst w3. unfold step, exec, on_page, modify. cbn. by rewrite U1. }
  clearbody w3. rewrite U2, L2 in R2.
  destruct (fire_retry_adds w3 (retries w) R1 R2) as (F1 & F2 & F3 & F4).
  set (w4 := exec (step serialize parse containerId name PFireRetry) w3) in *. clearbody w4.
  change (exec skip w4) with w4. exists (next_button w3). split_and!; [done|done| |].
  - unfold cmd_toggle. rewrite F4, R4, U4, F3, R3, U3, lookupCommand_unregisterShortcut, lookupCommand_unregister.
    by rewrite decide_True.
  - unfold step. rewrite pexec_bind, pexec_get. cbn [fst get]. rewrite F1, bool_decide_true; [done|].
    apply list_elem_of_here.
Qed.

End Invariants.

(** ** Executions *)

Lemma demo_serialize_nonempty bs : bs ≠ [] → truthy (demo_serialize bs) = true.
Proof. by destruct bs. Qed.

Lemma init_pworld_inv bs bar : page_inv (init_pworld bs bar).
Proof. split; [done|]. intros l b Hl Hb. destruct bar; simplify_eq/=. by apply elem_of_nil in Hb. Qed.

Lemma run_one_button_witness :
  toggleButton (demo_run [PLoad] (init_pworld page_a true)) = Some 0.
Proof.
  apply (run_one_button demo_serialize demo_parse (js "markmap-1") (js "orca-mindmap")
           demo_serialize_nonempty eq_refl [PLoad] _ (init_pworld_inv _ _) [0]);
    [vm_compute; reflexivity|apply list_elem_of_here].
Defined.

Lemma toggle_returns_to_editor_witness :
  let w' := demo_run [PLoad; PClick 0] (init_pworld page_a true) in
  ∃ e, p_editor (pw_page w') = Some e ∧ isInMindMapMode w' = true ∧
  isInMindMapMode (exec (toggleMindMapMode demo_serialize demo_parse (js "markmap-1")) w') = false ∧
  p_editor (pw_page (exec (toggleMindMapMode demo_serialize demo_parse (js "markmap-1")) w')) =
    Some (mkEditor (Copy (originalContent w')) (js "plaintext-only") (e_display e)).
Proof.
  eexists. split; [vm_compute; reflexivity|]. split; [vm_compute; reflexivity|].
  apply (toggle_returns_to_editor demo_serialize demo_parse (js "markmap-1") (js "orca-mindmap")
           demo_serialize_nonempty eq_refl [PLoad; PClick 0] _ _ (init_pworld_inv _ _)); vm_compute; reflexivity.
Defined.

Lemma toggle_twice_copies_editor_witness :
  let w2 := exec (toggleMindMapMode demo_serialize demo_parse (js "markmap-1") ≫= λ _,
                  toggleMindMapMode demo_serialize demo_parse (js "markmap-1")) (init_pworld page_a true) in
  isInMindMapMode w2 = false ∧
  p_editor (pw_page w2) = Some (mkEditor (Copy (demo_serialize page_a)) (js "plaintext-only") []).
Proof.
  eapply (toggle_twice_copies_editor demo_serialize demo_parse (js "markmap-1")
            demo_serialize_nonempty _ page_a (js "true") []); [reflexivity|reflexivity|vm_compute; reflexivity|].
  vm_compute. reflexivity.
Defined.

Lemma retry_adds_button_after_unload_witness :
  let w' := exec (run demo_serialize demo_parse (js "markmap-1") (js "orca-mindmap")
                      [PLoad; PUnload; PToolbarReady; PFireRetry]) (init_pworld page_a false) in
  ∃ b, p_toolbar (pw_page w') = Some [b] ∧ toggleButton w' = Some b ∧
    lookupCommand (cmd_toggle w') (Plugin.cmds (pw_host w')) = None ∧
    exec (step demo_serialize demo_parse (js "markmap-1") (js "orca-mindmap") (PClick b)) w' =
      exec (toggleMindMapMode demo_serialize demo_parse (js "markmap-1")) w'.
Proof. apply (retry_adds_button_after_unload demo_serialize demo_parse); reflexivity. Defined.

Lemma switchToMindMapMode_negative_level_witness :
  let w0 := init_pworld page_bad true in
  let e := mkEditor (Live page_bad) (js "true") [] in
  let w' := exec (switchToMindMapMode demo_serialize demo_parse (js "markmap-1")) w0 in
  isInMindMapMode w' = false ∧ p_editor (pw_page w') = Some e ∧
  originalContent w' = inner_html demo_serialize e ∧
  last (Plugin.notes (pw_host w')) =
    Some (NError, msg_failed (repeat_error (extractPageStructure (Some (editor_blocks demo_parse e))))).
Proof.
  apply (switchToMindMapMode_negative_level demo_serialize demo_parse (js "markmap-1") _ _
           (mkPageBlock (Some (js "Deep")) (js "Deep") (Some (-2)%Z) (js "text")) (-2)%Z);
    [reflexivity|reflexivity|vm_compute; left|reflexivity|lia].
Defined.

(** Stale restore: [originalContent] belongs to the page shown when
    the mind map was opened.  If the host renders another page into the
    editor meanwhile, toggling back writes the first page's HTML over the
    second page. *)
Theorem navigate_restores_previous_page :
  p_editor (pw_page (demo_run [PLoad; PClick 0; PNavigate (mkEditor (Live page_b) (js "true") []); PClick 0]
                              (init_pworld page_a true))) =
    Some (mkEditor (Copy (demo_serialize page_a)) (js "plaintext-only") []).
Proof. vm_compute. reflexivity. Qed.

(** Retry after unload: [load] without a head bar schedules
    [addButtonToToolbar] again in a second; [unload] does not cancel it,
    so the button appears after the plugin is unloaded, its command is
    gone, and a click on it still switches the page to the mind map. *)
Theorem button_after_unload :
  let w := demo_run [PLoad; PUnload; PToolbarReady; PFireRetry] (init_pworld page_a false) in
  p_toolbar (pw_page w) = Some [0] ∧
  lookupCommand (js "orca-mindmap.toggle") (Plugin.cmds (pw_host w)) = None ∧
  isInMindMapMode (demo_run [PClick 0] w) = true.
Proof. vm_compute. split_and!; reflexivity. Qed.

(** Error path: a block with [data-indent="-2"] makes
    ['#'.repeat(-1)] throw; [switchToMindMapMode] catches the
    [RangeError], notifies it, and leaves the editor and the mode as they
    were. *)
Theorem negative_indent_fails :
  let w := demo_run [PLoad; PClick 0] (init_pworld page_bad true) in
  isInMindMapMode w = false ∧
  last (Plugin.notes (pw_host w)) = Some (NError, msg_failed (js "Invalid count value: -1")) ∧
  p_editor (pw_page w) = Some (mkEditor (Live page_bad) (js "true") []).
Proof. vm_compute. split_and!; reflexivity. Qed.

End OrcaMindMap.
