(* ===== verification/MarkmapSimple.v ===== *)
(** * The context-menu plugin of [src/src/markmap-simple.ts]

    [markmap-simple.ts] shows one block's subtree in a panel of its own.
    [createSimpleMindMap(blockId)] renders the subtree with an inner
    [renderTree] (lines 46-66), counts it with [countTotalBlocks]
    (161-172), closes the panel it opened earlier for the same block and
    opens a new one, remembered in the [Map] [mindMapPanels].  It runs
    from a command (first key of [orca.state.blocks]) and from an item
    that [handleContextMenu] adds to the host's context menu ten
    milliseconds after a right click on a block.  [blockToMarkdown]
    (14-32) is declared but never called.

    Recursion depth is fuel, as in [TreeBuilder]: [None] is the
    [RangeError] of a stack overflow.  The DOM the plugin touches is the
    host's context menu, modelled as the list of the plugin's items in
    it, with a generation number so that an item's click removes only the
    menu it was added to. *)

From S2P Require Import Prelude JsRegex JsObject Blocks TreeBuilder Renderer Host Plugin SimplePlugin.
Import JsRegex JsObject Blocks TreeBuilder Renderer Host.
From Stdlib Require Import ZArith.

Module MarkmapSimple.

(** ** The pure part *)

(** [/[#*]/g] (line 19). *)
Definition re_md_marks : regex := mkRegex [Atom (CAlt (CChar 35) (CChar 42))] false.

Definition unnamed_block : jsstr := [0x672A; 0x547D; 0x540D; 0x5757]%N.   (** '未命名块' *)
Definition unnamed : jsstr := [0x672A; 0x547D; 0x540D]%N.                  (** '未命名' *)
Definition mind_map : jsstr := [0x601D; 0x7EF4; 0x5BFC; 0x56FE]%N.         (** '思维导图' *)

(** [block.text || fallback] *)
Definition text_or (block : Block) (fallback : jsstr) : jsstr :=
  if opt_truthy (b_text block) then default [] (b_text block) else fallback.

(** [blockToMarkdown] (lines 14-32); [level] starts at 1. *)
Fixpoint blockToMarkdown (fuel : nat) (blockId : jsstr) (allBlocks : obj Block) (level : nat) : option jsstr :=
  match fuel with
  | O => None
  | S fuel' =>
      match obj_get allBlocks blockId with
      | None => Some []
      | Some block =>
          let indent := concat (replicate (Nat.min level 6) (js "#")) ++ js " " in
          let content := replace_all re_md_marks [] (text_or block unnamed_block) in
          children ← mapM (λ childId,
                      if bool_decide (is_Some (obj_get allBlocks childId))
                      then blockToMarkdown fuel' childId allBlocks (S level) else Some [])
                    (default [] (b_children block));
          Some (indent ++ content ++ [10; 10]%N ++ concat children)
      end
  end.

(** The bullets of line 51. *)
Definition simple_bullets : list jsstr := [[0x25CF]; [0x25CB]; [0x25AA]; [0x25AB]; [0x2023]]%N.

(** The [div] of one node (lines 54-57). *)
Definition node_html (level : nat) (bullet content : jsstr) : jsstr :=
  js "<div style=" ++ [0x22]%N ++ js "margin: 8px 0; padding-left: " ++ nat_to_js (level * 24)
  ++ js "px; font-size: " ++ z_to_js (16 - Z.of_nat level)
  ++ js "px; line-height: 1.4;" ++ [0x22]%N ++ js ">" ++ [0xA]%N ++ js "        <span style="
  ++ [0x22]%N ++ js "color: var(--orca-color-primary, #007acc); margin-right: 8px;" ++ [0x22]%N
  ++ js ">" ++ bullet ++ js "</span>" ++ [0xA]%N ++ js "        <span style=" ++ [0x22]%N
  ++ js "color: var(--orca-color-text-1, #333);" ++ [0x22]%N ++ js ">" ++ content
  ++ js "</span>" ++ [0xA]%N ++ js "      </div>".

(** [renderTree] of [createSimpleMindMap] (lines 46-66); [level] starts
    at 0.  The [indent] of line 50 is computed and never used. *)
Fixpoint renderTree (fuel : nat) (allBlocks : obj Block) (nodeId : jsstr) (level : nat) : option jsstr :=
  match fuel with
  | O => None
  | S fuel' =>
      match obj_get allBlocks nodeId with
      | None => Some []
      | Some node =>
          let bullet := nth (Nat.min level 4) simple_bullets [] in
          let content := take 100 (text_or node unnamed) in
          kids ← mapM (λ childId, renderTree fuel' allBlocks childId (S level)) (default [] (b_children node));
          Some (node_html level bullet content ++ concat kids)
      end
  end.

(** [countTotalBlocks] (lines 161-172). *)
Fixpoint countTotalBlocks (fuel : nat) (blockId : jsstr) (allBlocks : obj Block) : option nat :=
  match fuel with
  | O => None
  | S fuel' =>
      match obj_get allBlocks blockId with
      | None => Some 0
      | Some block =>
          ns ← mapM (λ childId, countTotalBlocks fuel' childId allBlocks) (default [] (b_children block));
          Some (S (sum_list ns))
      end
  end.

(** The panel's content (lines 71-134): the title's [textContent], the
    tree's [innerHTML] and the statistics' [textContent]. *)
Record panel_view := mkView { pv_title : jsstr; pv_tree : jsstr; pv_stats : jsstr }.

Definition title_text (block : Block) : jsstr := [0xD83E; 0xDDE0]%N ++ js " " ++ take 50 (text_or block mind_map).
Definition stats_text (n : nat) : jsstr :=
  [0xD83D; 0xDCCA]%N ++ js " " ++ [0x5171; 0x5305; 0x542B]%N ++ js " " ++ nat_to_js n ++ js " " ++ [0x4E2A; 0x5757]%N.

Definition msg_not_found : jsstr := [0x672A; 0x627E; 0x5230; 0x6307; 0x5B9A; 0x5757]%N.
Definition msg_created (n : nat) : jsstr :=
  [0x601D; 0x7EF4; 0x5BFC; 0x56FE; 0x5DF2; 0x751F; 0x6210; 0xFF0C; 0x5171]%N ++ js " " ++ nat_to_js n
  ++ js " " ++ [0x4E2A; 0x8282; 0x70B9]%N.
Definition msg_failed (m : jsstr) : jsstr := [0x751F; 0x6210; 0x5931; 0x8D25]%N ++ js ": " ++ m.
Definition msg_no_blocks : jsstr := [0x5F53; 0x524D; 0x6CA1; 0x6709; 0x53EF; 0x7528; 0x7684; 0x7B14; 0x8BB0; 0x5757]%N.
Definition cmd_description : jsstr := [0x751F; 0x6210; 0x601D; 0x7EF4; 0x5BFC; 0x56FE]%N.
Definition msg_enabled : jsstr :=
  js "Markmap" ++ [0x63D2; 0x4EF6; 0x5DF2; 0x542F; 0x7528]%N ++ js " - "
  ++ [0x53F3; 0x952E; 0x8282; 0x70B9; 0x67E5; 0x770B; 0x9009; 0x9879]%N.
Definition msg_disabled : jsstr := js "Markmap" ++ [0x63D2; 0x4EF6; 0x5DF2; 0x7981; 0x7528]%N.

(** The [TypeError] of reading a property of [undefined] blocks. *)
Definition type_error (key : jsstr) : jsstr :=
  js "Cannot read properties of undefined (reading '" ++ key ++ js "')".

(** ** The plugin's state and functions *)

Section Ops.
Context {NS CS TS BS : Type} `{NavLaws NS} `{CommandsLaws CS} `{ToolbarLaws TS} `{BroadcastsLaws BS}.

#[local] Abbreviation host := (Plugin.host (NS:=NS) (CS:=CS) (TS:=TS) (BS:=BS)).

(** A [createSimpleMindMap] suspended at [await orca.nav.addPanel]
    (line 142): the block, the id the promise resolves to, the count, and
    the generation of the context menu whose item started it, if one did. *)
Record task := mkTask { t_block : jsstr; t_panel : jsstr; t_count : nat; t_menu : option nat }.

(** The module variables [pluginName] and [mindMapPanels] (lines 10-11),
    the [Map] as an [obj]: entries in insertion order, [set] of a present
    key keeping its place, as [Map.prototype.set] does;
    the [contextmenu] listener; the host's context menu with the
    plugin's items in it and its generation; the pending ten-millisecond
    timers of [handleContextMenu]; the suspended calls; and two ghost
    records: the content of each panel the plugin opened, and the
    reasons of the promises left rejected. *)
Record mworld := mkMWorld {
  m_host : host;
  pluginName : option jsstr;
  mindMapPanels : obj jsstr;
  listening : bool;
  menu : option (nat * list jsstr);
  next_menu : nat;
  menu_timers : list jsstr;
  m_tasks : list task;
  views : list (jsstr * panel_view);
  rejections : list jsstr
}.

Definition M (A : Type) : Type := mworld → A * mworld.

#[export] Instance MM_ret : MRet M := λ A a w, (a, w).
#[export] Instance MM_bind : MBind M := λ A B f m w, let (a, w') := m w in f a w'.

Definition skip : M unit := mret ().
Definition get : M mworld := λ w, (w, w).
Definition modify (f : mworld → mworld) : M unit := λ w, ((), f w).
Definition exec {A} (m : M A) (w : mworld) : mworld := snd (m w).

Definition on_host (f : host → host) : M unit :=
  modify (λ w, mkMWorld (f (m_host w)) (pluginName w) (mindMapPanels w) (listening w) (menu w)
                        (next_menu w) (menu_timers w) (m_tasks w) (views w) (rejections w)).
Definition set_name (n : jsstr) : M unit :=
  modify (λ w, mkMWorld (m_host w) (Some n) (mindMapPanels w) (listening w) (menu w)
                        (next_menu w) (menu_timers w) (m_tasks w) (views w) (rejections w)).
Definition set_panels (m : obj jsstr) : M unit :=
  modify (λ w, mkMWorld (m_host w) (pluginName w) m (listening w) (menu w)
                        (next_menu w) (menu_timers w) (m_tasks w) (views w) (rejections w)).
Definition set_listening (b : bool) : M unit :=
  modify (λ w, mkMWorld (m_host w) (pluginName w) (mindMapPanels w) b (menu w)
                        (next_menu w) (menu_timers w) (m_tasks w) (views w) (rejections w)).
Definition set_menu (mn : option (nat * list jsstr)) (next : nat) : M unit :=
  modify (λ w, mkMWorld (m_host w) (pluginName w) (mindMapPanels w) (listening w) mn
                        next (menu_timers w) (m_tasks w) (views w) (rejections w)).
Definition set_timers (ts : list jsstr) : M unit :=
  modify (λ w, mkMWorld (m_host w) (pluginName w) (mindMapPanels w) (listening w) (menu w)
                        (next_menu w) ts (m_tasks w) (views w) (rejections w)).
Definition set_tasks (ts : list task) : M unit :=
  modify (λ w, mkMWorld (m_host w) (pluginName w) (mindMapPanels w) (listening w) (menu w)
                        (next_menu w) (menu_timers w) ts (views w) (rejections w)).
Definition reject (reason : jsstr) : M unit :=
  modify (λ w, mkMWorld (m_host w) (pluginName w) (mindMapPanels w) (listening w) (menu w)
                        (next_menu w) (menu_timers w) (m_tasks w) (views w) (rejections w ++ [reason])).

Definition notify (t : notify_type) (m : jsstr) : M unit :=
  on_host (λ h, Plugin.mkHost (Plugin.blocks h) (Plugin.apiVersion h) (Plugin.hostShape h) (Plugin.nav h)
    (Plugin.cmds h) (Plugin.bar h) (Plugin.bc h) (Plugin.notes h ++ [(t, m)]) (Plugin.savedData h)
    (Plugin.schemas h) (Plugin.clock h)).

(** [orca.nav.addPanel(id, { component: () => container })]. *)
Definition open_panel (id : jsstr) (v : panel_view) : M jsstr :=
  λ w, let (p, n) := addPanel id (Plugin.nav (m_host w)) in
       (p, mkMWorld (SimplePlugin.with_nav (λ _, n) (m_host w)) (pluginName w) (mindMapPanels w)
                    (listening w) (menu w) (next_menu w) (menu_timers w) (m_tasks w)
                    ((p, v) :: views w) (rejections w)).

Definition close_panel (p : jsstr) : M unit := on_host (SimplePlugin.with_nav (closePanel p)).

(** The loop of lines 269-271. *)
Fixpoint close_all (m : obj jsstr) : M unit :=
  match m with [] => skip | (_, p) :: m' => close_panel p;; close_all m' end.

(** Lines 212-214: the item's click handler removes the menu it was added
    to, if that menu is still in the page. *)
Definition remove_menu (gen : option nat) : M unit :=
  w ← get;
  match gen, menu w with
  | Some g, Some (g', _) => if Nat.eqb g g' then set_menu None (next_menu w) else skip
  | _, _ => skip
  end.

Context (stack : nat) (name : jsstr).

Definition name_of (w : mworld) : jsstr := default (js "undefined") (pluginName w).
Definition cmd_create (w : mworld) : jsstr := name_of w ++ js ".createMindMap".
Definition button_id (w : mworld) : jsstr := name_of w ++ js ".button".

(** [createSimpleMindMap(blockId)] (lines 35-158) up to [await
    orca.nav.addPanel]; [gen] is the menu of the item that called it.
    Every exception inside the [try] is caught and notified. *)
Definition createSimpleMindMap (blockId : jsstr) (gen : option nat) : M unit :=
  w ← get;
  match Plugin.blocks (m_host w) with
  | None => notify NError (msg_failed (type_error blockId));; remove_menu gen
  | Some allBlocks =>
      match obj_get allBlocks blockId with
      | None => notify NError msg_not_found;; remove_menu gen
      | Some block =>
          match renderTree stack allBlocks blockId 0 with
          | None => notify NError (msg_failed Plugin.range_error_message);; remove_menu gen
          | Some treeHtml =>
              match countTotalBlocks stack blockId allBlocks with
              | None => notify NError (msg_failed Plugin.range_error_message);; remove_menu gen
              | Some blockCount =>
                  (match obj_get (mindMapPanels w) blockId with Some p => close_panel p | None => skip end);;
                  p ← open_panel (js "mindmap-" ++ blockId) (mkView (title_text block) treeHtml (stats_text blockCount));
                  w' ← get;
                  set_tasks (m_tasks w' ++ [mkTask blockId p blockCount gen])
              end
          end
      end
  end.

(** The rest of [createSimpleMindMap] (lines 150-151) once [addPanel]
    settles, then the rest of the menu item's handler. *)
Definition createSimpleMindMap_resume (t : task) : M unit :=
  w ← get;
  set_panels (obj_set (mindMapPanels w) (t_block t) (t_panel t));;
  notify NSuccess (msg_created (t_count t));;
  remove_menu (t_menu t).

(** The command of lines 230-240. *)
Definition createMindMap_command : M unit :=
  w ← get;
  match Plugin.blocks (m_host w) with
  | None => reject (js "Cannot convert undefined or null to object")
  | Some blocks =>
      match object_keys blocks with
      | firstBlockId :: _ => if truthy firstBlockId then createSimpleMindMap firstBlockId None
                             else notify NWarn msg_no_blocks
      | [] => notify NWarn msg_no_blocks
      end
  end.

(** [handleContextMenu(e)] (lines 175-220): [target] is the [data-id] of
    the closest [.orca-block] of the click, if there is one. *)
Definition handleContextMenu (target : option jsstr) : M unit :=
  w ← get;
  if negb (listening w) then skip else
  match target with
  | Some blockId => if truthy blockId then set_timers (menu_timers w ++ [blockId]) else skip
  | None => skip
  end.

(** The timer of line 185 fires: with a context menu open, the plugin's
    item for [blockId] is appended to it. *)
Definition menu_timer (blockId : jsstr) : M unit :=
  w ← get;
  match menu w with
  | Some (g, items) => set_menu (Some (g, items ++ [blockId])) (next_menu w)
  | None => skip
  end.

(** [load(name)] (lines 223-262). *)
Definition load : M unit :=
  set_name name;;
  w ← get;
  on_host (SimplePlugin.with_cmds (registerCommand (cmd_create w) HCreateMindMap cmd_description));;
  on_host (SimplePlugin.with_bar (registerToolbarButton (button_id w) (cmd_create w)));;
  on_host (SimplePlugin.with_cmds (registerShortcut Plugin.shortcut_key (cmd_create w)));;
  set_listening true;;
  notify NSuccess msg_enabled.

(** [unload()] (lines 265-284). *)
Definition unload : M unit :=
  w ← get;
  close_all (mindMapPanels w);;
  set_panels [];;
  set_listening false;;
  on_host (SimplePlugin.with_cmds (unregisterCommand (cmd_create w)));;
  on_host (SimplePlugin.with_bar (unregisterToolbarButton (button_id w)));;
  on_host (SimplePlugin.with_cmds (unregisterShortcut Plugin.shortcut_key));;
  notify NInfo msg_disabled.

Definition invoke (id : jsstr) : M unit :=
  w ← get;
  match lookupCommand id (Plugin.cmds (m_host w)) with
  | Some HCreateMindMap => createMindMap_command
  | _ => skip   (** not a function of [markmap-simple.ts] *)
  end.

End Ops.

(** The inputs of the host and the page. *)
Inductive minput :=
  | MLoad | MUnload
  | MCommand (id : jsstr) | MShortcut (key : jsstr) | MButton (id : jsstr)
  | MUserClosePanel (p : jsstr)
  | MContextMenu (target : option jsstr)   (** a right click; the [data-id] of its block *)
  | MShowMenu                               (** the host opens its context menu *)
  | MHideMenu                               (** the host closes it *)
  | MFireMenuTimer (i : nat)                (** the [i]-th pending timer of line 185 fires *)
  | MClickItem (j : nat)                    (** a click on the [j]-th item of the plugin in the menu *)
  | MResume (i : nat).                      (** the [i]-th pending [addPanel] settles *)

Section Run.
Context {NS CS TS BS : Type} `{NavLaws NS} `{CommandsLaws CS} `{ToolbarLaws TS} `{BroadcastsLaws BS}.
Context (stack : nat) (name : jsstr).

Definition step (i : minput) : M (NS:=NS) (CS:=CS) (TS:=TS) (BS:=BS) unit :=
  match i with
  | MLoad => load name
  | MUnload => unload
  | MCommand id => invoke stack id
  | MShortcut k =>
      w ← get; match lookupShortcut k (Plugin.cmds (m_host w)) with Some id => invoke stack id | None => skip end
  | MButton b =>
      w ← get; match lookupButton b (Plugin.bar (m_host w)) with Some id => invoke stack id | None => skip end
  | MUserClosePanel p => close_panel p
  | MContextMenu t => handleContextMenu t
  | MShowMenu => w ← get; set_menu (Some (next_menu w, [])) (S (next_menu w))
  | MHideMenu => w ← get; set_menu None (next_menu w)
  | MFireMenuTimer i =>
      w ← get;
      match menu_timers w !! i with
      | Some blockId => set_timers (delete i (menu_timers w));; menu_timer blockId
      | None => skip
      end
  | MClickItem j =>
      w ← get;
      match menu w with
      | Some (g, items) => match items !! j with Some blockId => createSimpleMindMap stack blockId (Some g) | None => skip end
      | None => skip
      end
  | MResume i =>
      w ← get;
      match m_tasks w !! i with
      | Some t => set_tasks (delete i (m_tasks w));; createSimpleMindMap_resume t
      | None => skip
      end
  end.

Fixpoint run (ins : list minput) : M unit :=
  match ins with [] => skip | i :: ins' => step i;; run ins' end.

End Run.

(** ** A host to run the examples on *)

Abbreviation mem_mworld := (mworld (NS:=MemNav) (CS:=MemCommands) (TS:=MemToolbar) (BS:=MemBroadcasts)).

Definition init_mworld (b : option (obj Block)) : mem_mworld :=
  mkMWorld (Plugin.mkHost b None true (mkMemNav []) (mkMemCommands [] []) (mkMemToolbar []) (mkMemBroadcasts []) [] [] [] 0)
           None [] false None 0 [] [] [] [].

Definition demo_run (b : option (obj Block)) (ins : list minput) : mem_mworld :=
  exec (run 100 (js "markmap") ins) (init_mworld b).

(** Block 3 is a child of block 1 and of block 2. *)
Definition shared_blocks : obj Block := obj_of_list [
  (js "1", mkBlock (Some (js "1")) (Some (js "Root")) (Some [js "2"; js "3"]) None None);
  (js "2", mkBlock (Some (js "2")) (Some (js "A")) (Some [js "3"]) None None);
  (js "3", mkBlock (Some (js "3")) (Some (js "B")) (Some []) None None)].

(** ** The recursions *)

Lemma renderTree_S fuel o k l block :
  obj_get o k = Some block →
  renderTree (S fuel) o k l =
    (λ kids, node_html l (nth (Nat.min l 4) simple_bullets []) (take 100 (text_or block unnamed)) ++ concat kids)
      <$> mapM (λ c, renderTree fuel o c (S l)) (default [] (b_children block)).
Proof. intros Hg. cbn [renderTree]. rewrite Hg. by destruct (mapM _ _). Qed.

Lemma countTotalBlocks_S fuel k o block :
  obj_get o k = Some block →
  countTotalBlocks (S fuel) k o =
    (λ ns, S (sum_list ns)) <$> mapM (λ c, countTotalBlocks fuel c o) (default [] (b_children block)).
Proof. intros Hg. cbn [countTotalBlocks]. rewrite Hg. by destruct (mapM _ _). Qed.

(** A key on a cycle of the children relation overflows the stack in
    both recursions of [createSimpleMindMap]. *)
Lemma renderTree_count_tc_None o k :
  tc (SimplePlugin.sstep o) k k →
  ∀ fuel, (∀ l, renderTree fuel o k l = None) ∧ countTotalBlocks fuel k o = None.
Proof.
  apply (tc_dead _ (λ fuel k, (∀ l, renderTree fuel o k l = None) ∧ countTotalBlocks fuel k o = None));
    [done|].
  intros fuel k' y (block & Hg & Hy) [Hr Hc].
  split; [intros l|]; cbn; rewrite Hg, mapM_None_2; try done; apply Exists_exists; eauto.
Qed.

Lemma node_html_content l b c : infix_of c (node_html l b c).
Proof. unfold node_html. solve_infix. Qed.

(** The node's text, cut to 100 code units, is written into the HTML
    as it is. *)
Lemma renderTree_text_raw fuel o k l block h :
  obj_get o k = Some block → renderTree fuel o k l = Some h → infix_of (take 100 (text_or block unnamed)) h.
Proof.
  intros Hg. destruct fuel; [done|]. rewrite (renderTree_S _ _ _ _ block Hg).
  intros (kids & _ & ->)%fmap_Some. eapply infix_of_trans; [apply node_html_content|apply infix_of_here].
Qed.

(** Termination: under a rank of the keys that every child
    decreases, [renderTree] and [countTotalBlocks] return once the stack
    is deeper than the rank of the start key. *)
Theorem renderTree_count_terminate o (rank : jsstr → nat) :
  (∀ k c, SimplePlugin.sstep o k c → rank c < rank k) →
  ∀ fuel k, rank k < fuel → (∀ l, is_Some (renderTree fuel o k l)) ∧ is_Some (countTotalBlocks fuel k o).
Proof.
  intros Hrank. apply (rank_live (SimplePlugin.sstep o) rank); [done|]. intros fuel k Hy.
  destruct (obj_get o k) as [block|] eqn:Hg; [|split; [intros l|]; cbn; rewrite Hg; by eexists].
  assert (Hc : ∀ c, c ∈ default [] (b_children block) →
                 (∀ l, is_Some (renderTree fuel o c l)) ∧ is_Some (countTotalBlocks fuel c o))
    by (intros c Hc; apply Hy; by exists block).
  split; [intros l; rewrite (renderTree_S _ _ _ _ block Hg)|rewrite (countTotalBlocks_S _ _ _ block Hg)];
    apply fmap_is_Some, mapM_is_Some_2, Forall_forall; intros c Hin; apply Hc, Hin.
Qed.

(** ** [createSimpleMindMap] *)

Section Proofs.
Context {NS CS TS BS : Type} `{NavLaws NS} `{CommandsLaws CS} `{ToolbarLaws TS} `{BroadcastsLaws BS}.
#[local] Abbreviation W := (mworld (NS:=NS) (CS:=CS) (TS:=TS) (BS:=BS)).
Context (stack : nat).

Lemma mexec_bind {A B} (m : M A) (f : A → M B) (w : W) : exec (m ≫= f) w = exec (f (fst (m w))) (exec m w).
Proof. unfold exec, mbind, MM_bind. by destruct (m w). Qed.

(** An early return of [createSimpleMindMap]: one notification, and the
    menu of the item removed; no panel, no pending call. *)
Lemma notify_remove_menu t m gen (w : W) :
  let w' := exec (notify t m;; remove_menu gen) w in
  views w' = views w ∧ m_tasks w' = m_tasks w ∧ Plugin.notes (m_host w') = Plugin.notes (m_host w) ++ [(t, m)].
Proof.
  cbv zeta. rewrite mexec_bind. unfold remove_menu. rewrite mexec_bind. cbn [fst get].
  destruct gen as [g|], (menu (exec (notify t m) w)) as [[g' ?]|]; try destruct (Nat.eqb g g'); done.
Qed.

(** Errors: when the block lies on a cycle of [children], the stack
    overflow of [renderTree] is caught: [createSimpleMindMap] notifies
    it, opens no panel and leaves nothing pending. *)
Theorem createSimpleMindMap_cycle_error (w : W) o k gen :
  Plugin.blocks (m_host w) = Some o → tc (SimplePlugin.sstep o) k k →
  let w' := exec (createSimpleMindMap stack k gen) w in
  views w' = views w ∧ m_tasks w' = m_tasks w ∧
  Plugin.notes (m_host w') = Plugin.notes (m_host w) ++ [(NError, msg_failed Plugin.range_error_message)].
Proof.
  intros Hb Hk. destruct (tc_first _ _ _ Hk) as (y & (block & Hg & _) & _).
  unfold createSimpleMindMap. rewrite mexec_bind. cbn [fst get]. change (exec get w) with w.
  rewrite Hb, Hg, (proj1 (renderTree_count_tc_None o k Hk stack) 0). apply notify_remove_menu.
Qed.

(** Safety: [createSimpleMindMap] writes each block's text, cut to
    100 code units, into the panel's [innerHTML] without escaping it; the
    panel it opens shows the tree, the title and the count. *)
Theorem createSimpleMindMap_shows_raw_text (w : W) o k block gen h n :
  Plugin.blocks (m_host w) = Some o → obj_get o k = Some block →
  renderTree stack o k 0 = Some h → countTotalBlocks stack k o = Some n →
  infix_of (take 100 (text_or block unnamed)) h ∧
  ∃ p, views (exec (createSimpleMindMap stack k gen) w) = (p, mkView (title_text block) h (stats_text n)) :: views w.
Proof.
  intros Hb Hg Hr Hc. split; [by eapply renderTree_text_raw|].
  unfold createSimpleMindMap. rewrite mexec_bind. cbn [fst get]. change (exec get w) with w.
  rewrite Hb, Hg, Hr, Hc. unfold exec, mbind, MM_bind, open_panel, close_panel, on_host, modify, set_tasks, get.
  destruct (obj_get (mindMapPanels w) k); cbn; destruct (addPanel _ _); by eexists.
Qed.

(** The panels [unload] closes are the host's business: the rest of the
    plugin's state stays as it was. *)
Lemma close_all_frame m (w : W) :
  let w' := exec (close_all m) w in
  Plugin.cmds (m_host w') = Plugin.cmds (m_host w) ∧ pluginName w' = pluginName w ∧
  menu w' = menu w ∧ next_menu w' = next_menu w ∧ menu_timers w' = menu_timers w.
Proof.
  revert w. induction m as [|[k p] m IH]; intros w; [done|]. cbn [close_all]. cbv zeta. rewrite mexec_bind.
  destruct (IH (exec (close_panel p) w)) as (E1 & E2 & E3 & E4 & E5). rewrite E1, E2, E3, E4, E5. done.
Qed.

Lemma unload_frame (w : W) :
  let w' := exec unload w in
  listening w' = false ∧ lookupCommand (cmd_create w) (Plugin.cmds (m_host w')) = None ∧
  next_menu w' = next_menu w ∧ menu_timers w' = menu_timers w.
Proof.
  cbv zeta. unfold unload. rewrite mexec_bind. cbn [fst get]. change (exec get w) with w. rewrite mexec_bind.
  destruct (close_all_frame (mindMapPanels w) w) as (E1 & _ & _ & E4 & E5).
  set (w0 := exec (close_all (mindMapPanels w)) w) in *. split_and!; [done| |done|done].
  unfold exec, mbind, MM_bind, set_panels, set_listening, on_host, notify, modify, SimplePlugin.with_cmds,
    SimplePlugin.with_bar. cbn.
  rewrite lookupCommand_unregisterShortcut, lookupCommand_unregister, decide_True by done. done.
Qed.

(** [C25] A timer that outlives the plugin: [handleContextMenu] sets a ten
    millisecond timer (line 185) that [unload] does not cancel.  When it
    fires after [unload] with the host's context menu open, the plugin's
    item still goes into the menu, although the listener is off and the
    command is unregistered, and a click on the item runs
    [createSimpleMindMap] for its block; on every host that satisfies
    the laws of [Host]. *)
Theorem menu_timer_after_unload (w : W) name bid ts :
  menu_timers w = bid :: ts →
  let w' := exec (run stack name [MUnload; MShowMenu; MFireMenuTimer 0]) w in
  listening w' = false ∧ lookupCommand (cmd_create w) (Plugin.cmds (m_host w')) = None ∧
  ∃ g, menu w' = Some (g, [bid]) ∧
    exec (step stack name (MClickItem 0)) w' = exec (createSimpleMindMap stack bid (Some g)) w'.
Proof.
  intros Ht. cbv zeta.
  assert (exec (run stack name [MUnload; MShowMenu; MFireMenuTimer 0]) w =
          exec (step stack name (MFireMenuTimer 0)) (exec (step stack name MShowMenu) (exec unload w))) as ->.
  { cbn [run]. by rewrite !mexec_bind. }
  destruct (unload_frame w) as (U1 & U2 & _ & U4). set (w1 := exec unload w) in *. clearbody w1. rewrite Ht in U4.
  unfold step, exec, mbind, MM_bind, get, set_menu, set_timers, menu_timer, modify. cbn. rewrite U4. cbn.
  split_and!; [done|done|]. exists (next_menu w1). split; reflexivity.
Qed.

End Proofs.

(** ** Examples on the in-memory host *)

Lemma sstep_test_rank : ∀ k c, SimplePlugin.sstep test_blocks k c → test_rank c < test_rank k.
Proof.
  intros k c (block & Hg & Hc). apply obj_get_of_list in Hg.
  rewrite !elem_of_cons, elem_of_nil in Hg. apply list_elem_of_In in Hc.
  destruct Hg as [Hg|[Hg|[Hg|[Hg|[]]]]]; injection Hg as -> ->; vm_compute in Hc;
    intuition subst; vm_compute; lia.
Qed.

Lemma sstep_cycle_blocks : tc (SimplePlugin.sstep cycle_blocks) (js "a") (js "a").
Proof. apply (tc_l _ _ (js "b")); [|apply tc_once]; (eexists; split; [reflexivity|]); decide_vm. Qed.

Lemma renderTree_count_terminate_witness :
  (∀ k c, SimplePlugin.sstep test_blocks k c → test_rank c < test_rank k) ∧
  is_Some (countTotalBlocks 3 (js "1") test_blocks).
Proof.
  split; [apply sstep_test_rank|].
  apply (renderTree_count_terminate test_blocks test_rank sstep_test_rank 3 (js "1")). vm_compute. lia.
Defined.

Lemma createSimpleMindMap_cycle_error_witness :
  Plugin.blocks (m_host (init_mworld (Some cycle_blocks))) = Some cycle_blocks ∧
  tc (SimplePlugin.sstep cycle_blocks) (js "a") (js "a") ∧
  let w' := exec (createSimpleMindMap 100 (js "a") None) (init_mworld (Some cycle_blocks)) in
  views w' = [] ∧ m_tasks w' = [] ∧
  Plugin.notes (m_host w') = [] ++ [(NError, msg_failed Plugin.range_error_message)].
Proof.
  split_and!; [reflexivity|apply sstep_cycle_blocks|].
  apply (createSimpleMindMap_cycle_error 100 (init_mworld (Some cycle_blocks)) cycle_blocks);
    [reflexivity|apply sstep_cycle_blocks].
Defined.

Lemma createSimpleMindMap_shows_raw_text_witness :
  let b1 := mkBlock (Some (js "1")) (Some [0x6839; 0x8282; 0x70B9]%N) (Some [js "2"; js "3"]) None None in
  let h := default [] (renderTree 100 test_blocks (js "1") 0) in
  let n := default 0 (countTotalBlocks 100 (js "1") test_blocks) in
  obj_get test_blocks (js "1") = Some b1 ∧
  renderTree 100 test_blocks (js "1") 0 = Some h ∧ countTotalBlocks 100 (js "1") test_blocks = Some n ∧
  (infix_of (take 100 (text_or b1 unnamed)) h ∧
   ∃ p, views (exec (createSimpleMindMap 100 (js "1") None) (init_mworld (Some test_blocks))) =
          (p, mkView (title_text b1) h (stats_text n)) :: []).
Proof.
  cbv zeta. split; [vm_compute; reflexivity|]. split; [vm_compute; reflexivity|]. split; [vm_compute; reflexivity|].
  apply (createSimpleMindMap_shows_raw_text 100 (init_mworld (Some test_blocks)) test_blocks (js "1"));
    vm_compute; reflexivity.
Defined.

(** A right click sets a timer that [unload] does not cancel: if
    it fires after [unload], its item still goes into the context menu,
    and a click on it opens a panel the plugin records in
    [mindMapPanels] although it is unloaded and its command is gone. *)
Theorem menu_item_after_unload :
  let w := demo_run (Some test_blocks)
             [MLoad; MContextMenu (Some (js "1")); MUnload; MShowMenu; MFireMenuTimer 0; MClickItem 0; MResume 0] in
  listening w = false ∧ lookupCommand (js "markmap.createMindMap") (Plugin.cmds (m_host w)) = None ∧
  length (mn_open (Plugin.nav (m_host w))) = 1 ∧ (mindMapPanels w).*1 = [js "1"] ∧ menu w = None.
Proof. vm_compute. split_and!; reflexivity. Qed.

(** The plugin loaded, then a right click on block 1. *)
Definition menu_pending_world : mem_mworld := demo_run (Some test_blocks) [MLoad; MContextMenu (Some (js "1"))].

Lemma menu_timer_after_unload_witness :
  let w' := exec (run 100 (js "markmap") [MUnload; MShowMenu; MFireMenuTimer 0]) menu_pending_world in
  listening w' = false ∧ lookupCommand (cmd_create menu_pending_world) (Plugin.cmds (m_host w')) = None ∧
  ∃ g, menu w' = Some (g, [js "1"]) ∧
    exec (step 100 (js "markmap") (MClickItem 0)) w' = exec (createSimpleMindMap 100 (js "1") (Some g)) w'.
Proof. apply (menu_timer_after_unload 100 _ (js "markmap") (js "1") []). vm_compute. reflexivity. Defined.

(** [countTotalBlocks] counts paths, not blocks: a block that is a
    child of two blocks of the subtree is counted twice, so the panel of
    a three-block page reports four blocks. *)
Theorem countTotalBlocks_counts_paths :
  countTotalBlocks 100 (js "1") shared_blocks = Some 4 ∧ length (object_keys shared_blocks) = 3.
Proof. vm_compute. split; reflexivity. Qed.

End MarkmapSimple.
