(* ===== verification/BasicOutline.v ===== *)
(** * The outline plugin of [src/src/basic-outline.ts]

    [basic-outline.ts] renders one block's subtree as an HTML outline
    ([generateOutlineHTML], lines 13-99, with its inner [renderNode]) and
    shows it either in a new browser window ([showOutlineInNewWindow],
    116-161) or in a modal dialog laid over the page
    ([showOutlineDialog], 164-236).  [countBlocks] (102-113) is the same
    function as [countTotalBlocks] of [markmap-simple.ts], and is proved
    equal to it.

    An exception is [inl] of its message; the clock text of
    [new Date().toLocaleTimeString()] is a section parameter [time].  The
    page keeps the dialogs the plugin appended to [document.body], each
    with a number, and the documents written into the windows it opened;
    whether the browser lets [window.open] open a window is part of the
    state. *)

From S2P Require Import Prelude JsObject Blocks TreeBuilder Renderer Host Plugin SimplePlugin MarkmapSimple.
Import JsObject Blocks TreeBuilder Renderer Host MarkmapSimple.
From Stdlib Require Import ZArith.

Module BasicOutline.

(** ** The outline HTML *)

Definition margin (level : nat) : jsstr := if Nat.eqb level 0 then js "12px" else js "6px".
Definition fontSize (level : nat) : Z := Z.max 12 (16 - Z.of_nat level * 2).
Definition fontWeight (level : nat) : jsstr :=
  if Nat.eqb level 0 then js "600" else if Nat.eqb level 1 then js "500" else js "normal".
Definition textColor (level : nat) : jsstr :=
  if Nat.eqb level 0 then js "#2563eb" else if Nat.eqb level 1 then js "#374151" else js "#6b7280".

(** The [div] of one node (lines 31-40). *)
Definition node_div (level : nat) (bullet content : jsstr) : jsstr :=
  js "<div style=" ++ [0x22; 0xA]%N ++ js "      margin: " ++ margin level
  ++ js " 0; " ++ [0xA]%N ++ js "      padding-left: " ++ nat_to_js (level * 24)
  ++ js "px; " ++ [0xA]%N ++ js "      font-size: " ++ z_to_js (fontSize level)
  ++ js "px; " ++ [0xA]%N ++ js "      line-height: 1.5;" ++ [0xA]%N ++ js "      font-weight: "
  ++ fontWeight level
  ++ js ";" ++ [0xA]%N ++ js "    " ++ [0x22]%N ++ js ">" ++ [0xA]%N ++ js "      <span style="
  ++ [0x22]%N ++ js "color: #2563eb; margin-right: 8px;" ++ [0x22]%N ++ js ">" ++ bullet
  ++ js "</span>" ++ [0xA]%N ++ js "      <span style=" ++ [0x22]%N ++ js "color: " ++ textColor level
  ++ js ";" ++ [0x22]%N ++ js ">" ++ content ++ js "</span>" ++ [0xA]%N ++ js "    </div>".

(** [renderNode] (lines 21-49); [level] starts at 0.  The bullets of
    line 27 are those of [markmap-simple.ts]. *)
Fixpoint renderNode (fuel : nat) (allBlocks : obj Block) (nodeId : jsstr) (level : nat) : option jsstr :=
  match fuel with
  | O => None
  | S fuel' =>
      match obj_get allBlocks nodeId with
      | None => Some []
      | Some node =>
          kids ← mapM (λ childId, renderNode fuel' allBlocks childId (S level)) (default [] (b_children node));
          Some (node_div level (nth (Nat.min level 4) simple_bullets []) (take 150 (text_or node unnamed))
                ++ concat kids)
      end
  end.

(** [countBlocks] (lines 102-113). *)
Fixpoint countBlocks (fuel : nat) (blockId : jsstr) (allBlocks : obj Block) : option nat :=
  match fuel with
  | O => None
  | S fuel' =>
      match obj_get allBlocks blockId with
      | None => Some 0
      | Some block =>
          ns ← mapM (λ childId, countBlocks fuel' childId allBlocks) (default [] (b_children block));
          Some (S (sum_list ns))
      end
  end.

(** Line 18. *)
Definition not_found_html : jsstr :=
  js "<div style=" ++ [0x22]%N ++ js "padding: 20px; color: red;" ++ [0x22]%N ++ js ">"
  ++ [0x672A; 0x627E; 0x5230; 0x6307; 0x5B9A; 0x5757]%N ++ js "</div>".

(** The page of lines 53-98. *)
Definition outline_page (title tree : jsstr) (blockCount : nat) (time : jsstr) : jsstr :=
  [0xA]%N ++ js "    <div style=" ++ [0x22; 0xA]%N
  ++ js "      font-family: -apple-system, BlinkMacSystemFont, 'Segoe UI', system-ui, sans-serif;"
  ++ [0xA]%N ++ js "      max-width: 800px;" ++ [0xA]%N ++ js "      margin: 0 auto;" ++ [0xA]%N
  ++ js "      padding: 24px;" ++ [0xA]%N ++ js "      background: white;" ++ [0xA]%N
  ++ js "      border-radius: 8px;" ++ [0xA]%N
  ++ js "      box-shadow: 0 4px 6px rgba(0, 0, 0, 0.1);" ++ [0xA]%N ++ js "    " ++ [0x22]%N
  ++ js ">" ++ [0xA]%N ++ js "      <h2 style=" ++ [0x22; 0xA]%N
  ++ js "        margin: 0 0 24px 0;" ++ [0xA]%N ++ js "        color: #1f2937;" ++ [0xA]%N
  ++ js "        font-size: 24px;" ++ [0xA]%N ++ js "        border-bottom: 3px solid #2563eb;"
  ++ [0xA]%N ++ js "        padding-bottom: 12px;" ++ [0xA]%N ++ js "      " ++ [0x22]%N
  ++ js ">" ++ [0xA]%N ++ js "        " ++ [0xD83E; 0xDDE0]%N ++ js " " ++ title
  ++ [0xA]%N ++ js "      </h2>" ++ [0xA]%N ++ js "      " ++ [0xA]%N ++ js "      <div style="
  ++ [0x22; 0xA]%N ++ js "        background: #f8fafc;" ++ [0xA]%N
  ++ js "        border: 1px solid #e2e8f0;" ++ [0xA]%N ++ js "        border-radius: 6px;"
  ++ [0xA]%N ++ js "        padding: 20px;" ++ [0xA]%N ++ js "        margin-bottom: 16px;"
  ++ [0xA]%N ++ js "        max-height: 500px;" ++ [0xA]%N ++ js "        overflow-y: auto;"
  ++ [0xA]%N ++ js "      " ++ [0x22]%N ++ js ">" ++ [0xA]%N ++ js "        " ++ tree
  ++ [0xA]%N ++ js "      </div>" ++ [0xA]%N ++ js "      " ++ [0xA]%N ++ js "      <div style="
  ++ [0x22; 0xA]%N ++ js "        display: flex;" ++ [0xA]%N
  ++ js "        justify-content: space-between;" ++ [0xA]%N ++ js "        align-items: center;"
  ++ [0xA]%N ++ js "        font-size: 14px;" ++ [0xA]%N ++ js "        color: #6b7280;"
  ++ [0xA]%N ++ js "        border-top: 1px solid #e2e8f0;" ++ [0xA]%N
  ++ js "        padding-top: 12px;" ++ [0xA]%N ++ js "      " ++ [0x22]%N ++ js ">" ++ [0xA]%N
  ++ js "        <span>" ++ [0xD83D; 0xDCCA]%N ++ js " " ++ [0x5305; 0x542B]%N ++ js " "
  ++ nat_to_js blockCount
  ++ js " " ++ [0x4E2A; 0x8282; 0x70B9]%N ++ js "</span>" ++ [0xA]%N ++ js "        <span>"
  ++ [0xD83D; 0xDD52]%N ++ js " " ++ time
  ++ js "</span>" ++ [0xA]%N ++ js "      </div>" ++ [0xA]%N ++ js "    </div>" ++ [0xA]%N ++ js "  ".

(** [generateOutlineHTML(blockId)] (lines 13-99): [inl] is the message of
    the exception it throws.  [countBlocks] runs first (line 51), then
    [renderNode] inside the template (line 82). *)
Definition generateOutlineHTML (stack : nat) (time : jsstr) (blocks : option (obj Block)) (blockId : jsstr)
    : jsstr + jsstr :=
  match blocks with
  | None => inl (type_error blockId)
  | Some allBlocks =>
      match obj_get allBlocks blockId with
      | None => inr not_found_html
      | Some block =>
          match countBlocks stack blockId allBlocks with
          | None => inl Plugin.range_error_message
          | Some blockCount =>
              match renderNode stack allBlocks blockId 0 with
              | None => inl Plugin.range_error_message
              | Some tree => inr (outline_page (take 60 (text_or block mind_map)) tree blockCount time)
              end
          end
      end
  end.

(** The document written into the new window (lines 127-146). *)
Definition window_document (outlineHTML : jsstr) : jsstr :=
  [0xA]%N ++ js "      <!DOCTYPE html>" ++ [0xA]%N ++ js "      <html>" ++ [0xA]%N
  ++ js "        <head>" ++ [0xA]%N ++ js "          <meta charset=" ++ [0x22]%N ++ js "utf-8"
  ++ [0x22]%N ++ js ">" ++ [0xA]%N ++ js "          <title>"
  ++ [0x601D; 0x7EF4; 0x5BFC; 0x56FE]%N ++ js " - " ++ [0x864E; 0x9CB8; 0x7B14; 0x8BB0]%N
  ++ js "</title>" ++ [0xA]%N ++ js "          <style>" ++ [0xA]%N ++ js "            body {"
  ++ [0xA]%N ++ js "              margin: 0;" ++ [0xA]%N ++ js "              padding: 20px;"
  ++ [0xA]%N ++ js "              background: #f1f5f9;" ++ [0xA]%N
  ++ js "              font-family: -apple-system, BlinkMacSystemFont, 'Segoe UI', system-ui, sans-serif;"
  ++ [0xA]%N ++ js "            }" ++ [0xA]%N ++ js "          </style>" ++ [0xA]%N
  ++ js "        </head>" ++ [0xA]%N ++ js "        <body>" ++ [0xA]%N ++ js "          "
  ++ outlineHTML
  ++ [0xA]%N ++ js "        </body>" ++ [0xA]%N ++ js "      </html>" ++ [0xA]%N ++ js "    ".

Definition msg_window (n : nat) : jsstr :=
  [0x601D; 0x7EF4; 0x5BFC; 0x56FE; 0x5DF2; 0x5728; 0x65B0; 0x7A97; 0x53E3; 0x6253; 0x5F00]%N ++ js " - "
  ++ nat_to_js n ++ js " " ++ [0x4E2A; 0x8282; 0x70B9]%N.
Definition msg_dialog (n : nat) : jsstr :=
  [0x601D; 0x7EF4; 0x5BFC; 0x56FE; 0x5DF2; 0x751F; 0x6210]%N ++ js " - " ++ nat_to_js n ++ js " "
  ++ [0x4E2A; 0x8282; 0x70B9]%N.
Definition msg_popup_blocked : jsstr :=
  [0x65E0; 0x6CD5; 0x6253; 0x5F00; 0x65B0; 0x7A97; 0x53E3; 0xFF0C; 0x8BF7; 0x68C0; 0x67E5; 0x6D4F;
   0x89C8; 0x5668; 0x5F39; 0x7A97; 0x8BBE; 0x7F6E]%N.
Definition desc_window : jsstr := [0x5728; 0x65B0; 0x7A97; 0x53E3; 0x663E; 0x793A; 0x601D; 0x7EF4; 0x5BFC; 0x56FE]%N.
Definition desc_dialog : jsstr := [0x663E; 0x793A; 0x601D; 0x7EF4; 0x5BFC; 0x56FE]%N.
Definition msg_enabled : jsstr := [0x601D; 0x7EF4; 0x5BFC; 0x56FE; 0x63D2; 0x4EF6; 0x5DF2; 0x542F; 0x7528]%N.
Definition msg_disabled : jsstr := [0x601D; 0x7EF4; 0x5BFC; 0x56FE; 0x63D2; 0x4EF6; 0x5DF2; 0x7981; 0x7528]%N.

(** ** The plugin's state and functions *)

Section Ops.
Context {NS CS TS BS : Type} `{NavLaws NS} `{CommandsLaws CS} `{ToolbarLaws TS} `{BroadcastsLaws BS}.

#[local] Abbreviation host := (Plugin.host (NS:=NS) (CS:=CS) (TS:=TS) (BS:=BS)).

(** The module variable [pluginName] (line 10); the dialogs in
    [document.body] with their numbers; the documents of the windows the
    plugin opened; whether the browser lets [window.open] open one; and
    the messages of the exceptions that reached the host. *)
Record oworld := mkOWorld {
  o_host : host;
  pluginName : option jsstr;
  dialogs : list (nat * jsstr);
  next_dialog : nat;
  windows : list jsstr;
  popups : bool;
  uncaught : list jsstr
}.

Definition M (A : Type) : Type := oworld → A * oworld.

#[export] Instance OM_ret : MRet M := λ A a w, (a, w).
#[export] Instance OM_bind : MBind M := λ A B f m w, let (a, w') := m w in f a w'.

Definition skip : M unit := mret ().
Definition get : M oworld := λ w, (w, w).
Definition modify (f : oworld → oworld) : M unit := λ w, ((), f w).
Definition exec {A} (m : M A) (w : oworld) : oworld := snd (m w).

Definition on_host (f : host → host) : M unit :=
  modify (λ w, mkOWorld (f (o_host w)) (pluginName w) (dialogs w) (next_dialog w) (windows w) (popups w) (uncaught w)).
Definition set_name (n : jsstr) : M unit :=
  modify (λ w, mkOWorld (o_host w) (Some n) (dialogs w) (next_dialog w) (windows w) (popups w) (uncaught w)).
Definition throw (m : jsstr) : M unit :=
  modify (λ w, mkOWorld (o_host w) (pluginName w) (dialogs w) (next_dialog w) (windows w) (popups w) (uncaught w ++ [m])).

Definition notify (t : notify_type) (m : jsstr) : M unit :=
  on_host (λ h, Plugin.mkHost (Plugin.blocks h) (Plugin.apiVersion h) (Plugin.hostShape h) (Plugin.nav h)
    (Plugin.cmds h) (Plugin.bar h) (Plugin.bc h) (Plugin.notes h ++ [(t, m)]) (Plugin.savedData h)
    (Plugin.schemas h) (Plugin.clock h)).

(** [document.body.appendChild(overlay)] with [dialog.innerHTML = html]
    (lines 215-218). *)
Definition append_dialog (html : jsstr) : M unit :=
  modify (λ w, mkOWorld (o_host w) (pluginName w) (dialogs w ++ [(next_dialog w, html)]) (S (next_dialog w))
                        (windows w) (popups w) (uncaught w)).

(** [document.body.removeChild(overlay)] (lines 211-213 and 221-225). *)
Definition remove_dialog (i : nat) : M unit :=
  modify (λ w, mkOWorld (o_host w) (pluginName w) (List.filter (λ d, negb (Nat.eqb d.1 i)) (dialogs w))
                        (next_dialog w) (windows w) (popups w) (uncaught w)).

(** [newWindow.document.write(doc)] (line 127). *)
Definition write_window (doc : jsstr) : M unit :=
  modify (λ w, mkOWorld (o_host w) (pluginName w) (dialogs w) (next_dialog w) (windows w ++ [doc]) (popups w) (uncaught w)).

Context (stack : nat) (time name : jsstr).

Definition name_of (w : oworld) : jsstr := default (js "undefined") (pluginName w).
Definition cmd_window (w : oworld) : jsstr := name_of w ++ js ".showInWindow".
Definition cmd_dialog (w : oworld) : jsstr := name_of w ++ js ".showDialog".
Definition button_id (w : oworld) : jsstr := name_of w ++ js ".button".

(** Lines 150-154 and 227-229: the count is taken again for the
    notification. *)
Definition notify_count (msg : nat → jsstr) (blockId : jsstr) : M unit :=
  w ← get;
  match Plugin.blocks (o_host w) with
  | None => notify NError (msg_failed (type_error blockId))
  | Some allBlocks =>
      match countBlocks stack blockId allBlocks with
      | Some n => notify NSuccess (msg n)
      | None => notify NError (msg_failed Plugin.range_error_message)
      end
  end.

(** [showOutlineInNewWindow(blockId)] (lines 116-161). *)
Definition showOutlineInNewWindow (blockId : jsstr) : M unit :=
  w ← get;
  match generateOutlineHTML stack time (Plugin.blocks (o_host w)) blockId with
  | inl m => notify NError (msg_failed m)
  | inr outlineHTML =>
      if negb (popups w) then notify NError msg_popup_blocked else
      write_window (window_document outlineHTML);;
      notify_count msg_window blockId
  end.

(** [showOutlineDialog(blockId)] (lines 164-236). *)
Definition showOutlineDialog (blockId : jsstr) : M unit :=
  w ← get;
  match generateOutlineHTML stack time (Plugin.blocks (o_host w)) blockId with
  | inl m => notify NError (msg_failed m)
  | inr outlineHTML =>
      append_dialog outlineHTML;;
      notify_count msg_dialog blockId
  end.

(** The two command callbacks (lines 246-255 and 262-271): the first key
    of [orca.state.blocks], or a warning.  They are not [async]: a
    [TypeError] of [Object.keys(undefined)] reaches the host. *)
Definition on_first_block (show : jsstr → M unit) : M unit :=
  w ← get;
  match Plugin.blocks (o_host w) with
  | None => throw (js "Cannot convert undefined or null to object")
  | Some blocks =>
      match object_keys blocks with
      | firstBlockId :: _ => if truthy firstBlockId then show firstBlockId else notify NWarn MarkmapSimple.msg_no_blocks
      | [] => notify NWarn MarkmapSimple.msg_no_blocks
      end
  end.

(** [load(name)] (lines 239-290). *)
Definition load : M unit :=
  set_name name;;
  w ← get;
  on_host (SimplePlugin.with_cmds (registerCommand (cmd_window w) HShowInWindow desc_window));;
  on_host (SimplePlugin.with_cmds (registerCommand (cmd_dialog w) HShowDialog desc_dialog));;
  on_host (SimplePlugin.with_bar (registerToolbarButton (button_id w) (cmd_dialog w)));;
  on_host (SimplePlugin.with_cmds (registerShortcut Plugin.shortcut_key (cmd_dialog w)));;
  notify NSuccess msg_enabled.

(** [unload()] (lines 293-304). *)
Definition unload : M unit :=
  w ← get;
  on_host (SimplePlugin.with_cmds (unregisterCommand (cmd_window w)));;
  on_host (SimplePlugin.with_cmds (unregisterCommand (cmd_dialog w)));;
  on_host (SimplePlugin.with_bar (unregisterToolbarButton (button_id w)));;
  on_host (SimplePlugin.with_cmds (unregisterShortcut Plugin.shortcut_key));;
  notify NInfo msg_disabled.

Definition invoke (id : jsstr) : M unit :=
  w ← get;
  match lookupCommand id (Plugin.cmds (o_host w)) with
  | Some HShowInWindow => on_first_block showOutlineInNewWindow
  | Some HShowDialog => on_first_block showOutlineDialog
  | _ => skip   (** not a function of [basic-outline.ts] *)
  end.

End Ops.

(** The inputs of the host and the page. *)
Inductive oinput :=
  | OLoad | OUnload
  | OCommand (id : jsstr) | OShortcut (key : jsstr) | OButton (id : jsstr)
  | OCloseDialog (i : nat).   (** a click on dialog [i]'s close button or on its overlay *)

Section Run.
Context {NS CS TS BS : Type} `{NavLaws NS} `{CommandsLaws CS} `{ToolbarLaws TS} `{BroadcastsLaws BS}.
Context (stack : nat) (time name : jsstr).

Definition step (i : oinput) : M (NS:=NS) (CS:=CS) (TS:=TS) (BS:=BS) unit :=
  match i with
  | OLoad => load name
  | OUnload => unload
  | OCommand id => invoke stack time id
  | OShortcut k =>
      w ← get; match lookupShortcut k (Plugin.cmds (o_host w)) with Some id => invoke stack time id | None => skip end
  | OButton b =>
      w ← get; match lookupButton b (Plugin.bar (o_host w)) with Some id => invoke stack time id | None => skip end
  | OCloseDialog i => remove_dialog i
  end.

Fixpoint run (ins : list oinput) : M unit :=
  match ins with [] => skip | i :: ins' => step i;; run ins' end.

End Run.

(** ** A host to run the examples on *)

Abbreviation mem_oworld := (oworld (NS:=MemNav) (CS:=MemCommands) (TS:=MemToolbar) (BS:=MemBroadcasts)).

Definition init_oworld (b : option (obj Block)) (allow_popups : bool) : mem_oworld :=
  mkOWorld (Plugin.mkHost b None true (mkMemNav []) (mkMemCommands [] []) (mkMemToolbar []) (mkMemBroadcasts []) [] [] [] 0)
           None [] 0 [] allow_popups [].

Definition demo_run (b : option (obj Block)) (allow_popups : bool) (ins : list oinput) : mem_oworld :=
  exec (run 100 (js "10:00:00") (js "outline") ins) (init_oworld b allow_popups).

(** ** Properties *)

(** [countBlocks] is [countTotalBlocks] of [markmap-simple.ts]. *)
Lemma countBlocks_eq fuel : ∀ k o, countBlocks fuel k o = countTotalBlocks fuel k o.
Proof.
  induction fuel as [|fuel IH]; intros k o; [done|]. cbn [countBlocks countTotalBlocks].
  destruct (obj_get o k); [|done]. by rewrite (mapM_ext _ (λ c, countTotalBlocks fuel c o) _ (λ c, IH c o)).
Qed.

(** On a cycle the count overflows the stack before the outline is
    rendered. *)
Lemma generateOutlineHTML_cycle o k stack time :
  tc (SimplePlugin.sstep o) k k → generateOutlineHTML stack time (Some o) k = inl Plugin.range_error_message.
Proof.
  intros Hk. destruct (tc_first _ _ _ Hk) as (y & (block & Hg & _) & _).
  unfold generateOutlineHTML. by rewrite Hg, countBlocks_eq, (proj2 (renderTree_count_tc_None o k Hk stack)).
Qed.

Section Proofs.
Context {NS CS TS BS : Type} `{NavLaws NS} `{CommandsLaws CS} `{ToolbarLaws TS} `{BroadcastsLaws BS}.
#[local] Abbreviation W := (oworld (NS:=NS) (CS:=CS) (TS:=TS) (BS:=BS)).
Context (stack : nat) (time : jsstr).

(** [C26] Error path reported as success: for an id with no block,
    [generateOutlineHTML] returns its red "not found" text instead of
    throwing, so [showOutlineDialog] shows that text in a new dialog and
    notifies success with a count of 0 nodes. *)
Theorem showOutlineDialog_missing_block_success (w : W) o k :
  0 < stack → Plugin.blocks (o_host w) = Some o → obj_get o k = None →
  let w' := exec (showOutlineDialog stack time k) w in
  dialogs w' = dialogs w ++ [(next_dialog w, not_found_html)] ∧
  Plugin.notes (o_host w') = Plugin.notes (o_host w) ++ [(NSuccess, msg_dialog 0)].
Proof.
  intros Hs Hb Hg. destruct stack as [|s]; [lia|].
  unfold showOutlineDialog, notify_count, generateOutlineHTML, exec, mbind, OM_bind, get, append_dialog, modify.
  cbn [fst snd o_host dialogs next_dialog]. rewrite Hb, Hg. cbn [countBlocks]. rewrite Hb, Hg. done.
Qed.

End Proofs.

Lemma showOutlineDialog_missing_block_success_witness :
  0 < 100 ∧ Plugin.blocks (o_host (init_oworld (Some test_blocks) true)) = Some test_blocks ∧
  obj_get test_blocks (js "9") = None ∧
  let w' := exec (showOutlineDialog 100 (js "10:00:00") (js "9")) (init_oworld (Some test_blocks) true) in
  dialogs w' = [] ++ [(0, not_found_html)] ∧ Plugin.notes (o_host w') = [] ++ [(NSuccess, msg_dialog 0)].
Proof.
  split_and!; [lia|reflexivity|vm_compute; reflexivity|].
  apply (showOutlineDialog_missing_block_success 100 _ (init_oworld (Some test_blocks) true) test_blocks);
    [lia|reflexivity|vm_compute; reflexivity].
Defined.

End BasicOutline.
