(* ===== verification/PageMindMap.v ===== *)
(** * The page-mode variant of [src/src/page-mindmap.ts]

    [page-mindmap.ts] replaces the whole main content area of the page
    ([.orca-main-content, .main-content, main]) by an outline of every
    root block of [orca.state.blocks] and puts it back on the next toggle.
    Its roots are those of [findRootBlocks] of [main-simple.ts] (the same
    test [!block.parent || !allBlocks[block.parent]]); its [renderNode]
    has its own styles.  [originalContent] is a clone of the main content
    element, whose [innerHTML] is read when the page is restored: it is
    modelled by that HTML, taken when the clone is made.

    The main content is an [econtent] of [PageWorld]: the host's live
    elements or elements parsed from HTML the plugin assigned; its
    [innerHTML] serializer is a section parameter, as in [OrcaMindMap].
    The clock text of [new Date().toLocaleString()] is a parameter. *)

From S2P Require Import Prelude JsObject Blocks Renderer Host Plugin SimplePlugin PageDom PageWorld OrcaMindMap MarkmapSimple.
Import JsObject Blocks Renderer Host PageDom PageWorld.
From Stdlib Require Import ZArith.

Module PageMindMap.

(** ** The page HTML *)

(** [getPageRootBlocks()] (lines 15-24). *)
Definition getPageRootBlocks (blocks : option (obj Block)) : list jsstr :=
  match blocks with None => [] | Some allBlocks => SimplePlugin.findRootBlocks allBlocks end.

(** Line 55. *)
Definition page_bullets : list jsstr :=
  [[0xD83D; 0xDD35]; [0x26AA]; [0xD83D; 0xDD38]; [0xD83D; 0xDD39]; [0x25AB; 0xFE0F]]%N.

Record node_style := mkStyle { ns_color : jsstr; ns_fontWeight : jsstr; ns_fontSize : jsstr }.

(** [getNodeStyle(level)] (lines 60-86). *)
Definition getNodeStyle (level : nat) : node_style :=
  match level with
  | 0 => mkStyle (js "var(--orca-color-primary, #2563eb)") (js "700") (js "24px")
  | 1 => mkStyle (js "var(--orca-color-text-1, #1f2937)") (js "600") (js "20px")
  | 2 => mkStyle (js "var(--orca-color-text-1, #374151)") (js "500") (js "18px")
  | _ => mkStyle (js "var(--orca-color-text-2, #6b7280)") (js "400") (js "16px")
  end.

Definition untitled : jsstr := [0x65E0; 0x6807; 0x9898]%N.   (** '无标题' *)

(** The [div] of one node (lines 90-115). *)
Definition node_div (level : nat) (bullet content : jsstr) : jsstr :=
  let indent := level * 32 in
  let st := getNodeStyle level in
  [0xA]%N ++ js "      <div style=" ++ [0x22; 0xA]%N ++ js "        margin: "
  ++ (if Nat.eqb level 0 then js "20px" else js "12px")
  ++ js " 0;" ++ [0xA]%N ++ js "        padding-left: " ++ nat_to_js indent
  ++ js "px;" ++ [0xA]%N ++ js "        line-height: 1.6;" ++ [0xA]%N ++ js "        "
  ++ (if Nat.eqb level 0
      then js "border-left: 4px solid var(--orca-color-primary, #2563eb); padding-left: "
           ++ nat_to_js (indent + 16) ++ js "px;"
      else [])
  ++ [0xA]%N ++ js "      " ++ [0x22]%N ++ js ">" ++ [0xA]%N ++ js "        <div style="
  ++ [0x22; 0xA]%N ++ js "          display: flex;" ++ [0xA]%N
  ++ js "          align-items: flex-start;" ++ [0xA]%N ++ js "          gap: 12px;" ++ [0xA]%N
  ++ js "        " ++ [0x22]%N ++ js ">" ++ [0xA]%N ++ js "          <span style="
  ++ [0x22; 0xA]%N ++ js "            font-size: " ++ z_to_js (Z.max 14 (20 - Z.of_nat level * 2))
  ++ js "px;" ++ [0xA]%N ++ js "            margin-top: 2px;" ++ [0xA]%N
  ++ js "            flex-shrink: 0;" ++ [0xA]%N ++ js "          " ++ [0x22]%N ++ js ">" ++ bullet
  ++ js "</span>" ++ [0xA]%N ++ js "          <span style=" ++ [0x22; 0xA]%N
  ++ js "            color: " ++ ns_color st
  ++ js ";" ++ [0xA]%N ++ js "            font-weight: " ++ ns_fontWeight st
  ++ js ";" ++ [0xA]%N ++ js "            font-size: " ++ ns_fontSize st
  ++ js ";" ++ [0xA]%N ++ js "            line-height: 1.5;" ++ [0xA]%N ++ js "          "
  ++ [0x22]%N ++ js ">" ++ content
  ++ js "</span>" ++ [0xA]%N ++ js "        </div>" ++ [0xA]%N ++ js "      </div>" ++ [0xA]%N
  ++ js "    ".

(** [renderNode] of [generatePageMindMapHTML] (lines 49-124). *)
Fixpoint renderNode (fuel : nat) (allBlocks : obj Block) (nodeId : jsstr) (level : nat) : option jsstr :=
  match fuel with
  | O => None
  | S fuel' =>
      match obj_get allBlocks nodeId with
      | None => Some []
      | Some node =>
          kids ← mapM (λ childId, renderNode fuel' allBlocks childId (S level)) (default [] (b_children node));
          Some (node_div level (nth (Nat.min level 4) page_bullets []) (take 200 (MarkmapSimple.text_or node untitled))
                ++ concat kids)
      end
  end.

(** Lines 32-46. *)
Definition empty_page_html : jsstr :=
  [0xA]%N ++ js "      <div style=" ++ [0x22; 0xA]%N ++ js "        display: flex;" ++ [0xA]%N
  ++ js "        align-items: center;" ++ [0xA]%N ++ js "        justify-content: center;"
  ++ [0xA]%N ++ js "        height: 100vh;" ++ [0xA]%N
  ++ js "        font-family: var(--orca-font-family, sans-serif);" ++ [0xA]%N
  ++ js "        color: var(--orca-color-text-2, #666);" ++ [0xA]%N ++ js "      " ++ [0x22]%N
  ++ js ">" ++ [0xA]%N ++ js "        <div style=" ++ [0x22]%N ++ js "text-align: center;"
  ++ [0x22]%N ++ js ">" ++ [0xA]%N ++ js "          <div style=" ++ [0x22]%N
  ++ js "font-size: 48px; margin-bottom: 16px;" ++ [0x22]%N ++ js ">" ++ [0xD83D; 0xDCDD]%N
  ++ js "</div>" ++ [0xA]%N ++ js "          <div style=" ++ [0x22]%N ++ js "font-size: 18px;"
  ++ [0x22]%N ++ js ">" ++ [0x9875; 0x9762; 0x5185; 0x5BB9; 0x4E3A; 0x7A7A]%N ++ js "</div>"
  ++ [0xA]%N ++ js "        </div>" ++ [0xA]%N ++ js "      </div>" ++ [0xA]%N ++ js "    ".

(** Lines 134-194. *)
Definition page_html (totalBlocks roots : nat) (time mindMapHTML : jsstr) : jsstr :=
  [0xA]%N ++ js "    <div style=" ++ [0x22; 0xA]%N
  ++ js "      font-family: var(--orca-font-family, -apple-system, BlinkMacSystemFont, 'Segoe UI', sans-serif);"
  ++ [0xA]%N ++ js "      background: var(--orca-color-bg-1, #ffffff);" ++ [0xA]%N
  ++ js "      color: var(--orca-color-text-1, #1f2937);" ++ [0xA]%N
  ++ js "      min-height: 100vh;" ++ [0xA]%N ++ js "      padding: 40px;" ++ [0xA]%N
  ++ js "      transition: all 0.3s ease;" ++ [0xA]%N ++ js "    " ++ [0x22]%N ++ js ">"
  ++ [0xA]%N ++ js "      <div style=" ++ [0x22; 0xA]%N ++ js "        max-width: 1200px;"
  ++ [0xA]%N ++ js "        margin: 0 auto;" ++ [0xA]%N ++ js "      " ++ [0x22]%N ++ js ">"
  ++ [0xA]%N ++ js "        <div style=" ++ [0x22; 0xA]%N ++ js "          text-align: center;"
  ++ [0xA]%N ++ js "          margin-bottom: 40px;" ++ [0xA]%N
  ++ js "          padding-bottom: 20px;" ++ [0xA]%N
  ++ js "          border-bottom: 2px solid var(--orca-color-border, #e5e7eb);" ++ [0xA]%N
  ++ js "        " ++ [0x22]%N ++ js ">" ++ [0xA]%N ++ js "          <h1 style=" ++ [0x22; 0xA]%N
  ++ js "            margin: 0 0 12px 0;" ++ [0xA]%N ++ js "            font-size: 32px;"
  ++ [0xA]%N ++ js "            font-weight: 700;" ++ [0xA]%N
  ++ js "            color: var(--orca-color-primary, #2563eb);" ++ [0xA]%N ++ js "          "
  ++ [0x22]%N ++ js ">" ++ [0xD83E; 0xDDE0]%N ++ js " "
  ++ [0x9875; 0x9762; 0x601D; 0x7EF4; 0x5BFC; 0x56FE]%N ++ js "</h1>" ++ [0xA]%N
  ++ js "          <div style=" ++ [0x22; 0xA]%N ++ js "            display: flex;" ++ [0xA]%N
  ++ js "            justify-content: center;" ++ [0xA]%N ++ js "            gap: 24px;"
  ++ [0xA]%N ++ js "            font-size: 14px;" ++ [0xA]%N
  ++ js "            color: var(--orca-color-text-2, #6b7280);" ++ [0xA]%N ++ js "          "
  ++ [0x22]%N ++ js ">" ++ [0xA]%N ++ js "            <span>" ++ [0xD83D; 0xDCCA]%N ++ js " "
  ++ nat_to_js totalBlocks
  ++ js " " ++ [0x4E2A; 0x8282; 0x70B9]%N ++ js "</span>" ++ [0xA]%N ++ js "            <span>"
  ++ [0xD83C; 0xDF33]%N ++ js " " ++ nat_to_js roots
  ++ js " " ++ [0x4E2A; 0x6839; 0x8282; 0x70B9]%N ++ js "</span>" ++ [0xA]%N
  ++ js "            <span>" ++ [0xD83D; 0xDD52]%N ++ js " " ++ time
  ++ js "</span>" ++ [0xA]%N ++ js "          </div>" ++ [0xA]%N ++ js "        </div>"
  ++ [0xA]%N ++ js "        " ++ [0xA]%N ++ js "        <div style=" ++ [0x22; 0xA]%N
  ++ js "          background: var(--orca-color-bg-2, #f9fafb);" ++ [0xA]%N
  ++ js "          border: 1px solid var(--orca-color-border, #e5e7eb);" ++ [0xA]%N
  ++ js "          border-radius: 12px;" ++ [0xA]%N ++ js "          padding: 32px;" ++ [0xA]%N
  ++ js "          box-shadow: 0 4px 6px -1px rgba(0, 0, 0, 0.1);" ++ [0xA]%N ++ js "        "
  ++ [0x22]%N ++ js ">" ++ [0xA]%N ++ js "          " ++ mindMapHTML
  ++ [0xA]%N ++ js "        </div>" ++ [0xA]%N ++ js "        " ++ [0xA]%N
  ++ js "        <div style=" ++ [0x22; 0xA]%N ++ js "          text-align: center;" ++ [0xA]%N
  ++ js "          margin-top: 32px;" ++ [0xA]%N ++ js "          padding-top: 20px;" ++ [0xA]%N
  ++ js "          border-top: 1px solid var(--orca-color-border, #e5e7eb);" ++ [0xA]%N
  ++ js "          color: var(--orca-color-text-3, #9ca3af);" ++ [0xA]%N
  ++ js "          font-size: 12px;" ++ [0xA]%N ++ js "        " ++ [0x22]%N ++ js ">" ++ [0xA]%N
  ++ js "          " ++ [0xD83D; 0xDCA1]%N ++ js " "
  ++ [0x63D0; 0x793A; 0xFF1A; 0x70B9; 0x51FB; 0x53F3; 0x4E0A; 0x89D2; 0x6309; 0x94AE; 0x8FD4; 0x56DE;
      0x6B63; 0x5E38; 0x89C6; 0x56FE; 0xA]%N
  ++ js "        </div>" ++ [0xA]%N ++ js "      </div>" ++ [0xA]%N ++ js "    </div>" ++ [0xA]%N
  ++ js "  ".

(** [generatePageMindMapHTML()] (lines 27-195): [inl] is the message of
    the exception it throws. *)
Definition generatePageMindMapHTML (stack : nat) (time : jsstr) (blocks : option (obj Block)) : jsstr + jsstr :=
  let rootBlocks := getPageRootBlocks blocks in
  match blocks, rootBlocks with
  | Some allBlocks, _ :: _ =>
      match mapM (λ rootId, renderNode stack allBlocks rootId 0) rootBlocks with
      | None => inl Plugin.range_error_message
      | Some hs => inr (page_html (length (object_keys allBlocks)) (length rootBlocks) time (concat hs))
      end
  | _, _ => inr empty_page_html
  end.

Definition msg_no_main : jsstr := [0x627E; 0x4E0D; 0x5230; 0x4E3B; 0x5185; 0x5BB9; 0x533A; 0x57DF]%N.
Definition msg_back : jsstr := [0x5DF2; 0x5207; 0x6362; 0x56DE; 0x6B63; 0x5E38; 0x89C6; 0x56FE]%N.
Definition msg_enabled : jsstr :=
  [0x9875; 0x9762; 0x601D; 0x7EF4; 0x5BFC; 0x56FE; 0x63D2; 0x4EF6; 0x5DF2; 0x542F; 0x7528]%N ++ js " - "
  ++ [0x70B9; 0x51FB; 0x53F3; 0x4E0A; 0x89D2; 0xD83E; 0xDDE0; 0x6309; 0x94AE]%N.
Definition msg_disabled : jsstr :=
  [0x9875; 0x9762; 0x601D; 0x7EF4; 0x5BFC; 0x56FE; 0x63D2; 0x4EF6; 0x5DF2; 0x7981; 0x7528]%N.

(** ** The plugin's state and functions *)

Section Ops.
Context {NS CS TS BS : Type} `{NavLaws NS} `{CommandsLaws CS} `{ToolbarLaws TS} `{BroadcastsLaws BS}.

#[local] Abbreviation host := (Plugin.host (NS:=NS) (CS:=CS) (TS:=TS) (BS:=BS)).

(** The module variables (lines 10-12) and the main content element of
    the page ([None]: no element matches the selector). *)
Record qworld := mkQWorld {
  q_host : host;
  pluginName : option jsstr;
  isInMindMapMode : bool;
  originalContent : option jsstr;
  main : option econtent
}.

Definition M (A : Type) : Type := qworld → A * qworld.

#[export] Instance QM_ret : MRet M := λ A a w, (a, w).
#[export] Instance QM_bind : MBind M := λ A B f m w, let (a, w') := m w in f a w'.

Definition skip : M unit := mret ().
Definition get : M qworld := λ w, (w, w).
Definition modify (f : qworld → qworld) : M unit := λ w, ((), f w).
Definition exec {A} (m : M A) (w : qworld) : qworld := snd (m w).

Definition on_host (f : host → host) : M unit :=
  modify (λ w, mkQWorld (f (q_host w)) (pluginName w) (isInMindMapMode w) (originalContent w) (main w)).
Definition set_name (n : jsstr) : M unit :=
  modify (λ w, mkQWorld (q_host w) (Some n) (isInMindMapMode w) (originalContent w) (main w)).
Definition set_mode (b : bool) : M unit :=
  modify (λ w, mkQWorld (q_host w) (pluginName w) b (originalContent w) (main w)).
Definition set_original (o : option jsstr) : M unit :=
  modify (λ w, mkQWorld (q_host w) (pluginName w) (isInMindMapMode w) o (main w)).
Definition set_main (c : option econtent) : M unit :=
  modify (λ w, mkQWorld (q_host w) (pluginName w) (isInMindMapMode w) (originalContent w) c).

Definition notify (t : notify_type) (m : jsstr) : M unit :=
  on_host (λ h, Plugin.mkHost (Plugin.blocks h) (Plugin.apiVersion h) (Plugin.hostShape h) (Plugin.nav h)
    (Plugin.cmds h) (Plugin.bar h) (Plugin.bc h) (Plugin.notes h ++ [(t, m)]) (Plugin.savedData h)
    (Plugin.schemas h) (Plugin.clock h)).

Context (serialize : list dom_block → jsstr) (stack : nat) (time name : jsstr).

(** [mainContent.innerHTML] *)
Definition main_html (c : econtent) : jsstr :=
  match c with Live bs => serialize bs | Copy h => h end.

(** [switchToMindMapMode()] (lines 198-230).  [updateToggleButton()] only
    restyles the host's button. *)
Definition switchToMindMapMode : M unit :=
  w ← get;
  if isInMindMapMode w then skip else
  match main w with
  | None => notify NError msg_no_main
  | Some c =>
      set_original (Some (main_html c));;
      match generatePageMindMapHTML stack time (Plugin.blocks (q_host w)) with
      | inl m => notify NError (OrcaMindMap.msg_failed m)
      | inr mindMapHTML =>
          set_main (Some (Copy mindMapHTML));;
          set_mode true;;
          notify NSuccess (OrcaMindMap.msg_switched (length (object_keys (default [] (Plugin.blocks (q_host w))))))
      end
  end.

(** [switchToNormalMode()] (lines 233-259). *)
Definition switchToNormalMode : M unit :=
  w ← get;
  match isInMindMapMode w, originalContent w with
  | true, Some orig =>
      match main w with
      | None => notify NError msg_no_main
      | Some _ =>
          set_main (Some (Copy orig));;
          set_mode false;;
          set_original None;;
          notify NSuccess msg_back
      end
  | _, _ => skip
  end.

(** [toggleMindMapMode()] (lines 262-268). *)
Definition toggleMindMapMode : M unit :=
  w ← get; if isInMindMapMode w then switchToNormalMode else switchToMindMapMode.

Definition name_of (w : qworld) : jsstr := default (js "undefined") (pluginName w).
Definition cmd_toggle (w : qworld) : jsstr := name_of w ++ js ".toggle".

(** [load(name)] (lines 287-314); the button has the command's id. *)
Definition load : M unit :=
  set_name name;;
  w ← get;
  on_host (SimplePlugin.with_cmds (registerCommand (cmd_toggle w) HToggleMindMapMode OrcaMindMap.cmd_description));;
  on_host (SimplePlugin.with_bar (registerToolbarButton (cmd_toggle w) (cmd_toggle w)));;
  on_host (SimplePlugin.with_cmds (registerShortcut Plugin.shortcut_key (cmd_toggle w)));;
  notify NSuccess msg_enabled.

(** [unload()] (lines 317-336). *)
Definition unload : M unit :=
  w ← get;
  (if isInMindMapMode w then switchToNormalMode else skip);;
  on_host (SimplePlugin.with_cmds (unregisterCommand (cmd_toggle w)));;
  on_host (SimplePlugin.with_bar (unregisterToolbarButton (cmd_toggle w)));;
  on_host (SimplePlugin.with_cmds (unregisterShortcut Plugin.shortcut_key));;
  set_mode false;;
  set_original None;;
  notify NInfo msg_disabled.

Definition invoke (id : jsstr) : M unit :=
  w ← get;
  match lookupCommand id (Plugin.cmds (q_host w)) with
  | Some HToggleMindMapMode => toggleMindMapMode
  | _ => skip   (** not a function of [page-mindmap.ts] *)
  end.

End Ops.

(** The inputs of the host: commands, and the host rendering another
    view into the main area. *)
Inductive qinput :=
  | QLoad | QUnload
  | QCommand (id : jsstr) | QShortcut (key : jsstr) | QButton (id : jsstr)
  | QNavigate (c : option econtent).

Section Run.
Context {NS CS TS BS : Type} `{NavLaws NS} `{CommandsLaws CS} `{ToolbarLaws TS} `{BroadcastsLaws BS}.
Context (serialize : list dom_block → jsstr) (stack : nat) (time name : jsstr).

Definition step (i : qinput) : M (NS:=NS) (CS:=CS) (TS:=TS) (BS:=BS) unit :=
  match i with
  | QLoad => load name
  | QUnload => unload
  | QCommand id => invoke serialize stack time id
  | QShortcut k =>
      w ← get; match lookupShortcut k (Plugin.cmds (q_host w)) with Some id => invoke serialize stack time id | None => skip end
  | QButton b =>
      w ← get; match lookupButton b (Plugin.bar (q_host w)) with Some id => invoke serialize stack time id | None => skip end
  | QNavigate c => set_main c
  end.

Fixpoint run (ins : list qinput) : M unit :=
  match ins with [] => skip | i :: ins' => step i;; run ins' end.

End Run.

(** ** The way back to the page *)

Section Proofs.
Context {NS CS TS BS : Type} `{NavLaws NS} `{CommandsLaws CS} `{ToolbarLaws TS} `{BroadcastsLaws BS}.
#[local] Abbreviation W := (qworld (NS:=NS) (CS:=CS) (TS:=TS) (BS:=BS)).
Context (serialize : list dom_block → jsstr) (stack : nat) (time name : jsstr).

(** In mind-map mode a copy of the page is saved. *)
Definition mode_ok (w : W) : Prop := isInMindMapMode w = true → is_Some (originalContent w).

Lemma qexec_bind {A B} (m : M A) (f : A → M B) (w : W) : exec (m ≫= f) w = exec (f (fst (m w))) (exec m w).
Proof. unfold exec, mbind, QM_bind. by destruct (m w). Qed.

Ltac unfold_ops :=
  unfold notify, on_host, set_original, set_main, set_mode, set_name, exec, mbind, QM_bind, get,
    modify, skip, mret, QM_ret.

Ltac solve_mode_ok :=
  repeat case_match; unfold mode_ok in *; cbn [fst snd isInMindMapMode originalContent] in *;
  first [by eauto | intros; by eexists].

Lemma switchToMindMapMode_ok (w : W) : mode_ok w → mode_ok (exec (switchToMindMapMode serialize stack time) w).
Proof.
  unfold switchToMindMapMode. unfold_ops. intros Hw. solve_mode_ok.
Qed.

Lemma switchToNormalMode_ok (w : W) : mode_ok w → mode_ok (exec switchToNormalMode w).
Proof.
  unfold switchToNormalMode. unfold_ops. intros Hw. solve_mode_ok.
Qed.

Lemma toggleMindMapMode_ok (w : W) : mode_ok w → mode_ok (exec (toggleMindMapMode serialize stack time) w).
Proof.
  unfold toggleMindMapMode. rewrite qexec_bind. cbn [fst get]. change (exec get w) with w.
  destruct (isInMindMapMode w); auto using switchToMindMapMode_ok, switchToNormalMode_ok.
Qed.

Lemma unload_ok (w : W) : mode_ok (exec unload w).
Proof. unfold unload. rewrite !qexec_bind. unfold mode_ok. cbn. by intros. Qed.

Lemma invoke_ok id (w : W) : mode_ok w → mode_ok (exec (invoke serialize stack time id) w).
Proof.
  intros Hw. unfold invoke. rewrite qexec_bind. cbn [fst get]. change (exec get w) with w.
  repeat case_match; by auto using toggleMindMapMode_ok.
Qed.

Lemma step_ok i (w : W) : mode_ok w → mode_ok (exec (step serialize stack time name i) w).
Proof.
  intros Hw. destruct i as [| |id|k|b|c]; cbn [step].
  - unfold load. rewrite !qexec_bind. by cbn.
  - apply unload_ok.
  - by apply invoke_ok.
  - rewrite qexec_bind. cbn [fst get]. change (exec get w) with w. case_match; by auto using invoke_ok.
  - rewrite qexec_bind. cbn [fst get]. change (exec get w) with w. case_match; by auto using invoke_ok.
  - exact Hw.
Qed.

Lemma run_ok ins (w : W) : mode_ok w → mode_ok (exec (run serialize stack time name ins) w).
Proof.
  revert w. induction ins as [|i ins IH]; intros w Hw; [done|].
  cbn [run]. rewrite qexec_bind. by apply IH, step_ok.
Qed.

(** Whatever came before, in mind-map mode with a main area on the page a
    toggle returns to the normal view and puts back the saved HTML. *)
Lemma toggle_returns_to_page ins (w : W) c :
  mode_ok w →
  let w' := exec (run serialize stack time name ins) w in
  isInMindMapMode w' = true → main w' = Some c →
  ∃ orig, originalContent w' = Some orig ∧
    isInMindMapMode (exec (toggleMindMapMode serialize stack time) w') = false ∧
    main (exec (toggleMindMapMode serialize stack time) w') = Some (Copy orig).
Proof.
  intros Hw w' Hm Hc. destruct (run_ok ins w Hw Hm) as [orig Ho].
  change (originalContent w' = Some orig) in Ho. exists orig. split; [done|].
  unfold toggleMindMapMode, switchToNormalMode. rewrite !qexec_bind. cbn [fst get].
  change (exec get w') with w'. rewrite Hm. rewrite !qexec_bind. cbn [fst get]. change (exec get w') with w'.
  rewrite Hm, Ho, Hc. by cbn.
Qed.

End Proofs.

End PageMindMap.
