(* ===== verification/MarkmapPlugin.v ===== *)
(** * The markmap panel plugin of [src/src/markmap-plugin.ts]

    [markmap-plugin.ts] turns one block's subtree into markdown
    ([blockToMarkdown], lines 47-64) and shows it in a panel through the
    markmap library ([createMindMap], 67-176), loaded on first use from
    [window.markmap] or from a CDN script ([loadMarkmap], 24-44).  A
    click on the icon that its style sheet draws before a block
    ([injectStyles], [onClick]) or its command starts it.

    The library is not part of the program: [MarkmapLib] states the
    operations the plugin calls on it, each of which may throw, and the
    theorems hold for every instance.  The script's [load] and [error]
    events are inputs of the page; an exception thrown by the [onload]
    handler reaches the page and leaves the promise of [loadMarkmap]
    pending.  Pixel coordinates of a click are rationals. *)

From S2P Require Import Prelude JsObject Blocks TreeBuilder Renderer Host Plugin SimplePlugin MarkmapSimple.
Import JsObject Blocks TreeBuilder Renderer Host.
From Stdlib Require Import ZArith QArith.

Module MarkmapPlugin.

(** The calls the plugin makes on the library object [L] found in
    [window.markmap]; [R] is the [root] that [transform] returns, [None]
    an exception. *)
Class MarkmapLib (L R : Type) := {
  transformer_new : L → bool;                    (** [new markmap.Transformer()] returns *)
  transform_static : L → jsstr → option R;       (** [markmap.Transformer.transform(md)] *)
  transform_instance : L → jsstr → option R;     (** [(new markmap.Transformer()).transform(md)] *)
  render : L → R → bool;                         (** [Markmap.create], [setData(root)], [fit()] return *)
  creates_svg : L → bool                         (** [Markmap.create(container)] leaves an [svg] in it *)
}.

(** The value of the module variable [transformer]: the class itself
    (line 27) or an instance of it (line 39). *)
Inductive transformer (L : Type) := TClass (l : L) | TInstance (l : L).
Arguments TClass {L} l.
Arguments TInstance {L} l.

Definition transform `{MarkmapLib L R} (t : transformer L) (md : jsstr) : option R :=
  match t with TClass l => transform_static l md | TInstance l => transform_instance l md end.

(** [blockToMarkdown] (lines 47-64): the text goes in as it is. *)
Fixpoint blockToMarkdown (fuel : nat) (blockId : jsstr) (allBlocks : obj Block) (level : nat) : option jsstr :=
  match fuel with
  | O => None
  | S fuel' =>
      match obj_get allBlocks blockId with
      | None => Some []
      | Some block =>
          let indent := concat (replicate (Nat.min level 6) (js "#")) ++ js " " in
          children ← mapM (λ childId,
                      if bool_decide (is_Some (obj_get allBlocks childId))
                      then blockToMarkdown fuel' childId allBlocks (S level) else Some [])
                    (default [] (b_children block));
          Some (indent ++ MarkmapSimple.text_or block MarkmapSimple.unnamed_block ++ [10; 10]%N ++ concat children)
      end
  end.

(** A click on the page (lines 244-265): whether its target is a
    [.orca-repr-main-content], the click and target positions, the
    target's [padding-left] read by [parseFloat] ([None]: [NaN]) and the
    [data-id] of its [.orca-block]. *)
Record click := mkClick {
  on_main_content : bool;
  clientX : Q; clientY : Q; rect_left : Q; rect_top : Q;
  paddingLeft : option Q;
  block_id : option jsstr
}.

(** [iconSize] (line 253): [paddingLeft || 0], where [NaN] and [0] are
    falsy. *)
Definition iconSize (c : click) : Q := 20 + default 0 (paddingLeft c).

(** [a < b] on numbers. *)
Definition Qlt_bool (a b : Q) : bool := negb (Qle_bool b a).

(** The test of line 256, negated: the click is on the icon. *)
Definition on_icon (c : click) : bool :=
  let x := clientX c - rect_left c in
  let y := clientY c - rect_top c in
  negb (Qlt_bool x 0 || Qlt_bool (iconSize c) x || Qlt_bool y 0 || Qlt_bool (iconSize c) y).

Definition msg_not_found : jsstr := [0x672A; 0x627E; 0x5230; 0x6307; 0x5B9A; 0x5757]%N.
Definition msg_loading : jsstr := [0x6B63; 0x5728; 0x52A0; 0x8F7D; 0x601D; 0x7EF4; 0x5BFC; 0x56FE; 0x7EC4; 0x4EF6]%N ++ js "...".
Definition msg_created : jsstr := [0x601D; 0x7EF4; 0x5BFC; 0x56FE; 0x5DF2; 0x751F; 0x6210]%N.
Definition msg_failed : jsstr := [0x751F; 0x6210; 0x601D; 0x7EF4; 0x5BFC; 0x56FE; 0x5931; 0x8D25]%N.
Definition msg_no_svg : jsstr := [0x672A; 0x627E; 0x5230; 0x601D; 0x7EF4; 0x5BFC; 0x56FE; 0x5185; 0x5BB9]%N.
Definition msg_exported : jsstr := js "SVG" ++ [0x5DF2; 0x5BFC; 0x51FA]%N.
Definition msg_select : jsstr := [0x8BF7; 0x5148; 0x9009; 0x62E9; 0x4E00; 0x4E2A; 0x5757]%N.
Definition cmd_description : jsstr := [0x521B; 0x5EFA; 0x601D; 0x7EF4; 0x5BFC; 0x56FE]%N.
Definition msg_enabled : jsstr := js "Markmap" ++ [0x63D2; 0x4EF6; 0x5DF2; 0x542F; 0x7528]%N.
Definition msg_disabled : jsstr := js "Markmap" ++ [0x63D2; 0x4EF6; 0x5DF2; 0x7981; 0x7528]%N.

(** The title's [textContent] (line 110): the whole text. *)
Definition title_text (block : Block) : jsstr :=
  [0xD83E; 0xDDE0]%N ++ js " " ++ MarkmapSimple.text_or block MarkmapSimple.mind_map.

(** ** The plugin's state and functions *)

(** A [createMindMap] suspended at [await loadMarkmap()] (line 80) with
    the blocks and block it read, or at [await orca.nav.addPanel] (line
    161). *)
Inductive ktask := WaitScript (blockId : jsstr) (allBlocks : obj Block) (block : Block)
                 | WaitPanel (blockId panelId : jsstr).

(** What a panel holds: its block, title, markdown, and whether the
    library left an [svg] in its container. *)
Record kview := mkKView { kv_block : jsstr; kv_title : jsstr; kv_markdown : jsstr; kv_svg : bool }.

Section Ops.
Context {NS CS TS BS : Type} `{NavLaws NS} `{CommandsLaws CS} `{ToolbarLaws TS} `{BroadcastsLaws BS}.
Context {L R : Type} `{MarkmapLib L R}.

#[local] Abbreviation host := (Plugin.host (NS:=NS) (CS:=CS) (TS:=TS) (BS:=BS)).

(** The module variables (lines 15-21), [orca.state.currentBlockId],
    [window.markmap], the [click] listener on [document.body], the
    [data-role] of the style elements in [document.head], the number of
    CDN scripts appended, the suspended calls, and ghost records: the
    panels opened, the files downloaded and the exceptions that reached
    the page. *)
Record kworld := mkKWorld {
  k_host : host;
  currentBlockId : option jsstr;
  pluginName : option jsstr;
  mindMapPanels : obj jsstr;
  markmap : option L;
  transformer_v : option (transformer L);
  win_markmap : option L;
  listening : bool;
  styles : list jsstr;
  scripts : nat;
  k_tasks : list ktask;
  views : list (jsstr * kview);
  downloads : list jsstr;
  uncaught : list jsstr
}.

Definition M (A : Type) : Type := kworld → A * kworld.

#[export] Instance KM_ret : MRet M := λ A a w, (a, w).
#[export] Instance KM_bind : MBind M := λ A B f m w, let (a, w') := m w in f a w'.

Definition skip : M unit := mret ().
Definition get : M kworld := λ w, (w, w).
Definition modify (f : kworld → kworld) : M unit := λ w, ((), f w).
Definition exec {A} (m : M A) (w : kworld) : kworld := snd (m w).

Definition on_host (f : host → host) : M unit :=
  modify (λ w, mkKWorld (f (k_host w)) (currentBlockId w) (pluginName w) (mindMapPanels w) (markmap w)
    (transformer_v w) (win_markmap w) (listening w) (styles w) (scripts w) (k_tasks w) (views w) (downloads w) (uncaught w)).
Definition set_name (n : jsstr) : M unit :=
  modify (λ w, mkKWorld (k_host w) (currentBlockId w) (Some n) (mindMapPanels w) (markmap w)
    (transformer_v w) (win_markmap w) (listening w) (styles w) (scripts w) (k_tasks w) (views w) (downloads w) (uncaught w)).
Definition set_panels (m : obj jsstr) : M unit :=
  modify (λ w, mkKWorld (k_host w) (currentBlockId w) (pluginName w) m (markmap w)
    (transformer_v w) (win_markmap w) (listening w) (styles w) (scripts w) (k_tasks w) (views w) (downloads w) (uncaught w)).
Definition set_markmap (l : option L) : M unit :=
  modify (λ w, mkKWorld (k_host w) (currentBlockId w) (pluginName w) (mindMapPanels w) l
    (transformer_v w) (win_markmap w) (listening w) (styles w) (scripts w) (k_tasks w) (views w) (downloads w) (uncaught w)).
Definition set_transformer (t : option (transformer L)) : M unit :=
  modify (λ w, mkKWorld (k_host w) (currentBlockId w) (pluginName w) (mindMapPanels w) (markmap w)
    t (win_markmap w) (listening w) (styles w) (scripts w) (k_tasks w) (views w) (downloads w) (uncaught w)).
Definition set_window (l : option L) : M unit :=
  modify (λ w, mkKWorld (k_host w) (currentBlockId w) (pluginName w) (mindMapPanels w) (markmap w)
    (transformer_v w) l (listening w) (styles w) (scripts w) (k_tasks w) (views w) (downloads w) (uncaught w)).
Definition set_listening (b : bool) : M unit :=
  modify (λ w, mkKWorld (k_host w) (currentBlockId w) (pluginName w) (mindMapPanels w) (markmap w)
    (transformer_v w) (win_markmap w) b (styles w) (scripts w) (k_tasks w) (views w) (downloads w) (uncaught w)).
Definition set_styles (ss : list jsstr) : M unit :=
  modify (λ w, mkKWorld (k_host w) (currentBlockId w) (pluginName w) (mindMapPanels w) (markmap w)
    (transformer_v w) (win_markmap w) (listening w) ss (scripts w) (k_tasks w) (views w) (downloads w) (uncaught w)).
Definition add_script : M unit :=
  modify (λ w, mkKWorld (k_host w) (currentBlockId w) (pluginName w) (mindMapPanels w) (markmap w)
    (transformer_v w) (win_markmap w) (listening w) (styles w) (S (scripts w)) (k_tasks w) (views w) (downloads w) (uncaught w)).
Definition set_tasks (ts : list ktask) : M unit :=
  modify (λ w, mkKWorld (k_host w) (currentBlockId w) (pluginName w) (mindMapPanels w) (markmap w)
    (transformer_v w) (win_markmap w) (listening w) (styles w) (scripts w) ts (views w) (downloads w) (uncaught w)).
Definition download (f : jsstr) : M unit :=
  modify (λ w, mkKWorld (k_host w) (currentBlockId w) (pluginName w) (mindMapPanels w) (markmap w)
    (transformer_v w) (win_markmap w) (listening w) (styles w) (scripts w) (k_tasks w) (views w) (downloads w ++ [f]) (uncaught w)).
Definition throw (m : jsstr) : M unit :=
  modify (λ w, mkKWorld (k_host w) (currentBlockId w) (pluginName w) (mindMapPanels w) (markmap w)
    (transformer_v w) (win_markmap w) (listening w) (styles w) (scripts w) (k_tasks w) (views w) (downloads w) (uncaught w ++ [m])).

Definition add_task (t : ktask) : M unit := w ← get; set_tasks (k_tasks w ++ [t]).

Definition notify (t : notify_type) (m : jsstr) : M unit :=
  on_host (λ h, Plugin.mkHost (Plugin.blocks h) (Plugin.apiVersion h) (Plugin.hostShape h) (Plugin.nav h)
    (Plugin.cmds h) (Plugin.bar h) (Plugin.bc h) (Plugin.notes h ++ [(t, m)]) (Plugin.savedData h)
    (Plugin.schemas h) (Plugin.clock h)).

Definition open_panel (id : jsstr) (v : kview) : M jsstr :=
  λ w, let (p, n) := addPanel id (Plugin.nav (k_host w)) in
       (p, mkKWorld (SimplePlugin.with_nav (λ _, n) (k_host w)) (currentBlockId w) (pluginName w)
             (mindMapPanels w) (markmap w) (transformer_v w) (win_markmap w) (listening w) (styles w)
             (scripts w) (k_tasks w) ((p, v) :: views w) (downloads w) (uncaught w)).

Definition close_panel (p : jsstr) : M unit := on_host (SimplePlugin.with_nav (closePanel p)).

Fixpoint close_all (m : obj jsstr) : M unit :=
  match m with [] => skip | (_, p) :: m' => close_panel p;; close_all m' end.

Context (cdn : L) (stack : nat) (name : jsstr).

(** Everything the [catch] of lines 172-175 catches ends here. *)
Definition fail : M unit := notify NError msg_failed.

(** Lines 84-170, once the library is there. *)
Definition render_panel (blockId : jsstr) (allBlocks : obj Block) (block : Block) : M unit :=
  match blockToMarkdown stack blockId allBlocks 1 with
  | None => fail
  | Some markdown =>
      w ← get;
      match transformer_v w, markmap w with
      | Some t, Some l =>
          match transform t markdown with
          | None => fail
          | Some root =>
              if negb (render l root) then fail else
              (match obj_get (mindMapPanels w) blockId with Some p => close_panel p | None => skip end);;
              p ← open_panel (js "markmap-" ++ blockId) (mkKView blockId (title_text block) markdown (creates_svg l));
              add_task (WaitPanel blockId p)
          end
      | _, _ => fail   (** [transformer.transform] or [markmap.Markmap] of [undefined] *)
      end
  end.

(** [loadMarkmap()] (lines 24-44) called from [createMindMap]: with
    [window.markmap] set it stores the library and the class itself and
    [createMindMap] goes on; otherwise it appends a script and
    [createMindMap] waits for it. *)
Definition loadMarkmap (blockId : jsstr) (allBlocks : obj Block) (block : Block) : M unit :=
  w ← get;
  match win_markmap w with
  | Some l => set_markmap (Some l);; set_transformer (Some (TClass l));; render_panel blockId allBlocks block
  | None => add_script;; add_task (WaitScript blockId allBlocks block)
  end.

(** [createMindMap(blockId)] (lines 67-176) up to its first [await]. *)
Definition createMindMap (blockId : jsstr) : M unit :=
  w ← get;
  match Plugin.blocks (k_host w) with
  | None => fail
  | Some allBlocks =>
      match obj_get allBlocks blockId with
      | None => notify NError msg_not_found
      | Some block =>
          match markmap w with
          | None => notify NInfo msg_loading;; loadMarkmap blockId allBlocks block
          | Some _ => render_panel blockId allBlocks block
          end
      end
  end.

(** The script's [onload] (lines 37-41): the script has set
    [window.markmap]; if [new markmap.Transformer()] throws, the
    exception reaches the page and the promise stays pending. *)
Definition script_loaded (blockId : jsstr) (allBlocks : obj Block) (block : Block) : M unit :=
  set_window (Some cdn);;
  set_markmap (Some cdn);;
  if transformer_new cdn
  then set_transformer (Some (TInstance cdn));; render_panel blockId allBlocks block
  else throw (js "TypeError: markmap.Transformer is not a constructor").

(** The rest of [createMindMap] (lines 169-170) once [addPanel] settles. *)
Definition panel_added (blockId p : jsstr) : M unit :=
  w ← get;
  set_panels (obj_set (mindMapPanels w) blockId p);;
  notify NSuccess msg_created.

(** [exportMindMap(container)] (lines 179-197). *)
Definition exportMindMap (v : kview) : M unit :=
  if kv_svg v then
    w ← get;
    download (js "mindmap-" ++ nat_to_js (Plugin.clock (k_host w)) ++ js ".svg");;
    notify NSuccess msg_exported
  else notify NError msg_no_svg.

Definition name_of (w : kworld) : jsstr := default (js "undefined") (pluginName w).
Definition cmd_create (w : kworld) : jsstr := name_of w ++ js ".createMindMap".
Definition button_id (w : kworld) : jsstr := name_of w ++ js ".button".

(** [injectStyles()] (lines 200-235) and [removeStyles()] (238-241). *)
Definition injectStyles : M unit := w ← get; set_styles (styles w ++ [name_of w]).
Definition removeStyles : M unit :=
  w ← get; set_styles (List.filter (λ r, negb (bool_decide (r = name_of w))) (styles w)).

(** [onClick(e)] (lines 244-265). *)
Definition onClick (c : click) : M unit :=
  if on_main_content c && on_icon c then
    match block_id c with
    | Some blockId => if truthy blockId then createMindMap blockId else skip
    | None => skip
    end
  else skip.

(** The command of lines 275-283: [orca.state.currentBlockId ||
    Object.keys(orca.state.blocks)[0]]. *)
Definition createMindMap_command : M unit :=
  w ← get;
  if opt_truthy (currentBlockId w) then createMindMap (default [] (currentBlockId w)) else
  match Plugin.blocks (k_host w) with
  | None => throw (js "TypeError: Cannot convert undefined or null to object")
  | Some blocks =>
      match object_keys blocks with
      | k :: _ => if truthy k then createMindMap k else notify NWarn msg_select
      | [] => notify NWarn msg_select
      end
  end.

(** [load(name)] (lines 268-306).  Adding the same listener twice adds it
    once. *)
Definition load : M unit :=
  set_name name;;
  w ← get;
  on_host (SimplePlugin.with_cmds (registerCommand (cmd_create w) HCreateMindMap cmd_description));;
  on_host (SimplePlugin.with_bar (registerToolbarButton (button_id w) (cmd_create w)));;
  on_host (SimplePlugin.with_cmds (registerShortcut Plugin.shortcut_key (cmd_create w)));;
  injectStyles;;
  set_listening true;;
  notify NSuccess msg_enabled.

(** [unload()] (lines 309-336); [unsubscribe] is never assigned. *)
Definition unload : M unit :=
  w ← get;
  close_all (mindMapPanels w);;
  set_panels [];;
  set_listening false;;
  removeStyles;;
  on_host (SimplePlugin.with_cmds (unregisterCommand (cmd_create w)));;
  on_host (SimplePlugin.with_bar (unregisterToolbarButton (button_id w)));;
  on_host (SimplePlugin.with_cmds (unregisterShortcut Plugin.shortcut_key));;
  notify NInfo msg_disabled.

Definition invoke (id : jsstr) : M unit :=
  w ← get;
  match lookupCommand id (Plugin.cmds (k_host w)) with
  | Some HCreateMindMap => createMindMap_command
  | _ => skip   (** not a function of [markmap-plugin.ts] *)
  end.

End Ops.

(** The inputs of the host and the page. *)
Inductive kinput :=
  | KLoad | KUnload
  | KCommand (id : jsstr) | KShortcut (key : jsstr) | KButton (id : jsstr)
  | KUserClosePanel (p : jsstr)
  | KClick (c : click)        (** a click on [document.body] *)
  | KScriptLoad (i : nat)     (** the script of the [i]-th pending call loads *)
  | KScriptError (i : nat)    (** it fails to load *)
  | KResume (i : nat)         (** the [addPanel] of the [i]-th pending call settles *)
  | KRefresh (p : jsstr)      (** a click on the refresh button of panel [p] *)
  | KExport (p : jsstr).      (** a click on its export button *)

Section Run.
Context {NS CS TS BS : Type} `{NavLaws NS} `{CommandsLaws CS} `{ToolbarLaws TS} `{BroadcastsLaws BS}.
Context {L R : Type} `{MarkmapLib L R}.
Context (cdn : L) (stack : nat) (name : jsstr).

#[local] Abbreviation KM := (M (NS:=NS) (CS:=CS) (TS:=TS) (BS:=BS) (L:=L)).

(** The buttons of an open panel of the plugin. *)
Definition panel_view (w : kworld (NS:=NS) (CS:=CS) (TS:=TS) (BS:=BS) (L:=L)) (p : jsstr) : option kview :=
  if bool_decide (p ∈ panels (Plugin.nav (k_host w))) then snd <$> List.find (λ pv, bool_decide (pv.1 = p)) (views w)
  else None.

Definition step (i : kinput) : KM unit :=
  match i with
  | KLoad => load name
  | KUnload => unload
  | KCommand id => invoke stack id
  | KShortcut k =>
      w ← get; match lookupShortcut k (Plugin.cmds (k_host w)) with Some id => invoke stack id | None => skip end
  | KButton b =>
      w ← get; match lookupButton b (Plugin.bar (k_host w)) with Some id => invoke stack id | None => skip end
  | KUserClosePanel p => close_panel p
  | KClick c => w ← get; if listening w then onClick stack c else skip
  | KScriptLoad j =>
      w ← get;
      match k_tasks w !! j with
      | Some (WaitScript b a bl) => set_tasks (delete j (k_tasks w));; script_loaded cdn stack b a bl
      | _ => skip
      end
  | KScriptError j =>
      w ← get;
      match k_tasks w !! j with
      | Some (WaitScript _ _ _) => set_tasks (delete j (k_tasks w));; fail
      | _ => skip
      end
  | KResume j =>
      w ← get;
      match k_tasks w !! j with
      | Some (WaitPanel b p) => set_tasks (delete j (k_tasks w));; panel_added b p
      | _ => skip
      end
  | KRefresh p => w ← get; match panel_view w p with Some v => createMindMap stack (kv_block v) | None => skip end
  | KExport p => w ← get; match panel_view w p with Some v => exportMindMap v | None => skip end
  end.

Fixpoint run (ins : list kinput) : KM unit :=
  match ins with [] => skip | i :: ins' => step i;; run ins' end.

End Run.

(** ** A library and a host to run the examples on *)

(** A library given by what each call does: whether [new Transformer()]
    returns, whether the class has a static [transform], and whether
    [Markmap.create] leaves an [svg]; [transform] returns the markdown
    as the root. *)
Record mem_lib := mkMemLib { ml_new : bool; ml_static : bool; ml_svg : bool }.

#[export] Instance mem_markmap : MarkmapLib mem_lib jsstr := {
  transformer_new l := ml_new l;
  transform_static l md := if ml_static l then Some md else None;
  transform_instance _ md := Some md;
  render _ _ := true;
  creates_svg l := ml_svg l
}.

Abbreviation mem_kworld := (kworld (NS:=MemNav) (CS:=MemCommands) (TS:=MemToolbar) (BS:=MemBroadcasts) (L:=mem_lib)).

Definition init_kworld (b : option (obj Block)) (page_lib : option mem_lib) : mem_kworld :=
  mkKWorld (Plugin.mkHost b None true (mkMemNav []) (mkMemCommands [] []) (mkMemToolbar []) (mkMemBroadcasts []) [] [] [] 0)
           None None [] None None page_lib false [] 0 [] [] [] [].

Definition demo_run (b : option (obj Block)) (page_lib : option mem_lib) (cdn : mem_lib) (ins : list kinput) : mem_kworld :=
  exec (run cdn 100 (js "markmap") ins) (init_kworld b page_lib).

(** ** Properties *)

Section Proofs.
Context {NS CS TS BS : Type} `{NavLaws NS} `{CommandsLaws CS} `{ToolbarLaws TS} `{BroadcastsLaws BS}.
Context {L R : Type} `{MarkmapLib L R}.
#[local] Abbreviation W := (kworld (NS:=NS) (CS:=CS) (TS:=TS) (BS:=BS) (L:=L)).
Context (cdn : L) (stack : nat).

Lemma kexec_bind {A B} (m : M A) (f : A → M B) (w : W) : exec (m ≫= f) w = exec (f (fst (m w))) (exec m w).
Proof. unfold exec, mbind, KM_bind. by destruct (m w). Qed.

Lemma kexec_get (w : W) : exec get w = w.
Proof. done. Qed.


(** Without a transformer every [render_panel] fails. *)
Lemma render_panel_no_transformer (w : W) k o blk :
  transformer_v w = None →
  views (exec (render_panel stack k o blk) w) = views w ∧
  Plugin.notes (k_host (exec (render_panel stack k o blk) w)) = Plugin.notes (k_host w) ++ [(NError, msg_failed)].
Proof.
  intros Ht. unfold render_panel. destruct (blockToMarkdown _ _ _ _); [|done].
  rewrite kexec_bind, kexec_get. cbn [fst get]. by rewrite Ht.
Qed.

(** [C27] Liveness: when [new markmap.Transformer()] throws in the
    script's [onload], the [createMindMap] that waited for the script
    never resumes: no notification, no panel, the exception goes to the
    page.  [markmap] is set all the same, so no later call loads the
    library again, and every later [createMindMap] of an existing block
    fails. *)
Theorem failed_constructor_breaks_plugin (w : W) b a bl k o blk :
  transformer_new cdn = false → transformer_v w = None →
  let w1 := exec (script_loaded cdn stack b a bl) w in
  views w1 = views w ∧ k_tasks w1 = k_tasks w ∧ Plugin.notes (k_host w1) = Plugin.notes (k_host w) ∧
  markmap w1 = Some cdn ∧
  (Plugin.blocks (k_host w1) = Some o → obj_get o k = Some blk →
   let w2 := exec (createMindMap stack k) w1 in
   views w2 = views w1 ∧ Plugin.notes (k_host w2) = Plugin.notes (k_host w1) ++ [(NError, msg_failed)]).
Proof.
  intros Hnew Ht. unfold script_loaded. rewrite !kexec_bind, Hnew. cbv zeta.
  split_and!; try done. intros Hb Hg.
  unfold createMindMap. rewrite kexec_bind, kexec_get. cbn [fst get]. rewrite Hb, Hg. cbn [markmap].
  by apply render_panel_no_transformer.
Qed.

(** [C28] Errors: with the library already in [window.markmap] at the
    first call, [loadMarkmap] stores the [Transformer] class itself (line
    27), not an instance as on the script path (line 39), so every
    transformation goes to a static [transform]: for a library without
    one, the call shows the loading message, then fails, and keeps that
    transformer for later calls. *)
Theorem window_library_uses_class (w : W) k o blk l :
  markmap w = None → win_markmap w = Some l → Plugin.blocks (k_host w) = Some o → obj_get o k = Some blk →
  (∀ md, transform_static l md = None) →
  let w' := exec (createMindMap stack k) w in
  transformer_v w' = Some (TClass l) ∧ views w' = views w ∧
  Plugin.notes (k_host w') = Plugin.notes (k_host w) ++ [(NInfo, msg_loading); (NError, msg_failed)].
Proof.
  intros Hm Hw Hb Hg Hs. unfold createMindMap. rewrite kexec_bind, kexec_get. cbn [fst get].
  rewrite Hb, Hg, Hm, kexec_bind. unfold loadMarkmap. rewrite kexec_bind, kexec_get. cbn [fst get].
  change (win_markmap (exec (notify NInfo msg_loading) w)) with (win_markmap w).
  rewrite Hw, !kexec_bind. unfold render_panel. destruct (blockToMarkdown _ _ _ _); [|cbn; by rewrite <- app_assoc].
  rewrite kexec_bind, kexec_get. cbn. rewrite Hs. cbn. by rewrite <- app_assoc.
Qed.

End Proofs.

(** ** Examples *)

Definition block_1 : Block := mkBlock (Some (js "1")) (Some [0x6839; 0x8282; 0x70B9]%N) (Some [js "2"; js "3"]) None None.

Lemma failed_constructor_breaks_plugin_witness :
  let cdn := mkMemLib false true true in
  let w := init_kworld (Some test_blocks) None in
  transformer_new cdn = false ∧ transformer_v w = None ∧
  let w1 := exec (script_loaded cdn 100 (js "1") test_blocks block_1) w in
  views w1 = views w ∧ k_tasks w1 = k_tasks w ∧ Plugin.notes (k_host w1) = Plugin.notes (k_host w) ∧
  markmap w1 = Some cdn ∧
  (Plugin.blocks (k_host w1) = Some test_blocks → obj_get test_blocks (js "1") = Some block_1 →
   let w2 := exec (createMindMap 100 (js "1")) w1 in
   views w2 = views w1 ∧ Plugin.notes (k_host w2) = Plugin.notes (k_host w1) ++ [(NError, msg_failed)]).
Proof.
  cbv zeta. split; [reflexivity|]. split; [reflexivity|].
  apply (failed_constructor_breaks_plugin (mkMemLib false true true) 100); reflexivity.
Defined.

Lemma window_library_uses_class_witness :
  let l := mkMemLib true false true in
  let w := init_kworld (Some test_blocks) (Some l) in
  markmap w = None ∧ win_markmap w = Some l ∧ Plugin.blocks (k_host w) = Some test_blocks ∧
  obj_get test_blocks (js "1") = Some block_1 ∧ (∀ md, transform_static l md = None) ∧
  let w' := exec (createMindMap 100 (js "1")) w in
  transformer_v w' = Some (TClass l) ∧ views w' = views w ∧
  Plugin.notes (k_host w') = Plugin.notes (k_host w) ++ [(NInfo, msg_loading); (NError, msg_failed)].
Proof.
  cbv zeta. do 3 (split; [reflexivity|]). split; [vm_compute; reflexivity|]. split; [done|].
  apply (window_library_uses_class 100 _ _ test_blocks block_1);
    solve [reflexivity|vm_compute; reflexivity|done].
Defined.

End MarkmapPlugin.
