(* ===== verification/LocalContainer.v ===== *)
(** * The overlay markup of [src/src/orca-mindmap-local.ts]

    [createMindMapContainer()] (lines 117-264) makes the id of the map,
    [markmap-<Date.now()>-<9 base-36 digits of Math.random()>], reads the
    page's theme, and returns the markup [switchToMindMapMode] puts into
    the overlay: a style sheet for the map (and one that hides the host's
    head bar), the [svg] that [initializeMarkmap] draws into, and the
    zoom, close and loading elements, all named after the id.
    [switchToMindMapMode] then takes the id of [overlay.querySelector('svg')]
    as the container id (lines 519-521).

    The markup is the template's text with its substitutions, part by
    part; [querySelector('svg')] is the first [<svg] start tag of that
    text ([find_svg]) and its [id] attribute is read up to the closing
    quote ([svg_id]).  The theme is what the code reads: the class lists
    of [<html>] and [<body>] and three computed colours. *)

From S2P Require Import Prelude JsNumber Renderer.
Import JsNumber Renderer.

Module LocalContainer.

(** What [createMindMapContainer] reads of the page (lines 121-125). *)
Record theme := mkTheme {
  rootClasses : list jsstr;   (** [document.documentElement.classList] *)
  bodyClasses : list jsstr;   (** [document.body.classList] *)
  bodyBg : jsstr;             (** [getComputedStyle(document.body).backgroundColor] *)
  rootBg : jsstr;             (** the same of [document.documentElement] *)
  orcaBg1 : jsstr             (** [--orca-color-bg-1] of [document.body] *)
}.

(** [isDarkTheme] (lines 133-144). *)
Definition isDarkTheme (t : theme) : bool :=
  bool_decide (js "dark" ∈ rootClasses t) || bool_decide (js "dark" ∈ bodyClasses t) ||
  bool_decide (js "theme-dark" ∈ rootClasses t) ||
  js_includes (bodyBg t) (js "33, 37, 41") || js_includes (bodyBg t) (js "rgb(33, 37, 41)") ||
  js_includes (bodyBg t) (js "40, 40, 40") || js_includes (bodyBg t) (js "38, 38, 38") ||
  js_includes (bodyBg t) (js "rgb(38, 38, 38)") || js_includes (rootBg t) (js "33, 37, 41") ||
  js_includes (orcaBg1 t) (js "dark") || js_includes (orcaBg1 t) (js "15%") ||
  js_includes (orcaBg1 t) (js "hsl(0 0% 15%)").

(** Lines 148-150. *)
Definition bgColor (dark : bool) : jsstr := if dark then js "#2c2c2c" else js "#ffffff".
Definition textColor (dark : bool) : jsstr := if dark then js "white" else js "#333333".
Definition circleStroke (dark : bool) : jsstr :=
  if dark then js "rgba(255, 255, 255, 0.3)" else js "rgba(0, 0, 0, 0.2)".

(** The id of line 118: [r36] is [Math.random().toString(36)] and
    [substr(2, 9)] drops its ["0."]. *)
Definition makeContainerId (now : nat) (r36 : jsstr) : jsstr :=
  js "markmap-" ++ nat_to_js now ++ js "-" ++ take 9 (drop 2 r36).

(** The constant parts of the template of lines 152-263. *)
Definition container_part0 : jsstr :=
    [0xA]%N ++ js "    <style>" ++ [0xA]%N ++ js "      /* " ++
    [0x9690; 0x85CF; 0x9876; 0x90E8; 0x5BFC; 0x822A; 0x680F]%N ++ js " */" ++ [0xA]%N ++
    js "      .orca-headbar, .orca-header, .page-header {" ++ [0xA]%N ++
    js "        display: none !important;" ++ [0xA]%N ++ js "      }" ++ [0xA]%N ++ js "      " ++
    [0xA]%N ++ js "      .".

Definition container_part1 : jsstr :=
    js " text {" ++ [0xA]%N ++ js "        fill: ".

Definition container_part2 : jsstr :=
    js " !important;" ++ [0xA]%N ++ js "        font-size: 14px !important;" ++ [0xA]%N ++
    js "        font-family: var(--orca-font-family, -apple-system, BlinkMacSystemFont, 'Segoe UI', sans-serif) !important;" ++
    [0xA]%N ++ js "        font-weight: 500 !important;" ++ [0xA]%N ++
    js "        stroke: none !important;" ++ [0xA]%N ++ js "      }" ++ [0xA]%N ++ js "      .".

Definition container_part3 : jsstr :=
    js " .markmap-node {" ++ [0xA]%N ++ js "        cursor: pointer;" ++ [0xA]%N ++ js "      }" ++
    [0xA]%N ++ js "      .".

Definition container_part4 : jsstr :=
    js " .markmap-link {" ++ [0xA]%N ++ js "        fill: none;" ++ [0xA]%N ++
    js "        stroke-width: 2;" ++ [0xA]%N ++ js "        opacity: 0.8;" ++ [0xA]%N ++
    js "      }" ++ [0xA]%N ++ js "      .".

Definition container_part5 : jsstr :=
    js " circle {" ++ [0xA]%N ++ js "        stroke: ".

Definition container_part6 : jsstr :=
    js " !important;" ++ [0xA]%N ++ js "        stroke-width: 1 !important;" ++ [0xA]%N ++
    js "      }" ++ [0xA]%N ++ js "      /* " ++
    [0x6587; 0x672C; 0x6362; 0x884C; 0x5904; 0x7406]%N ++ js " */" ++ [0xA]%N ++ js "      .".

Definition container_part7 : jsstr :=
    js " foreignObject {" ++ [0xA]%N ++ js "        overflow: visible;" ++ [0xA]%N ++
    js "      }" ++ [0xA]%N ++ js "    </style>" ++ [0xA]%N ++ js "    <div style=" ++
    [0x22; 0xA]%N ++ js "      position: fixed;" ++ [0xA]%N ++ js "      top: 0;" ++ [0xA]%N ++
    js "      left: 0;" ++ [0xA]%N ++ js "      width: 100vw;" ++ [0xA]%N ++
    js "      height: 100vh;" ++ [0xA]%N ++ js "      background: ".

Definition container_part8 : jsstr :=
    js ";" ++ [0xA]%N ++ js "      overflow: hidden;" ++ [0xA]%N ++
    js "      font-family: var(--orca-font-family, -apple-system, BlinkMacSystemFont, 'Segoe UI', sans-serif);" ++
    [0xA]%N ++ js "      z-index: 10000;" ++ [0xA]%N ++ js "    " ++ [0x22]%N ++ js ">" ++
    [0xA]%N ++ js "      <svg id=" ++ [0x22]%N.

Definition container_part9 : jsstr :=
    [0x22]%N ++ js " class=" ++ [0x22]%N.

Definition container_part10 : jsstr :=
    [0x22]%N ++ js " style=" ++ [0x22]%N ++ js "width: 100%; height: 100%;" ++ [0x22]%N ++
    js "></svg>" ++ [0xA]%N ++ js "      " ++ [0xA]%N ++ js "      <!-- " ++
    [0x63A7; 0x5236; 0x6309; 0x94AE; 0x9762; 0x677F]%N ++ js " -->" ++ [0xA]%N ++
    js "      <div id=" ++ [0x22]%N ++ js "markmap-controls-".

Definition container_part11 : jsstr :=
    [0x22]%N ++ js " style=" ++ [0x22; 0xA]%N ++ js "        position: absolute;" ++ [0xA]%N ++
    js "        bottom: 20px;" ++ [0xA]%N ++ js "        left: 20px;" ++ [0xA]%N ++
    js "        display: flex;" ++ [0xA]%N ++ js "        gap: 8px;" ++ [0xA]%N ++
    js "        z-index: 10001;" ++ [0xA]%N ++ js "      " ++ [0x22]%N ++ js ">" ++ [0xA]%N ++
    js "        <button id=" ++ [0x22]%N ++ js "zoom-in-".

Definition container_part12 : jsstr :=
    [0x22]%N ++ js " style=" ++ [0x22; 0xA]%N ++ js "          width: 40px;" ++ [0xA]%N ++
    js "          height: 40px;" ++ [0xA]%N ++ js "          border-radius: 50%;" ++ [0xA]%N ++
    js "          border: none;" ++ [0xA]%N ++ js "          background: rgba(0, 0, 0, 0.7);" ++
    [0xA]%N ++ js "          color: white;" ++ [0xA]%N ++ js "          cursor: pointer;" ++
    [0xA]%N ++ js "          font-size: 18px;" ++ [0xA]%N ++ js "          font-weight: bold;" ++
    [0xA]%N ++ js "          display: flex;" ++ [0xA]%N ++ js "          align-items: center;" ++
    [0xA]%N ++ js "          justify-content: center;" ++ [0xA]%N ++
    js "          transition: all 0.2s ease;" ++ [0xA]%N ++ js "        " ++ [0x22]%N ++
    js ">+</button>" ++ [0xA]%N ++ js "        " ++ [0xA]%N ++ js "        <button id=" ++
    [0x22]%N ++ js "zoom-out-".

Definition container_part13 : jsstr :=
    [0x22]%N ++ js " style=" ++ [0x22; 0xA]%N ++ js "          width: 40px;" ++ [0xA]%N ++
    js "          height: 40px;" ++ [0xA]%N ++ js "          border-radius: 50%;" ++ [0xA]%N ++
    js "          border: none;" ++ [0xA]%N ++ js "          background: rgba(0, 0, 0, 0.7);" ++
    [0xA]%N ++ js "          color: white;" ++ [0xA]%N ++ js "          cursor: pointer;" ++
    [0xA]%N ++ js "          font-size: 18px;" ++ [0xA]%N ++ js "          font-weight: bold;" ++
    [0xA]%N ++ js "          display: flex;" ++ [0xA]%N ++ js "          align-items: center;" ++
    [0xA]%N ++ js "          justify-content: center;" ++ [0xA]%N ++
    js "          transition: all 0.2s ease;" ++ [0xA]%N ++ js "        " ++ [0x22]%N ++
    js ">-</button>" ++ [0xA]%N ++ js "        " ++ [0xA]%N ++ js "        <button id=" ++
    [0x22]%N ++ js "close-".

Definition container_part14 : jsstr :=
    [0x22]%N ++ js " style=" ++ [0x22; 0xA]%N ++ js "          width: 40px;" ++ [0xA]%N ++
    js "          height: 40px;" ++ [0xA]%N ++ js "          border-radius: 50%;" ++ [0xA]%N ++
    js "          border: none;" ++ [0xA]%N ++
    js "          background: rgba(220, 53, 69, 0.8);" ++ [0xA]%N ++
    js "          color: white;" ++ [0xA]%N ++ js "          cursor: pointer;" ++ [0xA]%N ++
    js "          font-size: 16px;" ++ [0xA]%N ++ js "          display: flex;" ++ [0xA]%N ++
    js "          align-items: center;" ++ [0xA]%N ++ js "          justify-content: center;" ++
    [0xA]%N ++ js "          transition: all 0.2s ease;" ++ [0xA]%N ++ js "        " ++ [0x22]%N ++
    js ">" ++ [0x2715]%N ++ js "</button>" ++ [0xA]%N ++ js "      </div>" ++ [0xA]%N ++
    js "      " ++ [0xA]%N ++ js "      <div id=" ++ [0x22]%N ++ js "loading-".

Definition container_part15 : jsstr :=
    [0x22]%N ++ js " style=" ++ [0x22; 0xA]%N ++ js "        position: absolute;" ++ [0xA]%N ++
    js "        top: 50%;" ++ [0xA]%N ++ js "        left: 50%;" ++ [0xA]%N ++
    js "        transform: translate(-50%, -50%);" ++ [0xA]%N ++ js "        color: #666;" ++
    [0xA]%N ++ js "        font-size: 16px;" ++ [0xA]%N ++ js "        display: none;" ++
    [0xA]%N ++ js "      " ++ [0x22]%N ++ js ">" ++
    [0x521D; 0x59CB; 0x5316; 0x601D; 0x7EF4; 0x5BFC; 0x56FE; 0x4E2D]%N ++ js "...</div>" ++
    [0xA]%N ++ js "    </div>" ++ [0xA]%N ++ js "  ".

(** The markup [createMindMapContainer] returns. *)
Definition container_html (cid : jsstr) (dark : bool) : jsstr :=
  container_part0 ++ cid ++ container_part1 ++ textColor dark ++ container_part2 ++ cid ++
  container_part3 ++ cid ++ container_part4 ++ cid ++ container_part5 ++ circleStroke dark ++
  container_part6 ++ cid ++ container_part7 ++ bgColor dark ++ container_part8 ++ cid ++
  container_part9 ++ cid ++ container_part10 ++ cid ++ container_part11 ++ cid ++
  container_part12 ++ cid ++ container_part13 ++ cid ++ container_part14 ++ cid ++ container_part15.

(** [createMindMapContainer()] at time [now] with the random digits
    [r36] on a page of theme [t]. *)
Definition createMindMapContainer (now : nat) (r36 : jsstr) (t : theme) : jsstr :=
  container_html (makeContainerId now r36) (isDarkTheme t).

(** ** [querySelector('svg')] and its [id] *)

Definition svg_open : jsstr := js "<svg".

(** Whether a start tag [<svg] begins here. *)
Definition svg_at (s : jsstr) : bool := bool_decide (svg_open `prefix_of` s).

(** The text after the first [<svg]. *)
Fixpoint find_svg (s : jsstr) : option jsstr :=
  match s with
  | [] => None
  | _ :: s' => if svg_at s then Some (drop 4 s) else find_svg s'
  end.

(** An attribute value, up to its closing double quote. *)
Fixpoint attr_value (s : jsstr) : jsstr :=
  match s with [] => [] | c :: s' => if (c =? 34)%N then [] else c :: attr_value s' end.

(** The [id] attribute written right after a tag name. *)
Definition id_attr (r : jsstr) : option jsstr :=
  if bool_decide ((js " id=" ++ [34%N]) `prefix_of` r) then Some (attr_value (drop 5 r)) else None.

(** [svg.id] of the first [svg]. *)
Definition svg_id (html : jsstr) : option jsstr :=
  match find_svg html with Some r => id_attr r | None => None end.

(** The characters of [Number.prototype.toString(36)] of a number in
    [0, 1): base-36 digits and the point. *)
Definition base36_char (c : N) : bool := (((48 <=? c) && (c <=? 57)) || ((97 <=? c) && (c <=? 122)) || (c =? 46))%N.

(** No [<] or double quote. *)
Definition plain (s : jsstr) : bool := forallb (λ c, negb ((c =? 60) || (c =? 34))%N) s.

(** At a suffix [d] of a constant text, no [<svg] can begin, whatever
    follows the text. *)
Definition safe_start (d : jsstr) : bool :=
  if 4 <=? length d then negb (bool_decide (take 4 d = svg_open)) else negb (bool_decide (d `prefix_of` svg_open)).

Fixpoint const_ok (c : jsstr) : bool := match c with [] => true | _ :: c' => safe_start c && const_ok c' end.

(** ** Finding the [svg] *)

Lemma find_svg_skip x r :
  (∀ d, d ≠ [] → d `suffix_of` x → svg_at (d ++ r) = false) → find_svg (x ++ r) = find_svg r.
Proof.
  induction x as [|c x IH]; intros Hx; [done|]. cbn [app find_svg].
  replace (svg_at (c :: x ++ r)) with false by (symmetry; by apply (Hx (c :: x))).
  apply IH. intros d Hd Hs. apply Hx; [done|]. by apply suffix_cons_r.
Qed.

Lemma svg_at_safe d r : d ≠ [] → safe_start d = true → svg_at (d ++ r) = false.
Proof.
  intros Hd Hs. unfold svg_at. apply bool_decide_eq_false. intros [k Hk].
  unfold safe_start in Hs. destruct (4 <=? length d) eqn:Hl.
  - apply Nat.leb_le in Hl. apply negb_true_iff, bool_decide_eq_false in Hs. apply Hs.
    by rewrite <- (take_app_le d r 4), Hk by done.
  - apply Nat.leb_gt in Hl. apply negb_true_iff, bool_decide_eq_false in Hs. apply Hs.
    rewrite <- (take_app_length d r), Hk, take_app_le by (change (length svg_open) with 4; lia). apply prefix_take.
Qed.

Lemma const_ok_suffix pre d : const_ok (pre ++ d) = true → d ≠ [] → safe_start d = true.
Proof.
  induction pre as [|a pre IH]; cbn [app const_ok].
  - destruct d; [done|]. cbn. by intros [? _]%andb_prop.
  - intros [_ H]%andb_prop. by apply IH.
Qed.

Lemma const_ok_skip c r : const_ok c = true → find_svg (c ++ r) = find_svg r.
Proof.
  intros Hc. apply find_svg_skip. intros d Hd [pre ->]. apply svg_at_safe; [done|]. by apply (const_ok_suffix pre).
Qed.

Lemma plain_skip x r : plain x = true → find_svg (x ++ r) = find_svg r.
Proof.
  intros Hx. apply find_svg_skip. intros [|c d] Hd [pre ->]; [done|].
  unfold plain in Hx. rewrite forallb_app in Hx. apply andb_prop in Hx as [_ Hx]. cbn in Hx.
  apply andb_prop in Hx as [Hc _]. unfold svg_at. apply bool_decide_eq_false. intros [k Hk].
  cbn in Hk. injection Hk as Hc60 _. subst c. done.
Qed.

Lemma attr_value_app x r : plain x = true → head r = Some 34%N → attr_value (x ++ r) = x.
Proof.
  intros Hx Hr. induction x as [|c x IH]; cbn [app attr_value].
  - destruct r as [|c r]; [done|]. by injection Hr as ->.
  - cbn in Hx. apply andb_prop in Hx as [Hc Hx]. apply negb_true_iff, orb_false_iff in Hc as [_ ->].
    by rewrite IH.
Qed.

(** The id of [createMindMapContainer] has no [<] or quote. *)
Lemma makeContainerId_plain now r36 :
  Forall (λ c, base36_char c = true) r36 → plain (makeContainerId now r36) = true.
Proof.
  intros Hr. unfold makeContainerId, plain. rewrite !forallb_app. apply andb_true_iff; split; [done|].
  destruct (dec_digits_spec (S now) (N.of_nat now) [] ltac:(lia)) as (ds & E & _ & Hds & _).
  unfold nat_to_js. rewrite E, app_nil_r. apply andb_true_iff; split.
  - apply forallb_forall. intros c Hc%list_elem_of_In. rewrite Forall_forall in Hds.
    apply Hds, digit_range in Hc.
    apply negb_true_iff, orb_false_iff; split; apply N.eqb_neq; lia.
  - apply andb_true_iff; split; [done|]. apply forallb_forall. intros c Hc%list_elem_of_In.
    apply (Forall_drop _ 2), (Forall_take _ 9) in Hr. rewrite Forall_forall in Hr. apply Hr in Hc.
    unfold base36_char in Hc. apply negb_true_iff, orb_false_iff.
    repeat match goal with H : (_ || _)%bool = true |- _ => apply orb_prop in H as [H|H] end;
      repeat match goal with H : (_ && _)%bool = true |- _ => apply andb_prop in H as [? ?] end;
      rewrite ?N.leb_le, ?N.eqb_eq in *; split; apply N.eqb_neq; lia.
Qed.

Lemma find_svg_here r : find_svg (svg_open ++ r) = Some r.
Proof. change (svg_open ++ r) with (60%N :: (js "svg" ++ r)). cbn [find_svg]. unfold svg_at. by rewrite bool_decide_true by (by exists r). Qed.

Lemma id_attr_read x r : plain x = true → head r = Some 34%N → id_attr (js " id=" ++ 34%N :: x ++ r) = Some x.
Proof.
  intros Hx Hr. unfold id_attr. rewrite bool_decide_true by (exists (x ++ r); by rewrite <- app_assoc).
  change (drop 5 (js " id=" ++ 34%N :: x ++ r)) with (x ++ r). by rewrite attr_value_app.
Qed.

Lemma container_part8_split :
  container_part8 = take (length container_part8 - 9) container_part8 ++ svg_open ++ (js " id=" ++ [34%N]).
Proof. vm_compute. reflexivity. Qed.

(** [C23] Round trip of the container id: for every time and every
    output of [Math.random().toString(36)], the [svg] that
    [switchToMindMapMode] finds first in the markup of
    [createMindMapContainer] carries as its [id] exactly the id the
    function made, whatever the theme; so the container id the overlay
    and [initializeMarkmap] use is the one named in the style sheet and
    in the ids of the zoom, close and loading elements. *)
Theorem container_svg_id now r36 t :
  Forall (λ c, base36_char c = true) r36 →
  svg_id (createMindMapContainer now r36 t) = Some (makeContainerId now r36).
Proof.
  intros Hr. pose proof (makeContainerId_plain now r36 Hr) as Hp.
  unfold createMindMapContainer, container_html, svg_id.
  set (cid := makeContainerId now r36) in *. destruct (isDarkTheme t);
  rewrite (const_ok_skip container_part0), (plain_skip cid), (const_ok_skip container_part1),
    (const_ok_skip (textColor _)), (const_ok_skip container_part2), (plain_skip cid),
    (const_ok_skip container_part3), (plain_skip cid), (const_ok_skip container_part4), (plain_skip cid),
    (const_ok_skip container_part5), (const_ok_skip (circleStroke _)), (const_ok_skip container_part6),
    (plain_skip cid), (const_ok_skip container_part7), (const_ok_skip (bgColor _)), container_part8_split,
    <- !app_assoc, (const_ok_skip (take _ container_part8)) by (done || (vm_compute; reflexivity));
  rewrite find_svg_here; cbn [app]; (apply id_attr_read; [done|by vm_compute]).
Qed.

(** ** Examples *)

(** A light Orca page whose [--orca-color-bg-1] has a saturation of 15%. *)
Definition light_theme : theme :=
  mkTheme [] [] (js "rgb(250, 250, 251)") (js "rgb(250, 250, 251)") (js "hsl(210 15% 98%)").

(** [orcaBg1.includes('15%')] takes this light background for the dark
    theme, so the overlay is drawn dark on a light page. *)
Lemma light_theme_taken_for_dark : isDarkTheme light_theme = true ∧ bgColor (isDarkTheme light_theme) = js "#2c2c2c".
Proof. split; reflexivity. Qed.

Lemma container_svg_id_witness :
  svg_id (createMindMapContainer 1234 (js "0.k3j9x2a1bq") light_theme) = Some (makeContainerId 1234 (js "0.k3j9x2a1bq")).
Proof. apply container_svg_id. repeat constructor. Defined.

End LocalContainer.
