(* ===== verification/LocalMindMap.v ===== *)
(** * The page mode of [src/src/orca-mindmap-local.ts]

    The local variant bundles [markmap-lib] and [markmap-view] and shows
    the mind map in an overlay: [switchToMindMapMode] (lines 476-537)
    hides the editor with [style.display = 'none'], appends a
    [#mindmap-overlay] holding an [svg] of a fresh id, and sets a 100 ms
    timer that calls [initializeMarkmap] (267-421) on that id and the
    page's markdown.  [initializeMarkmap] draws the map, gives the
    overlay's zoom and close buttons their handlers and registers an
    Escape handler on [document] and a wheel handler on the overlay,
    both kept in [window] properties; when the library throws, it
    replaces the content around the [svg] by an error box.
    [switchToEditMode] (540-698) removes the handlers, the instance and
    the overlay and shows the editor again; [unload] (766-825) does the
    same cleaning.  The head-bar button and the command come from
    [PageWorld], the page structure from [PageDom] and the markdown from
    [Markdown]; the library is the interface [MarkmapLib] of
    [MarkmapPlugin], the module object of the two imports being its
    instance.

    Left out: the zoom factor that the zoom buttons and the wheel handler
    change, the [fit] timer, the focusing timers of [switchToEditMode]
    (they call [orca.editor] functions the host does not have and move
    the focus) and the console output.  The markup of
    [createMindMapContainer] and its theme detection are modelled in
    [LocalContainer]; here the function is the id it yields, which
    [LocalContainer.container_svg_id] shows is the id read back from
    the overlay's [svg]. *)

From S2P Require Import Prelude JsObject JsNumber Host Plugin Renderer PageDom Markdown PageWorld MarkmapPlugin OrcaMindMap.
Import JsObject JsNumber Host PageDom Markdown PageWorld.
From Stdlib Require Import ZArith.

Module LocalMindMap.

Create HintDb local_inv.

(** A pending [setTimeout(() => initializeMarkmap(containerId, markdown),
    100)] (lines 522-524). *)
Record init_timer := mkInit { it_container : jsstr; it_markdown : jsstr }.

Section Ops.
Context {NS CS TS BS : Type} `{NavLaws NS} `{CommandsLaws CS} `{ToolbarLaws TS} `{BroadcastsLaws BS}.
#[local] Abbreviation PW := (pworld (NS:=NS) (CS:=CS) (TS:=TS) (BS:=BS)).

(** The page and the state shared with the other page variant, the
    module variable [currentMarkmap] (line 17) as the container it draws
    in, the [window] properties [markmapEscHandler] and
    [markmapWheelHandler] with [markmapOverlay] (always assigned and
    cleared together), the plugin's [keydown] listeners on [document] in
    their order, the containers whose buttons have their handlers and
    those replaced by the error box, the pending timers, and a counter for
    fresh closures and ids. *)
Record lworld := mkLW {
  l_pw : PW;
  currentMarkmap : option jsstr;
  markmapEscHandler : option nat;
  keydown : list nat;
  markmapWheel : option (nat * jsstr);
  ready : list jsstr;
  failed : list jsstr;
  l_timers : list init_timer;
  next_id : nat
}.

Definition M (A : Type) : Type := lworld → A * lworld.

#[export] Instance LM_ret : MRet M := λ A a w, (a, w).
#[export] Instance LM_bind : MBind M := λ A B f m w, let (a, w') := m w in f a w'.

Definition skip : M unit := mret ().
Definition get : M lworld := λ w, (w, w).
Definition modify (f : lworld → lworld) : M unit := λ w, ((), f w).
Definition exec {A} (m : M A) (w : lworld) : lworld := snd (m w).

(** A computation on the shared page state. *)
Definition lift {A} (m : PageWorld.M A) : M A :=
  λ w, let (a, pw) := m (l_pw w) in
       (a, mkLW pw (currentMarkmap w) (markmapEscHandler w) (keydown w) (markmapWheel w)
                (ready w) (failed w) (l_timers w) (next_id w)).

(** The button functions of this file, [updateButtonState] (lines
    453-473), [addButtonToToolbar] (lines 710-727, with the
    [createToggleButton] of lines 424-450) and [removeButtonFromToolbar]
    (lines 730-735), are line for line those of orca-mindmap.ts: the
    functions of [PageWorld] on the page part of the state. *)
Definition updateButtonState : M unit := lift PageWorld.updateButtonState.
Definition addButtonToToolbar : M unit := lift PageWorld.addButtonToToolbar.
Definition removeButtonFromToolbar : M unit := lift PageWorld.removeButtonFromToolbar.

Definition set_markmap (c : option jsstr) : M unit :=
  modify (λ w, mkLW (l_pw w) c (markmapEscHandler w) (keydown w) (markmapWheel w)
                    (ready w) (failed w) (l_timers w) (next_id w)).
Definition set_esc (h : option nat) : M unit :=
  modify (λ w, mkLW (l_pw w) (currentMarkmap w) h (keydown w) (markmapWheel w)
                    (ready w) (failed w) (l_timers w) (next_id w)).
Definition set_keydown (l : list nat) : M unit :=
  modify (λ w, mkLW (l_pw w) (currentMarkmap w) (markmapEscHandler w) l (markmapWheel w)
                    (ready w) (failed w) (l_timers w) (next_id w)).
Definition set_wheel (x : option (nat * jsstr)) : M unit :=
  modify (λ w, mkLW (l_pw w) (currentMarkmap w) (markmapEscHandler w) (keydown w) x
                    (ready w) (failed w) (l_timers w) (next_id w)).
Definition set_ready (l : list jsstr) : M unit :=
  modify (λ w, mkLW (l_pw w) (currentMarkmap w) (markmapEscHandler w) (keydown w) (markmapWheel w)
                    l (failed w) (l_timers w) (next_id w)).
Definition set_failed (l : list jsstr) : M unit :=
  modify (λ w, mkLW (l_pw w) (currentMarkmap w) (markmapEscHandler w) (keydown w) (markmapWheel w)
                    (ready w) l (l_timers w) (next_id w)).
Definition set_timers (l : list init_timer) : M unit :=
  modify (λ w, mkLW (l_pw w) (currentMarkmap w) (markmapEscHandler w) (keydown w) (markmapWheel w)
                    (ready w) (failed w) l (next_id w)).
Definition fresh : M nat :=
  λ w, (next_id w, mkLW (l_pw w) (currentMarkmap w) (markmapEscHandler w) (keydown w) (markmapWheel w)
                        (ready w) (failed w) (l_timers w) (S (next_id w))).

(** [document.getElementById('mindmap-overlay')?.remove()]: the first
    overlay in document order. *)
Definition remove_overlay : M unit :=
  lift (on_page (λ p, mkPage (p_editor p) (p_toolbar p) (p_active p) (tail (p_overlays p)))).

(** Lines 551-556, 775-779 and 345-349: both [removeEventListener] calls
    and the reset of [window.markmapEscHandler]; the listener was added in
    the capture phase, so the first call removes it. *)
Definition clear_esc : M unit :=
  w ← get;
  match markmapEscHandler w with
  | Some h => set_keydown (List.filter (λ x, negb (x =? h)) (keydown w));; set_esc None
  | None => skip
  end.

(** Lines 559-564 and 782-786. *)
Definition clear_wheel : M unit :=
  w ← get; match markmapWheel w with Some _ => set_wheel None | None => skip end.

(** [document.getElementById(containerId)] finds the [svg]: its overlay
    is in the page and its content was not replaced by the error box. *)
Definition container_live (w : lworld) (cid : jsstr) : bool :=
  bool_decide (cid ∈ p_overlays (pw_page (l_pw w))) && negb (bool_decide (cid ∈ failed w)).

Context (parse : jsstr → list dom_block) (containerId : nat → jsstr).
Context {L R : Type} `{MarkmapPlugin.MarkmapLib L R} (lib : L) (name : jsstr).

(** [createMindMapContainer()] (lines 117-264): the id built from
    [Date.now()] and [Math.random()] of its [n]-th call is
    [containerId n]; the markup ([LocalContainer.createMindMapContainer])
    is an [svg] of that id with the zoom and close buttons, which the
    overlay holds, and lines 519-521 read that id back. *)
Definition createMindMapContainer : M jsstr := n ← fresh; mret (containerId n).

(** The [catch] of lines 397-420: the [svg]'s parent gets the error box. *)
Definition init_failed (cid : jsstr) : M unit := w ← get; set_failed (cid :: failed w).

(** Whether [new Transformer()], [transform] and [Markmap.create] all
    return on [markdown]. *)
Definition init_ok (markdown : jsstr) : bool :=
  MarkmapPlugin.transformer_new lib && match MarkmapPlugin.transform_instance lib markdown with Some r => MarkmapPlugin.render lib r | None => false end.

(** [initializeMarkmap(containerId, markdown)] (lines 267-421). *)
Definition initializeMarkmap (cid markdown : jsstr) : M unit :=
  w ← get;
  if negb (container_live w cid) then skip else
  if negb (MarkmapPlugin.transformer_new lib) then init_failed cid else
  match MarkmapPlugin.transform_instance lib markdown with
  | None => init_failed cid
  | Some root =>
      if negb (MarkmapPlugin.render lib root) then init_failed cid else
      set_markmap (Some cid);;
      w ← get; set_ready (cid :: ready w);;
      clear_esc;;
      h ← fresh;
      w ← get; set_keydown (keydown w ++ [h]);;
      set_esc (Some h);;
      w ← get;
      match p_overlays (pw_page (l_pw w)) with
      | o :: _ => g ← fresh; set_wheel (Some (g, o))
      | [] => skip
      end
  end.

(** [switchToMindMapMode()] (lines 476-537).  Only [blocksToMarkdown]
    throws, before the editor is touched. *)
Definition switchToMindMapMode : M unit :=
  w ← get;
  if isInMindMapMode (l_pw w) then skip else
  match p_editor (pw_page (l_pw w)) with
  | None => lift (notify NError OrcaMindMap.msg_no_editor)
  | Some e =>
      let blocks := extractPageStructure_local (Some (OrcaMindMap.editor_blocks parse e)) in
      if length blocks =? 0 then lift (notify NWarn OrcaMindMap.msg_no_content) else
      match blocksToMarkdown_local blocks with
      | None => lift (notify NError (OrcaMindMap.msg_failed (OrcaMindMap.repeat_error blocks)))
      | Some markdown =>
          cid ← createMindMapContainer;
          lift (on_page (with_editor (λ e, mkEditor (e_content e) (e_editable e) (js "none"))));;
          lift (on_page (λ p, mkPage (p_editor p) (p_toolbar p) (p_active p) (p_overlays p ++ [cid])));;
          w ← get; set_timers (l_timers w ++ [mkInit cid markdown]);;
          lift (set_mode true);;
          updateButtonState;;
          lift (notify NSuccess (OrcaMindMap.msg_switched (length blocks)))
      end
  end.

(** [switchToEditMode()] (lines 540-698). *)
Definition switchToEditMode : M unit :=
  w ← get;
  if negb (isInMindMapMode (l_pw w)) then skip else
  match p_editor (pw_page (l_pw w)) with
  | None => lift (notify NError OrcaMindMap.msg_no_editor)
  | Some _ =>
      clear_esc;;
      clear_wheel;;
      (match currentMarkmap w with Some _ => set_markmap None | None => skip end);;
      remove_overlay;;
      lift (on_page (with_editor (λ e, mkEditor (e_content e) (e_editable e) [])));;
      lift (set_mode false);;
      updateButtonState;;
      lift (notify NSuccess OrcaMindMap.msg_back)
  end.

(** [toggleMindMapMode()] (lines 701-707). *)
Definition toggleMindMapMode : M unit :=
  w ← get; if isInMindMapMode (l_pw w) then switchToEditMode else switchToMindMapMode.

(** [load(name)] (lines 738-763): no notification.  The host always has
    [orca.commands.registerShortcut], so the test of line 750 holds. *)
Definition load : M unit :=
  lift (set_name name);;
  w ← get;
  lift (on_cmds (registerCommand (OrcaMindMap.cmd_toggle (l_pw w)) HToggleMindMapMode OrcaMindMap.cmd_description));;
  lift (on_cmds (registerShortcut OrcaMindMap.shortcut (OrcaMindMap.cmd_toggle (l_pw w))));;
  addButtonToToolbar.

(** [unload()] (lines 766-825). *)
Definition unload : M unit :=
  w ← get;
  (if isInMindMapMode (l_pw w) then switchToEditMode else skip);;
  clear_esc;;
  clear_wheel;;
  remove_overlay;;
  removeButtonFromToolbar;;
  lift (on_cmds (unregisterCommand (OrcaMindMap.cmd_toggle (l_pw w))));;
  lift (on_cmds (unregisterShortcut OrcaMindMap.shortcut));;
  lift (set_mode false);;
  set_markmap None;;
  lift (notify NInfo OrcaMindMap.msg_disabled).

Definition invoke (id : jsstr) : M unit :=
  w ← get;
  match lookupCommand id (Plugin.cmds (pw_host (l_pw w))) with
  | Some HToggleMindMapMode => toggleMindMapMode
  | _ => skip
  end.

End Ops.

(** The inputs of the host, the user and the timers. *)
Inductive linput :=
  | LLoad | LUnload
  | LCommand (id : jsstr) | LShortcut (k : jsstr)
  | LClick (b : nat)             (** a click on a button of the head bar *)
  | LFireRetry                   (** a pending [addButtonToToolbar] timer fires *)
  | LToolbarReady                (** the host renders its head bar *)
  | LNavigate (e : editor)       (** the host renders a page into a new editor *)
  | LFireInit (i : nat)          (** the [i]-th pending [initializeMarkmap] timer fires *)
  | LEscape                      (** the Escape key is pressed *)
  | LClose (cid : jsstr).        (** a click on the close button of the overlay of [cid] *)

Section Run.
Context {NS CS TS BS : Type} `{NavLaws NS} `{CommandsLaws CS} `{ToolbarLaws TS} `{BroadcastsLaws BS}.
Context (parse : jsstr → list dom_block) (containerId : nat → jsstr).
Context {L R : Type} `{MarkmapPlugin.MarkmapLib L R} (lib : L) (name : jsstr).
#[local] Abbreviation LM := (M (NS:=NS) (CS:=CS) (TS:=TS) (BS:=BS)).

(** One input.  The plugin's [keydown] listeners run in order; the first
    one that sees Escape in mind-map mode leaves it and stops the others
    ([stopImmediatePropagation], line 338), the others do nothing. *)
Definition step (i : linput) : LM unit :=
  match i with
  | LLoad => load name
  | LUnload => unload
  | LCommand id => invoke parse containerId id
  | LShortcut k =>
      w ← get;
      match lookupShortcut k (Plugin.cmds (pw_host (l_pw w))) with
      | Some id => invoke parse containerId id
      | None => skip
      end
  | LClick b =>
      w ← get;
      match p_toolbar (pw_page (l_pw w)) with
      | Some bar => if bool_decide (b ∈ bar) then toggleMindMapMode parse containerId else skip
      | None => skip
      end
  | LFireRetry =>
      w ← get;
      match retries (l_pw w) with O => skip | S n => lift (set_retries n);; addButtonToToolbar end
  | LToolbarReady =>
      lift (on_page (λ p, mkPage (p_editor p) (Some (default [] (p_toolbar p))) (p_active p) (p_overlays p)))
  | LNavigate e => lift (on_page (λ p, mkPage (Some e) (p_toolbar p) (p_active p) (p_overlays p)))
  | LFireInit j =>
      w ← get;
      match l_timers w !! j with
      | Some t => set_timers (delete j (l_timers w));; initializeMarkmap lib (it_container t) (it_markdown t)
      | None => skip
      end
  | LEscape =>
      w ← get;
      if bool_decide (keydown w ≠ []) && isInMindMapMode (l_pw w) then switchToEditMode else skip
  | LClose cid =>
      w ← get;
      if container_live w cid && bool_decide (cid ∈ ready w) then switchToEditMode else skip
  end.

Fixpoint run (ins : list linput) : LM unit :=
  match ins with [] => skip | i :: ins' => step i;; run ins' end.

End Run.

(** ** A page to run the examples on *)

#[local] Existing Instance MarkmapPlugin.mem_markmap.

Abbreviation mem_lworld := (lworld (NS:=MemNav) (CS:=MemCommands) (TS:=MemToolbar) (BS:=MemBroadcasts)).

(** The ids [markmap-<n>]. *)
Definition demo_id (n : nat) : jsstr := js "markmap-" ++ Renderer.nat_to_js n.

Definition init_lworld (bs : list dom_block) (bar : bool) : mem_lworld :=
  mkLW (OrcaMindMap.init_pworld bs bar) None None [] None [] [] [] 0.

Definition demo_run (l : MarkmapPlugin.mem_lib) (ins : list linput) (w : mem_lworld) : mem_lworld :=
  exec (run OrcaMindMap.demo_parse demo_id l (js "orca-mindmap") ins) w.

(** ** What each operation does *)

Section Proofs.
Context {NS CS TS BS : Type} `{NavLaws NS} `{CommandsLaws CS} `{ToolbarLaws TS} `{BroadcastsLaws BS}.
Context (parse : jsstr → list dom_block) (containerId : nat → jsstr).
Context {L R : Type} `{MarkmapPlugin.MarkmapLib L R} (lib : L) (name : jsstr).
#[local] Abbreviation W := (lworld (NS:=NS) (CS:=CS) (TS:=TS) (BS:=BS)).

Definition mode (w : W) : bool := isInMindMapMode (l_pw w).
Definition overlays (w : W) : list jsstr := p_overlays (pw_page (l_pw w)).
Definition editor_of (w : W) : option editor := p_editor (pw_page (l_pw w)).
Definition notes_of (w : W) := Plugin.notes (pw_host (l_pw w)).

(** [keydown] after the removal of the handler [e]. *)
Definition drop_handler (e : option nat) (k : list nat) : list nat :=
  match e with Some h => List.filter (λ x, negb (x =? h)) k | None => k end.

(** [keydown] after [clear_esc]. *)
Definition cleared (w : W) : list nat := drop_handler (markmapEscHandler w) (keydown w).

(** The fields the invariant reads. *)
Definition view (w : W) := (keydown w, markmapEscHandler w, mode w, overlays w, currentMarkmap w, markmapWheel w).

(** The invariant of the overlay: the plugin's only [keydown] listener is
    the one [window.markmapEscHandler] names; outside mind-map mode there
    is no overlay, handler or instance; in mind-map mode there is exactly
    one overlay, which the instance and the wheel handler belong to. *)
Definition linv (w : W) : Prop :=
  keydown w = option_list (markmapEscHandler w) ∧
  if mode w then ∃ c, overlays w = [c] ∧ (∀ c', currentMarkmap w = Some c' → c' = c) ∧
                      (∀ g o, markmapWheel w = Some (g, o) → o = c)
  else overlays w = [] ∧ markmapEscHandler w = None ∧ currentMarkmap w = None ∧ markmapWheel w = None.

Definition preserves {A} (m : M A) : Prop := ∀ w : W, linv w → linv (exec m w).

(** A computation on the shared page that keeps the mode and the
    overlays. *)
Definition pw_keeps {A} (m : PageWorld.M A) : Prop :=
  ∀ pw : pworld (NS:=NS) (CS:=CS) (TS:=TS) (BS:=BS),
    isInMindMapMode (PageWorld.exec m pw) = isInMindMapMode pw ∧
    p_overlays (pw_page (PageWorld.exec m pw)) = p_overlays (pw_page pw).

(** Call-by-value evaluation of the monad on a world kept abstract: the
    intermediate worlds are records of projections of [w], so nothing is
    duplicated. *)
Ltac lw_eval :=
  cbv beta iota zeta delta [clear_esc clear_wheel remove_overlay set_markmap set_esc set_keydown set_wheel
    set_ready set_failed set_timers fresh createMindMapContainer init_failed lift updateButtonState addButtonToToolbar removeButtonFromToolbar
    PageWorld.updateButtonState on_page set_mode notify with_editor
    mode overlays editor_of notes_of cleared drop_handler exec PageWorld.exec mbind LM_bind PM_bind get PageWorld.get
    modify PageWorld.modify skip PageWorld.skip mret LM_ret PM_ret
    l_pw currentMarkmap markmapEscHandler keydown markmapWheel ready failed l_timers next_id
    pw_host pw_page pluginName isInMindMapMode originalContent toggleButton next_button retries
    p_editor p_toolbar p_active p_overlays e_content e_editable e_display
    Plugin.blocks Plugin.apiVersion Plugin.hostShape Plugin.nav Plugin.cmds Plugin.bar Plugin.bc
    Plugin.notes Plugin.savedData Plugin.schemas Plugin.clock fmap option_fmap option_map fst snd] in *.

(** A world as its fields. *)
Ltac lw_destruct w :=
  destruct w as [[[bl av hs nv cm br bc nt sd sc ck] [ed tb act ov] pn im oc btn nb rt] mm esc kd wh rd fl tm nid].

Lemma lexec_bind {A B} (m : M A) (f : A → M B) (w : W) : exec (m ≫= f) w = exec (f (fst (m w))) (exec m w).
Proof. unfold exec, mbind, LM_bind. by destruct (m w). Qed.

(** [switchToEditMode] in mind-map mode with an editor: every handler,
    the instance and the first overlay go, the editor is shown with its
    content as it was. *)
Lemma switchToEditMode_leave (w : W) e :
  mode w = true → editor_of w = Some e →
  let w' := exec switchToEditMode w in
  mode w' = false ∧ overlays w' = tail (overlays w) ∧ markmapEscHandler w' = None ∧ keydown w' = cleared w ∧
  currentMarkmap w' = None ∧ markmapWheel w' = None ∧
  editor_of w' = Some (mkEditor (e_content e) (e_editable e) []) ∧
  notes_of w' = notes_of w ++ [(NSuccess, OrcaMindMap.msg_back)] ∧
  ready w' = ready w ∧ failed w' = failed w ∧ l_timers w' = l_timers w.
Proof.
  intros Hm He. lw_destruct w. unfold switchToEditMode. lw_eval. subst.
  destruct esc, wh, mm, btn; vm_compute; split_and!; done.
Qed.

(** [switchToMindMapMode] from edit mode on a page with content: the
    editor is hidden with its content untouched, one overlay and one timer
    are added, and nothing else of the plugin changes. *)
Lemma switchToMindMapMode_enter (w : W) e md :
  mode w = false → editor_of w = Some e →
  let blocks := extractPageStructure_local (Some (OrcaMindMap.editor_blocks parse e)) in
  (length blocks =? 0) = false → blocksToMarkdown_local blocks = Some md →
  let w' := exec (switchToMindMapMode parse containerId) w in
  mode w' = true ∧ overlays w' = overlays w ++ [containerId (next_id w)] ∧
  editor_of w' = Some (mkEditor (e_content e) (e_editable e) (js "none")) ∧
  l_timers w' = l_timers w ++ [mkInit (containerId (next_id w)) md] ∧ next_id w' = S (next_id w) ∧
  markmapEscHandler w' = markmapEscHandler w ∧ keydown w' = keydown w ∧
  currentMarkmap w' = currentMarkmap w ∧ markmapWheel w' = markmapWheel w ∧
  ready w' = ready w ∧ failed w' = failed w ∧
  notes_of w' = notes_of w ++ [(NSuccess, OrcaMindMap.msg_switched (length blocks))].
Proof.
  intros Hm He blocks Hl Hmd. lw_destruct w. unfold switchToMindMapMode, createMindMapContainer. lw_eval. subst.
  fold blocks. rewrite Hl, Hmd. destruct btn; lw_eval; split_and!; done.
Qed.

(** [initializeMarkmap] on a container that is gone does nothing. *)
Lemma initializeMarkmap_gone (w : W) cid md :
  container_live w cid = false → exec (initializeMarkmap lib cid md) w = w.
Proof. intros Hc. unfold initializeMarkmap. rewrite lexec_bind. cbn. by rewrite Hc. Qed.

(** When the library throws, the error box replaces the map and nothing
    else changes. *)
Lemma initializeMarkmap_fails (w : W) cid md :
  container_live w cid = true → init_ok lib md = false →
  exec (initializeMarkmap lib cid md) w = exec (init_failed cid) w.
Proof.
  intros Hc Hok. unfold initializeMarkmap, init_ok in *. rewrite lexec_bind. cbn. rewrite Hc. cbn.
  destruct (MarkmapPlugin.transformer_new lib); [|done]. cbn in Hok.
  destruct (MarkmapPlugin.transform_instance lib md); [|done]. by rewrite Hok.
Qed.

(** When it returns, the instance, the buttons' handlers, one Escape
    handler and the wheel handler are in place. *)
Lemma initializeMarkmap_draws (w : W) cid md :
  container_live w cid = true → init_ok lib md = true →
  let w' := exec (initializeMarkmap lib cid md) w in
  l_pw w' = l_pw w ∧ currentMarkmap w' = Some cid ∧ ready w' = cid :: ready w ∧
  markmapEscHandler w' = Some (next_id w) ∧ keydown w' = cleared w ++ [next_id w] ∧
  markmapWheel w' = (match overlays w with o :: _ => Some (S (next_id w), o) | [] => None end) ∧
  failed w' = failed w ∧ l_timers w' = l_timers w.
Proof.
  intros Hc Hok. unfold initializeMarkmap, init_ok in *. rewrite lexec_bind. cbn. rewrite Hc. cbn.
  destruct (MarkmapPlugin.transformer_new lib); [|done]. cbn in Hok |- *.
  destruct (MarkmapPlugin.transform_instance lib md); [|done]. rewrite Hok. cbn.
  lw_destruct w. lw_eval. destruct esc, ov; vm_compute; split_and!; done.
Qed.

(** ** The invariant *)

Lemma linv_view (w w' : W) : view w' = view w → linv w → linv w'.
Proof. unfold linv. intros [= -> -> -> -> -> ->]. done. Qed.

Lemma lpreserves_bind {A B} (m : M A) (f : A → M B) : preserves m → (∀ a, preserves (f a)) → preserves (m ≫= f).
Proof. intros Hm Hf w Hw. rewrite lexec_bind. by apply Hf, Hm. Qed.

Lemma lpreserves_get : preserves get.
Proof. by intros w. Qed.

Lemma lpreserves_skip : preserves skip.
Proof. by intros w. Qed.

Lemma drop_handler_own e : drop_handler e (option_list e) = [].
Proof. destruct e; cbn; [by rewrite Nat.eqb_refl|done]. Qed.

Lemma linv_clean (w : W) : view w = ([], None, false, [], None, None) → linv w.
Proof. unfold linv. intros [= -> -> -> -> -> ->]. done. Qed.

(** How each step of the cleaning changes the fields the invariant reads. *)
Lemma view_lift {A} (m : PageWorld.M A) (w : W) : pw_keeps m → view (exec (lift m) w) = view w.
Proof.
  intros Hk. unfold view, mode, overlays, lift, exec.
  destruct (Hk (l_pw w)) as [F1 F2]. unfold PageWorld.exec in *. destruct (m (l_pw w)). cbn in *. by rewrite F1, F2.
Qed.

Lemma view_clear_esc (w : W) :
  view (exec clear_esc w) = let '(k, e, m, o, c, g) := view w in (drop_handler e k, None, m, o, c, g).
Proof. lw_destruct w. unfold view. lw_eval. by destruct esc. Qed.

Lemma view_clear_wheel (w : W) :
  view (exec clear_wheel w) = let '(k, e, m, o, c, g) := view w in (k, e, m, o, c, None).
Proof. lw_destruct w. unfold view. lw_eval. by destruct wh. Qed.

Lemma view_remove_overlay (w : W) :
  view (exec remove_overlay w) = let '(k, e, m, o, c, g) := view w in (k, e, m, tail o, c, g).
Proof. lw_destruct w. unfold view. by lw_eval. Qed.

Lemma view_set_markmap x (w : W) :
  view (exec (set_markmap x) w) = let '(k, e, m, o, c, g) := view w in (k, e, m, o, x, g).
Proof. lw_destruct w. unfold view. by lw_eval. Qed.

Lemma view_set_mode b (w : W) :
  view (exec (lift (set_mode b)) w) = let '(k, e, m, o, c, g) := view w in (k, e, b, o, c, g).
Proof. lw_destruct w. unfold view. by lw_eval. Qed.

Lemma view_set_timers l (w : W) : view (exec (set_timers l) w) = view w.
Proof. lw_destruct w. unfold view. by lw_eval. Qed.

Lemma view_init_failed cid (w : W) : view (exec (init_failed cid) w) = view w.
Proof. lw_destruct w. unfold view. by lw_eval. Qed.

Lemma lpreserves_lift {A} (m : PageWorld.M A) : pw_keeps m → preserves (lift m).
Proof. intros Hk w. apply linv_view. by apply view_lift. Qed.

Lemma lpreserves_set_timers l : preserves (set_timers l).
Proof. intros w. apply linv_view, view_set_timers. Qed.

Ltac pw_keeps_tac :=
  intros [h [ed tb act ov] pn im oc btn nb rt];
  unfold on_cmds, set_name, set_retries, PageWorld.addButtonToToolbar, PageWorld.removeButtonFromToolbar, attached,
    createToggleButton, set_button; lw_eval; destruct tb, btn; lw_eval; try destruct (bool_decide _); lw_eval; done.

Lemma pw_keeps_notify t m : pw_keeps (notify t m).
Proof. pw_keeps_tac. Qed.
Lemma pw_keeps_on_cmds f : pw_keeps (on_cmds f).
Proof. pw_keeps_tac. Qed.
Lemma pw_keeps_set_name n : pw_keeps (set_name n).
Proof. pw_keeps_tac. Qed.
Lemma pw_keeps_set_retries n : pw_keeps (set_retries n).
Proof. pw_keeps_tac. Qed.
Lemma pw_keeps_addButtonToToolbar : pw_keeps PageWorld.addButtonToToolbar.
Proof. pw_keeps_tac. Qed.
Lemma pw_keeps_removeButtonFromToolbar : pw_keeps PageWorld.removeButtonFromToolbar.
Proof. pw_keeps_tac. Qed.
Lemma pw_keeps_on_page f : (∀ p, p_overlays (f p) = p_overlays p) → pw_keeps (on_page f).
Proof. intros Hf [h p pn im oc btn nb rt]. lw_eval. by rewrite Hf. Qed.

#[local] Hint Resolve lpreserves_bind lpreserves_get lpreserves_skip lpreserves_lift lpreserves_set_timers pw_keeps_notify pw_keeps_on_cmds
  pw_keeps_set_name pw_keeps_set_retries pw_keeps_addButtonToToolbar pw_keeps_removeButtonFromToolbar : local_inv.

Lemma lpreserves_addButtonToToolbar : preserves addButtonToToolbar.
Proof. apply lpreserves_lift, pw_keeps_addButtonToToolbar. Qed.
Lemma lpreserves_removeButtonFromToolbar : preserves removeButtonFromToolbar.
Proof. apply lpreserves_lift, pw_keeps_removeButtonFromToolbar. Qed.

#[local] Hint Resolve lpreserves_addButtonToToolbar lpreserves_removeButtonFromToolbar : local_inv.

(** [switchToEditMode] outside mind-map mode or without an editor. *)
Lemma switchToEditMode_other (w : W) :
  mode w = false ∨ editor_of w = None → view (exec switchToEditMode w) = view w.
Proof. lw_destruct w. unfold switchToEditMode, view. lw_eval. intros [->| ->]; [done|by destruct im]. Qed.

Lemma switchToEditMode_linv : preserves switchToEditMode.
Proof.
  intros w Hw. destruct (mode w) eqn:Hm; [|apply (linv_view w); [apply switchToEditMode_other|]; auto].
  destruct (editor_of w) as [e|] eqn:He; [|apply (linv_view w); [apply switchToEditMode_other|]; auto].
  destruct (switchToEditMode_leave w e Hm He) as (F1 & F2 & F3 & F4 & F5 & F6 & _).
  destruct Hw as [Hk Hc]. rewrite Hm in Hc. destruct Hc as (c & Ho & _).
  unfold linv. rewrite F1, F2, F3, F4, F5, F6, Ho. unfold cleared. by rewrite Hk, drop_handler_own.
Qed.

(** [switchToMindMapMode] either only notifies or enters the mode. *)
Lemma switchToMindMapMode_cases (w : W) :
  view (exec (switchToMindMapMode parse containerId) w) = view w ∨
  ∃ e md, mode w = false ∧ editor_of w = Some e ∧
    (length (extractPageStructure_local (Some (OrcaMindMap.editor_blocks parse e))) =? 0) = false ∧
    blocksToMarkdown_local (extractPageStructure_local (Some (OrcaMindMap.editor_blocks parse e))) = Some md.
Proof.
  lw_destruct w. unfold switchToMindMapMode, view. lw_eval. destruct im; [by left|].
  destruct ed as [e|]; [|by left]. destruct (length _ =? 0) eqn:Hl; [by left|].
  destruct (blocksToMarkdown_local _) as [md|] eqn:Hmd; [|by left]. right. by exists e, md.
Qed.

Lemma switchToMindMapMode_linv : preserves (switchToMindMapMode parse containerId).
Proof.
  intros w Hw. destruct (switchToMindMapMode_cases w) as [Hv|(e & md & Hm & He & Hl & Hmd)]; [by apply (linv_view w)|].
  destruct (switchToMindMapMode_enter w e md Hm He Hl Hmd) as (F1 & F2 & _ & _ & _ & F3 & F4 & F5 & F6 & _).
  destruct Hw as [Hk Hc]. rewrite Hm in Hc. destruct Hc as (Ho & He' & Hmm & Hwh).
  unfold linv. rewrite F1, F2, F3, F4, F5, F6, Hk, Ho, He', Hmm, Hwh.
  split; [done|]. eexists. split_and!; [done|done|done].
Qed.

Lemma initializeMarkmap_linv cid md : preserves (initializeMarkmap lib cid md).
Proof.
  intros w Hw. destruct (container_live w cid) eqn:Hc; [|by rewrite initializeMarkmap_gone].
  destruct (init_ok lib md) eqn:Hok; [|rewrite initializeMarkmap_fails by done; apply (linv_view w); [apply view_init_failed|done]].
  destruct (initializeMarkmap_draws w cid md Hc Hok) as (F1 & F2 & _ & F3 & F4 & F5 & _).
  unfold container_live in Hc. apply andb_prop in Hc as [Hin _]. apply bool_decide_eq_true in Hin.
  destruct Hw as [Hk Hm]. unfold linv, mode, overlays in *. rewrite F1, F2, F3, F4, F5.
  destruct (isInMindMapMode (l_pw w)); [|destruct Hm as (Ho & _); rewrite Ho in Hin; set_solver].
  destruct Hm as (c & Ho & _). rewrite Ho in Hin |- *. apply list_elem_of_singleton in Hin as ->.
  unfold cleared. rewrite Hk, drop_handler_own. split; [done|]. eexists. split_and!; [done|by intros ? [= <-]|by intros ?? [= _ <-]].
Qed.

(** What [unload] leaves of the fields the invariant reads. *)
Lemma unload_view (w : W) :
  view (exec unload w) =
  let '(k, e, _, o, _, _) := view (exec (if mode w then switchToEditMode else skip) w) in
  (drop_handler e k, None, false, tail o, None, None).
Proof.
  unfold unload, removeButtonFromToolbar. rewrite lexec_bind. cbn [fst get]. change (exec get w) with w.
  repeat (rewrite lexec_bind; cbv beta).
  rewrite view_lift by auto with local_inv. rewrite view_set_markmap, view_set_mode.
  rewrite !view_lift by auto with local_inv. rewrite view_remove_overlay, view_clear_wheel, view_clear_esc.
  unfold mode. by destruct (view _) as [[[[[??]?]?]?]?].
Qed.

Lemma unload_linv : preserves unload.
Proof.
  intros w [Hk Hm]. apply linv_clean. rewrite unload_view. destruct (mode w) eqn:Hmode.
  - destruct Hm as (c & Ho & _). destruct (editor_of w) as [e|] eqn:He.
    + destruct (switchToEditMode_leave w e Hmode He) as (F1 & F2 & F3 & F4 & F5 & F6 & _).
      unfold view. rewrite F2, F3, F4, Ho. unfold cleared. by rewrite Hk, drop_handler_own.
    + rewrite switchToEditMode_other by auto. unfold view. rewrite Ho, Hk. by rewrite drop_handler_own.
  - destruct Hm as (Ho & He & _). cbn. unfold view. by rewrite Hk, He, Ho.
Qed.

#[local] Hint Resolve switchToEditMode_linv switchToMindMapMode_linv initializeMarkmap_linv unload_linv : local_inv.

Ltac preserves_tac :=
  repeat first [solve [eauto with local_inv] | apply lpreserves_bind; [|intros ?] | case_match].

Lemma toggleMindMapMode_linv : preserves (toggleMindMapMode parse containerId).
Proof. unfold toggleMindMapMode. preserves_tac. Qed.

#[local] Hint Resolve toggleMindMapMode_linv : local_inv.

Lemma invoke_linv id : preserves (invoke parse containerId id).
Proof. unfold invoke. preserves_tac. Qed.

Lemma load_linv : preserves (load name).
Proof. unfold load. preserves_tac. Qed.

#[local] Hint Resolve invoke_linv load_linv : local_inv.

Lemma step_linv i : preserves (step parse containerId lib name i).
Proof.
  destruct i; cbn [step]; preserves_tac;
    apply lpreserves_lift, pw_keeps_on_page; by intros [].
Qed.

Lemma run_linv ins : preserves (run parse containerId lib name ins).
Proof. induction ins as [|i ins IH]; cbn [run]; [apply lpreserves_skip|apply lpreserves_bind; auto using step_linv]. Qed.

(** ** Entering and leaving the mind map *)

Lemma toggle_exec (w : W) :
  exec (toggleMindMapMode parse containerId) w =
  exec (if mode w then switchToEditMode else switchToMindMapMode parse containerId) w.
Proof. unfold toggleMindMapMode. by rewrite lexec_bind. Qed.

(** The timer that [switchToMindMapMode] has just set fires. *)
Lemma fire_last_init (w : W) l0 t :
  l_timers w = l0 ++ [t] →
  exec (step parse containerId lib name (LFireInit (length l0))) w =
  exec (initializeMarkmap lib (it_container t) (it_markdown t)) (exec (set_timers l0) w).
Proof.
  intros Ht. cbn [step]. rewrite lexec_bind. cbn [fst get]. change (exec get w) with w.
  rewrite Ht, list_lookup_middle by done. cbn iota beta. rewrite lexec_bind.
  by rewrite (delete_middle l0 [] t), app_nil_r.
Qed.

(** Whatever the library does, [initializeMarkmap] leaves the page as it
    was and at most the one Escape handler it registers. *)
Lemma initializeMarkmap_page (w : W) cid md :
  keydown w = [] → markmapEscHandler w = None →
  let w' := exec (initializeMarkmap lib cid md) w in
  l_pw w' = l_pw w ∧ cleared w' = [] ∧ l_timers w' = l_timers w ∧
  (init_ok lib md = false ∨ container_live w cid = false → keydown w' = [] ∧ ready w' = ready w ∧
     container_live w' cid = false).
Proof.
  intros Hk He. destruct (container_live w cid) eqn:Hc.
  2:{ rewrite initializeMarkmap_gone by done. unfold cleared. rewrite Hk, He. split_and!; done. }
  destruct (init_ok lib md) eqn:Hok.
  - destruct (initializeMarkmap_draws w cid md Hc Hok) as (F1 & _ & _ & F3 & F4 & _ & _ & F5).
    split_and!; [done| |done|by intros [?|?]]. unfold cleared. rewrite F3, F4. unfold cleared. rewrite Hk, He. cbn.
    by rewrite Nat.eqb_refl.
  - rewrite initializeMarkmap_fails by done. lw_destruct w. unfold container_live in *. lw_eval. subst.
    split_and!; try done. intros _. split_and!; [done|done|].
    rewrite (bool_decide_true (cid ∈ cid :: fl)); [apply andb_false_r|apply list_elem_of_here].
Qed.

(** Entering the mind map and firing its timer: the editor is hidden,
    the overlay is the only one, no Escape handler is left once it is
    removed, and after a library failure there is none at all and the
    close button is gone. *)
Lemma enter_and_fire (w : W) e md :
  linv w → mode w = false → editor_of w = Some e →
  let blocks := extractPageStructure_local (Some (OrcaMindMap.editor_blocks parse e)) in
  (length blocks =? 0) = false → blocksToMarkdown_local blocks = Some md →
  let w3 := exec (step parse containerId lib name (LFireInit (length (l_timers w))))
                 (exec (toggleMindMapMode parse containerId) w) in
  mode w3 = true ∧ editor_of w3 = Some (mkEditor (e_content e) (e_editable e) (js "none")) ∧
  overlays w3 = [containerId (next_id w)] ∧ cleared w3 = [] ∧ l_timers w3 = l_timers w ∧
  notes_of w3 = notes_of w ++ [(NSuccess, OrcaMindMap.msg_switched (length blocks))] ∧
  (init_ok lib md = false → keydown w3 = [] ∧ container_live w3 (containerId (next_id w)) = false).
Proof.
  intros [Hk Hinv] Hm He blocks Hl Hmd. rewrite Hm in Hinv. destruct Hinv as (Ho & Hesc & _).
  cbv zeta. rewrite (toggle_exec w), Hm.
  destruct (switchToMindMapMode_enter w e md Hm He Hl Hmd) as (E1 & E2 & E3 & E4 & _ & E5 & E6 & _ & _ & _ & _ & E7).
  set (w1 := exec (switchToMindMapMode parse containerId) w) in *.
  rewrite (fire_last_init w1 (l_timers w) _ E4). cbn [it_container it_markdown].
  set (w2 := exec (set_timers (l_timers w)) w1).
  destruct (initializeMarkmap_page w2 (containerId (next_id w)) md) as (F1 & F2 & F3 & F4);
    [cbn; by rewrite E6, Hk, Hesc|cbn; by rewrite E5|].
  assert (l_pw w2 = l_pw w1) as F0 by done.
  unfold mode, editor_of, overlays, notes_of in *. rewrite F1, F0, F2, F3, E1, E2, E3, E7, Ho.
  split_and!; try done. intros Hok. by destruct (F4 (or_introl Hok)) as (-> & _ & ->).
Qed.

(** ** Properties *)

(** [C15] The overlay invariant of [orca-mindmap-local.ts]: from a state
    where it holds, after any sequence of inputs (load, unload, toggles
    from the button, the command or the shortcut, timers that fire late,
    Escape, close buttons, pages the host renders), the plugin's only
    [keydown] listener is the one [window.markmapEscHandler] names; in
    edit mode no overlay, listener, markmap instance or wheel handler is
    left, and in mind-map mode there is exactly one overlay. *)
Theorem run_leaves_no_overlay ins (w : W) :
  linv w →
  let w' := exec (run parse containerId lib name ins) w in
  keydown w' = option_list (markmapEscHandler w') ∧
  (mode w' = false → overlays w' = [] ∧ keydown w' = [] ∧ currentMarkmap w' = None ∧ markmapWheel w' = None) ∧
  (mode w' = true → length (overlays w') = 1).
Proof.
  intros Hw. destruct (run_linv ins w Hw) as [Hk Hm]. cbv zeta. split; [done|].
  destruct (mode _); split; intros; try done.
  - by destruct Hm as (c & -> & _).
  - destruct Hm as (Ho & He & Hc & Hg). by rewrite Hk, He.
Qed.

(** [C18] Entering the mind map and leaving it again, with the
    initialization timer firing in between whatever the library does,
    gives back the editor with its content and [contentEditable] as they
    were (only [style.display] is reset to ['']), removes the overlay and
    every listener, and notifies the two switches. *)
Theorem toggle_restores_editor (w : W) e md :
  linv w → mode w = false → editor_of w = Some e →
  let blocks := extractPageStructure_local (Some (OrcaMindMap.editor_blocks parse e)) in
  (length blocks =? 0) = false → blocksToMarkdown_local blocks = Some md →
  let w' := exec (toggleMindMapMode parse containerId;;
                  step parse containerId lib name (LFireInit (length (l_timers w)));;
                  toggleMindMapMode parse containerId) w in
  editor_of w' = Some (mkEditor (e_content e) (e_editable e) []) ∧ mode w' = false ∧ overlays w' = [] ∧
  keydown w' = [] ∧ currentMarkmap w' = None ∧ l_timers w' = l_timers w ∧
  notes_of w' = notes_of w ++ [(NSuccess, OrcaMindMap.msg_switched (length blocks)); (NSuccess, OrcaMindMap.msg_back)].
Proof.
  intros Hw Hm He blocks Hl Hmd.
  destruct (enter_and_fire w e md Hw Hm He Hl Hmd) as (Hm3 & He3 & Ho3 & Hc3 & Ht3 & Hn3 & _).
  cbv zeta. rewrite !lexec_bind, toggle_exec, Hm3.
  destruct (switchToEditMode_leave _ _ Hm3 He3) as (G1 & G2 & _ & G3 & G4 & _ & G5 & G6 & _ & _ & G7).
  rewrite G1, G2, G3, G4, G5, G6, G7, Ho3, Hc3, Ht3, Hn3. split_and!; try done. by rewrite <- app_assoc.
Qed.

(** The close button of a single overlay whose [svg] is gone. *)
Lemma container_live_single (w : W) c cid :
  overlays w = [cid] → container_live w cid = false → container_live w c = false.
Proof.
  unfold container_live, overlays. intros Ho Hc. destruct (decide (c = cid)) as [->|Hne]; [done|].
  rewrite Ho, bool_decide_false; [done|]. by intros ->%list_elem_of_singleton.
Qed.

(** [C22] Errors: when the library throws in [initializeMarkmap], the
    overlay shows the error box and the plugin stays in mind-map mode
    with the editor hidden, but no Escape handler was registered and the
    close button went with the replaced markup: Escape and every close
    click do nothing, and only the head-bar button or the command brings
    the editor back. *)
Theorem failed_init_ignores_escape (w : W) e md :
  linv w → mode w = false → editor_of w = Some e →
  let blocks := extractPageStructure_local (Some (OrcaMindMap.editor_blocks parse e)) in
  (length blocks =? 0) = false → blocksToMarkdown_local blocks = Some md →
  init_ok lib md = false →
  let w1 := exec (toggleMindMapMode parse containerId;;
                  step parse containerId lib name (LFireInit (length (l_timers w)))) w in
  mode w1 = true ∧ editor_of w1 = Some (mkEditor (e_content e) (e_editable e) (js "none")) ∧
  exec (step parse containerId lib name LEscape) w1 = w1 ∧
  (∀ c, exec (step parse containerId lib name (LClose c)) w1 = w1) ∧
  mode (exec (toggleMindMapMode parse containerId) w1) = false.
Proof.
  intros Hw Hm He blocks Hl Hmd Hok.
  destruct (enter_and_fire w e md Hw Hm He Hl Hmd) as (Hm3 & He3 & Ho3 & _ & _ & _ & Hf).
  destruct (Hf Hok) as [Hk3 Hc3]. cbv zeta. rewrite lexec_bind.
  set (w3 := exec (step _ _ _ _ _) _) in *. split_and!; [done|done| | |].
  - cbn [step]. rewrite lexec_bind. cbn [fst get]. change (exec get w3) with w3. by rewrite Hk3.
  - intros c. cbn [step]. rewrite lexec_bind. cbn [fst get]. change (exec get w3) with w3.
    by rewrite (container_live_single w3 c _ Ho3 Hc3).
  - rewrite toggle_exec, Hm3. by destruct (switchToEditMode_leave _ _ Hm3 He3) as (-> & _).
Qed.


End Proofs.

(** ** Examples *)

Definition demo_ok : MarkmapPlugin.mem_lib := MarkmapPlugin.mkMemLib true true true.
Definition demo_broken : MarkmapPlugin.mem_lib := MarkmapPlugin.mkMemLib false true true.
Definition demo_w0 : mem_lworld := init_lworld OrcaMindMap.page_a true.
Definition demo_e : editor := mkEditor (Live OrcaMindMap.page_a) (js "true") [].
Definition demo_md : jsstr :=
  default [] (blocksToMarkdown_local (extractPageStructure_local (Some OrcaMindMap.page_a))).

Lemma run_leaves_no_overlay_witness :
  let w' := exec (run OrcaMindMap.demo_parse demo_id demo_ok (js "orca-mindmap")
                      [LLoad; LClick 0; LFireInit 0; LEscape; LClick 0; LShortcut OrcaMindMap.shortcut; LUnload])
                 demo_w0 in
  keydown w' = option_list (markmapEscHandler w') ∧
  (mode w' = false → overlays w' = [] ∧ keydown w' = [] ∧ currentMarkmap w' = None ∧ markmapWheel w' = None) ∧
  (mode w' = true → length (overlays w') = 1).
Proof. apply run_leaves_no_overlay. vm_compute. split_and!; reflexivity. Defined.

Lemma toggle_restores_editor_witness :
  let blocks := extractPageStructure_local (Some (OrcaMindMap.editor_blocks OrcaMindMap.demo_parse demo_e)) in
  let w' := exec (toggleMindMapMode OrcaMindMap.demo_parse demo_id;;
                  step OrcaMindMap.demo_parse demo_id demo_ok (js "orca-mindmap") (LFireInit (length (l_timers demo_w0)));;
                  toggleMindMapMode OrcaMindMap.demo_parse demo_id) demo_w0 in
  editor_of w' = Some (mkEditor (e_content demo_e) (e_editable demo_e) []) ∧ mode w' = false ∧ overlays w' = [] ∧
  keydown w' = [] ∧ currentMarkmap w' = None ∧ l_timers w' = l_timers demo_w0 ∧
  notes_of w' = notes_of demo_w0 ++
    [(NSuccess, OrcaMindMap.msg_switched (length blocks)); (NSuccess, OrcaMindMap.msg_back)].
Proof.
  apply (toggle_restores_editor OrcaMindMap.demo_parse demo_id demo_ok (js "orca-mindmap") demo_w0 demo_e demo_md);
    [vm_compute; split_and!; reflexivity|reflexivity|reflexivity|vm_compute; reflexivity|vm_compute; reflexivity].
Defined.

Lemma failed_init_ignores_escape_witness :
  let w1 := exec (toggleMindMapMode OrcaMindMap.demo_parse demo_id;;
                  step OrcaMindMap.demo_parse demo_id demo_broken (js "orca-mindmap")
                       (LFireInit (length (l_timers demo_w0)))) demo_w0 in
  mode w1 = true ∧ editor_of w1 = Some (mkEditor (e_content demo_e) (e_editable demo_e) (js "none")) ∧
  exec (step OrcaMindMap.demo_parse demo_id demo_broken (js "orca-mindmap") LEscape) w1 = w1 ∧
  (∀ c, exec (step OrcaMindMap.demo_parse demo_id demo_broken (js "orca-mindmap") (LClose c)) w1 = w1) ∧
  mode (exec (toggleMindMapMode OrcaMindMap.demo_parse demo_id) w1) = false.
Proof.
  apply (failed_init_ignores_escape OrcaMindMap.demo_parse demo_id demo_broken (js "orca-mindmap") demo_w0 demo_e demo_md);
    [vm_compute; split_and!; reflexivity|reflexivity|reflexivity|vm_compute; reflexivity|vm_compute; reflexivity
    |reflexivity].
Defined.

End LocalMindMap.
